(** * QuickBooks Migrator: a shallow embedding and its properties

    The development follows [quickbooks_migrator.py]
    (class [QuickBooksMigrator]).  Part I embeds the code: the token
    manager ([_get], [_post], [_refresh_tokens]), the paginated fetch of
    [_migrate_entries], the General Ledger reconstruction
    ([_fetch_general_ledger], [_get_gl_entries_from_section]), the
    fiscal-year extension ([_create_fiscal_years]) and the document
    savers.  Part II states and proves the properties.

    Conventions.  A Python exception is a value of [exn]; a method that
    can raise returns [result].  A method that mutates the migrator or
    the site database takes the state and returns the new one, also when
    it raises (what was written before the exception stays written).
    Python dictionaries whose iteration order matters are association
    lists in insertion order. *)

From Stdlib Require Import ZArith List String Ascii Bool Arith Lia Permutation.
Import ListNotations.
Open Scope string_scope.
Open Scope list_scope.
Set Warnings "-register-all".

(* ================================================================= *)
(** * Part I: the model *)
(* ================================================================= *)

(** ** Python runtime *)

Module Py.

Inductive exn :=
| KeyError | IndexError | ValueError | TypeError
| AttributeError | UnboundLocalError | RecursionError
| ExternalError (what : string).

Inductive result (A : Type) :=
| Ok (a : A)
| Raise (e : exn).
Arguments Ok {A} a.
Arguments Raise {A} e.

Definition bind {A B} (r : result A) (k : A -> result B) : result B :=
  match r with
  | Ok a => k a
  | Raise e => Raise e
  end.

(** [range(start, stop, step)] for a positive step: CPython computes
    the length [(stop - start + step - 1) // step], clipped at 0. *)
Definition range (start stop step : Z) : list Z :=
  let n := Z.to_nat ((stop - start + step - 1) / step) in
  map (fun i => start + Z.of_nat i * step)%Z (seq 0 n).

(** [l[0]] *)
Definition first {A} (l : list A) : result A :=
  match l with
  | x :: _ => Ok x
  | [] => Raise IndexError
  end.

(** [l[i]] for a non-negative index *)
Definition index {A} (l : list A) (i : nat) : result A :=
  match nth_error l i with
  | Some x => Ok x
  | None => Raise IndexError
  end.

(** [d[k]] on a value read with an optional key *)
Definition getitem {A} (o : option A) : result A :=
  match o with
  | Some x => Ok x
  | None => Raise KeyError
  end.

(** [str(n)] for a natural number. *)
Fixpoint digits (fuel n : nat) (acc : string) : string :=
  match fuel with
  | O => acc
  | S fuel' =>
      let acc' := String (ascii_of_nat (48 + n mod 10)) acc in
      if (n / 10 =? 0)%nat then acc' else digits fuel' (n / 10) acc'
  end.

Definition str_of_nat (n : nat) : string := digits (S n) n "".

(** [s.split(sep)[0]] for a separator of one character. *)
Fixpoint before (sep : ascii) (s : string) : string :=
  match s with
  | EmptyString => EmptyString
  | String c rest =>
      if Ascii.eqb c sep then EmptyString else String c (before sep rest)
  end.

(** Truth value of a string: the empty string is false. *)
Definition str_truthy (s : string) : bool :=
  match s with
  | EmptyString => false
  | _ => true
  end.

End Py.
Import Py.

Notation "x <- r ;; k" := (Py.bind r (fun x => k))
  (at level 61, r at next level, right associativity).

(** ** Token manager: [_get], [_post], [_refresh_tokens] *)

Module Http.

(** What the query endpoint is asked: the two query strings that
    [_migrate_entries] formats, and the General Ledger report. *)
Inductive request :=
| CountQuery (entity : string)
    (* SELECT COUNT( * ) FROM entity *)
| SelectQuery (entity : string) (start_position max_results : Z)
    (* SELECT * FROM entity STARTPOSITION s MAXRESULTS m *)
| ReportQuery (report : string)
| Create (uri : string).

Section Remote.
(** The remote service is not part of the repository: its state is a
    type [World], and [requests.get], [requests.request("POST")] and
    [oauth.refresh_token] are transitions on it.  [Body] is what
    [response.json()] gives. *)
Variables World Body : Type.

Record response := { status_code : Z; json : Body }.

Record remote := {
  requests_get : request -> string -> World -> result response * World;
  requests_post : request -> string -> World -> result response * World;
  (* refresh token in, (access, refresh) out *)
  oauth_refresh_token : string -> World -> result (string * string) * World
}.

(** What went over the wire, oldest first (kept by the model only, to
    count requests and refreshes). *)
Inductive event :=
| Sent (status : option Z)       (* a request and the status it got, if any *)
| Refreshed (ok : bool).         (* a call of oauth.refresh_token *)

Record conn := {
  access_token : string;
  refresh_token : string;
  world : World;
  trace : list event
}.

Variable R : remote.

(** [requests.get( *args, **kwargs)] with the Bearer header built from
    the current [self.access_token]. *)
Definition send (via : request -> string -> World -> result response * World)
           (args : request) (c : conn) : result response * conn :=
  let (r, w) := via args (access_token c) (world c) in
  let st := match r with Ok resp => Some (status_code resp) | Raise _ => None end in
  (r, {| access_token := access_token c; refresh_token := refresh_token c;
         world := w; trace := trace c ++ [Sent st] |}).

Definition _refresh_tokens (c : conn) : result unit * conn :=
  match oauth_refresh_token R (refresh_token c) (world c) with
  | (Ok (a, r), w) =>
      (Ok tt, {| access_token := a; refresh_token := r;
                 world := w; trace := trace c ++ [Refreshed true] |})
  | (Raise e, w) =>
      (Raise e, {| access_token := access_token c; refresh_token := refresh_token c;
                   world := w; trace := trace c ++ [Refreshed false] |})
  end.

(** [_get] calls itself after a refresh.  [depth] is the number of
    frames the interpreter still allows: a call with none left raises
    [RecursionError].  Where in that last call the interpreter
    raises, before its request or after it, depends on how deep the
    calls of the libraries go, and is not part of the model: here
    the call raises at once. *)
Fixpoint _get (depth : nat) (args : request) (c : conn) : result response * conn :=
  match depth with
  | O => (Raise RecursionError, c)
  | S d =>
      match send (requests_get R) args c with
      | (Raise e, c1) => (Raise e, c1)
      | (Ok response, c1) =>
          if (status_code response =? 401)%Z then
            match _refresh_tokens c1 with
            | (Raise e, c2) => (Raise e, c2)
            | (Ok _, c2) => _get d args c2
            end
          else (Ok response, c1)
      end
  end.

Fixpoint _post (depth : nat) (args : request) (c : conn) : result response * conn :=
  match depth with
  | O => (Raise RecursionError, c)
  | S d =>
      match send (requests_post R) args c with
      | (Raise e, c1) => (Raise e, c1)
      | (Ok response, c1) =>
          if (status_code response =? 401)%Z then
            match _refresh_tokens c1 with
            | (Raise e, c2) => (Raise e, c2)
            | (Ok _, c2) => _post d args c2
            end
          else (Ok response, c1)
      end
  end.

End Remote.

Arguments status_code {Body} _.
Arguments json {Body} _.
Arguments Build_response {Body} _ _.
Arguments requests_get {World Body} _ _ _ _.
Arguments requests_post {World Body} _ _ _ _.
Arguments oauth_refresh_token {World Body} _ _ _.
Arguments Build_remote {World Body} _ _ _.
Arguments access_token {World} _.
Arguments refresh_token {World} _.
Arguments world {World} _.
Arguments trace {World} _.
Arguments Build_conn {World} _ _ _ _.
Arguments send {World Body} _ _ _.
Arguments _refresh_tokens {World Body} _ _.
Arguments _get {World Body} _ _ _ _.
Arguments _post {World Body} _ _ _ _.

End Http.


(** ** Numbers

    Amounts and quantities are Python numbers ([frappe.utils.flt] gives a
    float, JSON gives an int or a float).  The model is generic in the
    number type: it needs zero and one, addition, the product with [-1]
    and the truth value ([if x:] is false exactly on zero). *)

Class Number (num : Type) := {
  zero : num;
  one : num;
  add : num -> num -> num;
  neg : num -> num;               (* x * -1 *)
  truthy : num -> bool;
  truthy_false_iff : forall x, truthy x = false <-> x = zero
}.

#[export, refine] Instance Z_Number : Number Z := {
  zero := 0%Z;
  one := 1%Z;
  add := Z.add;
  neg := fun x => (x * -1)%Z;
  truthy := fun x => negb (x =? 0)%Z
}.
Proof.
  intro x. rewrite negb_false_iff. apply Z.eqb_eq.
Defined.

(** ** General Ledger reconstruction *)

Module Ledger.

(** One entry of a [ColData] list: a JSON object whose keys ["value"]
    and ["id"] may each be missing. *)
Record col := { value : option string; id : option string }.

(** A row of the report tree, by its ["type"].  A section's ["Header"]
    (its [ColData] list) and ["Rows"] (the list under ["Row"]) may each
    be missing. *)
Inductive row :=
| Data (ColData : list col)
| Section (Header : option (list col)) (Rows : option (list row))
| Other (type_ : string).

Section Lines.
Context {num : Type} `{Number num}.

(** A ledger line, as [_get_gl_entries_from_section] builds it. *)
Record line := {
  account : option string;
  date : string;
  type_ : string;
  id_ : option string;
  credit : num;
  debit : num
}.

(** [self.gl_entries]: account name (or [None]) to its lines. *)
Definition gl_entries_t := list (option string * list line).

(** An entry of [self.general_ledger[type]]. *)
Record entry := {
  entry_id : option string;
  entry_date : string;
  lines : list line
}.

(** [self.general_ledger]: transaction type, then transaction id. *)
Definition general_ledger_t := list (string * list (option string * entry)).

Definition key_eqb (a b : option string) : bool :=
  match a, b with
  | Some x, Some y => String.eqb x y
  | None, None => true
  | _, _ => false
  end.

(** [d.setdefault(account, []).extend(entries)] *)
Fixpoint setdefault_extend (k : option string) (entries : list line)
         (d : gl_entries_t) : gl_entries_t :=
  match d with
  | [] => [(k, entries)]
  | (k', v) :: rest =>
      if key_eqb k' k then (k', v ++ entries) :: rest
      else (k', v) :: setdefault_extend k entries rest
  end.

(** What the database and the migrator give to the walk:
    [frappe.utils.flt], [self._get_account_name_by_id] (the name of
    the first Account with that quickbooks id, [IndexError] when
    there is none) and [self.accounts[name]["Id"]]. *)
Record context := {
  flt : string -> num;
  _get_account_name_by_id : string -> result string;
  accounts_Id : string -> result string
}.

Variable ctx : context.

(** The outcome of the header block: the section is skipped
    ([return]) or the walk goes on with an account. *)
Inductive header_outcome :=
| Skip
| Go (account : result (option string)).

Definition resolve_header (Header : option (list col)) (account : option string)
  : header_outcome :=
  match Header with
  | None => Go (Ok account)
  | Some ColData =>
      match Py.first ColData with
      | Raise e => Go (Raise e)
      | Ok c0 =>
          match id c0 with
          | Some i => Go (a <- _get_account_name_by_id ctx i ;; Ok (Some a))
          | None =>
              match value c0 with
              | Some v =>
                  if Py.str_truthy v then
                    if String.eqb v "Not Specified" then Skip
                    else Go (account_id <- accounts_Id ctx v ;;
                             a <- _get_account_name_by_id ctx account_id ;;
                             Ok (Some a))
                  else Go (Ok account)
              | None => Go (Ok account)
              end
          end
      end
  end.

(** The dictionary built from one Data row. *)
Definition data_line (account : option string) (data : list col) : result line :=
  d0 <- Py.index data 0 ;; date_ <- Py.getitem (value d0) ;;
  d1 <- Py.index data 1 ;; ty <- Py.getitem (value d1) ;;
  d2 <- Py.index data 2 ;; cr <- Py.getitem (value d2) ;;
  d3 <- Py.index data 3 ;; db <- Py.getitem (value d3) ;;
  Ok {| account := account; date := date_; type_ := ty; id_ := id d1;
        credit := flt ctx cr; debit := flt ctx db |}.

(** [_get_gl_entries_from_section(section, account)], with
    [self.gl_entries] threaded through.  Called on a row that is not
    a section, [section["Rows"]] raises. *)
Fixpoint _get_gl_entries_from_section (section : row) (account : option string)
         (gl_entries : gl_entries_t) {struct section} : result unit * gl_entries_t :=
  match section with
  | Section Header Rows =>
      match resolve_header Header account with
      | Skip => (Ok tt, gl_entries)
      | Go (Raise e) => (Raise e, gl_entries)
      | Go (Ok account) =>
          match Rows with
          | None => (Raise KeyError, gl_entries)
          | Some rows =>
              let fix loop (rows : list row) (entries : list line)
                      (gl_entries : gl_entries_t)
                : result (list line) * gl_entries_t :=
                match rows with
                | [] => (Ok entries, gl_entries)
                | r :: rest =>
                    match r with
                    | Data data =>
                        match data_line account data with
                        | Raise e => (Raise e, gl_entries)
                        | Ok l => loop rest (entries ++ [l]) gl_entries
                        end
                    | Section _ _ =>
                        match _get_gl_entries_from_section r account gl_entries with
                        | (Raise e, g) => (Raise e, g)
                        | (Ok _, g) => loop rest entries g
                        end
                    | Other _ => loop rest entries gl_entries
                    end
                end in
              match loop rows [] gl_entries with
              | (Raise e, g) => (Raise e, g)
              | (Ok entries, g) => (Ok tt, setdefault_extend account entries g)
              end
          end
      end
  | _ => (Raise KeyError, gl_entries)
  end.

(** The [for row in section["Rows"]["Row"]] loop of the function
    above, as a function of its own. *)
Definition rows_loop (account : option string)
  : list row -> list line -> gl_entries_t -> result (list line) * gl_entries_t :=
  fix loop (rows : list row) (entries : list line) (gl_entries : gl_entries_t)
    : result (list line) * gl_entries_t :=
    match rows with
    | [] => (Ok entries, gl_entries)
    | r :: rest =>
        match r with
        | Data data =>
            match data_line account data with
            | Raise e => (Raise e, gl_entries)
            | Ok l => loop rest (entries ++ [l]) gl_entries
            end
        | Section _ _ =>
            match _get_gl_entries_from_section r account gl_entries with
            | (Raise e, g) => (Raise e, g)
            | (Ok _, g) => loop rest entries g
            end
        | Other _ => loop rest entries gl_entries
        end
    end.

(** The first loop of [_fetch_general_ledger]: top-level rows that
    are sections are walked, the others are passed over. *)
Fixpoint walk_report (report : list row) (gl_entries : gl_entries_t)
  : result unit * gl_entries_t :=
  match report with
  | [] => (Ok tt, gl_entries)
  | section :: rest =>
      match section with
      | Section _ _ =>
          match _get_gl_entries_from_section section None gl_entries with
          | (Raise e, g) => (Raise e, g)
          | (Ok _, g) => walk_report rest g
          end
      | _ => walk_report rest gl_entries
      end
  end.

(** [type_dict[line["id"]]["lines"].append(line)], after the entry
    was created if [line["id"]] was not a key yet. *)
Fixpoint add_to_type_dict (l : line) (type_dict : list (option string * entry))
  : list (option string * entry) :=
  match type_dict with
  | [] => [(id_ l, {| entry_id := id_ l; entry_date := date l; lines := [l] |})]
  | (k, e) :: rest =>
      if key_eqb k (id_ l)
      then (k, {| entry_id := entry_id e; entry_date := entry_date e;
                  lines := lines e ++ [l] |}) :: rest
      else (k, e) :: add_to_type_dict l rest
  end.

(** [self.general_ledger.setdefault(line["type"], {})] followed by
    the update of that dictionary. *)
Fixpoint add_line (l : line) (general_ledger : general_ledger_t) : general_ledger_t :=
  match general_ledger with
  | [] => [(type_ l, add_to_type_dict l [])]
  | (t, type_dict) :: rest =>
      if String.eqb t (type_ l) then (t, add_to_type_dict l type_dict) :: rest
      else (t, type_dict) :: add_line l rest
  end.

(** The second loop: every line of every account, accounts in the
    order of [self.gl_entries.values()]. *)
Definition group_lines (gl_entries : gl_entries_t) : general_ledger_t :=
  fold_left (fun general_ledger account_lines =>
               fold_left (fun g l => add_line l g) account_lines general_ledger)
            (map snd gl_entries) [].

(** [general_ledger[type][id]] *)
Definition lookup_entry (general_ledger : general_ledger_t) (t : string)
           (i : option string) : option entry :=
  match find (fun p => String.eqb (fst p) t) general_ledger with
  | None => None
  | Some (_, type_dict) =>
      match find (fun p => key_eqb (fst p) i) type_dict with
      | None => None
      | Some (_, e) => Some e
      end
  end.

(** Both loops of [_fetch_general_ledger] on the report's rows:
    [self.gl_entries] as the walk left it, and [self.general_ledger]
    when the walk did not raise. *)
Definition reconstruct (report : list row)
  : gl_entries_t * result general_ledger_t :=
  match walk_report report [] with
  | (Raise e, g) => (g, Raise e)
  | (Ok _, g) => (g, Ok (group_lines g))
  end.

End Lines.

Arguments line : clear implicits.
Arguments entry : clear implicits.
Arguments gl_entries_t : clear implicits.
Arguments general_ledger_t : clear implicits.
Arguments context : clear implicits.

End Ledger.

(** ** Entity fetcher: the paging loop of [_migrate_entries] *)

Module Fetcher.
Import Http.

Section Fetch.
Variables World Record_ : Type.

(** [response.json()["QueryResponse"]]: [totalCount] and the list
    under the entity's name are read with [.get], so each may be
    missing. *)
Record query_response := {
  totalCount : option Z;
  entities : option (list Record_)
}.

(** [response.json()]: a JSON object in which the keys
    ["QueryResponse"] (query endpoint) and ["Rows"] (report
    endpoint, the list under ["Row"]) may each be absent. *)
Record body := {
  QueryResponse : option query_response;
  Rows : option (list Ledger.row)
}.

Variable R : remote World body.


Definition max_result_count : Z := 1000.

(** The positions the loop asks for. *)
Definition start_positions (entry_count : Z) : list Z :=
  Py.range 1 (entry_count + 1) max_result_count.

(** The [for start_position in range(...)] loop: one [_get] per
    position, [entries.extend] of what came back. *)
Fixpoint fetch_pages (depth : nat) (entity : string) (positions : list Z)
         (entries : list Record_) (c : conn World)
  : result (list Record_) * conn World :=
  match positions with
  | [] => (Ok entries, c)
  | start_position :: rest =>
      match _get R depth (SelectQuery entity start_position max_result_count) c with
      | (Raise e, c1) => (Raise e, c1)
      | (Ok response, c1) =>
          match QueryResponse (json response) with
          | None => (Raise KeyError, c1)
          | Some qr =>
              match entities qr with
              | None => (Raise TypeError, c1)       (* extend(None) *)
              | Some page => fetch_pages depth entity rest (entries ++ page) c1
              end
          end
      end
  end.

(** [_migrate_entries] up to the end of the paging loop. *)
Definition fetch_entries (depth : nat) (entity : string) (c : conn World)
  : result (list Record_) * conn World :=
  match _get R depth (CountQuery entity) c with
  | (Raise e, c1) => (Raise e, c1)
  | (Ok response, c1) =>
      match QueryResponse (json response) with
      | None => (Raise KeyError, c1)
      | Some qr =>
          match totalCount qr with
          | None => (Raise TypeError, c1)           (* None + 1 *)
          | Some entry_count =>
              fetch_pages depth entity (start_positions entry_count) [] c1
          end
      end
  end.

End Fetch.

Arguments totalCount {Record_} _.
Arguments entities {Record_} _.
Arguments Build_query_response {Record_} _ _.
Arguments QueryResponse {Record_} _.
Arguments Rows {Record_} _.
Arguments Build_body {Record_} _ _.
Arguments fetch_pages {World Record_} _ _ _ _ _ _.
Arguments fetch_entries {World Record_} _ _ _ _.

End Fetcher.

(** ** Dates and fiscal years *)

Module Dates.

(** [datetime.date]: compared field by field. *)
Record date := { year : Z; month : Z; day : Z }.

Definition MINYEAR : Z := 1.
Definition MAXYEAR : Z := 9999.

Definition is_leap (y : Z) : bool :=
  ((y mod 4 =? 0) && negb (y mod 100 =? 0) || (y mod 400 =? 0))%Z.

(** [calendar.monthrange(y, m)[1]] *)
Definition days_in_month (y m : Z) : Z :=
  if (m =? 2)%Z then (if is_leap y then 29 else 28)%Z
  else if ((m =? 4) || (m =? 6) || (m =? 9) || (m =? 11))%Z then 30%Z
  else 31%Z.

Definition valid (d : date) : bool :=
  ((MINYEAR <=? year d) && (year d <=? MAXYEAR)
   && (1 <=? month d) && (month d <=? 12)
   && (1 <=? day d) && (day d <=? days_in_month (year d) (month d)))%Z.

Definition ltb (a b : date) : bool :=
  ((year a <? year b)
   || ((year a =? year b)
       && ((month a <? month b)
           || ((month a =? month b) && (day a <? day b)))))%Z.

Definition leb (a b : date) : bool := negb (ltb b a).

(** [frappe.utils.data.add_years(d, years)], that is
    [d + relativedelta(years=years)]: same month, the day clipped to
    the length of that month in the new year ([shift_years]);
    [date.replace] raises [ValueError] when the year leaves
    [MINYEAR .. MAXYEAR]. *)
Definition shift_years (d : date) (years : Z) : date :=
  let y := (year d + years)%Z in
  {| year := y; month := month d;
     day := Z.min (days_in_month y (month d)) (day d) |}.

Definition add_years (d : date) (years : Z) : result date :=
  let y := (year d + years)%Z in
  if ((y <? MINYEAR) || (MAXYEAR <? y))%Z then Raise ValueError
  else Ok (shift_years d years).

End Dates.

Module FiscalYears.
Import Dates.

(** The [year] field: a name already in the database, or what
    [_create_fiscal_years] writes (the start year, or
    ["{}-{}".format(start year, end year)]). *)
Inductive year_name :=
| Named (s : string)
| Single (y : Z)
| Span (y1 y2 : Z).

Record fiscal_year := {
  year_start_date : date;
  year_end_date : date;
  year_ : year_name
}.

(** [frappe.get_all("Fiscal Year", ..., order_by="year_start_date")[0]]:
    the row with the least start date (the first of them in the
    table); [IndexError] on an empty table. *)
Fixpoint least (best : fiscal_year) (rest : list fiscal_year) : fiscal_year :=
  match rest with
  | [] => best
  | f :: rest' =>
      if ltb (year_start_date f) (year_start_date best) then least f rest'
      else least best rest'
  end.

Definition oldest (table : list fiscal_year) : result fiscal_year :=
  match table with
  | [] => Raise IndexError
  | f :: rest => Ok (least f rest)
  end.

Definition new_year (s e : date) : fiscal_year :=
  {| year_start_date := s; year_end_date := e;
     year_ := if (year s =? year e)%Z then Single (year s)
              else Span (year s) (year e) |}.

(** How the [while] loop ends. *)
Inductive loop_end :=
| Done (oldest_fiscal_year : fiscal_year)   (* the condition became false *)
| Raised (e : exn)
| OutOfFuel.

(** The [while] loop of [_create_fiscal_years]; [table] is the Fiscal
    Year table, to which [save()] appends when the framework's
    validation ([accepts], not in this repository) lets it.  [fuel]
    bounds the number of iterations of the model. *)
Fixpoint extend (accepts : fiscal_year -> list fiscal_year -> result unit)
         (fuel : nat) (smallest_ledger_entry_date : date)
         (oldest_fiscal_year : fiscal_year) (table : list fiscal_year)
  : loop_end * list fiscal_year :=
  if ltb smallest_ledger_entry_date (year_start_date oldest_fiscal_year) then
    match fuel with
    | O => (OutOfFuel, table)
    | S fuel' =>
        match add_years (year_start_date oldest_fiscal_year) (-1) with
        | Raise e => (Raised e, table)
        | Ok s =>
            match add_years (year_end_date oldest_fiscal_year) (-1) with
            | Raise e => (Raised e, table)
            | Ok e =>
                let new_fiscal_year := new_year s e in
                match accepts new_fiscal_year table with
                | Raise e => (Raised e, table)
                | Ok _ =>
                    extend accepts fuel' smallest_ledger_entry_date new_fiscal_year
                           (table ++ [new_fiscal_year])
                end
            end
        end
    end
  else (Done oldest_fiscal_year, table).

(** Fuel that is always enough: every iteration lowers the start year
    by one and [add_years] raises below [MINYEAR]. *)
Definition enough_fuel (oldest_fiscal_year : fiscal_year) : nat :=
  S (Z.to_nat (year (year_start_date oldest_fiscal_year))).

(** [min(entry["date"] for entry in lines if entry["date"])] on the
    date strings; [ValueError] when no line has a date. *)
Definition min_date (dates : list string) : result string :=
  match filter Py.str_truthy dates with
  | [] => Raise ValueError
  | d :: rest =>
      Ok (fold_left (fun m x => if String.ltb x m then x else m) rest d)
  end.

End FiscalYears.

(** ** Documents and the site database *)

Module Site.

Section Docs.
Context {num : Type}.

(** The values the migrator puts in a document: a document is the
    dictionary handed to [frappe.get_doc]. *)
Inductive value :=
| VNone
| VBool (b : bool)
| VInt (z : Z)
| VNum (x : num)
| VStr (s : string)
| VTable (rows : list (list (string * value))).

Definition dict := list (string * value).

(** [d.get(k)] *)
Fixpoint dict_get (d : dict) (k : string) : option value :=
  match d with
  | [] => None
  | (k', v) :: rest => if String.eqb k' k then Some v else dict_get rest k
  end.

(** [d[k] = v] *)
Fixpoint dict_set (d : dict) (k : string) (v : value) : dict :=
  match d with
  | [] => [(k, v)]
  | (k', v') :: rest =>
      if String.eqb k' k then (k', v) :: rest
      else (k', v') :: dict_set rest k v
  end.

(** [d.update(u)] *)
Definition dict_update (d u : dict) : dict :=
  fold_left (fun d kv => dict_set d (fst kv) (snd kv)) u d.

(** A filter dictionary of [frappe.db.exists] and [frappe.get_all]:
    all its values are strings. *)
Definition filters := list (string * string).

Definition field_is (d : dict) (kv : string * string) : bool :=
  match dict_get d (fst kv) with
  | Some (VStr s) => String.eqb s (snd kv)
  | _ => false
  end.

Definition matches (f : filters) (d : dict) : bool := forallb (field_is d) f.

(** [frappe.db.exists(filters)] *)
Definition db_exists (docs : list dict) (f : filters) : bool :=
  existsb (matches f) docs.

(** [frappe.get_all(doctype, filters=...)] *)
Definition get_all (docs : list dict) (f : filters) : list dict :=
  filter (matches f) docs.

(** [d[k]] for a field read as a string (a name, a link). *)
Definition str_field (d : dict) (k : string) : result string :=
  match dict_get d k with
  | Some (VStr s) => Ok s
  | Some _ => Raise TypeError
  | None => Raise KeyError
  end.

(** The framework's side of [insert()] and [submit()], which is not
    in this repository: the name it gives a new document, and the
    validation hooks, which may refuse it. *)
Record framework := {
  autoname : dict -> list dict -> string;
  validate : dict -> list dict -> result unit;
  on_submit : dict -> list dict -> result unit;
  (* the fields a doctype has without any Custom Field *)
  standard_field : string -> string -> bool
}.

Variable F : framework.

(** [frappe.get_doc(d).insert()]: the document is stored with its
    name, as a draft. *)
Definition insert (d : dict) (docs : list dict) : result dict * list dict :=
  match validate F d docs with
  | Raise e => (Raise e, docs)
  | Ok _ =>
      let stored := dict_set (dict_set d "name" (VStr (autoname F d docs)))
                             "docstatus" (VInt 0) in
      (Ok stored, docs ++ [stored])
  end.

(** [doc.submit()] on the document that was just inserted (the last
    of the table). *)
Definition submit (stored : dict) (docs : list dict) : result unit * list dict :=
  match on_submit F stored docs with
  | Raise e => (Raise e, docs)
  | Ok _ => (Ok tt, removelast docs ++ [dict_set stored "docstatus" (VInt 1)])
  end.

End Docs.

Arguments value : clear implicits.
Arguments dict : clear implicits.
Arguments framework : clear implicits.

End Site.

(** ** QuickBooks records

    The entities as the query endpoint returns them.  A field is an
    [option] when the object may lack the key: reading it with [d[k]]
    then raises [KeyError] ([Py.getitem]), and the code's own tests
    (["k" in d], [d.get(k)]) see [None].  A reference
    [{"value": ..., "name": ...}] is kept as its ["value"]. *)

Module QuickBooks.

Section Records.
Context {num : Type}.

Record address := {
  addr_Id : string;
  Line1 : option string;
  City : option string
}.

(** Customer and Vendor *)
Record party := {
  party_Id : string;
  DisplayName : option string;
  party_CurrencyRef : option string;
  BillAddr : option address;
  ShipAddr : option address
}.

Record account := {
  account_Id : string;
  Name : option string;
  SubAccount : option bool;
  ParentRef : option string;
  AccountType : option string;
  AccountSubType : option string;
  account_CurrencyRef : option string;
  is_group : option bool          (* written by [_preprocess_accounts] *)
}.

Record tax_rate := {
  tax_rate_Id : string;
  tax_rate_Name : option string
}.

Record tax_code := {
  tax_code_Id : string
}.

Record item := {
  item_Id : string;
  item_Type : option string;
  item_Name : option string;
  ExpenseAccountRef : option string;
  IncomeAccountRef : option string
}.

(** [preference["SalesFormsPrefs"]] *)
Record preferences := {
  AllowShipping : option bool;
  DefaultShippingAccount : option string
}.

Record linked_txn := {
  TxnType : string;
  TxnId : string
}.

(** [SalesItemLineDetail] and [ItemBasedExpenseLineDetail] *)
Record item_detail := {
  TaxCodeRef : option string;
  ItemRef : option string;
  ItemRef_name : option string;
  Qty : option num;
  UnitPrice : option num
}.

(** [AccountBasedExpenseLineDetail], [JournalEntryLineDetail] and
    [DepositLineDetail] *)
Record account_detail := {
  ad_TaxCodeRef : option string;
  ad_AccountRef : option string;
  ad_AccountRef_name : option string;
  PostingType : option string
}.

Record txn_line := {
  DetailType : string;
  Amount : option num;
  Description : option string;
  SalesItemLineDetail : option item_detail;
  ItemBasedExpenseLineDetail : option item_detail;
  AccountBasedExpenseLineDetail : option account_detail;
  JournalEntryLineDetail : option account_detail;
  DepositLineDetail : option account_detail;
  (* [DiscountLineDetail], and inside it the key ["Amount"] *)
  DiscountLineDetail : option (option num);
  line_LinkedTxn : option (list linked_txn)
}.

Record tax_line := {
  tl_Amount : option num;
  TaxRateRef : option string;
  TaxPercent : option num
}.

Record tax_detail := {
  TxnTaxCodeRef : option string;
  TaxLine : option (list tax_line)
}.

(** A transaction: Invoice, CreditMemo, SalesReceipt, RefundReceipt,
    JournalEntry, Bill, VendorCredit, Payment, BillPayment, Purchase
    or Deposit. *)
Record txn := {
  Id : string;
  TxnDate : option string;
  Line : option (list txn_line);
  LinkedTxn : option (list linked_txn);
  CurrencyRef : option string;
  ExchangeRate : option num;
  DueDate : option string;
  CustomerRef : option string;
  VendorRef : option string;
  APAccountRef : option string;
  AccountRef : option string;
  DepositToAccountRef : option string;
  TxnTaxDetail : option tax_detail;
  TotalAmt : option num;
  ApplyTaxAfterDiscount : option bool;
  PayType : option string;
  CheckPayment_BankAccountRef : option string;
  CreditCardPayment_CCAccountRef : option string;
  Credit : option bool;
  (* [CashBack]: its account reference and its amount *)
  CashBack : option (option string * option num)
}.

(** What [_save_entries] is handed: a record of the query endpoint,
    or an entry of [self.general_ledger]. *)
Inductive entity_record :=
| AccountRecord (a : account)
| TaxRateRecord (r : tax_rate)
| TaxCodeRecord (c : tax_code)
| PreferencesRecord (p : preferences)
| PartyRecord (p : party)
| ItemRecord (i : item)
| TxnRecord (t : txn)
| LedgerRecord (e : Ledger.entry num).

End Records.

Arguments item_detail : clear implicits.
Arguments txn_line : clear implicits.
Arguments tax_line : clear implicits.
Arguments tax_detail : clear implicits.
Arguments txn : clear implicits.
Arguments entity_record : clear implicits.

End QuickBooks.

(** ** The migrator: state and helpers *)

Module Migrator.
Import Http Site QuickBooks FiscalYears.

Section Migrator.
Context {World num : Type} `{Number num}.

(** The site: the documents (every doctype but Fiscal Year, in the
    order of insertion), the Fiscal Year table, the error log
    ([frappe.log_error]) and the progress events
    ([frappe.publish_realtime]). *)
Record site := {
  docs : list (dict num);
  fiscal_years : list fiscal_year;
  error_log : list exn;
  published : list (string * nat * nat)
}.

(** The attributes of the migrator document that the migration reads
    or writes.  The last five are set during a run; [None] is an
    attribute that was not set yet. *)
Record migrator := {
  company : string;
  default_cost_center : option string;
  default_warehouse : option string;
  default_shipping_account : option string;
  undeposited_funds_account : option string;
  status : string;
  accounts : option (list (account));
  tax_rates : option (list tax_rate);
  tax_codes : option (list tax_code);
  gl_entries : option (Ledger.gl_entries_t num);
  general_ledger : option (Ledger.general_ledger_t num)
}.

Record state := {
  db : site;
  self : migrator;
  conn : Http.conn World
}.

(** Functions of frappe and erpnext that the migrator calls, and
    Python's [int] on a string, which reads more than the plain
    decimal numerals (signs, blanks, underscores between digits,
    the digits of other scripts). *)
Record library := {
  flt : string -> num;
  getdate : string -> result Dates.date;
  encode_company_abbr : string -> string -> string;
  int : string -> result Z
}.

(** [_get_taxes] and [json.dumps(_get_item_taxes(tax_code))]: they
    read the tax tables and the database, write nothing, and may
    raise.  No statement below depends on the rows they compute. *)
Record tax_methods := {
  _get_taxes : txn num -> state -> result (value num);
  _get_item_taxes : string -> state -> result (value num)
}.

Variable R : remote World (Fetcher.body (entity_record num)).
Variable F : framework num.
Variable L : library.
Variable T : tax_methods.
(** The validation of a new Fiscal Year by the framework. *)
Variable accepts_fiscal_year : fiscal_year -> list fiscal_year -> result unit.
(** The recursion depth the interpreter allows to [_get] and to
    [_get_unique_account_name]. *)
Variable depth : nat.

(** *** State and exceptions *)

Definition M (A : Type) : Type := state -> result A * state.

Definition ret {A} (a : A) : M A := fun st => (Ok a, st).

Definition raise {A} (e : exn) : M A := fun st => (Raise e, st).

Definition lift {A} (r : result A) : M A := fun st => (r, st).

Definition bindM {A B} (m : M A) (k : A -> M B) : M B :=
  fun st =>
    match m st with
    | (Ok a, st') => k a st'
    | (Raise e, st') => (Raise e, st')
    end.

(** [try: body except Exception as e: handler(e)] *)
Definition try_except {A} (body : M A) (handler : exn -> M A) : M A :=
  fun st =>
    match body st with
    | (Raise e, st') => handler e st'
    | (Ok a, st') => (Ok a, st')
    end.

Definition read {A} (f : state -> A) : M A := fun st => (Ok (f st), st).

Definition set_db (st : state) (d : site) : state :=
  {| db := d; self := self st; conn := conn st |}.

Definition set_self (st : state) (m : migrator) : state :=
  {| db := db st; self := m; conn := conn st |}.

Definition set_conn (st : state) (c : Http.conn World) : state :=
  {| db := db st; self := self st; conn := c |}.

Definition set_docs (st : state) (ds : list (dict num)) : state :=
  set_db st {| docs := ds; fiscal_years := fiscal_years (db st);
               error_log := error_log (db st); published := published (db st) |}.

Definition set_fiscal_years (st : state) (t : list fiscal_year) : state :=
  set_db st {| docs := docs (db st); fiscal_years := t;
               error_log := error_log (db st); published := published (db st) |}.

(** [self._log_error(e, data)] *)
Definition _log_error (e : exn) : M unit :=
  fun st =>
    (Ok tt, set_db st {| docs := docs (db st); fiscal_years := fiscal_years (db st);
                         error_log := error_log (db st) ++ [e];
                         published := published (db st) |}).

(** [self._publish({"event": "progress", ...})] *)
Definition _publish (entity : string) (count total : nat) : M unit :=
  fun st =>
    (Ok tt, set_db st {| docs := docs (db st); fiscal_years := fiscal_years (db st);
                         error_log := error_log (db st);
                         published := published (db st) ++ [(entity, count, total)] |}).

Definition update_self (f : migrator -> migrator) : M unit :=
  fun st => (Ok tt, set_self st (f (self st))).

Definition set_status (s : string) (m : migrator) : migrator :=
  {| company := company m; default_cost_center := default_cost_center m;
     default_warehouse := default_warehouse m;
     default_shipping_account := default_shipping_account m;
     undeposited_funds_account := undeposited_funds_account m;
     status := s; accounts := accounts m; tax_rates := tax_rates m;
     tax_codes := tax_codes m; gl_entries := gl_entries m;
     general_ledger := general_ledger m |}.

Definition set_undeposited_funds_account (a : string) (m : migrator) : migrator :=
  {| company := company m; default_cost_center := default_cost_center m;
     default_warehouse := default_warehouse m;
     default_shipping_account := default_shipping_account m;
     undeposited_funds_account := Some a;
     status := status m; accounts := accounts m; tax_rates := tax_rates m;
     tax_codes := tax_codes m; gl_entries := gl_entries m;
     general_ledger := general_ledger m |}.

Definition set_accounts (a : list account) (m : migrator) : migrator :=
  {| company := company m; default_cost_center := default_cost_center m;
     default_warehouse := default_warehouse m;
     default_shipping_account := default_shipping_account m;
     undeposited_funds_account := undeposited_funds_account m;
     status := status m; accounts := Some a; tax_rates := tax_rates m;
     tax_codes := tax_codes m; gl_entries := gl_entries m;
     general_ledger := general_ledger m |}.

Definition set_tax_rates (r : list tax_rate) (m : migrator) : migrator :=
  {| company := company m; default_cost_center := default_cost_center m;
     default_warehouse := default_warehouse m;
     default_shipping_account := default_shipping_account m;
     undeposited_funds_account := undeposited_funds_account m;
     status := status m; accounts := accounts m; tax_rates := Some r;
     tax_codes := tax_codes m; gl_entries := gl_entries m;
     general_ledger := general_ledger m |}.

Definition set_tax_codes (c : list tax_code) (m : migrator) : migrator :=
  {| company := company m; default_cost_center := default_cost_center m;
     default_warehouse := default_warehouse m;
     default_shipping_account := default_shipping_account m;
     undeposited_funds_account := undeposited_funds_account m;
     status := status m; accounts := accounts m; tax_rates := tax_rates m;
     tax_codes := Some c; gl_entries := gl_entries m;
     general_ledger := general_ledger m |}.

Definition set_gl_entries (g : Ledger.gl_entries_t num) (m : migrator) : migrator :=
  {| company := company m; default_cost_center := default_cost_center m;
     default_warehouse := default_warehouse m;
     default_shipping_account := default_shipping_account m;
     undeposited_funds_account := undeposited_funds_account m;
     status := status m; accounts := accounts m; tax_rates := tax_rates m;
     tax_codes := tax_codes m; gl_entries := Some g;
     general_ledger := general_ledger m |}.

Definition set_general_ledger (g : Ledger.general_ledger_t num) (m : migrator)
  : migrator :=
  {| company := company m; default_cost_center := default_cost_center m;
     default_warehouse := default_warehouse m;
     default_shipping_account := default_shipping_account m;
     undeposited_funds_account := undeposited_funds_account m;
     status := status m; accounts := accounts m; tax_rates := tax_rates m;
     tax_codes := tax_codes m; gl_entries := gl_entries m;
     general_ledger := Some g |}.

(** [self.set_indicator(status)] *)
Definition set_indicator (s : string) : M unit := update_self (set_status s).


Notation "x <~ m ;; k" := (bindM m (fun x => k))
  (at level 61, m at next level, right associativity).
Notation "m ;;; k" := (bindM m (fun _ => k))
  (at level 61, right associativity).

(** *** Reading and writing the database *)

Definition vstr (o : option string) : value num :=
  match o with Some s => VStr s | None => VNone end.

Definition vnum (o : option num) : value num :=
  match o with Some x => VNum x | None => VNone end.

(** A field of a database row; a field that is not set reads [None]. *)
Definition row_field (d : dict num) (k : string) : value num :=
  match dict_get d k with Some v => v | None => VNone end.

Definition the_company : M string := read (fun st => company (self st)).

Definition db_exists_ (f : filters) : M bool :=
  read (fun st => db_exists (docs (db st)) f).

Definition get_all_ (f : filters) : M (list (dict num)) :=
  read (fun st => get_all (docs (db st)) f).

(** [frappe.get_doc(d).insert()] *)
Definition insert_ (d : dict num) : M (dict num) :=
  fun st => let (r, ds) := insert F d (docs (db st)) in (r, set_docs st ds).

(** [doc.submit()] *)
Definition submit_ (stored : dict num) : M unit :=
  fun st => let (r, ds) := submit F stored (docs (db st)) in (r, set_docs st ds).

Definition _get_account_name_by_id (quickbooks_id : string) : M string :=
  c <~ the_company ;;
  rows <~ get_all_ [("doctype", "Account"); ("quickbooks_id", quickbooks_id);
                    ("company", c)] ;;
  d <~ lift (Py.first rows) ;;
  lift (str_field d "name").

Fixpoint _get_unique_account_name (depth : nat) (quickbooks_name : string)
         (number : nat) : M string :=
  match depth with
  | O => raise RecursionError
  | S depth' =>
      let quickbooks_account_name :=
        match number with
        | O => quickbooks_name ++ " - QB"
        | _ => quickbooks_name ++ " - " ++ Py.str_of_nat number ++ " - QB"
        end%string in
      c <~ the_company ;;
      taken <~ db_exists_ [("doctype", "Account");
                           ("name", encode_company_abbr L quickbooks_account_name c);
                           ("company", c)] ;;
      if taken then _get_unique_account_name depth' quickbooks_name (S number)
      else ret quickbooks_account_name
  end.

(** *** Accounts, tax rates, parties, items *)

Definition _make_root_account (root : string) : M unit :=
  try_except
    (c <~ the_company ;;
     ex <~ db_exists_ [("doctype", "Account");
                       ("name", encode_company_abbr L (root ++ " - QB")%string c);
                       ("company", c)] ;;
     if ex then ret tt
     else insert_ [("doctype", VStr "Account");
                   ("account_name", VStr (root ++ " - QB")%string);
                   ("root_type", VStr root);
                   ("is_group", VStr "1");
                   ("company", VStr c)] ;;; ret tt)
    (fun e => _log_error e).

Fixpoint for_each {A} (f : A -> M unit) (l : list A) : M unit :=
  match l with
  | [] => ret tt
  | x :: rest => f x ;;; for_each f rest
  end.

Definition _make_root_accounts : M unit :=
  for_each _make_root_account ["Asset"; "Equity"; "Expense"; "Liability"; "Income"].

Definition mapping : list (string * string) :=
  [("Bank", "Asset"); ("Other Current Asset", "Asset"); ("Fixed Asset", "Asset");
   ("Other Asset", "Asset"); ("Accounts Receivable", "Asset"); ("Equity", "Equity");
   ("Expense", "Expense"); ("Other Expense", "Expense");
   ("Cost of Goods Sold", "Expense"); ("Accounts Payable", "Liability");
   ("Credit Card", "Liability"); ("Long Term Liability", "Liability");
   ("Other Current Liability", "Liability"); ("Income", "Income");
   ("Other Income", "Income")].

Fixpoint assoc (k : string) (l : list (string * string)) : option string :=
  match l with
  | [] => None
  | (k', v) :: rest => if String.eqb k' k then Some v else assoc k rest
  end.

Definition opt_is (o : option string) (s : string) : bool :=
  match o with Some x => String.eqb x s | None => false end.

Definition _get_account_type (account : account) : result (value num) :=
  if opt_is (AccountSubType account) "UndepositedFunds" then Ok (VStr "Cash")
  else
    t <- Py.getitem (AccountType account) ;;
    Ok (vstr (assoc t [("Accounts Payable", "Payable");
                       ("Accounts Receivable", "Receivable");
                       ("Bank", "Bank"); ("Credit Card", "Bank")])).

Definition truth (o : bool) : value num := VBool o.

Definition _save_account (account : account) : M unit :=
  try_except
    (c <~ the_company ;;
     ex <~ db_exists_ [("doctype", "Account"); ("quickbooks_id", account_Id account);
                       ("company", c)] ;;
     if ex then ret tt
     else
       is_child <~ lift (Py.getitem (SubAccount account)) ;;
       is_group <~ lift (Py.getitem (QuickBooks.is_group account)) ;;
       let account_id := if is_group then ("Group - " ++ account_Id account)%string
                         else account_Id account in
       parent_account <~
         (if is_child then
            parent <~ lift (Py.getitem (ParentRef account)) ;;
            _get_account_name_by_id ("Group - " ++ parent)%string
          else
            t <~ lift (Py.getitem (AccountType account)) ;;
            root <~ lift (Py.getitem (assoc t mapping)) ;;
            ret (encode_company_abbr L (root ++ " - QB")%string c)) ;;
       name <~ lift (Py.getitem (Name account)) ;;
       account_name <~ _get_unique_account_name depth name 0 ;;
       t <~ lift (Py.getitem (AccountType account)) ;;
       root_type <~ lift (Py.getitem (assoc t mapping)) ;;
       account_type <~ lift (_get_account_type account) ;;
       currency <~ lift (Py.getitem (account_CurrencyRef account)) ;;
       insert_ [("doctype", VStr "Account");
                ("quickbooks_id", VStr account_id);
                ("account_name", VStr account_name);
                ("root_type", VStr root_type);
                ("account_type", account_type);
                ("account_currency", VStr currency);
                ("parent_account", VStr parent_account);
                ("is_group", truth is_group);
                ("company", VStr c)] ;;;
       (if is_group then
          (* a leaf account corresponding to the group account *)
          name <~ lift (Py.getitem (Name account)) ;;
          account_name <~ _get_unique_account_name depth name 0 ;;
          t <~ lift (Py.getitem (AccountType account)) ;;
          root_type <~ lift (Py.getitem (assoc t mapping)) ;;
          account_type <~ lift (_get_account_type account) ;;
          currency <~ lift (Py.getitem (account_CurrencyRef account)) ;;
          parent_account <~ _get_account_name_by_id account_id ;;
          insert_ [("doctype", VStr "Account");
                   ("quickbooks_id", VStr (account_Id account));
                   ("account_name", VStr account_name);
                   ("root_type", VStr root_type);
                   ("account_type", account_type);
                   ("account_currency", VStr currency);
                   ("parent_account", VStr parent_account);
                   ("is_group", VInt 0);
                   ("company", VStr c)] ;;; ret tt
        else ret tt) ;;;
       (if opt_is (AccountSubType account) "UndepositedFunds" then
          a <~ _get_account_name_by_id (account_Id account) ;;
          update_self (set_undeposited_funds_account a)
        else ret tt))
    (fun e => _log_error e).

Definition _save_tax_rate (tax_rate : tax_rate) : M unit :=
  try_except
    (c <~ the_company ;;
     let quickbooks_id := ("TaxRate - " ++ tax_rate_Id tax_rate)%string in
     ex <~ db_exists_ [("doctype", "Account"); ("quickbooks_id", quickbooks_id);
                       ("company", c)] ;;
     if ex then ret tt
     else
       name <~ lift (Py.getitem (tax_rate_Name tax_rate)) ;;
       insert_ [("doctype", VStr "Account");
                ("quickbooks_id", VStr quickbooks_id);
                ("account_name", VStr (name ++ " - QB")%string);
                ("root_type", VStr "Liability");
                ("parent_account", VStr (encode_company_abbr L "Liability - QB" c));
                ("is_group", VStr "0");
                ("company", VStr c)] ;;; ret tt)
    (fun e => _log_error e).

Definition _save_tax_code (tax_code : tax_code) : M unit := ret tt.

(** [entity] is the document that was just inserted: [entity.name]
    is its name. *)
Definition _create_address (entity : dict num) (doctype : string)
           (address : address) (address_type : string) : M unit :=
  try_except
    (ex <~ db_exists_ [("doctype", "Address"); ("quickbooks_id", addr_Id address)] ;;
     if ex then ret tt
     else
       line1 <~ lift (Py.getitem (Line1 address)) ;;
       city <~ lift (Py.getitem (City address)) ;;
       insert_ [("doctype", VStr "Address");
                ("quickbooks_address_id", VStr (addr_Id address));
                ("address_title", row_field entity "name");
                ("address_type", VStr address_type);
                ("address_line1", VStr line1);
                ("city", VStr city);
                ("links", VTable [[("link_doctype", VStr doctype);
                                   ("link_name", row_field entity "name")]])] ;;;
       ret tt)
    (fun e => _log_error e).

Definition create_addresses (entity : dict num) (doctype : string) (p : party)
  : M unit :=
  match BillAddr p with
  | Some a => _create_address entity doctype a "Billing"
  | None => ret tt
  end ;;;
  match ShipAddr p with
  | Some a => _create_address entity doctype a "Shipping"
  | None => ret tt
  end.

Definition _save_customer (customer : party) : M unit :=
  try_except
    (c <~ the_company ;;
     ex <~ db_exists_ [("doctype", "Customer"); ("quickbooks_id", party_Id customer);
                       ("company", c)] ;;
     if ex then ret tt
     else
       receivable_account <~
         try_except
           (currency <~ lift (Py.getitem (party_CurrencyRef customer)) ;;
            rows <~ get_all_ [("doctype", "Account"); ("account_type", "Receivable");
                              ("account_currency", currency); ("company", c)] ;;
            d <~ lift (Py.first rows) ;;
            name <~ lift (Py.getitem (dict_get d "name")) ;;
            ret name)
           (fun _ => ret VNone) ;;
       display_name <~ lift (Py.getitem (DisplayName customer)) ;;
       currency <~ lift (Py.getitem (party_CurrencyRef customer)) ;;
       erpcustomer <~
         insert_ [("doctype", VStr "Customer");
                  ("quickbooks_id", VStr (party_Id customer));
                  ("customer_name", VStr (encode_company_abbr L display_name c));
                  ("customer_type", VStr "Individual");
                  ("customer_group", VStr "Commercial");
                  ("default_currency", VStr currency);
                  ("accounts", VTable [[("company", VStr c);
                                        ("account", receivable_account)]]);
                  ("territory", VStr "All Territories");
                  ("company", VStr c)] ;;
       create_addresses erpcustomer "Customer" customer)
    (fun e => _log_error e).

Definition _save_vendor (vendor : party) : M unit :=
  try_except
    (c <~ the_company ;;
     ex <~ db_exists_ [("doctype", "Supplier"); ("quickbooks_id", party_Id vendor);
                       ("company", c)] ;;
     if ex then ret tt
     else
       display_name <~ lift (Py.getitem (DisplayName vendor)) ;;
       erpsupplier <~
         insert_ [("doctype", VStr "Supplier");
                  ("quickbooks_id", VStr (party_Id vendor));
                  ("supplier_name", VStr (encode_company_abbr L display_name c));
                  ("supplier_group", VStr "All Supplier Groups");
                  ("company", VStr c)] ;;
       create_addresses erpsupplier "Supplier" vendor)
    (fun e => _log_error e).

Definition _save_item (item : item) : M unit :=
  try_except
    (c <~ the_company ;;
     ex <~ db_exists_ [("doctype", "Item"); ("quickbooks_id", item_Id item);
                       ("company", c)] ;;
     if ex then ret tt
     else
       ty <~ lift (Py.getitem (item_Type item)) ;;
       if String.eqb ty "Service" || String.eqb ty "Inventory" then
         name <~ lift (Py.getitem (item_Name item)) ;;
         warehouse <~ read (fun st => default_warehouse (self st)) ;;
         let defaults := [("company", VStr c); ("default_warehouse", vstr warehouse)] in
         defaults <~
           match ExpenseAccountRef item with
           | Some a => expense_account <~ _get_account_name_by_id a ;;
                       ret (dict_set defaults "expense_account" (VStr expense_account))
           | None => ret defaults
           end ;;
         defaults <~
           match IncomeAccountRef item with
           | Some a => income_account <~ _get_account_name_by_id a ;;
                       ret (dict_set defaults "income_account" (VStr income_account))
           | None => ret defaults
           end ;;
         insert_ [("doctype", VStr "Item");
                  ("quickbooks_id", VStr (item_Id item));
                  ("item_code", VStr (encode_company_abbr L name c));
                  ("stock_uom", VStr "Unit");
                  ("is_stock_item", VInt 0);
                  ("item_group", VStr "All Item Groups");
                  ("company", VStr c);
                  ("image_perview", VStr "NA");
                  ("item_defaults", VTable [defaults])] ;;; ret tt
       else ret tt)
    (fun e => _log_error e).

(** The call [self._get_account_name_by_id(self, id)] passes one
    argument too many: [TypeError]. *)
Definition _save_preference (preference : preferences) : M unit :=
  try_except
    (allow <~ lift (Py.getitem (AllowShipping preference)) ;;
     if allow then
       lift (Py.getitem (DefaultShippingAccount preference)) ;;;
       raise TypeError
     else ret tt)
    (fun e => _log_error e).

(** *** Sales invoices *)

(** [x *= -1] on a value of a document. *)
Definition times_minus_one (v : value num) : result (value num) :=
  match v with
  | VNum x => Ok (VNum (neg x))
  | VInt z => Ok (VInt (z * -1))
  | VBool b => Ok (VInt (if b then -1 else 0))
  | VStr _ => Ok (VStr "")
  | VTable _ => Ok (VTable [])
  | VNone => Raise TypeError
  end.

Definition item_taxes (tax_code : string) : M (value num) :=
  fun st => (_get_item_taxes T tax_code st, st).

Definition the_cost_center : M (value num) :=
  read (fun st => vstr (default_cost_center (self st))).

Definition the_warehouse : M (value num) :=
  read (fun st => vstr (default_warehouse (self st))).

(** The tax code of an item line: the line's own, or for ["TAX"] the
    transaction's, or ["NON"]. *)
Definition line_tax_code (invoice : txn num) (code : string) : result string :=
  if negb (String.eqb code "TAX") then Ok code
  else
    detail <- Py.getitem (TxnTaxDetail invoice) ;;
    match TxnTaxCodeRef detail with
    | Some v => Ok v
    | None => Ok "NON"
    end.

(** [items[-1]["qty"] *= -1] *)
Definition negate_last_qty (items : list (dict num)) : result (list (dict num)) :=
  match items with
  | [] => Raise IndexError
  | _ =>
      let it := List.last items [] in
      q <- Py.getitem (dict_get it "qty") ;;
      q' <- times_minus_one q ;;
      Ok (removelast items ++ [dict_set it "qty" q'])
  end.

(** The item that a line of type ["SalesItemLineDetail"] makes,
    before the negation of a return. *)
Definition sales_item (invoice : txn num) (line : txn_line num) : M (dict num) :=
  detail <~ lift (Py.getitem (SalesItemLineDetail line)) ;;
  code <~ lift (Py.getitem (TaxCodeRef detail)) ;;
  tax_code <~ lift (line_tax_code invoice code) ;;
  item_ref <~ lift (Py.getitem (ItemRef detail)) ;;
  cost_center <~ the_cost_center ;;
  warehouse <~ the_warehouse ;;
  if negb (String.eqb item_ref "SHIPPING_ITEM_ID") then
    c <~ the_company ;;
    rows <~ get_all_ [("doctype", "Item"); ("quickbooks_id", item_ref);
                      ("company", c)] ;;
    item <~ lift (Py.first rows) ;;
    (* the default of [line.get("Description", ...)] is evaluated first *)
    item_name <~ lift (Py.getitem (ItemRef_name detail)) ;;
    qty <~ lift (Py.getitem (Qty detail)) ;;
    price <~ lift (Py.getitem (UnitPrice detail)) ;;
    taxes <~ item_taxes tax_code ;;
    ret [("item_code", row_field item "name");
         ("conversion_factor", VInt 1);
         ("uom", row_field item "stock_uom");
         ("description", VStr match Description line with
                              | Some d => d
                              | None => item_name
                              end);
         ("qty", VNum qty);
         ("price_list_rate", VNum price);
         ("cost_center", cost_center);
         ("warehouse", warehouse);
         ("item_tax_rate", taxes)]
  else
    expense_account <~ _get_account_name_by_id ("TaxRate - " ++ code)%string ;;
    income_account <~ read (fun st => vstr (default_shipping_account (self st))) ;;
    amount <~ lift (Py.getitem (Amount line)) ;;
    taxes <~ item_taxes tax_code ;;
    ret [("item_name", VStr "Shipping");
         ("conversion_factor", VInt 1);
         ("expense_account", VStr expense_account);
         ("uom", VStr "Unit");
         ("description", VStr "Shipping");
         ("income_account", income_account);
         ("qty", VInt 1);
         ("price_list_rate", VNum amount);
         ("cost_center", cost_center);
         ("warehouse", warehouse);
         ("item_tax_rate", taxes)].

(** One turn of the loop of [_get_si_items]. *)
Definition si_items_step (invoice : txn num) (is_return : bool)
           (items : list (dict num)) (line : txn_line num) : M (list (dict num)) :=
  if String.eqb (DetailType line) "SalesItemLineDetail" then
    new_item <~ sales_item invoice line ;;
    if is_return then lift (negate_last_qty (items ++ [new_item]))
    else ret (items ++ [new_item])
  else if String.eqb (DetailType line) "DescriptionOnly" then
    match items with
    | [] => raise IndexError
    | _ =>
        description <~ lift (Py.getitem (Description line)) ;;
        rate <~ lift (int L (Py.before "%" description)) ;;
        ret (removelast items
             ++ [dict_update (List.last items [])
                             [("margin_type", VStr "Percentage");
                              ("margin_rate_or_amount", VInt rate)]])
    end
  else ret items.

Fixpoint fold_lines {A B} (step : B -> A -> M B) (l : list A) (acc : B) : M B :=
  match l with
  | [] => ret acc
  | x :: rest => acc' <~ step acc x ;; fold_lines step rest acc'
  end.

Definition _get_si_items (invoice : txn num) (is_return : bool) : M (list (dict num)) :=
  lines <~ lift (Py.getitem (Line invoice)) ;;
  fold_lines (si_items_step invoice is_return) lines [].

Definition _get_invoice_payments (invoice : txn num) (is_return is_pos : bool)
  : M (value num) :=
  if is_pos then
    total <~ lift (Py.getitem (TotalAmt invoice)) ;;
    let amount := if is_return then neg total else total in
    deposit_to <~ lift (Py.getitem (DepositToAccountRef invoice)) ;;
    account <~ _get_account_name_by_id deposit_to ;;
    ret (VTable [[("mode_of_payment", VStr "Cash");
                  ("account", VStr account);
                  ("amount", VNum amount)]])
  else ret VNone.

(** The first line that is a discount line with an amount; reading
    [line["DiscountLineDetail"]] of a discount line without it
    raises. *)
Fixpoint _get_discount (lines : list (txn_line num)) : result (option (txn_line num)) :=
  match lines with
  | [] => Ok None
  | line :: rest =>
      if String.eqb (DetailType line) "DiscountLineDetail" then
        detail <- Py.getitem (DiscountLineDetail line) ;;
        match detail with
        | Some _ => Ok (Some line)
        | None => _get_discount rest
        end
      else _get_discount rest
  end.

Definition taxes_of (entry : txn num) : M (value num) :=
  fun st => (_get_taxes T entry st, st).

(** The dictionary [invoice_dict] of [_save_sales_invoice], with the
    discount fields. *)
Definition sales_invoice_dict (invoice : txn num) (quickbooks_id : string)
           (is_return is_pos : bool) : M (dict num) :=
  c <~ the_company ;;
  currency <~ lift (Py.getitem (CurrencyRef invoice)) ;;
  posting_date <~ lift (Py.getitem (TxnDate invoice)) ;;
  customer_ref <~ lift (Py.getitem (CustomerRef invoice)) ;;
  rows <~ get_all_ [("doctype", "Customer"); ("quickbooks_id", customer_ref);
                    ("company", c)] ;;
  customer <~ lift (Py.first rows) ;;
  items <~ _get_si_items invoice is_return ;;
  taxes <~ taxes_of invoice ;;
  payments <~ _get_invoice_payments invoice is_return is_pos ;;
  let invoice_dict :=
    [("doctype", VStr "Sales Invoice");
     ("quickbooks_id", VStr quickbooks_id);
     ("currency", VStr currency);
     ("conversion_rate", match ExchangeRate invoice with
                         | Some r => VNum r
                         | None => VInt 1
                         end);
     ("posting_date", VStr posting_date);
     ("due_date", VStr match DueDate invoice with
                       | Some d => d
                       | None => posting_date
                       end);
     ("customer", row_field customer "name");
     ("items", VTable items);
     ("taxes", taxes);
     ("set_posting_time", VInt 1);
     ("disable_rounded_total", VInt 1);
     ("is_return", VBool is_return);
     ("is_pos", VBool is_pos);
     ("payments", payments);
     ("company", VStr c)] in
  lines <~ lift (Py.getitem (Line invoice)) ;;
  discount <~ lift (_get_discount lines) ;;
  match discount with
  | Some line =>
      after <~ lift (Py.getitem (ApplyTaxAfterDiscount invoice)) ;;
      amount <~ lift (Py.getitem (Amount line)) ;;
      ret (dict_set (dict_set invoice_dict "apply_discount_on"
                              (VStr (if after then "Net Total" else "Grand Total")))
                    "discount_amount" (VNum amount))
  | None => ret invoice_dict
  end.

(** [_save_sales_invoice], and [__save_purchase_invoice] below: the
    handler reads [invoice_dict] and [invoice_doc].  An exception
    raised before [frappe.get_doc] bound [invoice_doc] makes the
    handler itself raise [UnboundLocalError], which leaves the
    method; an exception of [insert()] or [submit()] is logged. *)
Definition insert_invoice (build : M (dict num)) : M unit :=
  fun st =>
    match build st with
    | (Raise _, st') => (Raise UnboundLocalError, st')
    | (Ok invoice_dict, st') =>
        try_except
          (invoice_doc <~ insert_ invoice_dict ;; submit_ invoice_doc)
          (fun e => _log_error e) st'
    end.

Definition _save_sales_invoice (invoice : txn num) (quickbooks_id : string)
           (is_return is_pos : bool) : M unit :=
  c <~ the_company ;;
  ex <~ db_exists_ [("doctype", "Sales Invoice"); ("quickbooks_id", quickbooks_id);
                    ("company", c)] ;;
  if ex then ret tt
  else insert_invoice (sales_invoice_dict invoice quickbooks_id is_return is_pos).

(** *** Journal entries *)

(** The dictionary handed to [frappe.get_doc] in
    [__save_journal_entry]. *)
Definition journal_entry_dict (company quickbooks_id : string)
           (accounts : list (dict num)) (posting_date : value num) : dict num :=
  [("doctype", VStr "Journal Entry");
   ("quickbooks_id", VStr quickbooks_id);
   ("company", VStr company);
   ("posting_date", posting_date);
   ("accounts", VTable accounts);
   ("multi_currency", VInt 1)].

Definition __save_journal_entry (quickbooks_id : string)
           (accounts : list (dict num)) (posting_date : value num) : M unit :=
  try_except
    (c <~ the_company ;;
     ex <~ db_exists_ [("doctype", "Journal Entry"); ("quickbooks_id", quickbooks_id);
                       ("company", c)] ;;
     if ex then ret tt
     else
       je <~ insert_ (journal_entry_dict c quickbooks_id accounts posting_date) ;;
       submit_ je)
    (fun e => _log_error e).

(** [frappe.db.get_value("Account", name, "account_type")] *)
Definition account_type_of (name : option string) : M (value num) :=
  match name with
  | None => ret VNone
  | Some n =>
      rows <~ get_all_ [("doctype", "Account"); ("name", n)] ;;
      match rows with
      | d :: _ => ret (row_field d "account_type")
      | [] => ret VNone
      end
  end.

Definition is_str (v : value num) (s : string) : bool :=
  match v with VStr x => String.eqb x s | _ => false end.

(** One turn of the loop of [_save_invoice_as_journal_entry]. *)
Definition invoice_je_line (invoice : txn num) (line : Ledger.line num)
  : M (dict num) :=
  cost_center <~ the_cost_center ;;
  let account_line := [("account", vstr (Ledger.account line));
                       ("cost_center", cost_center)] in
  let account_line :=
    if truthy (Ledger.debit line)
    then dict_set account_line "debit_in_account_currency" (VNum (Ledger.debit line))
    else if truthy (Ledger.credit line)
    then dict_set account_line "credit_in_account_currency" (VNum (Ledger.credit line))
    else account_line in
  account_type <~ account_type_of (Ledger.account line) ;;
  if is_str account_type "Receivable" then
    c <~ the_company ;;
    customer_ref <~ lift (Py.getitem (CustomerRef invoice)) ;;
    rows <~ get_all_ [("doctype", "Customer"); ("quickbooks_id", customer_ref);
                      ("company", c)] ;;
    customer <~ lift (Py.first rows) ;;
    ret (dict_set (dict_set account_line "party_type" (VStr "Customer"))
                  "party" (row_field customer "name"))
  else ret account_line.

Fixpoint map_M {A B} (f : A -> M B) (l : list A) : M (list B) :=
  match l with
  | [] => ret []
  | x :: rest => y <~ f x ;; ys <~ map_M f rest ;; ret (y :: ys)
  end.

Definition _save_invoice_as_journal_entry (invoice : txn num) (quickbooks_id : string)
  : M unit :=
  try_except
    (general_ledger <~ read (fun st => general_ledger (self st)) ;;
     general_ledger <~ lift (match general_ledger with
                             | Some g => Ok g
                             | None => Raise AttributeError
                             end) ;;
     entry <~ lift (Py.getitem (Ledger.lookup_entry general_ledger "Invoice"
                                                    (Some (Id invoice)))) ;;
     accounts <~ map_M (invoice_je_line invoice) (Ledger.lines entry) ;;
     posting_date <~ lift (Py.getitem (TxnDate invoice)) ;;
     __save_journal_entry quickbooks_id accounts (VStr posting_date))
    (fun e => _log_error e).

Definition is_charge (linked : linked_txn) : bool :=
  String.eqb (TxnType linked) "StatementCharge"
  || String.eqb (TxnType linked) "ReimburseCharge".

Definition _save_invoice (invoice : txn num) : M unit :=
  let quickbooks_id := ("Invoice - " ++ Id invoice)%string in
  linked <~ lift (Py.getitem (LinkedTxn invoice)) ;;
  if existsb is_charge linked
  then _save_invoice_as_journal_entry invoice quickbooks_id
  else _save_sales_invoice invoice quickbooks_id false false.

Definition _save_credit_memo (credit_memo : txn num) : M unit :=
  _save_sales_invoice credit_memo ("Credit Memo - " ++ Id credit_memo)%string true false.

Definition _save_sales_receipt (sales_receipt : txn num) : M unit :=
  _save_sales_invoice sales_receipt ("Sales Receipt - " ++ Id sales_receipt)%string
                      false true.

Definition _save_refund_receipt (refund_receipt : txn num) : M unit :=
  _save_sales_invoice refund_receipt ("Refund Receipt - " ++ Id refund_receipt)%string
                      true true.

(** [_save_journal_entry]: the lines are converted outside any
    [try], so an exception leaves the method. *)
Definition je_account (line : txn_line num) : M (option (dict num)) :=
  if String.eqb (DetailType line) "JournalEntryLineDetail" then
    detail <~ lift (Py.getitem (JournalEntryLineDetail line)) ;;
    account_ref <~ lift (Py.getitem (ad_AccountRef detail)) ;;
    account_name <~ _get_account_name_by_id account_ref ;;
    posting_type <~ lift (Py.getitem (PostingType detail)) ;;
    field <~ lift (Py.getitem (assoc posting_type
                                     [("Credit", "credit_in_account_currency");
                                      ("Debit", "debit_in_account_currency")])) ;;
    amount <~ lift (Py.getitem (Amount line)) ;;
    cost_center <~ the_cost_center ;;
    ret (Some [("account", VStr account_name);
               (field, VNum amount);
               ("cost_center", cost_center)])
  else ret None.

Fixpoint somes {A} (l : list (option A)) : list A :=
  match l with
  | [] => []
  | Some x :: rest => x :: somes rest
  | None :: rest => somes rest
  end.

Definition _save_journal_entry (journal_entry : txn num) : M unit :=
  let quickbooks_id := ("Journal Entry - " ++ Id journal_entry)%string in
  lines <~ lift (Py.getitem (Line journal_entry)) ;;
  accounts <~ map_M je_account lines ;;
  posting_date <~ lift (Py.getitem (TxnDate journal_entry)) ;;
  __save_journal_entry quickbooks_id (somes accounts) (VStr posting_date).

(** *** Ledger entries saved as journal entries *)

(** The posting line of one ledger line. *)
Definition ledger_account_line (cost_center : value num) (line : Ledger.line num)
  : dict num :=
  let account_line := [("account", vstr (Ledger.account line));
                       ("cost_center", cost_center)] in
  if truthy (Ledger.credit line)
  then dict_set account_line "credit_in_account_currency" (VNum (Ledger.credit line))
  else dict_set account_line "debit_in_account_currency" (VNum (Ledger.debit line)).

Definition __save_ledger_entry_as_je (ledger_entry : Ledger.entry num)
           (quickbooks_id : string) : M unit :=
  try_except
    (cost_center <~ the_cost_center ;;
     let accounts := map (ledger_account_line cost_center) (Ledger.lines ledger_entry) in
     let posting_date := VStr (Ledger.entry_date ledger_entry) in
     __save_journal_entry quickbooks_id accounts posting_date)
    (fun e => _log_error e).

(** ["... - {}".format(entry["id"])]: a missing id prints as
    ["None"]. *)
Definition format_id (i : option string) : string :=
  match i with Some s => s | None => "None" end.

Definition _save_advance_payment (advance_payment : Ledger.entry num) : M unit :=
  __save_ledger_entry_as_je advance_payment
    ("Advance Payment - " ++ format_id (Ledger.entry_id advance_payment))%string.

Definition _save_tax_payment (tax_payment : Ledger.entry num) : M unit :=
  __save_ledger_entry_as_je tax_payment
    ("Tax Payment - " ++ format_id (Ledger.entry_id tax_payment))%string.

Definition _save_inventory_qty_adjust (inventory_qty_adjust : Ledger.entry num)
  : M unit :=
  __save_ledger_entry_as_je inventory_qty_adjust
    ("Inventory Qty Adjust - "
     ++ format_id (Ledger.entry_id inventory_qty_adjust))%string.

(** *** Purchase invoices *)

(** One turn of the loop of [_get_pi_items].  The negation of a
    return stands after the [if]/[elif]: it runs on every line. *)
Definition pi_items_step (purchase_invoice : txn num) (is_return : bool)
           (items : list (dict num)) (line : txn_line num) : M (list (dict num)) :=
  items <~
    (if String.eqb (DetailType line) "ItemBasedExpenseLineDetail" then
       detail <~ lift (Py.getitem (ItemBasedExpenseLineDetail line)) ;;
       code <~ lift (Py.getitem (TaxCodeRef detail)) ;;
       tax_code <~ lift (line_tax_code purchase_invoice code) ;;
       item_ref <~ lift (Py.getitem (ItemRef detail)) ;;
       c <~ the_company ;;
       rows <~ get_all_ [("doctype", "Item"); ("quickbooks_id", item_ref);
                         ("company", c)] ;;
       item <~ lift (Py.first rows) ;;
       item_name <~ lift (Py.getitem (ItemRef_name detail)) ;;
       qty <~ lift (Py.getitem (Qty detail)) ;;
       price <~ lift (Py.getitem (UnitPrice detail)) ;;
       warehouse <~ the_warehouse ;;
       cost_center <~ the_cost_center ;;
       taxes <~ item_taxes tax_code ;;
       ret (items ++ [[("item_code", row_field item "name");
                       ("conversion_factor", VInt 1);
                       ("uom", row_field item "stock_uom");
                       ("description", VStr match Description line with
                                            | Some d => d
                                            | None => item_name
                                            end);
                       ("qty", VNum qty);
                       ("price_list_rate", VNum price);
                       ("warehouse", warehouse);
                       ("cost_center", cost_center);
                       ("item_tax_rate", taxes)]])
     else if String.eqb (DetailType line) "AccountBasedExpenseLineDetail" then
       detail <~ lift (Py.getitem (AccountBasedExpenseLineDetail line)) ;;
       code <~ lift (Py.getitem (ad_TaxCodeRef detail)) ;;
       tax_code <~ lift (line_tax_code purchase_invoice code) ;;
       account_name <~ lift (Py.getitem (ad_AccountRef_name detail)) ;;
       account_ref <~ lift (Py.getitem (ad_AccountRef detail)) ;;
       expense_account <~ _get_account_name_by_id account_ref ;;
       amount <~ lift (Py.getitem (Amount line)) ;;
       warehouse <~ the_warehouse ;;
       cost_center <~ the_cost_center ;;
       taxes <~ item_taxes tax_code ;;
       let description := match Description line with
                          | Some d => d
                          | None => account_name
                          end in
       ret (items ++ [[("item_name", VStr description);
                       ("conversion_factor", VInt 1);
                       ("expense_account", VStr expense_account);
                       ("uom", VStr "Unit");
                       ("description", VStr description);
                       ("qty", VInt 1);
                       ("price_list_rate", VNum amount);
                       ("warehouse", warehouse);
                       ("cost_center", cost_center);
                       ("item_tax_rate", taxes)]])
     else ret items) ;;
  if is_return then lift (negate_last_qty items) else ret items.

Definition _get_pi_items (purchase_invoice : txn num) (is_return : bool)
  : M (list (dict num)) :=
  lines <~ lift (Py.getitem (Line purchase_invoice)) ;;
  fold_lines (pi_items_step purchase_invoice is_return) lines [].

Definition purchase_invoice_dict (invoice : txn num) (quickbooks_id : string)
           (is_return : bool) : M (dict num) :=
  c <~ the_company ;;
  ap_account <~ lift (Py.getitem (APAccountRef invoice)) ;;
  credit_to_account <~ _get_account_name_by_id ap_account ;;
  currency <~ lift (Py.getitem (CurrencyRef invoice)) ;;
  posting_date <~ lift (Py.getitem (TxnDate invoice)) ;;
  vendor_ref <~ lift (Py.getitem (VendorRef invoice)) ;;
  rows <~ get_all_ [("doctype", "Supplier"); ("quickbooks_id", vendor_ref);
                    ("company", c)] ;;
  supplier <~ lift (Py.first rows) ;;
  items <~ _get_pi_items invoice is_return ;;
  taxes <~ taxes_of invoice ;;
  ret [("doctype", VStr "Purchase Invoice");
       ("quickbooks_id", VStr quickbooks_id);
       ("currency", VStr currency);
       ("conversion_rate", match ExchangeRate invoice with
                           | Some r => VNum r
                           | None => VInt 1
                           end);
       ("posting_date", VStr posting_date);
       ("due_date", VStr match DueDate invoice with
                         | Some d => d
                         | None => posting_date
                         end);
       ("credit_to", VStr credit_to_account);
       ("supplier", row_field supplier "name");
       ("items", VTable items);
       ("taxes", taxes);
       ("set_posting_time", VInt 1);
       ("disable_rounded_total", VInt 1);
       ("is_return", VBool is_return);
       ("udpate_stock", VInt 0);
       ("company", VStr c)].

Definition __save_purchase_invoice (invoice : txn num) (quickbooks_id : string)
           (is_return : bool) : M unit :=
  c <~ the_company ;;
  ex <~ db_exists_ [("doctype", "Purchase Invoice"); ("quickbooks_id", quickbooks_id);
                    ("company", c)] ;;
  if ex then ret tt
  else insert_invoice (purchase_invoice_dict invoice quickbooks_id is_return).

Definition _save_bill (bill : txn num) : M unit :=
  __save_purchase_invoice bill ("Bill - " ++ Id bill)%string false.

Definition _save_vendor_credit (vendor_credit : txn num) : M unit :=
  __save_purchase_invoice vendor_credit ("Vendor Credit - " ++ Id vendor_credit)%string
                          true.

(** *** Payments *)

Definition table_rows (v : value num) : list (dict num) :=
  match v with
  | VTable rows => rows
  | _ => []
  end.

(** The postings that one line of a Payment adds. *)
Definition payment_line (line : txn_line num) : M (list (dict num)) :=
  linked <~ lift (Py.getitem (line_LinkedTxn line)) ;;
  linked_transaction <~ lift (Py.first linked) ;;
  if String.eqb (TxnType linked_transaction) "Invoice" then
    let si_quickbooks_id := ("Invoice - " ++ TxnId linked_transaction)%string in
    c <~ the_company ;;
    cost_center <~ the_cost_center ;;
    (* the invoice could have been saved as a Sales Invoice or a Journal Entry *)
    is_si <~ db_exists_ [("doctype", "Sales Invoice");
                         ("quickbooks_id", si_quickbooks_id); ("company", c)] ;;
    from_si <~
      (if is_si then
         rows <~ get_all_ [("doctype", "Sales Invoice");
                           ("quickbooks_id", si_quickbooks_id); ("company", c)] ;;
         sales_invoice <~ lift (Py.first rows) ;;
         amount <~ lift (Py.getitem (Amount line)) ;;
         ret [[("party_type", VStr "Customer");
               ("party", row_field sales_invoice "customer");
               ("reference_type", VStr "Sales Invoice");
               ("reference_name", row_field sales_invoice "name");
               ("account", row_field sales_invoice "debit_to");
               ("credit_in_account_currency", VNum amount);
               ("cost_center", cost_center)]]
       else ret []) ;;
    is_je <~ db_exists_ [("doctype", "Journal Entry");
                         ("quickbooks_id", si_quickbooks_id); ("company", c)] ;;
    from_je <~
      (if is_je then
         rows <~ get_all_ [("doctype", "Journal Entry");
                           ("quickbooks_id", si_quickbooks_id); ("company", c)] ;;
         journal_entry <~ lift (Py.first rows) ;;
         customer_account_line <~
           lift (Py.first (filter (fun acc => is_str (row_field acc "party_type")
                                                     "Customer")
                                  (table_rows (row_field journal_entry "accounts")))) ;;
         amount <~ lift (Py.getitem (Amount line)) ;;
         ret [[("party_type", VStr "Customer");
               ("party", row_field customer_account_line "party");
               ("reference_type", VStr "Journal Entry");
               ("reference_name", row_field journal_entry "name");
               ("account", row_field customer_account_line "account");
               ("credit_in_account_currency", VNum amount);
               ("cost_center", cost_center)]]
       else ret []) ;;
    ret (from_si ++ from_je)
  else ret [].

Fixpoint flat_map_M {A B} (f : A -> M (list B)) (l : list A) : M (list B) :=
  match l with
  | [] => ret []
  | x :: rest => ys <~ f x ;; zs <~ flat_map_M f rest ;; ret (ys ++ zs)
  end.

Definition _save_payment (payment : txn num) : M unit :=
  try_except
    (let quickbooks_id := ("Payment - " ++ Id payment)%string in
     (* without DepositToAccountRef the payment affects no account *)
     match DepositToAccountRef payment with
     | None => ret tt
     | Some deposit_to =>
         lines <~ lift (Py.getitem (Line payment)) ;;
         accounts <~ flat_map_M payment_line lines ;;
         deposit_account <~ _get_account_name_by_id deposit_to ;;
         total <~ lift (Py.getitem (TotalAmt payment)) ;;
         cost_center <~ the_cost_center ;;
         posting_date <~ lift (Py.getitem (TxnDate payment)) ;;
         __save_journal_entry quickbooks_id
           (accounts ++ [[("account", VStr deposit_account);
                          ("debit_in_account_currency", VNum total);
                          ("cost_center", cost_center)]])
           (VStr posting_date)
     end)
    (fun e => _log_error e).

Definition bill_payment_line (line : txn_line num) : M (list (dict num)) :=
  linked <~ lift (Py.getitem (line_LinkedTxn line)) ;;
  linked_transaction <~ lift (Py.first linked) ;;
  if String.eqb (TxnType linked_transaction) "Bill" then
    let pi_quickbooks_id := ("Bill - " ++ TxnId linked_transaction)%string in
    c <~ the_company ;;
    is_pi <~ db_exists_ [("doctype", "Purchase Invoice");
                         ("quickbooks_id", pi_quickbooks_id); ("company", c)] ;;
    if is_pi then
      rows <~ get_all_ [("doctype", "Purchase Invoice");
                        ("quickbooks_id", pi_quickbooks_id); ("company", c)] ;;
      purchase_invoice <~ lift (Py.first rows) ;;
      amount <~ lift (Py.getitem (Amount line)) ;;
      cost_center <~ the_cost_center ;;
      ret [[("party_type", VStr "Supplier");
            ("party", row_field purchase_invoice "supplier");
            ("reference_type", VStr "Purchase Invoice");
            ("reference_name", row_field purchase_invoice "name");
            ("account", row_field purchase_invoice "credit_to");
            ("debit_in_account_currency", VNum amount);
            ("cost_center", cost_center)]]
    else ret []
  else ret [].

Definition _save_bill_payment (bill_payment : txn num) : M unit :=
  try_except
    (let quickbooks_id := ("BillPayment - " ++ Id bill_payment)%string in
     lines <~ lift (Py.getitem (Line bill_payment)) ;;
     accounts <~ flat_map_M bill_payment_line lines ;;
     pay_type <~ lift (Py.getitem (PayType bill_payment)) ;;
     bank_account_id <~
       lift (if String.eqb pay_type "Check"
             then Py.getitem (CheckPayment_BankAccountRef bill_payment)
             else if String.eqb pay_type "CreditCard"
             then Py.getitem (CreditCardPayment_CCAccountRef bill_payment)
             else Raise UnboundLocalError) ;;
     bank_account <~ _get_account_name_by_id bank_account_id ;;
     total <~ lift (Py.getitem (TotalAmt bill_payment)) ;;
     cost_center <~ the_cost_center ;;
     posting_date <~ lift (Py.getitem (TxnDate bill_payment)) ;;
     __save_journal_entry quickbooks_id
       (accounts ++ [[("account", VStr bank_account);
                      ("credit_in_account_currency", VNum total);
                      ("cost_center", cost_center)]])
       (VStr posting_date))
    (fun e => _log_error e).

(** *** Purchases and deposits *)

(** [del d[k]] *)
Fixpoint dict_del (d : dict num) (k : string) : dict num :=
  match d with
  | [] => []
  | (k', v) :: rest => if String.eqb k' k then rest else (k', v) :: dict_del rest k
  end.

(** The loop over [purchase["Line"]]: [account] keeps its value from
    the turn before when a line is of neither kind, and is unbound
    when there was none. *)
Fixpoint purchase_lines (lines : list (txn_line num)) (account : option (value num))
         (accounts : list (dict num)) : M (list (dict num)) :=
  match lines with
  | [] => ret accounts
  | line :: rest =>
      account <~
        (if String.eqb (DetailType line) "AccountBasedExpenseLineDetail" then
           detail <~ lift (Py.getitem (AccountBasedExpenseLineDetail line)) ;;
           account_ref <~ lift (Py.getitem (ad_AccountRef detail)) ;;
           a <~ _get_account_name_by_id account_ref ;;
           ret (Some (VStr a))
         else if String.eqb (DetailType line) "ItemBasedExpenseLineDetail" then
           detail <~ lift (Py.getitem (ItemBasedExpenseLineDetail line)) ;;
           item_ref <~ lift (Py.getitem (ItemRef detail)) ;;
           c <~ the_company ;;
           rows <~ get_all_ [("doctype", "Item"); ("quickbooks_id", item_ref);
                             ("company", c)] ;;
           item <~ lift (match rows with
                         | d :: _ => Ok d
                         | [] => Raise (ExternalError "DoesNotExistError")
                         end) ;;
           defaults <~ lift (Py.first (table_rows (row_field item "item_defaults"))) ;;
           ret (Some (row_field defaults "expense_account"))
         else ret account) ;;
      a <~ lift (match account with
                 | Some a => Ok a
                 | None => Raise UnboundLocalError
                 end) ;;
      amount <~ lift (Py.getitem (Amount line)) ;;
      cost_center <~ the_cost_center ;;
      purchase_lines rest account
                     (accounts ++ [[("account", a);
                                    ("debit_in_account_currency", VNum amount);
                                    ("cost_center", cost_center)]])
  end.

Definition tax_line_account (line : tax_line num) : M (dict num) :=
  rate <~ lift (Py.getitem (TaxRateRef line)) ;;
  a <~ _get_account_name_by_id ("TaxRate - " ++ rate)%string ;;
  amount <~ lift (Py.getitem (tl_Amount line)) ;;
  cost_center <~ the_cost_center ;;
  ret [("account", VStr a);
       ("debit_in_account_currency", VNum amount);
       ("cost_center", cost_center)].

(** A refund: debit and credit change places. *)
Definition flip (account : dict num) : result (dict num) :=
  match dict_get account "debit_in_account_currency" with
  | Some v =>
      Ok (dict_del (dict_set account "credit_in_account_currency" v)
                   "debit_in_account_currency")
  | None =>
      v <- Py.getitem (dict_get account "credit_in_account_currency") ;;
      Ok (dict_del (dict_set account "debit_in_account_currency" v)
                   "credit_in_account_currency")
  end.

Fixpoint map_result {A B} (f : A -> result B) (l : list A) : result (list B) :=
  match l with
  | [] => Ok []
  | x :: rest => y <- f x ;; ys <- map_result f rest ;; Ok (y :: ys)
  end.

(** [_save_purchase] and [_save_deposit] build the first posting in
    the statement that binds [accounts]: when that raises, the
    handler, which reads [accounts], raises [UnboundLocalError]
    itself. *)
Definition with_first_posting (first_posting : M (dict num))
           (rest : dict num -> M unit) : M unit :=
  fun st =>
    match first_posting st with
    | (Raise _, st') => (Raise UnboundLocalError, st')
    | (Ok p, st') => try_except (rest p) (fun e => _log_error e) st'
    end.

Definition _save_purchase (purchase : txn num) : M unit :=
  let quickbooks_id := ("Purchase - " ++ Id purchase)%string in
  with_first_posting
    (account_ref <~ lift (Py.getitem (AccountRef purchase)) ;;
     a <~ _get_account_name_by_id account_ref ;;
     total <~ lift (Py.getitem (TotalAmt purchase)) ;;
     cost_center <~ the_cost_center ;;
     ret [("account", VStr a);
          ("credit_in_account_currency", VNum total);
          ("cost_center", cost_center)])
    (fun credit_bank =>
       lines <~ lift (Py.getitem (Line purchase)) ;;
       accounts <~ purchase_lines lines None [credit_bank] ;;
       tax_accounts <~
         match TxnTaxDetail purchase with
         | Some detail =>
             tax_lines <~ lift (Py.getitem (TaxLine detail)) ;;
             map_M tax_line_account tax_lines
         | None => ret []
         end ;;
       let accounts := accounts ++ tax_accounts in
       accounts <~
         (match Credit purchase with
          | Some true => lift (map_result flip accounts)
          | _ => ret accounts
          end) ;;
       posting_date <~ lift (Py.getitem (TxnDate purchase)) ;;
       __save_journal_entry quickbooks_id accounts (VStr posting_date)).

Definition deposit_line (line : txn_line num) : M (dict num) :=
  cost_center <~ the_cost_center ;;
  match line_LinkedTxn line with
  | Some _ =>
      a <~ read (fun st => vstr (undeposited_funds_account (self st))) ;;
      amount <~ lift (Py.getitem (Amount line)) ;;
      ret [("account", a);
           ("credit_in_account_currency", VNum amount);
           ("cost_center", cost_center)]
  | None =>
      detail <~ lift (Py.getitem (DepositLineDetail line)) ;;
      account_ref <~ lift (Py.getitem (ad_AccountRef detail)) ;;
      a <~ _get_account_name_by_id account_ref ;;
      amount <~ lift (Py.getitem (Amount line)) ;;
      ret [("account", VStr a);
           ("credit_in_account_currency", VNum amount);
           ("cost_center", cost_center)]
  end.

Definition _save_deposit (deposit : txn num) : M unit :=
  let quickbooks_id := ("Deposit - " ++ Id deposit)%string in
  with_first_posting
    (deposit_to <~ lift (Py.getitem (DepositToAccountRef deposit)) ;;
     a <~ _get_account_name_by_id deposit_to ;;
     total <~ lift (Py.getitem (TotalAmt deposit)) ;;
     cost_center <~ the_cost_center ;;
     ret [("account", VStr a);
          ("debit_in_account_currency", VNum total);
          ("cost_center", cost_center)])
    (fun debit_bank =>
       lines <~ lift (Py.getitem (Line deposit)) ;;
       credits <~ map_M deposit_line lines ;;
       cash_back <~
         match CashBack deposit with
         | Some (account_ref, amount) =>
             account_ref <~ lift (Py.getitem account_ref) ;;
             a <~ _get_account_name_by_id account_ref ;;
             amount <~ lift (Py.getitem amount) ;;
             cost_center <~ the_cost_center ;;
             ret [[("account", VStr a);
                   ("debit_in_account_currency", VNum amount);
                   ("cost_center", cost_center)]]
         | None => ret []
         end ;;
       posting_date <~ lift (Py.getitem (TxnDate deposit)) ;;
       __save_journal_entry quickbooks_id (debit_bank :: credits ++ cash_back)
                            (VStr posting_date)).

(** *** Preprocessing *)

Definition as_account (r : entity_record num) : result account :=
  match r with AccountRecord a => Ok a | _ => Raise KeyError end.

Definition as_tax_rate (r : entity_record num) : result tax_rate :=
  match r with TaxRateRecord a => Ok a | _ => Raise KeyError end.

Definition as_tax_code (r : entity_record num) : result tax_code :=
  match r with TaxCodeRecord a => Ok a | _ => Raise KeyError end.

(** [any(acc["SubAccount"] and acc["ParentRef"]["value"] == id
    for acc in accounts)] *)
Fixpoint any_child (id : string) (accounts : list account) : result bool :=
  match accounts with
  | [] => Ok false
  | acc :: rest =>
      sub <- Py.getitem (SubAccount acc) ;;
      if sub then
        parent <- Py.getitem (ParentRef acc) ;;
        if String.eqb parent id then Ok true else any_child id rest
      else any_child id rest
  end.

Definition with_is_group (a : account) (b : bool) : account :=
  {| account_Id := account_Id a; Name := Name a; SubAccount := SubAccount a;
     ParentRef := ParentRef a; AccountType := AccountType a;
     AccountSubType := AccountSubType a;
     account_CurrencyRef := account_CurrencyRef a; is_group := Some b |}.

(** The loop that writes [is_group]: the records it reached, marked,
    and the exception that stopped it, if any. *)
Fixpoint mark_groups (all todo : list account) : list account * option exn :=
  match todo with
  | [] => ([], None)
  | a :: rest =>
      match any_child (account_Id a) all with
      | Raise e => (todo, Some e)
      | Ok b => let (marked, e) := mark_groups all rest in
                (with_is_group a b :: marked, e)
      end
  end.

(** [sorted(l, key=...)]: stable, by insertion. *)
Fixpoint insert_by_key {A} (k : Z) (x : A) (l : list (Z * A)) : list (Z * A) :=
  match l with
  | [] => [(k, x)]
  | (k', y) :: rest =>
      if (k <? k')%Z then (k, x) :: l else (k', y) :: insert_by_key k x rest
  end.

Definition sorted_by_key {A} (l : list (Z * A)) : list A :=
  map snd (fold_left (fun acc kx => insert_by_key (fst kx) (snd kx) acc) l []).

(** [self.accounts] keeps the same records that the loop marks. *)
Definition _preprocess_accounts (accounts : list account) : M (list account) :=
  lift (map_result (fun a => Py.getitem (Name a)) accounts) ;;;
  let (marked, e) := mark_groups accounts accounts in
  update_self (set_accounts marked) ;;;
  match e with
  | Some e => raise e
  | None =>
      keys <~ lift (map_result (fun a => int L (account_Id a)) marked) ;;
      ret (sorted_by_key (combine keys marked))
  end.

Definition _preprocess_entries (entity : string) (entries : list (entity_record num))
  : M (list (entity_record num)) :=
  if String.eqb entity "Account" then
    accounts <~ lift (map_result as_account entries) ;;
    accounts <~ _preprocess_accounts accounts ;;
    ret (map AccountRecord accounts)
  else if String.eqb entity "TaxRate" then
    rates <~ lift (map_result as_tax_rate entries) ;;
    update_self (set_tax_rates rates) ;;;
    ret entries
  else if String.eqb entity "TaxCode" then
    codes <~ lift (map_result as_tax_code entries) ;;
    update_self (set_tax_codes codes) ;;;
    ret entries
  else ret entries.

(** *** Saving *)

Definition on_txn (f : txn num -> M unit) (r : entity_record num) : M unit :=
  match r with TxnRecord t => f t | _ => raise KeyError end.

Definition on_party (f : party -> M unit) (r : entity_record num) : M unit :=
  match r with PartyRecord p => f p | _ => raise KeyError end.

Definition on_ledger (f : Ledger.entry num -> M unit) (r : entity_record num)
  : M unit :=
  match r with LedgerRecord e => f e | _ => raise KeyError end.

(** [entity_method_map]; a record of another kind than the entity's
    has not the keys the method reads. *)
Definition entity_method_map : list (string * (entity_record num -> M unit)) :=
  [("Account", fun r => match r with AccountRecord a => _save_account a
                                | _ => raise KeyError end);
   ("TaxRate", fun r => match r with TaxRateRecord a => _save_tax_rate a
                                | _ => raise KeyError end);
   ("TaxCode", fun r => match r with TaxCodeRecord a => _save_tax_code a
                                | _ => raise KeyError end);
   ("Preferences", fun r => match r with PreferencesRecord a => _save_preference a
                                    | _ => raise KeyError end);
   ("Customer", on_party _save_customer);
   ("Item", fun r => match r with ItemRecord a => _save_item a
                             | _ => raise KeyError end);
   ("Vendor", on_party _save_vendor);
   ("Invoice", on_txn _save_invoice);
   ("CreditMemo", on_txn _save_credit_memo);
   ("SalesReceipt", on_txn _save_sales_receipt);
   ("RefundReceipt", on_txn _save_refund_receipt);
   ("JournalEntry", on_txn _save_journal_entry);
   ("Bill", on_txn _save_bill);
   ("VendorCredit", on_txn _save_vendor_credit);
   ("Payment", on_txn _save_payment);
   ("BillPayment", on_txn _save_bill_payment);
   ("Purchase", on_txn _save_purchase);
   ("Deposit", on_txn _save_deposit);
   ("Advance Payment", on_ledger _save_advance_payment);
   ("Tax Payment", on_ledger _save_tax_payment);
   ("Sales Tax Payment", on_ledger _save_tax_payment);
   ("Purchase Tax Payment", on_ledger _save_tax_payment);
   ("Inventory Qty Adjust", on_ledger _save_inventory_qty_adjust)].

Fixpoint method_of (entity : string)
         (m : list (string * (entity_record num -> M unit)))
  : result (entity_record num -> M unit) :=
  match m with
  | [] => Raise KeyError
  | (k, f) :: rest => if String.eqb k entity then Ok f else method_of entity rest
  end.

Fixpoint save_loop (entity : string) (total index : nat)
         (entries : list (entity_record num)) : M unit :=
  match entries with
  | [] => ret tt
  | entry :: rest =>
      _publish entity index total ;;;
      save <~ lift (method_of entity entity_method_map) ;;
      save entry ;;;
      save_loop entity total (S index) rest
  end.

Definition _save_entries (entity : string) (entries : list (entity_record num))
  : M unit :=
  save_loop entity (List.length entries) 1 entries.

(** *** Fetching *)

Definition get_ (args : request)
  : M (response (Fetcher.body (entity_record num))) :=
  fun st => let (r, c) := _get R depth args (conn st) in (r, set_conn st c).

Definition pages_ (entity : string) (entry_count : Z) : M (list (entity_record num)) :=
  fun st =>
    let (r, c) := Fetcher.fetch_pages R depth entity
                                      (Fetcher.start_positions entry_count) []
                                      (conn st) in
    (r, set_conn st c).

(** The handler of [_migrate_entries] and of [_fetch_general_ledger]
    reads [response]: when the first [_get] raised, the handler
    raises [UnboundLocalError] itself. *)
Definition with_response (args : request)
           (rest : response (Fetcher.body (entity_record num)) -> M unit) : M unit :=
  fun st =>
    match get_ args st with
    | (Raise _, st') => (Raise UnboundLocalError, st')
    | (Ok response, st') => try_except (rest response) (fun e => _log_error e) st'
    end.

Definition _migrate_entries (entity : string) : M unit :=
  with_response (CountQuery entity)
    (fun response =>
       qr <~ lift (Py.getitem (Fetcher.QueryResponse (json response))) ;;
       entry_count <~ lift (match Fetcher.totalCount qr with
                            | Some n => Ok n
                            | None => Raise TypeError
                            end) ;;
       entries <~ pages_ entity entry_count ;;
       entries <~ _preprocess_entries entity entries ;;
       _save_entries entity entries).

(** *** General Ledger *)

(** [self.accounts[name]["Id"]]: the dictionary keeps the last record
    of a name. *)
Fixpoint account_named (name : string) (accounts : list account) : option account :=
  match accounts with
  | [] => None
  | a :: rest =>
      match account_named name rest with
      | Some b => Some b
      | None => if opt_is (Name a) name then Some a else None
      end
  end.

Definition ledger_context (st : state) : Ledger.context num :=
  {| Ledger.flt := flt L;
     Ledger._get_account_name_by_id := fun i => fst (_get_account_name_by_id i st);
     Ledger.accounts_Id :=
       fun name =>
         match accounts (self st) with
         | None => Raise AttributeError
         | Some l => match account_named name l with
                     | Some a => Ok (account_Id a)
                     | None => Raise KeyError
                     end
         end |}.

Definition _fetch_general_ledger : M unit :=
  with_response (ReportQuery "GeneralLedger")
    (fun response =>
       update_self (set_gl_entries []) ;;;
       report <~ lift (Py.getitem (Fetcher.Rows (json response))) ;;
       (fun st =>
          let (r, g) := Ledger.walk_report (ledger_context st) report [] in
          (r, set_self st (set_gl_entries g (self st)))) ;;;
       g <~ read (fun st => match gl_entries (self st) with
                            | Some g => g
                            | None => []
                            end) ;;
       update_self (set_general_ledger (Ledger.group_lines g))).

(** *** Fiscal years *)

Definition _create_fiscal_years : M unit :=
  try_except
    (g <~ read (fun st => gl_entries (self st)) ;;
     g <~ lift (match g with Some g => Ok g | None => Raise AttributeError end) ;;
     smallest <~ lift (min_date (map Ledger.date (List.concat (map snd g)))) ;;
     smallest_ledger_entry_date <~ lift (getdate L smallest) ;;
     table <~ read (fun st => fiscal_years (db st)) ;;
     oldest_fiscal_year <~ lift (oldest table) ;;
     fun st =>
       match extend accepts_fiscal_year (enough_fuel oldest_fiscal_year)
                    smallest_ledger_entry_date oldest_fiscal_year table with
       | (Done _, t) => (Ok tt, set_fiscal_years st t)
       | (Raised e, t) => (Raise e, set_fiscal_years st t)
       | (OutOfFuel, t) => (Raise RecursionError, set_fiscal_years st t)
       end)
    (fun e => _log_error e).

Definition _migrate_entries_from_gl (entity : string) : M unit :=
  general_ledger <~ read (fun st => general_ledger (self st)) ;;
  general_ledger <~ lift (match general_ledger with
                          | Some g => Ok g
                          | None => Raise AttributeError
                          end) ;;
  match find (fun p => String.eqb (fst p) entity) general_ledger with
  | Some (_, type_dict) => _save_entries entity (map (fun p => LedgerRecord (snd p)) type_dict)
  | None => ret tt
  end.

(** *** Custom fields and units *)

Definition has_field (doctype fieldname : string) : M bool :=
  read (fun st => standard_field F doctype fieldname
                  || db_exists (docs (db st))
                               [("doctype", "Custom Field"); ("dt", doctype);
                                ("fieldname", fieldname)]).

Definition _make_custom_quickbooks_id_field (doctype : string) : M unit :=
  has <~ has_field doctype "quickbooks_id" ;;
  if has then ret tt
  else insert_ [("doctype", VStr "Custom Field");
                ("label", VStr "QuickBooks ID");
                ("dt", VStr doctype);
                ("fieldname", VStr "quickbooks_id");
                ("fieldtype", VStr "Data")] ;;; ret tt.

Definition _make_custom_company_field (doctype : string) : M unit :=
  has <~ has_field doctype "company" ;;
  if has then ret tt
  else insert_ [("doctype", VStr "Custom Field");
                ("label", VStr "Company");
                ("dt", VStr doctype);
                ("fieldname", VStr "company");
                ("fieldtype", VStr "Link");
                ("options", VStr "Company")] ;;; ret tt.

Definition _make_custom_fields : M unit :=
  for_each _make_custom_quickbooks_id_field
           ["Account"; "Customer"; "Address"; "Item"; "Supplier"; "Sales Invoice";
            "Journal Entry"; "Purchase Invoice"] ;;;
  for_each _make_custom_company_field ["Customer"; "Item"; "Supplier"].

(** [frappe.db.set_value("UOM", "Unit", "must_be_whole_number", 0)] *)
Definition allow_fraction (d : dict num) : dict num :=
  if matches [("doctype", "UOM"); ("name", "Unit")] d
  then dict_set d "must_be_whole_number" (VInt 0)
  else d.

Definition _allow_fraction_in_unit : M unit :=
  fun st => (Ok tt, set_docs st (map allow_fraction (docs (db st)))).

(** *** The migration *)

Definition _migrate_accounts : M unit :=
  _make_root_accounts ;;;
  for_each _migrate_entries ["Account"; "TaxRate"; "TaxCode"].

Definition entities_for_normal_transform : list string :=
  ["Customer"; "Item"; "Vendor"; "Preferences"; "JournalEntry"; "Purchase";
   "Deposit"; "Invoice"; "CreditMemo"; "SalesReceipt"; "RefundReceipt"; "Bill";
   "VendorCredit"; "Payment"; "BillPayment"].

Definition entities_for_gl_transform : list string :=
  ["Advance Payment"; "Tax Payment"; "Sales Tax Payment"; "Purchase Tax Payment";
   "Inventory Qty Adjust"].

Definition _migrate : M unit :=
  try_except
    (set_indicator "In Progress" ;;;
     _make_custom_fields ;;;
     _migrate_accounts ;;;
     _fetch_general_ledger ;;;
     _create_fiscal_years ;;;
     _allow_fraction_in_unit ;;;
     for_each _migrate_entries entities_for_normal_transform ;;;
     for_each _migrate_entries_from_gl entities_for_gl_transform ;;;
     set_indicator "Complete")
    (fun e => set_indicator "Failed" ;;; _log_error e).

End Migrator.

End Migrator.

(** ** Taxes

    [_get_taxes] and the searches it runs through the tax codes
    ([_get_tax_type], [_get_parent_tax_rate], [_get_parent_row_id]),
    and [_get_item_taxes].  They read [self.tax_codes],
    [self.tax_rates], [self.default_cost_center] and the Account table,
    and write nothing. *)

Module Taxes.
Import Site QuickBooks.

(** An entry of ["TaxRateDetail"]; [rd_TaxRateRef] is
    [detail["TaxRateRef"]["value"]]. *)
Record rate_detail := {
  TaxTypeApplicable : option string;
  rd_TaxRateRef : option string;
  TaxOrder : option Z;
  TaxOnTaxOrder : option Z
}.

(** ["SalesTaxRateList"] or ["PurchaseTaxRateList"] *)
Record rate_list := {
  TaxRateDetail : option (list rate_detail)
}.

(** A TaxCode with its rate lists. *)
Record code := {
  SalesTaxRateList : option rate_list;
  PurchaseTaxRateList : option rate_list
}.

Section Taxes.
Context {num : Type}.

(** A TaxRate *)
Record rate := {
  RateValue : option num
}.

(** What the methods read of the migrator and of the site.  The two
    dictionaries are keyed by ["Id"], in insertion order; [None] is
    an attribute that was not set. *)
Record context := {
  tax_codes : option (list (string * code));
  tax_rates : option (list (string * rate));
  _get_account_name_by_id : string -> result string;
  default_cost_center : option string
}.

Variable self : context.

Definition attribute {A} (o : option A) : result A :=
  match o with
  | Some x => Ok x
  | None => Raise AttributeError
  end.

Fixpoint lookup {A} (k : string) (d : list (string * A)) : option A :=
  match d with
  | [] => None
  | (k', v) :: rest => if String.eqb k' k then Some v else lookup k rest
  end.

(** The rate lists that the tax code has, in the order of
    [("SalesTaxRateList", "PurchaseTaxRateList")]. *)
Definition rate_lists (tax_code : code) : list rate_list :=
  match SalesTaxRateList tax_code with Some l => [l] | None => [] end
  ++ match PurchaseTaxRateList tax_code with Some l => [l] | None => [] end.

(** *** [_get_tax_type] *)

Fixpoint type_in_details (tax_rate : string) (details : list rate_detail)
  : result (option string) :=
  match details with
  | [] => Ok None
  | tax_rate_detail :: rest =>
      ref <- Py.getitem (rd_TaxRateRef tax_rate_detail) ;;
      if String.eqb ref tax_rate then
        t <- Py.getitem (TaxTypeApplicable tax_rate_detail) ;;
        Ok (Some t)
      else type_in_details tax_rate rest
  end.

Fixpoint type_in_lists (tax_rate : string) (lists : list rate_list)
  : result (option string) :=
  match lists with
  | [] => Ok None
  | l :: rest =>
      details <- Py.getitem (TaxRateDetail l) ;;
      found <- type_in_details tax_rate details ;;
      match found with
      | Some t => Ok (Some t)
      | None => type_in_lists tax_rate rest
      end
  end.

Fixpoint type_in_codes (tax_rate : string) (codes : list code)
  : result (option string) :=
  match codes with
  | [] => Ok None
  | tax_code :: rest =>
      found <- type_in_lists tax_rate (rate_lists tax_code) ;;
      match found with
      | Some t => Ok (Some t)
      | None => type_in_codes tax_rate rest
      end
  end.

(** The type of the first detail of the rate; [None] when no tax
    code has the rate. *)
Definition _get_tax_type (tax_rate : string) : result (option string) :=
  codes <- attribute (tax_codes self) ;;
  type_in_codes tax_rate (map snd codes).

(** *** [_get_parent_tax_rate] *)

(** The first loop over the details: [parent] is overwritten at
    every detail of the rate. *)
Fixpoint order_in_details (tax_rate : string) (details : list rate_detail)
         (parent : option Z) : result (option Z) :=
  match details with
  | [] => Ok parent
  | tax_rate_detail :: rest =>
      ref <- Py.getitem (rd_TaxRateRef tax_rate_detail) ;;
      if String.eqb ref tax_rate then
        order <- Py.getitem (TaxOnTaxOrder tax_rate_detail) ;;
        order_in_details tax_rate rest (Some order)
      else order_in_details tax_rate rest parent
  end.

(** The second loop: the rate of the first detail at that order. *)
Fixpoint rate_at_order (parent : Z) (details : list rate_detail)
  : result (option string) :=
  match details with
  | [] => Ok None
  | tax_rate_detail :: rest =>
      order <- Py.getitem (TaxOrder tax_rate_detail) ;;
      if (order =? parent)%Z then
        ref <- Py.getitem (rd_TaxRateRef tax_rate_detail) ;;
        Ok (Some ref)
      else rate_at_order parent rest
  end.

(** [if parent:] *)
Definition set_order (parent : option Z) : option Z :=
  match parent with
  | Some p => if (p =? 0)%Z then None else Some p
  | None => None
  end.

(** The loops return the rate ([inl]) or go on with [parent]
    ([inr]): [parent] is not reset from one list, or one tax code,
    to the next. *)
Fixpoint parent_in_lists (tax_rate : string) (lists : list rate_list)
         (parent : option Z) : result (string + option Z) :=
  match lists with
  | [] => Ok (inr parent)
  | l :: rest =>
      details <- Py.getitem (TaxRateDetail l) ;;
      parent <- order_in_details tax_rate details parent ;;
      match set_order parent with
      | Some p =>
          found <- rate_at_order p details ;;
          match found with
          | Some r => Ok (inl r)
          | None => parent_in_lists tax_rate rest parent
          end
      | None => parent_in_lists tax_rate rest parent
      end
  end.

Fixpoint parent_in_codes (tax_rate : string) (codes : list code)
         (parent : option Z) : result (option string) :=
  match codes with
  | [] => Ok None
  | tax_code :: rest =>
      found <- parent_in_lists tax_rate (rate_lists tax_code) parent ;;
      match found with
      | inl r => Ok (Some r)
      | inr parent => parent_in_codes tax_rate rest parent
      end
  end.

Definition _get_parent_tax_rate (tax_rate : string) : result (option string) :=
  codes <- attribute (tax_codes self) ;;
  parent_in_codes tax_rate (map snd codes) None.

(** *** [_get_parent_row_id] *)

(** ["{}".format(tax_rate)] *)
Definition format (tax_rate : option string) : string :=
  match tax_rate with
  | Some r => r
  | None => "None"
  end.

(** [tax["account_head"] == tax_account] *)
Definition is_str (v : value num) (s : string) : bool :=
  match v with
  | VStr x => String.eqb x s
  | _ => false
  end.

(** [index + 1] of the first row of the account, [index] counted
    from [index0]. *)
Fixpoint row_of_account (tax_account : string) (taxes : list (dict num)) (index0 : nat)
  : result (option nat) :=
  match taxes with
  | [] => Ok None
  | tax :: rest =>
      head <- Py.getitem (dict_get tax "account_head") ;;
      if is_str head tax_account then Ok (Some (index0 + 1)%nat)
      else row_of_account tax_account rest (S index0)
  end.

Definition _get_parent_row_id (tax_rate : option string) (taxes : list (dict num))
  : result (option nat) :=
  tax_account <- _get_account_name_by_id self ("TaxRate - " ++ format tax_rate) ;;
  row_of_account tax_account taxes 0.

(** *** [_get_taxes] *)

Definition cost_center : value num :=
  match default_cost_center self with
  | Some s => VStr s
  | None => VNone
  end.

Definition row_id (parent_row_id : option nat) : value num :=
  match parent_row_id with
  | Some i => VInt (Z.of_nat i)
  | None => VNone
  end.

Definition is_some_str (o : option string) (s : string) : bool :=
  match o with
  | Some x => String.eqb x s
  | None => false
  end.

(** One turn of the loop. *)
Definition taxes_step (taxes : list (dict num)) (line : tax_line num)
  : result (list (dict num)) :=
  tax_rate <- Py.getitem (TaxRateRef line) ;;
  account_head <- _get_account_name_by_id self ("TaxRate - " ++ tax_rate) ;;
  tax_type_applicable <- _get_tax_type tax_rate ;;
  if is_some_str tax_type_applicable "TaxOnAmount" then
    Ok (taxes ++ [[("charge_type", VStr "On Net Total");
                   ("account_head", VStr account_head);
                   ("description", VStr account_head);
                   ("cost_center", cost_center);
                   ("rate", VInt 0)]])
  else
    parent_tax_rate <- _get_parent_tax_rate tax_rate ;;
    parent_row_id <- _get_parent_row_id parent_tax_rate taxes ;;
    percent <- Py.getitem (TaxPercent line) ;;
    Ok (taxes ++ [[("charge_type", VStr "On Previous Row Amount");
                   ("row_id", row_id parent_row_id);
                   ("account_head", VStr account_head);
                   ("description", VStr account_head);
                   ("cost_center", cost_center);
                   ("rate", VNum percent)]]).

Fixpoint taxes_loop (lines : list (tax_line num)) (taxes : list (dict num))
  : result (list (dict num)) :=
  match lines with
  | [] => Ok taxes
  | line :: rest =>
      taxes <- taxes_step taxes line ;;
      taxes_loop rest taxes
  end.

Definition _get_taxes (entry : txn num) : result (list (dict num)) :=
  match TxnTaxDetail entry with
  | None => Ok []
  | Some detail =>
      match TaxLine detail with
      | None => Ok []
      | Some lines => taxes_loop lines []
      end
  end.

(** *** [_get_item_taxes] *)

(** The loop over the details of one rate list. *)
Fixpoint item_taxes_of_details (rates : list (string * rate))
         (details : list rate_detail) (item_taxes : dict num) : result (dict num) :=
  match details with
  | [] => Ok item_taxes
  | tax_rate_detail :: rest =>
      t <- Py.getitem (TaxTypeApplicable tax_rate_detail) ;;
      if String.eqb t "TaxOnAmount" then
        ref <- Py.getitem (rd_TaxRateRef tax_rate_detail) ;;
        tax_head <- _get_account_name_by_id self ("TaxRate - " ++ ref) ;;
        tax_rate <- Py.getitem (lookup ref rates) ;;
        value <- Py.getitem (RateValue tax_rate) ;;
        item_taxes_of_details rates rest (dict_set item_taxes tax_head (VNum value))
      else item_taxes_of_details rates rest item_taxes
  end.

Fixpoint item_taxes_of_lists (rates : list (string * rate)) (lists : list rate_list)
         (item_taxes : dict num) : result (dict num) :=
  match lists with
  | [] => Ok item_taxes
  | l :: rest =>
      details <- Py.getitem (TaxRateDetail l) ;;
      item_taxes <- item_taxes_of_details rates details item_taxes ;;
      item_taxes_of_lists rates rest item_taxes
  end.

Definition _get_item_taxes (tax_code : string) : result (dict num) :=
  rates <- attribute (tax_rates self) ;;
  if negb (String.eqb tax_code "NON") then
    codes <- attribute (tax_codes self) ;;
    tax_code <- Py.getitem (lookup tax_code codes) ;;
    item_taxes_of_lists rates (rate_lists tax_code) []
  else Ok [].

End Taxes.

Arguments rate : clear implicits.
Arguments context : clear implicits.

End Taxes.

(** ** Vocabulary of the statements *)

Module Spec.
Import Http.

Section Retry.
Context {World Body : Type} (R : remote World Body).

(** [k] rounds of "401, then a successful refresh". *)
Fixpoint rounds (k : nat) : list event :=
  match k with
  | O => []
  | S k' => Sent (Some 401%Z) :: Refreshed true :: rounds k'
  end.

(** What a call that started in [c] with [depth] frames left did:
    [k] rounds, and then one of four ends. *)
Definition retry_shape (depth : nat) (c : conn World)
           (run : result (response Body) * conn World) : Prop :=
  exists k, k <= depth /\
    let (r, c') := run in
    (k = depth /\ r = Raise RecursionError /\ trace c' = trace c ++ rounds k)
    \/
    (k < depth /\ exists tail, trace c' = trace c ++ rounds k ++ tail /\
       ((exists resp, r = Ok resp /\ status_code resp <> 401%Z
                      /\ tail = [Sent (Some (status_code resp))])
        \/ (exists e, r = Raise e /\ tail = [Sent None])
        \/ (exists c1 e, r = Raise e
                         /\ _refresh_tokens R c1 = (Raise e, c')
                         /\ tail = [Sent (Some 401%Z); Refreshed false]))).

Definition refreshes (t : list event) : nat :=
  List.length (filter (fun ev => match ev with Refreshed _ => true | _ => false end) t).

End Retry.

(** A service that answers 401 to its first two requests and 200 from
    then on; its state counts the requests served. *)
Definition twice_unauthorized : remote nat unit :=
  {| requests_get := fun _ _ n =>
       (Ok {| status_code := if (n <? 2)%nat then 401%Z else 200%Z; json := tt |}, S n);
     requests_post := fun _ _ n =>
       (Ok {| status_code := if (n <? 2)%nat then 401%Z else 200%Z; json := tt |}, S n);
     oauth_refresh_token := fun r n => (Ok ("access", r), n) |}.

Definition fresh_conn : conn nat :=
  {| access_token := "expired"; refresh_token := "refresh"; world := 0; trace := [] |}.

(** A service that answers from fixed source data, whatever the
    token: for a count, the length of the entity's table; for a
    select, the window of [max_results] records from position
    [start_position] (counted from 1), the entity's key being missing
    when the window is empty; for a report, the report's rows. *)
Section Table.
Context {Record_ : Type} (table : string -> list Record_)
        (report : option (list Ledger.row)).

Definition window (l : list Record_) (start_position max_results : Z) : list Record_ :=
  firstn (Z.to_nat max_results) (skipn (Z.to_nat (start_position - 1)) l).

Definition answer (args : request) : response (Fetcher.body Record_) :=
  match args with
  | CountQuery entity =>
      {| status_code := 200%Z;
         json := {| Fetcher.QueryResponse :=
                      Some {| Fetcher.totalCount :=
                                Some (Z.of_nat (List.length (table entity)));
                              Fetcher.entities := None |};
                    Fetcher.Rows := None |} |}
  | SelectQuery entity start_position max_results =>
      {| status_code := 200%Z;
         json := {| Fetcher.QueryResponse :=
                      Some {| Fetcher.totalCount := None;
                              Fetcher.entities :=
                                match window (table entity) start_position max_results with
                                | [] => None
                                | page => Some page
                                end |};
                    Fetcher.Rows := None |} |}
  | ReportQuery _ =>
      {| status_code := 200%Z;
         json := {| Fetcher.QueryResponse := None; Fetcher.Rows := report |} |}
  | Create _ =>
      {| status_code := 400%Z;
         json := {| Fetcher.QueryResponse := None; Fetcher.Rows := None |} |}
  end.

Definition serves {World : Type} (R : remote World (Fetcher.body Record_)) : Prop :=
  forall args token w, fst (requests_get R args token w) = Ok (answer args).

(** The service itself, without a state. *)
Definition table_service : remote unit (Fetcher.body Record_) :=
  {| requests_get := fun args _ w => (Ok (answer args), w);
     requests_post := fun args _ w => (Ok (answer args), w);
     oauth_refresh_token := fun r w => (Ok ("access", r), w) |}.

End Table.

(** *** General Ledger *)

Section LedgerSpec.
Import Ledger.
Context {num : Type} `{Number num} (ctx : context num).

(** The lines of a section in the order in which the recursive walk
    meets them (document order: a nested section's rows stand where
    the section stands among its parent's rows). *)
Fixpoint walk_order (section : row) (account : option string) : list (line num) :=
  match section with
  | Section Header (Some rows) =>
      match resolve_header ctx Header account with
      | Go (Ok account) =>
          (fix go (rows : list row) : list (line num) :=
             match rows with
             | [] => []
             | r :: rest =>
                 match r with
                 | Data data =>
                     match data_line ctx account data with
                     | Ok l => [l]
                     | Raise _ => []
                     end
                 | Section _ _ => walk_order r account
                 | Other _ => []
                 end ++ go rest
             end) rows
      | _ => []
      end
  | _ => []
  end.

Definition walk_rows (account : option string) : list row -> list (line num) :=
  fix go (rows : list row) : list (line num) :=
    match rows with
    | [] => []
    | r :: rest =>
        match r with
        | Data data =>
            match data_line ctx account data with
            | Ok l => [l]
            | Raise _ => []
            end
        | Section _ _ => walk_order r account
        | Other _ => []
        end ++ go rest
    end.

Definition report_walk_order (report : list row) : list (line num) :=
  flat_map (fun r => match r with
                     | Section _ _ => walk_order r None
                     | _ => []
                     end) report.

(** The lines that the Data rows standing in the section itself
    make. *)
Definition own_lines (account : option string) : list row -> list (line num) :=
  flat_map (fun r => match r with
                     | Data data =>
                         match data_line ctx account data with
                         | Ok l => [l]
                         | Raise _ => []
                         end
                     | _ => []
                     end).

(** The sections of a walk in the order in which they are completed,
    a section after the sections inside it, each with its account
    and the lines of its own rows. *)
Fixpoint completed (section : row) (account : option string)
  : list (option string * list (line num)) :=
  match section with
  | Section Header (Some rows) =>
      match resolve_header ctx Header account with
      | Go (Ok account) =>
          (fix go (rows : list row) : list (option string * list (line num)) :=
             match rows with
             | [] => []
             | r :: rest =>
                 match r with
                 | Section _ _ => completed r account
                 | _ => []
                 end ++ go rest
             end) rows
          ++ [(account, own_lines account rows)]
      | _ => []
      end
  | _ => []
  end.

Definition completed_rows (account : option string)
  : list row -> list (option string * list (line num)) :=
  fix go (rows : list row) : list (option string * list (line num)) :=
    match rows with
    | [] => []
    | r :: rest =>
        match r with
        | Section _ _ => completed r account
        | _ => []
        end ++ go rest
    end.

Definition report_completed (report : list row)
  : list (option string * list (line num)) :=
  completed_rows None report.

(** The keys in the order in which each stands first. *)
Fixpoint first_occurrences (keys : list (option string)) : list (option string) :=
  match keys with
  | [] => []
  | k :: rest => k :: filter (fun k' => negb (key_eqb k' k)) (first_occurrences rest)
  end.

(** The lines of the sections of one account, section after
    section. *)
Definition lines_of_account (sections : list (option string * list (line num)))
           (account : option string) : list (line num) :=
  flat_map snd (filter (fun p => key_eqb (fst p) account) sections).

(** The dictionary that has the accounts in the order of their first
    completed section, each with the lines of all its sections: of a
    section its own rows, and the sections in the order in which
    they are completed. *)
Definition by_account (sections : list (option string * list (line num)))
  : gl_entries_t num :=
  map (fun account => (account, lines_of_account sections account))
      (first_occurrences (map fst sections)).

(** The Data rows that the walk of a section reads, each with the
    account of the section in which it stands: the account that the
    section's header gives, or else the account of the section
    around it.  A section whose header is "Not Specified", or whose
    account cannot be found, has none. *)
Fixpoint read_rows (section : row) (account : option string)
  : list (option string * list col) :=
  match section with
  | Section Header (Some rows) =>
      match resolve_header ctx Header account with
      | Go (Ok account) =>
          (fix go (rows : list row) : list (option string * list col) :=
             match rows with
             | [] => []
             | r :: rest =>
                 match r with
                 | Data data => [(account, data)]
                 | Section _ _ => read_rows r account
                 | Other _ => []
                 end ++ go rest
             end) rows
      | _ => []
      end
  | _ => []
  end.

Definition rows_read (account : option string)
  : list row -> list (option string * list col) :=
  fix go (rows : list row) : list (option string * list col) :=
    match rows with
    | [] => []
    | r :: rest =>
        match r with
        | Data data => [(account, data)]
        | Section _ _ => read_rows r account
        | Other _ => []
        end ++ go rest
    end.

(** Of the rows of the report itself only the sections are
    walked. *)
Definition report_read_rows (report : list row) : list (option string * list col) :=
  flat_map (fun r => match r with
                     | Section _ _ => read_rows r None
                     | _ => []
                     end) report.

(** The line is what [data_line] makes of one of the rows, with the
    account of its section. *)
Definition built_from (read : list (option string * list col)) (l : line num) : Prop :=
  exists account data, In (account, data) read /\ data_line ctx account data = Ok l.

(** The lines of [self.gl_entries], account after account. *)
Definition flattened (g : gl_entries_t num) : list (line num) := List.concat (map snd g).

Definition walk_builds (r : row) : Prop :=
  forall account g l,
    In l (flattened (snd (_get_gl_entries_from_section ctx r account g))) ->
    In l (flattened g) \/ built_from (read_rows r account) l.

(** The line belongs to transaction [i] of type [t]. *)
Definition of_transaction (t : string) (i : option string) (l : line num) : bool :=
  String.eqb (type_ l) t && key_eqb (id_ l) i.

(** The entry that the lines [ls] of one transaction make, in that
    order: the id and the date are those of the first line. *)
Definition entry_of (ls : list (line num)) : option (entry num) :=
  match ls with
  | [] => None
  | l :: _ => Some {| entry_id := id_ l; entry_date := date l; lines := ls |}
  end.

(** A header whose account column has no id and the display name
    "Not Specified". *)
Definition not_specified (r : row) : bool :=
  match r with
  | Section (Some (c0 :: _)) _ =>
      match id c0, value c0 with
      | None, Some v => String.eqb v "Not Specified"
      | _, _ => false
      end
  | _ => false
  end.

(** The report without its "Not Specified" sections, at any depth. *)
Fixpoint prune (r : row) : row :=
  match r with
  | Section Header (Some rows) =>
      Section Header
              (Some ((fix go (rows : list row) : list row :=
                        match rows with
                        | [] => []
                        | r :: rest =>
                            if not_specified r then go rest else prune r :: go rest
                        end) rows))
  | _ => r
  end.

Definition prune_rows : list row -> list row :=
  fix go (rows : list row) : list row :=
    match rows with
    | [] => []
    | r :: rest => if not_specified r then go rest else prune r :: go rest
    end.

(** Statements proved by induction on the report tree. *)
Definition walk_keeps_lines (r : row) : Prop :=
  forall account g g',
    _get_gl_entries_from_section ctx r account g = (Ok tt, g') ->
    Permutation (flattened g') (flattened g ++ walk_order r account).

Definition pruning_is_invisible (r : row) : Prop :=
  forall account g,
    _get_gl_entries_from_section ctx (prune r) account g
    = _get_gl_entries_from_section ctx r account g.

(** The entry [o], if any, with the lines [ls] appended. *)
Definition with_lines (o : option (entry num)) (ls : list (line num))
  : option (entry num) :=
  match o with
  | None => entry_of ls
  | Some e => Some {| entry_id := entry_id e; entry_date := entry_date e;
                      lines := lines e ++ ls |}
  end.

(** [Q] holds of the type and the id of every entry. *)
Definition every_entry (Q : string -> option string -> Prop)
           (general_ledger : general_ledger_t num) : Prop :=
  forall t type_dict, In (t, type_dict) general_ledger ->
                      forall i e, In (i, e) type_dict -> Q t (entry_id e).

Definition in_type_dict (type_dict : list (option string * entry num))
           (i : option string) : option (entry num) :=
  match find (fun p => key_eqb (fst p) i) type_dict with
  | None => None
  | Some (_, e) => Some e
  end.

End LedgerSpec.

(** A report in which one transaction (Invoice 7) has a line in a
    parent account, met first, and a line in its sub-account. *)
Definition identity_context : Ledger.context Z :=
  {| Ledger.flt := fun s => if String.eqb s "" then 0%Z else 100%Z;
     Ledger._get_account_name_by_id := fun i => Ok i;
     Ledger.accounts_Id := fun _ => Raise KeyError |}.

Definition data_row (d ty i cr db : string) : Ledger.row :=
  Ledger.Data [ {| Ledger.value := Some d; Ledger.id := None |};
                {| Ledger.value := Some ty; Ledger.id := Some i |};
                {| Ledger.value := Some cr; Ledger.id := None |};
                {| Ledger.value := Some db; Ledger.id := None |} ].

Definition header (name i : string) : option (list Ledger.col) :=
  Some [ {| Ledger.value := Some name; Ledger.id := Some i |} ].

Definition parent_and_child_report : list Ledger.row :=
  [ Ledger.Section (header "Receivable" "84")
      (Some [ data_row "2020-01-01" "Invoice" "7" "" "100.00";
              Ledger.Section (header "Receivable:Retail" "85")
                (Some [ data_row "2020-01-02" "Invoice" "7" "100.00" "" ]) ]) ].

(** *** Fiscal years *)

Section FiscalSpec.
Import Dates FiscalYears.

(** Two fiscal years share a day. *)
Definition overlap (a b : fiscal_year) : bool :=
  leb (year_start_date a) (year_end_date b)
  && leb (year_start_date b) (year_end_date a).

(** Each year of [created] starts and ends one calendar year
    ([shift_years] by [-1]) before the year before it, the first of
    them before [previous]. *)
Fixpoint one_year_steps (previous : fiscal_year) (created : list fiscal_year) : Prop :=
  match created with
  | [] => True
  | f :: rest =>
      year_start_date f = shift_years (year_start_date previous) (-1)
      /\ year_end_date f = shift_years (year_end_date previous) (-1)
      /\ one_year_steps f rest
  end.

(** What the loop keeps true of the oldest fiscal year. *)
Definition well_formed (f : fiscal_year) : Prop :=
  (day (year_start_date f)
   <= days_in_month (year (year_start_date f)) (month (year_start_date f)))%Z
  /\ (year (year_start_date f) <= MAXYEAR)%Z
  /\ (year (year_start_date f) <= year (year_end_date f))%Z
  /\ ltb (year_end_date f) (shift_years (year_start_date f) 1) = true.

Definition accepts_all : fiscal_year -> list fiscal_year -> result unit :=
  fun _ _ => Ok tt.

Definition date_of (y m d : Z) : date := {| year := y; month := m; day := d |}.

Definition fy_2020 : fiscal_year :=
  {| year_start_date := date_of 2020 1 1; year_end_date := date_of 2020 12 31;
     year_ := Named "2020" |}.

(** A fiscal year that ends on the anniversary of its start. *)
Definition fy_long : fiscal_year :=
  {| year_start_date := date_of 2020 1 1; year_end_date := date_of 2021 1 1;
     year_ := Named "2020" |}.

(** A fiscal year from a 29 February to the 28 February of the next
    year. *)
Definition fy_leap : fiscal_year :=
  {| year_start_date := date_of 2020 2 29; year_end_date := date_of 2021 2 28;
     year_ := Named "2020-2021" |}.

End FiscalSpec.

(** *** The migrator *)

Section MigratorSpec.
Import Site Migrator.
Context {World num : Type} `{Number num}.

(** The computation leaves the state as it is. *)
Definition readonly {A} (m : @M World num A) : Prop :=
  forall st, snd (m st) = st.

(** The computation writes neither documents nor fiscal years. *)
Definition inserts_nothing {A} (m : @M World num A) (st : @state World num) : Prop :=
  docs (db (snd (m st))) = docs (db st)
  /\ fiscal_years (db (snd (m st))) = fiscal_years (db st).

(** The amount a posting line carries on one side; a line without
    the field counts for zero. *)
Definition amount_of (field : string) (posting : dict num) : num :=
  match dict_get posting field with
  | Some (VNum x) => x
  | _ => zero
  end.

Definition total (amounts : list num) : num := fold_left add amounts zero.

Definition total_debit (accounts : list (dict num)) : num :=
  total (map (amount_of "debit_in_account_currency") accounts).

Definition total_credit (accounts : list (dict num)) : num :=
  total (map (amount_of "credit_in_account_currency") accounts).

(** The posting line carries the non-zero side of the ledger line,
    and only that side. *)
Definition carries_nonzero_side (l : Ledger.line num) (posting : dict num) : Prop :=
  (truthy (Ledger.credit l) = true ->
   dict_get posting "credit_in_account_currency" = Some (VNum (Ledger.credit l))
   /\ dict_get posting "debit_in_account_currency" = None)
  /\ (truthy (Ledger.debit l) = true ->
      dict_get posting "debit_in_account_currency" = Some (VNum (Ledger.debit l))
      /\ dict_get posting "credit_in_account_currency" = None).

(** Exactly one of credit and debit is non-zero. *)
Definition one_sided (l : Ledger.line num) : Prop :=
  xorb (truthy (Ledger.credit l)) (truthy (Ledger.debit l)) = true.

(** [stored] is the document [d] as the framework keeps it: the
    fields of [d], and a name and a status. *)
Definition stored_form (d stored : dict num) : Prop :=
  forall k, k <> "name" -> k <> "docstatus" -> dict_get stored k = dict_get d k.

(** The item [negated] is [item] with its quantity times [-1]. *)
Definition qty_negated (item negated : dict num) : Prop :=
  (forall k, k <> "qty" -> dict_get negated k = dict_get item k)
  /\ exists q q', dict_get item "qty" = Some q
                  /\ times_minus_one q = Ok q'
                  /\ dict_get negated "qty" = Some q'.

(** Whatever the computation adds to the documents satisfies [Q];
    it takes none away, and no fiscal year. *)
Definition adds (Q : dict num -> Prop) {A} (m : @M World num A) : Prop :=
  forall st,
    (exists new, docs (db (snd (m st))) = docs (db st) ++ new /\ Forall Q new)
    /\ exists created,
        fiscal_years (db (snd (m st))) = fiscal_years (db st) ++ created.

Definition is_a (doctype : string) (d : dict num) : Prop :=
  dict_get d "doctype" = Some (VStr doctype).

(** The two runs of [_get_si_items], for a sale and for a return,
    fail together or give the same items but for the quantities. *)
Definition same_but_negated (sale return_ : result (list (dict num))) : Prop :=
  match sale, return_ with
  | Ok items, Ok negated => Forall2 qty_negated items negated
  | Raise _, Raise _ => True
  | _, _ => False
  end.

(** What a stored Sales Invoice says of the record it was made
    from: its id, whether it is a return, and the items of
    [_get_si_items]. *)
Definition made_from (L : @library num) (T : @tax_methods World num)
           (invoice : QuickBooks.txn num)
           (quickbooks_id : string) (is_return : bool)
           (st : @state World num) (d : dict num) : Prop :=
  is_a "Sales Invoice" d
  /\ dict_get d "quickbooks_id" = Some (VStr quickbooks_id)
  /\ dict_get d "is_return" = Some (VBool is_return)
  /\ exists items, fst (_get_si_items L T invoice is_return st) = Ok items
                   /\ dict_get d "items" = Some (VTable items).

(** *** Invoices *)

Section InvoiceSpec.
Import QuickBooks.

(** The lines of which [_get_si_items] makes an item. *)
Definition item_lines (lines : list (txn_line num)) : list (txn_line num) :=
filter (fun line => String.eqb (DetailType line) "SalesItemLineDetail") lines.

(** The item has the quantity and the rate of the line; the item of
  a shipping line is one unit at the amount of the line.  For a
  return the quantity is multiplied by [-1]. *)
Definition item_of_line (is_return : bool) (line : txn_line num) (item : dict num)
: Prop :=
exists detail item_ref,
  SalesItemLineDetail line = Some detail
  /\ ItemRef detail = Some item_ref
  /\ if String.eqb item_ref "SHIPPING_ITEM_ID"
     then exists amount,
         Amount line = Some amount
         /\ dict_get item "qty" = Some (VInt (if is_return then -1 else 1))
         /\ dict_get item "price_list_rate" = Some (VNum amount)
     else exists qty price,
         Qty detail = Some qty
         /\ UnitPrice detail = Some price
         /\ dict_get item "qty" = Some (VNum (if is_return then neg qty else qty))
         /\ dict_get item "price_list_rate" = Some (VNum price).

(** The stored document is a Sales Invoice of the record: under the
  given id, a return or not, with one item for each item line of
  the record, in order. *)
Definition sales_invoice_of (invoice : txn num) (quickbooks_id : string)
         (is_return : bool) (d : dict num) : Prop :=
is_a "Sales Invoice" d
/\ dict_get d "quickbooks_id" = Some (VStr quickbooks_id)
/\ dict_get d "is_return" = Some (VBool is_return)
/\ exists lines items,
    Line invoice = Some lines
    /\ dict_get d "items" = Some (VTable items)
    /\ Forall2 (item_of_line is_return) (item_lines lines) items.

(** The posting is on the account of the ledger line, with the debit
  of the line, or else its credit. *)
Definition posting_of_line (l : Ledger.line num) (posting : dict num) : Prop :=
dict_get posting "account" = Some (vstr (Ledger.account l))
/\ dict_get posting "debit_in_account_currency"
   = (if truthy (Ledger.debit l) then Some (VNum (Ledger.debit l)) else None)
/\ dict_get posting "credit_in_account_currency"
   = (if truthy (Ledger.debit l) then None
      else if truthy (Ledger.credit l) then Some (VNum (Ledger.credit l))
           else None).

(** The stored document is the Journal Entry of the invoice: under
  the given id, with one posting for each line that the
  reconstructed ledger has for the invoice, in order. *)
Definition journal_entry_of_invoice (invoice : txn num) (quickbooks_id : string)
         (st : @state World num) (d : dict num) : Prop :=
is_a "Journal Entry" d
/\ dict_get d "quickbooks_id" = Some (VStr quickbooks_id)
/\ exists g entry postings,
    general_ledger (self st) = Some g
    /\ Ledger.lookup_entry g "Invoice" (Some (Id invoice)) = Some entry
    /\ dict_get d "accounts" = Some (VTable postings)
    /\ Forall2 posting_of_line (Ledger.lines entry) postings.

(** The customer of the invoice is in the database. *)
Definition has_customer (invoice : txn num) (st : @state World num) : Prop :=
exists ref, CustomerRef invoice = Some ref
            /\ db_exists (docs (db st))
                         [("doctype", "Customer"); ("quickbooks_id", ref);
                          ("company", company (self st))] = true.

End InvoiceSpec.

(** *** A target that is already populated *)

(** [m], started in a state that satisfies [P], ends, with a value
    or with an exception, in a state that satisfies [Q]. *)
Definition hoare (P : @state World num -> Prop) {A} (m : @M World num A)
           (Q : @state World num -> Prop) : Prop :=
  forall st, P st -> Q (snd (m st)).

Definition keeps (I : @state World num -> Prop) {A} (m : @M World num A) : Prop :=
  hoare I m I.

(** The two states have the same documents, fiscal years, company
    and reconstructed ledger. *)
Definition frame (st st' : @state World num) : Prop :=
  docs (db st') = docs (db st)
  /\ fiscal_years (db st') = fiscal_years (db st)
  /\ company (self st') = company (self st)
  /\ general_ledger (self st') = general_ledger (self st).

(** [I] looks at nothing else. *)
Definition framed (I : @state World num -> Prop) : Prop :=
  forall st st', frame st st' -> I st -> I st'.

(** The filters of the existence check that stands before an
    insert. *)
Definition gate (doctype quickbooks_id company : string) : filters :=
  [("doctype", doctype); ("quickbooks_id", quickbooks_id); ("company", company)].

(** In every state that satisfies [I] the check finds a document. *)
Definition gated (I : @state World num -> Prop) (doctype quickbooks_id : string)
  : Prop :=
  forall st, I st ->
             db_exists (docs (db st)) (gate doctype quickbooks_id (company (self st)))
             = true.

Definition creatable (i : QuickBooks.item) : bool :=
  match QuickBooks.item_Type i with
  | Some ty => String.eqb ty "Service" || String.eqb ty "Inventory"
  | None => false
  end.

(** The existence checks, as doctype and quickbooks id, that stand
    before the inserts of the method that saves [r] as an [entity]:
    none when the method inserts nothing whatever the database
    holds. *)
Definition gate_of (entity : string) (r : QuickBooks.entity_record num)
  : list (string * string) :=
  let for_ k := String.eqb k entity in
  match r with
  | QuickBooks.AccountRecord a =>
      if for_ "Account" then [("Account", QuickBooks.account_Id a)] else []
  | QuickBooks.TaxRateRecord t =>
      if for_ "TaxRate"
      then [("Account", "TaxRate - " ++ QuickBooks.tax_rate_Id t)%string]
      else []
  | QuickBooks.TaxCodeRecord _ => []
  | QuickBooks.PreferencesRecord _ => []
  | QuickBooks.PartyRecord p =>
      if for_ "Customer" then [("Customer", QuickBooks.party_Id p)]
      else if for_ "Vendor" then [("Supplier", QuickBooks.party_Id p)]
      else []
  | QuickBooks.ItemRecord i =>
      if for_ "Item" && creatable i then [("Item", QuickBooks.item_Id i)] else []
  | QuickBooks.TxnRecord t =>
      let id := QuickBooks.Id t in
      if for_ "Invoice" then
        match QuickBooks.LinkedTxn t with
        | None => []
        | Some linked =>
            if existsb is_charge linked
            then [("Journal Entry", "Invoice - " ++ id)%string]
            else [("Sales Invoice", "Invoice - " ++ id)%string]
        end
      else if for_ "CreditMemo" then [("Sales Invoice", "Credit Memo - " ++ id)%string]
      else if for_ "SalesReceipt"
      then [("Sales Invoice", "Sales Receipt - " ++ id)%string]
      else if for_ "RefundReceipt"
      then [("Sales Invoice", "Refund Receipt - " ++ id)%string]
      else if for_ "JournalEntry"
      then [("Journal Entry", "Journal Entry - " ++ id)%string]
      else if for_ "Bill" then [("Purchase Invoice", "Bill - " ++ id)%string]
      else if for_ "VendorCredit"
      then [("Purchase Invoice", "Vendor Credit - " ++ id)%string]
      else if for_ "Payment" then
        match QuickBooks.DepositToAccountRef t with
        | None => []
        | Some _ => [("Journal Entry", "Payment - " ++ id)%string]
        end
      else if for_ "BillPayment"
      then [("Journal Entry", "BillPayment - " ++ id)%string]
      else if for_ "Purchase" then [("Journal Entry", "Purchase - " ++ id)%string]
      else if for_ "Deposit" then [("Journal Entry", "Deposit - " ++ id)%string]
      else []
  | QuickBooks.LedgerRecord e =>
      let id := format_id (Ledger.entry_id e) in
      if for_ "Advance Payment"
      then [("Journal Entry", "Advance Payment - " ++ id)%string]
      else if for_ "Tax Payment" || for_ "Sales Tax Payment" || for_ "Purchase Tax Payment"
      then [("Journal Entry", "Tax Payment - " ++ id)%string]
      else if for_ "Inventory Qty Adjust"
      then [("Journal Entry", "Inventory Qty Adjust - " ++ id)%string]
      else []
  end.

(** Every check of [gate_of] finds its document. *)
Definition settled (docs : list (dict num)) (c : string) (entity : string)
           (r : QuickBooks.entity_record num) : Prop :=
  Forall (fun p => db_exists docs (gate (fst p) (snd p) c) = true) (gate_of entity r).

(** The [ColData] of the Data rows that the walk of the report can
    reach: those of the sections that are not "Not Specified", at
    any depth. *)
Fixpoint data_rows (r : Ledger.row) : list (list Ledger.col) :=
  match r with
  | Ledger.Data data => [data]
  | Ledger.Section _ (Some rows) =>
      if not_specified r then []
      else (fix go (rows : list Ledger.row) : list (list Ledger.col) :=
              match rows with
              | [] => []
              | r :: rest => data_rows r ++ go rest
              end) rows
  | _ => []
  end.

Definition rows_data : list Ledger.row -> list (list Ledger.col) :=
  fix go (rows : list Ledger.row) : list (list Ledger.col) :=
    match rows with
    | [] => []
    | r :: rest => data_rows r ++ go rest
    end.

(** Of the rows of the report itself only the sections are walked. *)
Definition report_data (report : list Ledger.row) : list (list Ledger.col) :=
  flat_map (fun r => match r with
                     | Ledger.Section _ _ => data_rows r
                     | _ => []
                     end) report.

(** The line has the date, the type and the id of one of the rows:
    it is what [data_line] makes of the row, for some account and
    some reading of the amounts. *)
Definition sourced (rows : list (list Ledger.col)) (l : Ledger.line num) : Prop :=
  exists ctx account data, In data rows /\ Ledger.data_line ctx account data = Ok l.

Definition walk_is_sourced (ctx : Ledger.context num) (r : Ledger.row) : Prop :=
  forall account g l,
    In l (flattened (snd (Ledger._get_gl_entries_from_section ctx r account g))) ->
    In l (flattened g) \/ sourced (data_rows r) l.

Definition custom_field (doctype fieldname : string) : filters :=
  [("doctype", "Custom Field"); ("dt", doctype); ("fieldname", fieldname)].

(** The target holds what a complete migration of this source
    leaves: the custom fields and the root accounts; for every
    record of the source the documents its method checks for; for
    every line of the report whose transaction is rebuilt from the
    ledger, that transaction's Journal Entry; and a fiscal year that
    starts on or before every date of the report. *)
Record populated (F : framework num) (L : @library num)
       (table : string -> list (QuickBooks.entity_record num))
       (report : list Ledger.row)
       (docs : list (dict num)) (years : list FiscalYears.fiscal_year) (c : string)
  : Prop := {
  has_id_fields :
    forall doctype,
      In doctype ["Account"; "Customer"; "Address"; "Item"; "Supplier";
                  "Sales Invoice"; "Journal Entry"; "Purchase Invoice"] ->
      standard_field F doctype "quickbooks_id"
      || db_exists docs (custom_field doctype "quickbooks_id") = true;
  has_company_fields :
    forall doctype,
      In doctype ["Customer"; "Item"; "Supplier"] ->
      standard_field F doctype "company"
      || db_exists docs (custom_field doctype "company") = true;
  has_roots :
    forall root,
      In root ["Asset"; "Equity"; "Expense"; "Liability"; "Income"] ->
      db_exists docs [("doctype", "Account");
                      ("name", encode_company_abbr L (root ++ " - QB")%string c);
                      ("company", c)] = true;
  has_records :
    forall entity r, In r (table entity) -> settled docs c entity r;
  has_ledger_entries :
    forall l e,
      sourced (report_data report) l ->
      Ledger.entry_id e = Ledger.id_ l ->
      settled docs c (Ledger.type_ l) (QuickBooks.LedgerRecord e);
  has_fiscal_year :
    forall l D f,
      sourced (report_data report) l ->
      getdate L (Ledger.date l) = Ok D ->
      FiscalYears.oldest years = Ok f ->
      Dates.ltb D (FiscalYears.year_start_date f) = false
}.

(** No document was added or removed, and none changed unless by
    [_allow_fraction_in_unit]. *)
Definition same_documents (before after : list (dict num)) : Prop :=
  Forall2 (fun d d' => d' = d \/ d' = allow_fraction d) before after.

End MigratorSpec.

(** *** A small site *)

Section Samples.
Import Http Site FiscalYears Migrator.

(** A framework that accepts every document, and names an account by
  its account name. *)
Definition plain_framework : framework Z :=
{| autoname := fun d _ =>
     match dict_get d "account_name", dict_get d "quickbooks_id" with
     | Some (VStr name), _ => name
     | _, Some (VStr id) => id
     | _, _ => "new"
     end;
   validate := fun _ _ => Ok tt;
   on_submit := fun _ _ => Ok tt;
   standard_field := fun _ _ => false |}.

Definition is_space (c : ascii) : bool :=
let n := nat_of_ascii c in ((n =? 32) || ((9 <=? n) && (n <=? 13)))%nat.

Fixpoint lstrip (s : string) : string :=
match s with
| String c rest => if is_space c then lstrip rest else s
| EmptyString => s
end.

Fixpoint rstrip (s : string) : string :=
match s with
| String c rest =>
    match rstrip rest with
    | EmptyString => if is_space c then EmptyString else String c EmptyString
    | rest' => String c rest'
    end
| EmptyString => s
end.

Fixpoint digits_value (s : string) (acc : Z) : option Z :=
match s with
| EmptyString => Some acc
| String c rest =>
    let n := nat_of_ascii c in
    if ((48 <=? n) && (n <=? 57))%nat
    then digits_value rest (acc * 10 + Z.of_nat (n - 48))%Z
    else None
end.

(** The plain decimal numerals, with an optional sign and blanks
  around them: the numerals that the samples below use. *)
Definition plain_int (s : string) : result Z :=
let body (t : string) : result Z :=
  match t with
  | EmptyString => Raise ValueError
  | _ => match digits_value t 0%Z with
         | Some z => Ok z
         | None => Raise ValueError
         end
  end in
match rstrip (lstrip s) with
| String "-" t =>
    match body t with Ok z => Ok (- z)%Z | Raise e => Raise e end
| String "+" t => body t
| t => body t
end.

(** Dates written year-month-day. *)
Definition iso_date (s : string) : result Dates.date :=
y <- plain_int (String.substring 0 4 s) ;;
m <- plain_int (String.substring 5 2 s) ;;
d <- plain_int (String.substring 8 2 s) ;;
Ok (date_of y m d).

Definition plain_library : @library Z :=
{| flt := fun s => if String.eqb s "" then 0%Z else 100%Z;
   getdate := iso_date;
   encode_company_abbr := fun name _ => name;
   int := plain_int |}.

Definition no_taxes : @tax_methods unit Z :=
{| _get_taxes := fun _ _ => Ok (VTable []);
   _get_item_taxes := fun _ _ => Ok (VStr "{}") |}.

Definition new_migrator (company : string) : @migrator Z :=
{| company := company; default_cost_center := Some "Main - QB";
   default_warehouse := Some "Stores - QB"; default_shipping_account := None;
   undeposited_funds_account := None; status := "Connected to QuickBooks";
   accounts := None; tax_rates := None; tax_codes := None;
   gl_entries := None; general_ledger := None |}.

Definition empty_site : @site Z :=
{| docs := []; fiscal_years := [fy_2020]; error_log := []; published := [] |}.

Definition new_state : @state unit Z :=
{| db := empty_site; self := new_migrator "QB";
   conn := {| access_token := "access"; refresh_token := "refresh";
              world := tt; trace := [] |} |}.

(** A transaction that has its id and nothing else. *)
Definition bare_txn (id : string) : QuickBooks.txn Z :=
{| QuickBooks.Id := id; QuickBooks.TxnDate := None; QuickBooks.Line := None;
   QuickBooks.LinkedTxn := None; QuickBooks.CurrencyRef := None;
   QuickBooks.ExchangeRate := None; QuickBooks.DueDate := None;
   QuickBooks.CustomerRef := None; QuickBooks.VendorRef := None;
   QuickBooks.APAccountRef := None; QuickBooks.AccountRef := None;
   QuickBooks.DepositToAccountRef := None; QuickBooks.TxnTaxDetail := None;
   QuickBooks.TotalAmt := None; QuickBooks.ApplyTaxAfterDiscount := None;
   QuickBooks.PayType := None; QuickBooks.CheckPayment_BankAccountRef := None;
   QuickBooks.CreditCardPayment_CCAccountRef := None; QuickBooks.Credit := None;
   QuickBooks.CashBack := None |}.

Definition with_linked (linked : list QuickBooks.linked_txn) (t : QuickBooks.txn Z)
: QuickBooks.txn Z :=
{| QuickBooks.Id := QuickBooks.Id t; QuickBooks.TxnDate := QuickBooks.TxnDate t;
   QuickBooks.Line := QuickBooks.Line t; QuickBooks.LinkedTxn := Some linked;
   QuickBooks.CurrencyRef := QuickBooks.CurrencyRef t;
   QuickBooks.ExchangeRate := QuickBooks.ExchangeRate t;
   QuickBooks.DueDate := QuickBooks.DueDate t;
   QuickBooks.CustomerRef := QuickBooks.CustomerRef t;
   QuickBooks.VendorRef := QuickBooks.VendorRef t;
   QuickBooks.APAccountRef := QuickBooks.APAccountRef t;
   QuickBooks.AccountRef := QuickBooks.AccountRef t;
   QuickBooks.DepositToAccountRef := QuickBooks.DepositToAccountRef t;
   QuickBooks.TxnTaxDetail := QuickBooks.TxnTaxDetail t;
   QuickBooks.TotalAmt := QuickBooks.TotalAmt t;
   QuickBooks.ApplyTaxAfterDiscount := QuickBooks.ApplyTaxAfterDiscount t;
   QuickBooks.PayType := QuickBooks.PayType t;
   QuickBooks.CheckPayment_BankAccountRef := QuickBooks.CheckPayment_BankAccountRef t;
   QuickBooks.CreditCardPayment_CCAccountRef :=
     QuickBooks.CreditCardPayment_CCAccountRef t;
   QuickBooks.Credit := QuickBooks.Credit t; QuickBooks.CashBack := QuickBooks.CashBack t |}.

Definition statement_charge : QuickBooks.linked_txn :=
{| QuickBooks.TxnType := "StatementCharge"; QuickBooks.TxnId := "12" |}.

Definition ledger_line (account date type_ id : string) (credit debit : Z)
: Ledger.line Z :=
{| Ledger.account := Some account; Ledger.date := date; Ledger.type_ := type_;
   Ledger.id_ := Some id; Ledger.credit := credit; Ledger.debit := debit |}.

(** An advance payment of 100 from the bank to a supplier. *)
Definition advance_of_100 : Ledger.entry Z :=
{| Ledger.entry_id := Some "31"; Ledger.entry_date := "2020-03-01";
   Ledger.lines := [ledger_line "Bank - QB" "2020-03-01" "Advance Payment" "31" 100 0;
                    ledger_line "Creditors - QB" "2020-03-01" "Advance Payment" "31"
                                0 100] |}.

Definition with_gl_entries (g : Ledger.gl_entries_t Z) (st : @state unit Z)
: @state unit Z :=
set_self st (set_gl_entries g (self st)).

(** A source with one account, one customer with a billing address,
  and a ledger of one advance payment from June 2019. *)
Definition bank_account : QuickBooks.account :=
{| QuickBooks.account_Id := "35"; QuickBooks.Name := Some "Bank";
   QuickBooks.SubAccount := Some false; QuickBooks.ParentRef := None;
   QuickBooks.AccountType := Some "Bank"; QuickBooks.AccountSubType := Some "Checking";
   QuickBooks.account_CurrencyRef := Some "USD"; QuickBooks.is_group := None |}.

Definition customer_ann : QuickBooks.party :=
{| QuickBooks.party_Id := "1"; QuickBooks.DisplayName := Some "Ann";
   QuickBooks.party_CurrencyRef := Some "USD";
   QuickBooks.BillAddr := Some {| QuickBooks.addr_Id := "2";
                                  QuickBooks.Line1 := Some "1 Main Street";
                                  QuickBooks.City := Some "Springfield" |};
   QuickBooks.ShipAddr := None |}.

Definition small_table (entity : string) : list (QuickBooks.entity_record Z) :=
if String.eqb entity "Account" then [QuickBooks.AccountRecord bank_account]
else if String.eqb entity "Customer" then [QuickBooks.PartyRecord customer_ann]
else [].

Definition small_report : list Ledger.row :=
[ Ledger.Section (header "Bank" "35")
    (Some [ data_row "2019-06-01" "Advance Payment" "31" "100.00" "" ]) ].

Definition small_source : remote unit (Fetcher.body (QuickBooks.entity_record Z)) :=
table_service small_table (Some small_report).

(** The same site, with the migrator document loaded anew. *)
Definition loaded_anew (st : @state unit Z) : @state unit Z :=
set_self st (new_migrator (company (self st))).

End Samples.

End Spec.
Import Spec.

(** ** Vocabulary of the statements on single methods *)

From Stdlib Require Import Sorted.

Module Behaviour.
Import Http Site Migrator QuickBooks.

(** *** Requests *)

Section Service.
Context {World Body : Type} (R : remote World Body).

(** Whatever is asked, the service answers 401. *)
Definition always_unauthorized : Prop :=
  forall args token w,
  exists resp w', requests_get R args token w = (Ok resp, w')
                  /\ status_code resp = 401%Z.

Definition refresh_succeeds : Prop :=
  forall r w, exists a r' w', oauth_refresh_token R r w = (Ok (a, r'), w').

(** No request gets through. *)
Definition unreachable : Prop :=
  forall args token w, exists e w', requests_get R args token w = (Raise e, w').

End Service.

(** A service whose tokens are never good, though it issues them. *)
Definition never_authorized : remote nat unit :=
  {| requests_get := fun _ _ n => (Ok {| status_code := 401%Z; json := tt |}, S n);
     requests_post := fun _ _ n => (Ok {| status_code := 401%Z; json := tt |}, S n);
     oauth_refresh_token := fun r n => (Ok ("access", r), n) |}.

(** *** Account names *)

Section Names.
Context {World num : Type}.

(** The names that [_get_unique_account_name] tries, in this order. *)
Definition candidate (quickbooks_name : string) (number : nat) : string :=
  match number with
  | O => quickbooks_name ++ " - QB"
  | _ => quickbooks_name ++ " - " ++ Py.str_of_nat number ++ " - QB"
  end%string.

(** An Account of the company has the name, once encoded. *)
Definition taken (L : @library num) (st : @state World num) (name : string) : bool :=
  db_exists (docs (db st))
            [("doctype", "Account");
             ("name", encode_company_abbr L name (company (self st)));
             ("company", company (self st))].

End Names.

(** *** Documents *)

Section Documents.
Context {num : Type}.

(** The framework refuses no document. *)
Definition accepts_every_document (F : framework num) : Prop :=
  forall d docs, validate F d docs = Ok tt.

End Documents.

Section Quiet.
Context {World num : Type}.

(** The method returns normally and logs nothing. *)
Definition quiet (m : @M World num unit) : Prop :=
  forall st, fst (m st) = Ok tt
             /\ error_log (db (snd (m st))) = error_log (db st).

(** The method raises [e], and logs nothing itself. *)
Definition raises {A} (e : exn) (m : @M World num A) : Prop :=
  forall st, fst (m st) = Raise e
             /\ error_log (db (snd (m st))) = error_log (db st).

End Quiet.

(** *** What a run writes *)

Section Written.
Context {World num : Type}.

(** The doctypes of the documents that the migration inserts. *)
Definition migrated_doctypes : list string :=
  ["Custom Field"; "Account"; "Address"; "Customer"; "Supplier"; "Item";
   "Sales Invoice"; "Purchase Invoice"; "Journal Entry"].

Definition migrated (d : dict num) : Prop :=
  exists doctype, dict_get d "doctype" = Some (VStr doctype)
                  /\ In doctype migrated_doctypes.

(** Every value that the computation returns satisfies [P]. *)
Definition returns {A} (P : A -> Prop) (m : @M World num A) : Prop :=
  forall st a, fst (m st) = Ok a -> P a.

(** The documents [docs'] are the documents [docs], in their order
    and as they were but for the unit "Unit", which may have been
    allowed fractions, and after them the documents [new]. *)
Definition extended_by (docs new docs' : list (dict num)) : Prop :=
  docs' = docs ++ new \/ docs' = map allow_fraction docs ++ new.

End Written.

(** *** Purchase invoices *)

Section Purchases.
Context {num : Type}.

(** A line of which [_get_pi_items] makes an item. *)
Definition makes_item (line : txn_line num) : bool :=
  String.eqb (DetailType line) "ItemBasedExpenseLineDetail"
  || String.eqb (DetailType line) "AccountBasedExpenseLineDetail".

End Purchases.

(** *** Postings *)

Section Postings.
Context {num : Type} `{Number num}.

(** No key stands twice in the dictionary. *)
Definition is_dict (d : dict num) : Prop := NoDup (map fst d).

(** The posting has a debit or a credit, not both. *)
Definition one_side (posting : dict num) : Prop :=
  is_dict posting
  /\ ((exists v, dict_get posting "debit_in_account_currency" = Some v
                 /\ dict_get posting "credit_in_account_currency" = None)
      \/ (exists v, dict_get posting "credit_in_account_currency" = Some v
                    /\ dict_get posting "debit_in_account_currency" = None)).

(** [flipped] is [posting] with debit and credit in each other's
    place, and every other field as it was. *)
Definition sides_swapped (posting flipped : dict num) : Prop :=
  dict_get flipped "debit_in_account_currency"
  = dict_get posting "credit_in_account_currency"
  /\ dict_get flipped "credit_in_account_currency"
     = dict_get posting "debit_in_account_currency"
  /\ forall k, k <> "debit_in_account_currency" ->
               k <> "credit_in_account_currency" ->
               dict_get flipped k = dict_get posting k.

End Postings.

(** *** Accounts *)

(** The numeric id of [a] is at most that of [b]. *)
Definition by_numeric_id {num : Type} (L : @library num) (a b : account) : Prop :=
  exists x y, int L (account_Id a) = Ok x /\ int L (account_Id b) = Ok y /\ (x <= y)%Z.

(** [marked] is [a] with [is_group] set, to whether some account of
    [all] is a sub-account of [a]. *)
Definition marked_as_group (all : list account) (a marked : account) : Prop :=
  exists b, any_child (account_Id a) all = Ok b /\ marked = with_is_group a b.

(** *** The grouped ledger *)

Section Grouping.
Context {num : Type}.

(** The lines of all the entries of [self.general_ledger], type
    after type and entry after entry. *)
Definition entry_lines (general_ledger : Ledger.general_ledger_t num)
  : list (Ledger.line num) :=
  List.concat
    (map (fun typed => List.concat (map (fun e => Ledger.lines (snd e)) (snd typed)))
         general_ledger).

End Grouping.

(** *** Tax rows *)

Section TaxRows.
Context {num : Type} (self : Taxes.context num).

(** The account of a tax rate. *)
Definition tax_account (tax_rate : option string) : result string :=
  Taxes._get_account_name_by_id self ("TaxRate - " ++ Taxes.format tax_rate).

(** The row of the taxes table is the one of the tax line: its
    account is the account of the line's rate; a rate on the amount
    gives a row "On Net Total" at the rate 0 and without [row_id],
    any other rate a row "On Previous Row Amount" at the line's
    percentage. *)
Definition row_of_line (line : tax_line num) (row : dict num) : Prop :=
  exists tax_rate head tax_type,
    TaxRateRef line = Some tax_rate
    /\ tax_account (Some tax_rate) = Ok head
    /\ Taxes._get_tax_type self tax_rate = Ok tax_type
    /\ dict_get row "account_head" = Some (VStr head)
    /\ dict_get row "description" = Some (VStr head)
    /\ dict_get row "cost_center" = Some (Taxes.cost_center self)
    /\ if Taxes.is_some_str tax_type "TaxOnAmount"
       then dict_get row "charge_type" = Some (VStr "On Net Total")
            /\ dict_get row "rate" = Some (VInt 0)
            /\ dict_get row "row_id" = None
       else dict_get row "charge_type" = Some (VStr "On Previous Row Amount")
            /\ exists percent, TaxPercent line = Some percent
                               /\ dict_get row "rate" = Some (VNum percent).

(** The row [k] (counted from 1) of [taxes] is one of the rows
    before the row at [index] (counted from 0), and it is the first
    row on the account of the parent of the line's rate. *)
Definition parent_row (taxes : list (dict num)) (index : nat) (line : tax_line num)
           (k : Z) : Prop :=
  exists tax_rate parent head earlier,
    TaxRateRef line = Some tax_rate
    /\ Taxes._get_parent_tax_rate self tax_rate = Ok parent
    /\ tax_account parent = Ok head
    /\ (1 <= k <= Z.of_nat index)%Z
    /\ nth_error taxes (Z.to_nat (k - 1)) = Some earlier
    /\ dict_get earlier "account_head" = Some (VStr head)
    /\ forall j before, (j < Z.to_nat (k - 1))%nat ->
                        nth_error taxes j = Some before ->
                        dict_get before "account_head" <> Some (VStr head).

(** The details of the rate lists of a tax code. *)
Definition code_details (tax_code : Taxes.code) : list Taxes.rate_detail :=
  flat_map (fun l => match Taxes.TaxRateDetail l with
                     | Some details => details
                     | None => []
                     end)
           (Taxes.rate_lists tax_code).

(** The detail is a tax on the amount, [head] is the account of its
    rate and [v] the value of its rate. *)
Definition rate_on_amount (rates : list (string * Taxes.rate num))
           (detail : Taxes.rate_detail) (head : string) (v : value num) : Prop :=
  exists ref r x,
    Taxes.TaxTypeApplicable detail = Some "TaxOnAmount"
    /\ Taxes.rd_TaxRateRef detail = Some ref
    /\ tax_account (Some ref) = Ok head
    /\ Taxes.lookup ref rates = Some r
    /\ Taxes.RateValue r = Some x
    /\ v = VNum x.

End TaxRows.

(** *** Samples *)

Definition main_street : address :=
  {| addr_Id := "2"; Line1 := Some "1 Main Street"; City := Some "Springfield" |}.

(** A line that books 100 on the account "60". *)
Definition expense_line : txn_line Z :=
  {| DetailType := "AccountBasedExpenseLineDetail"; Amount := Some 100%Z;
     Description := None; SalesItemLineDetail := None;
     ItemBasedExpenseLineDetail := None;
     AccountBasedExpenseLineDetail :=
       Some {| ad_TaxCodeRef := Some "NON"; ad_AccountRef := Some "60";
               ad_AccountRef_name := Some "Supplies"; PostingType := None |};
     JournalEntryLineDetail := None; DepositLineDetail := None;
     DiscountLineDetail := None; line_LinkedTxn := None |}.

(** A line that only carries a text. *)
Definition note_line : txn_line Z :=
  {| DetailType := "DescriptionOnly"; Amount := None;
     Description := Some "Returned in May"; SalesItemLineDetail := None;
     ItemBasedExpenseLineDetail := None; AccountBasedExpenseLineDetail := None;
     JournalEntryLineDetail := None; DepositLineDetail := None;
     DiscountLineDetail := None; line_LinkedTxn := None |}.

(** A transaction of 100 paid from [account], with its lines. *)
Definition paid_from (account : option string) (lines : list (txn_line Z)) : txn Z :=
  {| Id := "5"; TxnDate := Some "2020-05-04"; Line := Some lines;
     LinkedTxn := None; CurrencyRef := None; ExchangeRate := None; DueDate := None;
     CustomerRef := None; VendorRef := None; APAccountRef := None;
     AccountRef := account; DepositToAccountRef := None; TxnTaxDetail := None;
     TotalAmt := Some 100%Z; ApplyTaxAfterDiscount := None; PayType := None;
     CheckPayment_BankAccountRef := None; CreditCardPayment_CCAccountRef := None;
     Credit := None; CashBack := None |}.

(** A site whose only document is the account "60". *)
Definition with_supplies_account : @state unit Z :=
  set_docs new_state
           [[("doctype", VStr "Account"); ("name", VStr "Supplies - QB");
             ("quickbooks_id", VStr "60"); ("company", VStr "QB")]].

(** The two postings of a purchase of 100. *)
Definition purchase_postings : list (dict Z) :=
  [[("account", VStr "Bank - QB"); ("credit_in_account_currency", VNum 100%Z)];
   [("account", VStr "Supplies - QB"); ("debit_in_account_currency", VNum 100%Z)]].

(** A sub-account of the bank account, with a smaller id. *)
Definition savings_account : account :=
  {| account_Id := "7"; Name := Some "Savings"; SubAccount := Some true;
     ParentRef := Some "35"; AccountType := Some "Bank";
     AccountSubType := Some "Savings"; account_CurrencyRef := Some "USD";
     is_group := None |}.

(** Two widgets at 100 each. *)
Definition widget_line : txn_line Z :=
  {| DetailType := "SalesItemLineDetail"; Amount := Some 200%Z;
     Description := None;
     SalesItemLineDetail :=
       Some {| TaxCodeRef := Some "NON"; ItemRef := Some "3";
               ItemRef_name := Some "Widget"; Qty := Some 2%Z;
               UnitPrice := Some 100%Z |};
     ItemBasedExpenseLineDetail := None; AccountBasedExpenseLineDetail := None;
     JournalEntryLineDetail := None; DepositLineDetail := None;
     DiscountLineDetail := None; line_LinkedTxn := None |}.

(** The invoice "9" of customer "1" for the widgets, with its linked
    transactions. *)
Definition invoice_of_widgets (linked : list linked_txn) : txn Z :=
  {| Id := "9"; TxnDate := Some "2020-02-03"; Line := Some [widget_line];
     LinkedTxn := Some linked; CurrencyRef := Some "USD"; ExchangeRate := None;
     DueDate := None; CustomerRef := Some "1"; VendorRef := None;
     APAccountRef := None; AccountRef := None; DepositToAccountRef := None;
     TxnTaxDetail := None; TotalAmt := Some 200%Z; ApplyTaxAfterDiscount := None;
     PayType := None; CheckPayment_BankAccountRef := None;
     CreditCardPayment_CCAccountRef := None; Credit := None; CashBack := None |}.

(** A site that has the customer and the item, and a migrator whose
    ledger has the two lines of the invoice. *)
Definition widget_site : @state unit Z :=
  set_self
    (set_docs new_state
              [[("doctype", VStr "Customer"); ("name", VStr "Ann");
                ("quickbooks_id", VStr "1"); ("company", VStr "QB")];
               [("doctype", VStr "Item"); ("name", VStr "Widget");
                ("stock_uom", VStr "Nos");
                ("quickbooks_id", VStr "3"); ("company", VStr "QB")]])
    (set_general_ledger
       [("Invoice",
         [(Some "9",
           {| Ledger.entry_id := Some "9"; Ledger.entry_date := "2020-02-03";
              Ledger.lines := [ledger_line "Debtors - QB" "2020-02-03" "Invoice" "9" 0 200;
                               ledger_line "Sales - QB" "2020-02-03" "Invoice" "9"
                                           200 0] |})])]
       (new_migrator "QB")).

(** A source whose accounts are the bank account and its sub-account:
    sorted by id, the sub-account is saved before its parent. *)
Definition nested_table (entity : string) : list (entity_record Z) :=
  if String.eqb entity "Account"
  then [AccountRecord bank_account; AccountRecord savings_account]
  else [].

Definition nested_source : Http.remote unit (Fetcher.body (entity_record Z)) :=
  table_service nested_table (Some small_report).

(** The site after a run over that source into an empty site, with the
    migrator loaded anew; and after a second run. *)
Definition after_first_run : @state unit Z :=
  loaded_anew (snd (_migrate nested_source plain_framework plain_library no_taxes
                             accepts_all 3 new_state)).

Definition after_second_run : @state unit Z :=
  snd (_migrate nested_source plain_framework plain_library no_taxes
                accepts_all 3 after_first_run).

(** A tax code with a tax on the amount and a tax on that tax. *)
Definition state_tax : Taxes.rate_detail :=
  {| Taxes.TaxTypeApplicable := Some "TaxOnAmount"; Taxes.rd_TaxRateRef := Some "1";
     Taxes.TaxOrder := Some 1%Z; Taxes.TaxOnTaxOrder := Some 0%Z |}.

Definition city_tax : Taxes.rate_detail :=
  {| Taxes.TaxTypeApplicable := Some "TaxOnTax"; Taxes.rd_TaxRateRef := Some "2";
     Taxes.TaxOrder := Some 2%Z; Taxes.TaxOnTaxOrder := Some 1%Z |}.

Definition two_taxes : Taxes.context Z :=
  {| Taxes.tax_codes :=
       Some [("5", {| Taxes.SalesTaxRateList :=
                        Some {| Taxes.TaxRateDetail := Some [state_tax; city_tax] |};
                      Taxes.PurchaseTaxRateList := None |})];
     Taxes.tax_rates := Some [("1", {| Taxes.RateValue := Some 5%Z |});
                              ("2", {| Taxes.RateValue := Some 10%Z |})];
     Taxes._get_account_name_by_id := fun id => Ok (id ++ " - QB")%string;
     Taxes.default_cost_center := Some "Main - QB" |}.

Definition state_tax_line : tax_line Z :=
  {| tl_Amount := Some 5%Z; TaxRateRef := Some "1"; TaxPercent := Some 5%Z |}.

Definition city_tax_line : tax_line Z :=
  {| tl_Amount := Some 1%Z; TaxRateRef := Some "2"; TaxPercent := Some 10%Z |}.

(** A transaction that has its tax lines and nothing else. *)
Definition taxed (lines : list (tax_line Z)) : txn Z :=
  {| Id := "8"; TxnDate := None; Line := None; LinkedTxn := None; CurrencyRef := None;
     ExchangeRate := None; DueDate := None; CustomerRef := None; VendorRef := None;
     APAccountRef := None; AccountRef := None; DepositToAccountRef := None;
     TxnTaxDetail := Some {| TxnTaxCodeRef := Some "5"; TaxLine := Some lines |};
     TotalAmt := None; ApplyTaxAfterDiscount := None; PayType := None;
     CheckPayment_BankAccountRef := None; CreditCardPayment_CCAccountRef := None;
     Credit := None; CashBack := None |}.

Definition state_tax_row : dict Z :=
  [("charge_type", VStr "On Net Total");
   ("account_head", VStr "TaxRate - 1 - QB");
   ("description", VStr "TaxRate - 1 - QB");
   ("cost_center", VStr "Main - QB");
   ("rate", VInt 0)].

Definition city_tax_row : dict Z :=
  [("charge_type", VStr "On Previous Row Amount");
   ("row_id", VInt 1);
   ("account_head", VStr "TaxRate - 2 - QB");
   ("description", VStr "TaxRate - 2 - QB");
   ("cost_center", VStr "Main - QB");
   ("rate", VNum 10%Z)].

(** A service that refuses every connection. *)
Definition out_of_reach : remote unit (Fetcher.body (entity_record Z)) :=
  {| requests_get := fun _ _ w => (Raise (ExternalError "ConnectionError"), w);
     requests_post := fun _ _ w => (Raise (ExternalError "ConnectionError"), w);
     oauth_refresh_token := fun _ w => (Raise (ExternalError "ConnectionError"), w) |}.

End Behaviour.
Import Behaviour.

(* ================================================================= *)
(** * Part II: properties *)
(* ================================================================= *)

(** ** Token manager *)

Section TokenManager.
Import Http.
Context {World Body : Type} (R : remote World Body).

(** A call that is a [send], then on status 401 a refresh and the call
    itself again, has a trace of the shape [retry_shape]. *)
Lemma retrying_shape
      (via : request -> string -> World -> result (response Body) * World)
      (f : nat -> request -> conn World -> result (response Body) * conn World)
      (f_O : forall args c, f O args c = (Raise RecursionError, c))
      (f_S : forall d args c,
          f (S d) args c =
          match send via args c with
          | (Raise e, c1) => (Raise e, c1)
          | (Ok response, c1) =>
              if (status_code response =? 401)%Z then
                match _refresh_tokens R c1 with
                | (Raise e, c2) => (Raise e, c2)
                | (Ok _, c2) => f d args c2
                end
              else (Ok response, c1)
          end) :
  forall depth args c, retry_shape R depth c (f depth args c).
Proof.
  induction depth as [|d IH]; intros args c.
  - rewrite f_O. exists 0. split; [lia|]. left.
    cbn. now rewrite app_nil_r.
  - rewrite f_S. unfold send.
    destruct (via args (access_token c) (world c)) as [[resp|e] w] eqn:Hvia.
    + destruct (status_code resp =? 401)%Z eqn:H401.
      * apply Z.eqb_eq in H401.
        set (c1 := {| access_token := access_token c; refresh_token := refresh_token c;
                      world := w; trace := trace c ++ [Sent (Some (status_code resp))] |}).
        destruct (_refresh_tokens R c1) as [[u|e] c2] eqn:Hre.
        -- (* refreshed: one more round *)
           assert (Ht : trace c2 = trace c ++ [Sent (Some 401%Z); Refreshed true]).
           { unfold _refresh_tokens in Hre.
             destruct (oauth_refresh_token R (refresh_token c1) (world c1))
               as [[[a r]|e] w'];
               inversion Hre; subst; cbn. rewrite H401, <- app_assoc. reflexivity. }
           destruct (IH args c2) as (k & Hk & Hshape).
           exists (S k). split; [lia|].
           destruct (f d args c2) as [r c'].
           destruct Hshape as [(-> & -> & Htr)|(Hlt & tail & Htr & Htail)].
           ++ left. repeat split. rewrite Htr, Ht, <- app_assoc. reflexivity.
           ++ right. split; [lia|]. exists tail. split.
              ** rewrite Htr, Ht, <- !app_assoc. reflexivity.
              ** exact Htail.
        -- (* the refresh raised *)
           exists 0. split; [lia|]. right. split; [lia|].
           exists [Sent (Some 401%Z); Refreshed false]. split.
           ++ unfold _refresh_tokens in Hre.
              destruct (oauth_refresh_token R (refresh_token c1) (world c1))
                as [[[a r]|e'] w'];
                inversion Hre; subst; cbn. rewrite H401, <- app_assoc. reflexivity.
           ++ right; right. exists c1, e. repeat split; assumption.
      * exists 0. split; [lia|]. right. split; [lia|].
        exists [Sent (Some (status_code resp))]. split; [reflexivity|].
        left. exists resp. repeat split. now apply Z.eqb_neq.
    + exists 0. split; [lia|]. right. split; [lia|].
      exists [Sent None]. split; [reflexivity|].
      right; left. exists e. split; reflexivity.
Qed.

End TokenManager.



(** ** Entity fetcher *)

Section Pagination.
Import Http Fetcher.
Context {World Record_ : Type} (R : remote World (body Record_)).
Variable table : string -> list Record_.
Variable report : option (list Ledger.row).
Hypothesis served : serves table report R.

Lemma get_served (d : nat) (args : request) (c : conn World) :
  exists c', _get R (S d) args c = (Ok (answer table report args), c')
             /\ trace c' = trace c ++ [Sent (Some (status_code (answer table report args)))]
             /\ status_code (answer table report args) <> 401%Z.
Proof.
  assert (Hst : status_code (answer table report args) <> 401%Z)
    by (destruct args; cbn; lia).
  cbn [_get]. unfold send.
  pose proof (served args (access_token c) (world c)) as Hs.
  destruct (requests_get R args (access_token c) (world c)) as [r w].
  cbn in Hs. subst r.
  apply Z.eqb_neq in Hst. rewrite Hst.
  eexists. split; [reflexivity|]. split; [reflexivity|]. now apply Z.eqb_neq.
Qed.

Lemma start_positions_eq (n : Z) :
  start_positions n
  = map (fun i => 1 + Z.of_nat i * 1000)%Z (seq 0 (Z.to_nat ((n + 999) / 1000))).
Proof.
  unfold start_positions, Py.range, max_result_count.
  replace (n + 1 - 1 + 1000 - 1)%Z with (n + 999)%Z by lia. reflexivity.
Qed.

Lemma firstn_skipn_step {A} (l : list A) (a m : nat) :
  firstn a l ++ firstn m (skipn a l) = firstn (a + m) l.
Proof.
  revert l; induction a as [|a IH]; intros l; cbn.
  - reflexivity.
  - destruct l as [|x l]; cbn.
    + now rewrite firstn_nil.
    + now rewrite IH.
Qed.

(** The loop from page [a] on, [k] pages, all of them inside the table. *)
Lemma fetch_pages_spec (d : nat) (entity : string) :
  forall (k a : nat) (c : conn World),
    (k = 0 \/ (a + k - 1) * 1000 < List.length (table entity)) ->
    exists c',
      fetch_pages R (S d) entity
                  (map (fun i => 1 + Z.of_nat i * 1000)%Z (seq a k))
                  (firstn (a * 1000) (table entity)) c
      = (Ok (firstn ((a + k) * 1000) (table entity)), c')
      /\ trace c' = trace c ++ repeat (Sent (Some 200%Z)) k.
Proof.
  induction k as [|k IH]; intros a c Hin.
  - cbn [seq map fetch_pages repeat]. exists c.
    rewrite Nat.add_0_r, app_nil_r. split; reflexivity.
  - cbn [seq map fetch_pages].
    destruct (get_served d (SelectQuery entity (1 + Z.of_nat a * 1000) max_result_count) c)
      as (c1 & -> & Ht1 & _).
    cbn [answer json QueryResponse entities status_code] in *.
    assert (Hw : window (table entity) (1 + Z.of_nat a * 1000) max_result_count
                 = firstn 1000 (skipn (a * 1000) (table entity))).
    { unfold window, max_result_count.
      replace (Z.to_nat (1 + Z.of_nat a * 1000 - 1)) with (a * 1000) by lia.
      reflexivity. }
    rewrite Hw.
    assert (Hne : firstn 1000 (skipn (a * 1000) (table entity)) <> []).
    { intro Hnil. apply (f_equal (@List.length _)) in Hnil.
      rewrite length_firstn, length_skipn in Hnil. cbn [List.length] in Hnil. lia. }
    destruct (firstn 1000 (skipn (a * 1000) (table entity))) as [|x page] eqn:Hpage;
      [congruence|].
    rewrite <- Hpage, firstn_skipn_step.
    replace (a * 1000 + 1000) with (S a * 1000) by lia.
    destruct (IH (S a) c1) as (c' & Hrun & Ht); [lia|].
    exists c'. split.
    + rewrite Hrun. do 2 f_equal. f_equal. lia.
    + rewrite Ht, Ht1, <- app_assoc. reflexivity.
Qed.

Lemma pages_bound (n : nat) :
  let k := Z.to_nat ((Z.of_nat n + 999) / 1000) in
  (k = 0 \/ (0 + k - 1) * 1000 < n) /\ n <= k * 1000.
Proof.
  cbn zeta.
  pose proof (Z.div_mod (Z.of_nat n + 999) 1000 ltac:(lia)) as Hdm.
  pose proof (Z.mod_pos_bound (Z.of_nat n + 999) 1000 ltac:(lia)) as Hm.
  assert (0 <= (Z.of_nat n + 999) / 1000)%Z by (apply Z.div_pos; lia).
  split; [|lia].
  destruct (Z.to_nat ((Z.of_nat n + 999) / 1000)) eqn:Hk; [now left|right]. lia.
Qed.

(** The whole loop, for the count that the service reports. *)
Lemma fetch_pages_all (d : nat) (entity : string) (c : conn World) :
  exists c',
    fetch_pages R (S d) entity
                (start_positions (Z.of_nat (List.length (table entity)))) [] c
    = (Ok (table entity), c').
Proof.
  rewrite start_positions_eq.
  destruct (pages_bound (List.length (table entity))) as (Hk & Hcover).
  destruct (fetch_pages_spec d entity _ 0 c Hk) as (c' & Hrun & _).
  cbn [Nat.mul firstn Nat.add] in Hrun.
  exists c'. rewrite Hrun. f_equal. f_equal. apply firstn_all2. exact Hcover.
Qed.

(** C5.  With the count [n] the fetch asks for the windows of 1000
    records that start at the positions [p] with [1 <= p <= n] and
    [p = 1 mod 1000], one request each; every position [1..n] lies in
    exactly one of them; against a service that answers positional
    windows of a fixed table the pages, concatenated, are the whole
    table; and with [n = 0] no page is asked for (the count is the only
    request). *)
Theorem paginated_fetch_covers_table (depth : nat) (entity : string) (c : conn World) :
  let n := Z.of_nat (List.length (table entity)) in
  (forall p, In p (start_positions n) <-> (1 <= p <= n /\ p mod 1000 = 1)%Z)
  /\ (forall q, (1 <= q <= n)%Z ->
                exists p, (In p (start_positions n) /\ (p <= q < p + 1000)%Z)
                          /\ forall p', In p' (start_positions n) ->
                                        (p' <= q < p' + 1000)%Z -> p' = p)
  /\ (exists c', fetch_entries R (S depth) entity c = (Ok (table entity), c')
                 /\ trace c' = trace c
                               ++ repeat (Sent (Some 200%Z))
                                         (1 + List.length (start_positions n)))
  /\ start_positions 0 = [].
Proof.
  intro n.
  assert (Hin : forall p, In p (start_positions n) <-> (1 <= p <= n /\ p mod 1000 = 1)%Z).
  { intro p. rewrite start_positions_eq, in_map_iff. split.
    - intros (i & <- & Hi). apply in_seq in Hi.
      pose proof (Z.div_mod (n + 999) 1000 ltac:(lia)) as Hdm.
      pose proof (Z.mod_pos_bound (n + 999) 1000 ltac:(lia)) as Hm.
      assert (0 <= (n + 999) / 1000)%Z by (apply Z.div_pos; lia).
      split; [lia|].
      rewrite Z_mod_plus_full. reflexivity.
    - intros (Hp & Hmod).
      pose proof (Z.div_mod p 1000 ltac:(lia)) as Hdm. rewrite Hmod in Hdm.
      assert (0 <= p / 1000)%Z by (apply Z.div_pos; lia).
      exists (Z.to_nat (p / 1000)). split; [lia|].
      apply in_seq. split; [lia|]. cbn.
      apply Z2Nat.inj_lt; [lia| |].
      + apply Z.div_pos; lia.
      + apply Z.div_lt_upper_bound; [lia|].
        pose proof (Z.div_mod (n + 999) 1000 ltac:(lia)) as Hdm'.
        pose proof (Z.mod_pos_bound (n + 999) 1000 ltac:(lia)) as Hm'.
        pose proof (Z.div_le_mono p (n + 999) 1000 ltac:(lia) ltac:(lia)) as Hle.
        destruct (Z.eq_dec (p / 1000) ((n + 999) / 1000)) as [He|He]; [|lia].
        rewrite <- He in Hdm'. lia. }
  split; [exact Hin|]. split; [|split].
  - intros q Hq.
    pose proof (Z.div_mod (q - 1) 1000 ltac:(lia)) as Hdm.
    pose proof (Z.mod_pos_bound (q - 1) 1000 ltac:(lia)) as Hm.
    assert (0 <= (q - 1) / 1000)%Z by (apply Z.div_pos; lia).
    exists (1 + 1000 * ((q - 1) / 1000))%Z. split; [split|].
    + apply Hin. split; [lia|].
      rewrite (Z.mul_comm 1000), Z_mod_plus_full. reflexivity.
    + lia.
    + intros p' Hp' Hwin. apply Hin in Hp'. destruct Hp' as (Hp' & Hmod').
      pose proof (Z.div_mod p' 1000 ltac:(lia)) as Hdm'. rewrite Hmod' in Hdm'.
      lia.
  - unfold fetch_entries.
    destruct (get_served depth (CountQuery entity) c) as (c1 & -> & Ht1 & _).
    cbn [answer json QueryResponse totalCount].
    fold n. rewrite start_positions_eq, length_map, length_seq.
    destruct (pages_bound (List.length (table entity))) as (Hk & Hcover).
    fold n in Hk, Hcover.
    destruct (fetch_pages_spec depth entity _ 0 c1 Hk) as (c' & Hrun & Ht).
    cbn [Nat.mul firstn Nat.add] in Hrun.
    exists c'. split.
    + rewrite Hrun. f_equal. f_equal. apply firstn_all2. cbn [Nat.add]. exact Hcover.
    + rewrite Ht, Ht1, <- app_assoc. reflexivity.
  - reflexivity.
Qed.

End Pagination.

(** C5, a run: a table of three customers is fetched whole. *)
Lemma paginated_fetch_covers_table_witness :
  serves (fun _ => ["a"; "b"; "c"]) None (table_service (fun _ => ["a"; "b"; "c"]) None)
  /\ fst (Fetcher.fetch_entries (table_service (fun _ => ["a"; "b"; "c"]) None) 1 "Customer"
                                (Http.Build_conn "t" "r" tt []))
     = Ok ["a"; "b"; "c"].
Proof.
  assert (Hs : serves (fun _ : string => ["a"; "b"; "c"]) None
                      (table_service (fun _ => ["a"; "b"; "c"]) None))
    by (intros args token w; reflexivity).
  split; [exact Hs|].
  destruct (paginated_fetch_covers_table
              (table_service (fun _ => ["a"; "b"; "c"]) None) (fun _ => ["a"; "b"; "c"])
              None Hs 0 "Customer" (Http.Build_conn "t" "r" tt []))
    as (_ & _ & (c' & Hrun & _) & _).
  rewrite Hrun. reflexivity.
Defined.

(** ** General Ledger reconstruction *)

Section LedgerFacts.
Import Ledger.
Context {num : Type} `{Number num} (ctx : context num).

Lemma key_eqb_eq (a b : option string) : key_eqb a b = true <-> a = b.
Proof.
  destruct a as [x|], b as [y|]; cbn; try (split; congruence).
  rewrite String.eqb_eq. split; congruence.
Qed.

Lemma key_eqb_refl (a : option string) : key_eqb a a = true.
Proof. now apply key_eqb_eq. Qed.

(** Induction on a report tree, with the hypothesis on every row of a
    section. *)
Lemma row_rect_rows (P : row -> Prop)
      (HData : forall data, P (Data data))
      (HNoRows : forall Header, P (Section Header None))
      (HSection : forall Header rows, Forall P rows -> P (Section Header (Some rows)))
      (HOther : forall t, P (Other t)) :
  forall r, P r.
Proof.
  fix IH 1. intros [data|Header [rows|]|t].
  - apply HData.
  - apply HSection. induction rows as [|r rows IHrows]; constructor.
    + apply IH.
    + exact IHrows.
  - apply HNoRows.
  - apply HOther.
Qed.

Lemma section_unfold (Header : option (list col)) (rows : list row)
      (account : option string) (g : gl_entries_t num) :
  _get_gl_entries_from_section ctx (Section Header (Some rows)) account g
  = match resolve_header ctx Header account with
    | Skip => (Ok tt, g)
    | Go (Raise e) => (Raise e, g)
    | Go (Ok account) =>
        match rows_loop ctx account rows [] g with
        | (Raise e, g') => (Raise e, g')
        | (Ok entries, g') => (Ok tt, setdefault_extend account entries g')
        end
    end.
Proof. reflexivity. Qed.

Lemma walk_order_unfold (Header : option (list col)) (rows : list row)
      (account : option string) :
  walk_order ctx (Section Header (Some rows)) account
  = match resolve_header ctx Header account with
    | Go (Ok account) => walk_rows ctx account rows
    | _ => []
    end.
Proof. reflexivity. Qed.

(** *** The walk keeps every line, once *)

Lemma flattened_setdefault_extend (k : option string) (entries : list (line num))
      (g : gl_entries_t num) :
  Permutation (flattened (setdefault_extend k entries g)) (flattened g ++ entries).
Proof.
  unfold flattened.
  induction g as [|[k' v] rest IH]; cbn.
  - now rewrite app_nil_r.
  - destruct (key_eqb k' k); cbn.
    + rewrite <- !app_assoc. apply Permutation_app_head, Permutation_app_comm.
    + rewrite <- app_assoc. now apply Permutation_app_head.
Qed.

Lemma rows_loop_keeps_lines (account : option string) :
  forall rows, Forall (walk_keeps_lines ctx) rows ->
  forall entries g es g',
    rows_loop ctx account rows entries g = (Ok es, g') ->
    Permutation (flattened g' ++ es)
                (flattened g ++ entries ++ walk_rows ctx account rows).
Proof.
  induction 1 as [|r rows Hr _ IH]; intros entries g es g' Hrun.
  - cbn in Hrun. inversion Hrun; subst. cbn. now rewrite app_nil_r.
  - cbn [rows_loop] in Hrun. cbn [walk_rows].
    destruct r as [data|Header Rows|t].
    + destruct (data_line ctx account data) as [l|e]; [|discriminate].
      apply IH in Hrun. rewrite Hrun, <- !app_assoc. reflexivity.
    + destruct (_get_gl_entries_from_section ctx (Section Header Rows) account g)
        as [[[]|e] g1] eqn:Hsec; [|discriminate].
      apply Hr in Hsec. apply IH in Hrun.
      rewrite Hrun, Hsec, <- !app_assoc.
      apply Permutation_app_head.
      rewrite !app_assoc. apply Permutation_app_tail, Permutation_app_comm.
    + apply IH in Hrun. exact Hrun.
Qed.

Lemma section_keeps_lines : forall r, walk_keeps_lines ctx r.
Proof.
  induction r as [data|Header|Header rows IH|t] using row_rect_rows;
    intros account g g' Hrun; try discriminate.
  - cbn in Hrun. destruct (resolve_header ctx Header account) as [|[a|e]];
      inversion Hrun; subst. cbn. now rewrite app_nil_r.
  - rewrite section_unfold in Hrun. rewrite walk_order_unfold.
    destruct (resolve_header ctx Header account) as [|[a|e]].
    + inversion Hrun; subst. now rewrite app_nil_r.
    + destruct (rows_loop ctx a rows [] g) as [[es|e] g1] eqn:Hloop; [|discriminate].
      inversion Hrun; subst.
      rewrite flattened_setdefault_extend.
      now apply (rows_loop_keeps_lines a rows IH [] g es g1).
    + discriminate.
Qed.

Lemma walk_report_keeps_lines :
  forall report g g',
    walk_report ctx report g = (Ok tt, g') ->
    Permutation (flattened g') (flattened g ++ report_walk_order ctx report).
Proof.
  induction report as [|r report IH]; intros g g' Hrun.
  - inversion Hrun; subst. cbn. now rewrite app_nil_r.
  - cbn [walk_report] in Hrun. unfold report_walk_order. cbn [flat_map].
    fold (report_walk_order ctx report).
    destruct r as [data|Header Rows|t].
    + apply IH in Hrun. exact Hrun.
    + destruct (_get_gl_entries_from_section ctx (Section Header Rows) None g)
        as [[[]|e] g1] eqn:Hsec; [|discriminate].
      apply section_keeps_lines in Hsec. apply IH in Hrun.
      rewrite Hrun, Hsec, <- app_assoc. reflexivity.
    + apply IH in Hrun. exact Hrun.
Qed.

(** *** Grouping by type and id *)

(** The dictionary after the sections have been added to it one by one. *)
Definition extend_all (sections : list (option string * list (line num)))
           (g : gl_entries_t num) : gl_entries_t num :=
  fold_left (fun g p => setdefault_extend (fst p) (snd p) g) sections g.

Lemma completed_unfold (Header : option (list col)) (rows : list row)
      (account : option string) :
  completed ctx (Section Header (Some rows)) account
  = match resolve_header ctx Header account with
    | Go (Ok account) => completed_rows ctx account rows ++ [(account, own_lines ctx account rows)]
    | _ => []
    end.
Proof. reflexivity. Qed.

Definition walk_completes (r : row) : Prop :=
  forall account g g',
    _get_gl_entries_from_section ctx r account g = (Ok tt, g') ->
    g' = extend_all (completed ctx r account) g.

Lemma rows_loop_completes (account : option string) :
  forall rows, Forall walk_completes rows ->
  forall entries g es g',
    rows_loop ctx account rows entries g = (Ok es, g') ->
    es = entries ++ own_lines ctx account rows
    /\ g' = extend_all (completed_rows ctx account rows) g.
Proof.
  induction 1 as [|r rows Hr _ IH]; intros entries g es g' Hrun.
  - cbn in Hrun. inversion Hrun; subst. cbn. now rewrite app_nil_r.
  - cbn [rows_loop] in Hrun. cbn [completed_rows own_lines flat_map].
    destruct r as [data|Header Rows|t].
    + destruct (data_line ctx account data) as [l|e]; [|discriminate].
      apply IH in Hrun. destruct Hrun as [-> ->]. split; [|reflexivity].
      rewrite <- app_assoc. reflexivity.
    + destruct (_get_gl_entries_from_section ctx (Section Header Rows) account g)
        as [[[]|e] g1] eqn:Hsec; [|discriminate].
      apply Hr in Hsec. apply IH in Hrun. destruct Hrun as [-> ->]. subst g1.
      split; [reflexivity|]. unfold extend_all. now rewrite fold_left_app.
    + apply IH in Hrun. exact Hrun.
Qed.

Lemma section_completes : forall r, walk_completes r.
Proof.
  induction r as [data|Header|Header rows IH|t] using row_rect_rows;
    intros account g g' Hrun; try discriminate.
  - cbn in Hrun. destruct (resolve_header ctx Header account) as [|[a|e]];
      inversion Hrun; subst; reflexivity.
  - rewrite section_unfold in Hrun. rewrite completed_unfold.
    destruct (resolve_header ctx Header account) as [|[a|e]].
    + inversion Hrun; subst. reflexivity.
    + destruct (rows_loop ctx a rows [] g) as [[es|e] g1] eqn:Hloop; [|discriminate].
      inversion Hrun; subst.
      destruct (rows_loop_completes a rows IH [] g es g1 Hloop) as [-> ->].
      unfold extend_all. rewrite fold_left_app. reflexivity.
    + discriminate.
Qed.

Lemma walk_report_completes :
  forall report g g',
    walk_report ctx report g = (Ok tt, g') ->
    g' = extend_all (report_completed ctx report) g.
Proof.
  unfold report_completed.
  induction report as [|r report IH]; intros g g' Hrun.
  - inversion Hrun; subst. reflexivity.
  - cbn [walk_report] in Hrun. cbn [completed_rows].
    destruct r as [data|Header Rows|t].
    + apply IH in Hrun. exact Hrun.
    + destruct (_get_gl_entries_from_section ctx (Section Header Rows) None g)
        as [[[]|e] g1] eqn:Hsec; [|discriminate].
      apply section_completes in Hsec. apply IH in Hrun. subst.
      unfold extend_all. now rewrite fold_left_app.
    + apply IH in Hrun. exact Hrun.
Qed.


Lemma key_eqb_neq (a b : option string) : key_eqb a b = false <-> a <> b.
Proof.
  split.
  - intros Hf Heq. apply key_eqb_eq in Heq. congruence.
  - intros Hne. destruct (key_eqb a b) eqn:Heq; [|reflexivity].
    apply key_eqb_eq in Heq. contradiction.
Qed.

Lemma first_occurrences_in (k : option string) (keys : list (option string)) :
  In k (first_occurrences keys) <-> In k keys.
Proof.
  induction keys as [|k0 keys IH]; cbn; [tauto|].
  rewrite filter_In, IH, negb_true_iff, key_eqb_neq.
  destruct (key_eqb k k0) eqn:Heq.
  - apply key_eqb_eq in Heq. subst. tauto.
  - apply key_eqb_neq in Heq. split; [tauto|].
    intros [->|Hin]; [now left|right]. tauto.
Qed.

Lemma first_occurrences_NoDup (keys : list (option string)) :
  NoDup (first_occurrences keys).
Proof.
  induction keys as [|k0 keys IH]; cbn; constructor.
  - rewrite filter_In, negb_true_iff, key_eqb_neq. tauto.
  - now apply NoDup_filter.
Qed.

Lemma first_occurrences_snoc (k : option string) (keys : list (option string)) :
  first_occurrences (keys ++ [k])
  = if existsb (key_eqb k) keys then first_occurrences keys
    else first_occurrences keys ++ [k].
Proof.
  induction keys as [|k0 keys IH]; cbn; [reflexivity|].
  rewrite IH. destruct (key_eqb k k0) eqn:Heq0; cbn.
  - destruct (existsb (key_eqb k) keys); [reflexivity|].
    rewrite filter_app. cbn. rewrite Heq0. cbn. now rewrite app_nil_r.
  - destruct (existsb (key_eqb k) keys); [reflexivity|].
    rewrite filter_app. cbn. rewrite Heq0. reflexivity.
Qed.

Lemma lines_of_account_snoc (sections : list (option string * list (line num)))
      (k account : option string) (es : list (line num)) :
  lines_of_account (sections ++ [(k, es)]) account
  = lines_of_account sections account ++ (if key_eqb k account then es else []).
Proof.
  unfold lines_of_account. rewrite filter_app, flat_map_app. cbn.
  destruct (key_eqb k account); cbn; [now rewrite app_nil_r|reflexivity].
Qed.

Lemma lines_of_account_absent (sections : list (option string * list (line num)))
      (k : option string) :
  existsb (key_eqb k) (map fst sections) = false -> lines_of_account sections k = [].
Proof.
  unfold lines_of_account.
  induction sections as [|[k0 es] sections IH]; cbn; [reflexivity|].
  intros Hno. apply orb_false_elim in Hno. destruct Hno as [Hk0 Hrest].
  apply key_eqb_neq in Hk0.
  destruct (key_eqb k0 k) eqn:Heq; [apply key_eqb_eq in Heq; congruence|].
  now apply IH.
Qed.

Lemma existsb_first_occurrences (k : option string) (keys : list (option string)) :
  existsb (key_eqb k) (first_occurrences keys) = existsb (key_eqb k) keys.
Proof.
  apply eq_true_iff_eq. rewrite !existsb_exists.
  split; intros (a & Hin & Ha); exists a; split; try exact Ha;
    now apply first_occurrences_in.
Qed.

(** [setdefault] finds the key, or puts it last. *)
Lemma setdefault_extend_map (f : option string -> list (line num))
      (k : option string) (es : list (line num)) :
  forall keys, NoDup keys ->
    setdefault_extend k es (map (fun a => (a, f a)) keys)
    = map (fun a => (a, f a ++ (if key_eqb k a then es else []))) keys
      ++ (if existsb (key_eqb k) keys then [] else [(k, es)]).
Proof.
  induction 1 as [|k0 keys Hnotin Hnodup IH]; cbn [map setdefault_extend existsb app].
  - reflexivity.
  - destruct (key_eqb k0 k) eqn:Heq.
    + apply key_eqb_eq in Heq. subst k0. rewrite key_eqb_refl. cbn [orb].
      rewrite app_nil_r. f_equal. apply map_ext_in. intros a Hin.
      destruct (key_eqb k a) eqn:Hka; [|now rewrite app_nil_r].
      apply key_eqb_eq in Hka. subst. contradiction.
    + assert (Hk : key_eqb k k0 = false).
      { apply key_eqb_neq. apply key_eqb_neq in Heq. congruence. }
      rewrite Hk, IH, app_nil_r. reflexivity.
Qed.

Lemma by_account_snoc (sections : list (option string * list (line num)))
      (k : option string) (es : list (line num)) :
  by_account (sections ++ [(k, es)]) = setdefault_extend k es (by_account sections).
Proof.
  unfold by_account.
  rewrite (setdefault_extend_map (lines_of_account sections) k es
             _ (first_occurrences_NoDup (map fst sections))).
  rewrite map_app. cbn [map fst]. rewrite first_occurrences_snoc, existsb_first_occurrences.
  destruct (existsb (key_eqb k) (map fst sections)) eqn:Hin.
  - rewrite app_nil_r. apply map_ext. intros a. now rewrite lines_of_account_snoc.
  - rewrite map_app. cbn [map]. f_equal.
    + apply map_ext. intros a. now rewrite lines_of_account_snoc.
    + rewrite lines_of_account_snoc, key_eqb_refl, (lines_of_account_absent _ _ Hin).
      reflexivity.
Qed.

Lemma extend_all_by_account (sections : list (option string * list (line num))) :
  extend_all sections [] = by_account sections.
Proof.
  induction sections as [|[k es] sections IH] using rev_ind; [reflexivity|].
  unfold extend_all in *. rewrite fold_left_app. cbn [fold_left fst snd].
  now rewrite IH, by_account_snoc.
Qed.

Lemma in_type_dict_add (l : line num) (i : option string) :
  forall type_dict,
    in_type_dict (add_to_type_dict l type_dict) i
    = if key_eqb (id_ l) i then with_lines (in_type_dict type_dict i) [l]
      else in_type_dict type_dict i.
Proof.
  unfold in_type_dict.
  induction type_dict as [|[k e] rest IH]; cbn.
  - destruct (key_eqb (id_ l) i); reflexivity.
  - destruct (key_eqb k (id_ l)) eqn:Hk; cbn.
    + apply key_eqb_eq in Hk. subst k.
      destruct (key_eqb (id_ l) i); reflexivity.
    + destruct (key_eqb k i) eqn:Hki.
      * apply key_eqb_eq in Hki. subst k.
        destruct (key_eqb (id_ l) i) eqn:Hli; [|reflexivity].
        apply key_eqb_eq in Hli. subst i. rewrite key_eqb_refl in Hk. discriminate.
      * exact IH.
Qed.

Lemma lookup_entry_in_type_dict (g : general_ledger_t num) (t : string)
      (i : option string) :
  lookup_entry g t i
  = match find (fun p => String.eqb (fst p) t) g with
    | None => None
    | Some (_, type_dict) => in_type_dict type_dict i
    end.
Proof.
  unfold lookup_entry, in_type_dict.
  destruct (find _ g) as [[? ?]|]; reflexivity.
Qed.

Lemma lookup_add_line (l : line num) (t : string) (i : option string) :
  forall g,
    lookup_entry (add_line l g) t i
    = if of_transaction t i l then with_lines (lookup_entry g t i) [l]
      else lookup_entry g t i.
Proof.
  intro g. rewrite !lookup_entry_in_type_dict. unfold of_transaction.
  induction g as [|[t' type_dict] rest IH]; cbn.
  - destruct (String.eqb (type_ l) t); cbn; [|reflexivity].
    apply (in_type_dict_add l i []).
  - destruct (String.eqb t' (type_ l)) eqn:Ht'; cbn.
    + apply String.eqb_eq in Ht'. subst t'.
      destruct (String.eqb (type_ l) t); cbn; [|reflexivity].
      apply in_type_dict_add.
    + destruct (String.eqb t' t) eqn:Htt.
      * apply String.eqb_eq in Htt. subst t'.
        rewrite String.eqb_sym, Ht'. reflexivity.
      * exact IH.
Qed.

Lemma with_lines_nil (o : option (entry num)) : with_lines o [] = o.
Proof. destruct o as [[? ? ?]|]; cbn; [rewrite app_nil_r|]; reflexivity. Qed.

Lemma with_lines_app (o : option (entry num)) (l : line num) (ls : list (line num)) :
  with_lines (with_lines o [l]) ls = with_lines o (l :: ls).
Proof.
  destruct o as [e|]; cbn; [|reflexivity]. now rewrite <- app_assoc.
Qed.

Lemma lookup_fold_add_line (t : string) (i : option string) :
  forall (ls : list (line num)) (g : general_ledger_t num),
    lookup_entry (fold_left (fun g l => add_line l g) ls g) t i
    = with_lines (lookup_entry g t i) (filter (of_transaction t i) ls).
Proof.
  induction ls as [|l ls IH]; intro g; cbn.
  - now rewrite with_lines_nil.
  - rewrite IH, lookup_add_line.
    destruct (of_transaction t i l); [apply with_lines_app|reflexivity].
Qed.

Lemma group_lines_flattened (g : gl_entries_t num) :
  group_lines g = fold_left (fun gl l => add_line l gl) (flattened g) [].
Proof.
  unfold group_lines, flattened.
  generalize (@nil (string * list (option string * entry num))).
  induction (map snd g) as [|ls lss IH]; intro acc; cbn.
  - reflexivity.
  - now rewrite fold_left_app, IH.
Qed.

Lemma entry_of_transaction (t : string) (i : option string) (ls : list (line num))
      (e : entry num) :
  entry_of (filter (of_transaction t i) ls) = Some e ->
  entry_id e = i /\ lines e = filter (of_transaction t i) ls.
Proof.
  destruct (filter (of_transaction t i) ls) as [|l rest] eqn:Hf; [discriminate|].
  intros [= <-]. cbn. split; [|reflexivity].
  assert (Hin : In l (filter (of_transaction t i) ls)) by (rewrite Hf; now left).
  apply filter_In in Hin. destruct Hin as [_ Hl].
  unfold of_transaction in Hl. apply andb_true_iff in Hl.
  now apply key_eqb_eq.
Qed.

(** C2 (as amended).  When the walk of the report succeeds,
    [gl_entries] has the accounts in the order in which the first
    section of each is completed (a section after the sections inside
    it), and for each account the lines of its sections' own rows,
    section after section in that order.  [general_ledger[type][id]]
    exists exactly for the transactions that have a line, holds the
    transaction's id and the date of its first stored line, and its
    lines are the lines of that type and id in the flattened
    per-account lists of [gl_entries], in that order.  These are the
    lines met during the walk, each once: a permutation of the walk
    order, not always the walk order itself. *)
Theorem general_ledger_groups_flattened_lines (report : list row)
        (g : gl_entries_t num) (general_ledger : general_ledger_t num) :
  reconstruct ctx report = (g, Ok general_ledger) ->
  g = by_account (report_completed ctx report)
  /\ (forall t i, lookup_entry general_ledger t i
               = entry_of (filter (of_transaction t i) (flattened g)))
  /\ Permutation (flattened g) (report_walk_order ctx report)
  /\ (forall t i e, lookup_entry general_ledger t i = Some e ->
                    entry_id e = i
                    /\ Permutation (lines e)
                                   (filter (of_transaction t i)
                                           (report_walk_order ctx report))).
Proof.
  unfold reconstruct.
  destruct (walk_report ctx report []) as [[[]|e] g0] eqn:Hwalk; [|discriminate].
  intros [= -> <-].
  assert (Hlook : forall t i, lookup_entry (group_lines g) t i
                              = entry_of (filter (of_transaction t i) (flattened g))).
  { intros t i. rewrite group_lines_flattened, lookup_fold_add_line. reflexivity. }
  assert (Hperm : Permutation (flattened g) (report_walk_order ctx report)).
  { apply walk_report_keeps_lines in Hwalk. exact Hwalk. }
  split.
  { apply walk_report_completes in Hwalk. rewrite Hwalk.
    apply extend_all_by_account. }
  split; [exact Hlook|]. split; [exact Hperm|].
  intros t i e He. rewrite Hlook in He.
  apply entry_of_transaction in He. destruct He as [Hid Hlines].
  split; [exact Hid|]. rewrite Hlines.
  clear -Hperm. induction Hperm; cbn.
  - constructor.
  - destruct (of_transaction t i x); [constructor|]; assumption.
  - destruct (of_transaction t i x), (of_transaction t i y);
      try constructor; apply Permutation_refl.
  - etransitivity; eassumption.
Qed.

(** *** "Not Specified" sections *)

Lemma not_specified_skipped (r : row) (account : option string) (g : gl_entries_t num) :
  not_specified r = true ->
  _get_gl_entries_from_section ctx r account g = (Ok tt, g).
Proof.
  destruct r as [data|[[|c0 cols]|] Rows|t]; cbn; try discriminate.
  destruct (id c0); [discriminate|].
  destruct (value c0) as [v|]; [|discriminate].
  intro Hv. apply String.eqb_eq in Hv. subst v. reflexivity.
Qed.

Lemma prune_is_section (r : row) :
  match r with Section _ _ => True | _ => prune r = r end.
Proof. destruct r as [|? [|]|]; exact I || reflexivity. Qed.

Lemma rows_loop_prune (account : option string) :
  forall rows, Forall (pruning_is_invisible ctx) rows ->
  forall entries g,
    rows_loop ctx account (prune_rows rows) entries g
    = rows_loop ctx account rows entries g.
Proof.
  induction 1 as [|r rows Hr _ IH]; intros entries g.
  - reflexivity.
  - cbn [prune_rows]. destruct (not_specified r) eqn:Hns.
    + rewrite IH. cbn [rows_loop].
      destruct r as [data|Header Rows|t]; try discriminate.
      now rewrite (not_specified_skipped _ account g Hns).
    + destruct r as [data|Header Rows|t].
      * cbn. destruct (data_line ctx account data); [apply IH|reflexivity].
      * specialize (Hr account g).
        destruct Rows as [rows'|].
        -- change (prune (Section Header (Some rows')))
             with (Section Header (Some (prune_rows rows'))) in *.
           cbn [rows_loop]. rewrite Hr.
           destruct (_get_gl_entries_from_section ctx (Section Header (Some rows')) account g)
             as [[[]|e] g1]; [apply IH|reflexivity].
        -- cbn [prune rows_loop].
           destruct (_get_gl_entries_from_section ctx (Section Header None) account g)
             as [[[]|e] g1]; [apply IH|reflexivity].
      * cbn. apply IH.
Qed.

Lemma prune_invisible : forall r, pruning_is_invisible ctx r.
Proof.
  induction r as [data|Header|Header rows IH|t] using row_rect_rows;
    intros account g; try reflexivity.
  change (prune (Section Header (Some rows)))
    with (Section Header (Some (prune_rows rows))).
  rewrite !section_unfold.
  destruct (resolve_header ctx Header account) as [|[a|e]]; try reflexivity.
  now rewrite rows_loop_prune.
Qed.

Lemma walk_report_prune :
  forall report g, walk_report ctx (prune_rows report) g = walk_report ctx report g.
Proof.
  induction report as [|r report IH]; intro g; [reflexivity|].
  cbn [prune_rows]. destruct (not_specified r) eqn:Hns.
  - rewrite IH. destruct r as [data|Header Rows|t]; try discriminate.
    cbn [walk_report]. now rewrite (not_specified_skipped _ None g Hns).
  - destruct r as [data|Header Rows|t].
    + cbn. apply IH.
    + pose proof (prune_invisible (Section Header Rows) None g) as Hr.
      destruct Rows as [rows'|].
      * change (prune (Section Header (Some rows')))
          with (Section Header (Some (prune_rows rows'))) in *.
        cbn [walk_report]. rewrite Hr.
        destruct (_get_gl_entries_from_section ctx (Section Header (Some rows')) None g)
          as [[[]|e] g1]; [apply IH|reflexivity].
      * cbn [prune walk_report].
        destruct (_get_gl_entries_from_section ctx (Section Header None) None g)
          as [[[]|e] g1]; [apply IH|reflexivity].
    + cbn. apply IH.
Qed.

(** C3.  A section whose header's account column has the display name
    "Not Specified" and no id is returned from at once: whatever its
    rows and sub-sections, [gl_entries] is left as it was; and the
    reconstruction of a report ([gl_entries] and [general_ledger]) is
    that of the report without such sections, at any depth. *)
Theorem not_specified_section_contributes_nothing :
  forall (cols : list col) (Rows : option (list row)) (account : option string)
         (g : gl_entries_t num) (report : list row),
    _get_gl_entries_from_section ctx
      (Section (Some ({| value := Some "Not Specified"; id := None |} :: cols)) Rows)
      account g
    = (Ok tt, g)
    /\ reconstruct ctx report = reconstruct ctx (prune_rows report).
Proof.
  intros. split.
  - reflexivity.
  - unfold reconstruct. now rewrite walk_report_prune.
Qed.

End LedgerFacts.

(** C2, a run: the parent-and-child report is walked without error. *)
Lemma general_ledger_groups_flattened_lines_witness :
  exists g gl,
    Ledger.reconstruct identity_context parent_and_child_report = (g, Ok gl)
    /\ map fst g = [Some "85"; Some "84"]
    /\ g = by_account (report_completed identity_context parent_and_child_report)
    /\ forall t i, Ledger.lookup_entry gl t i
                   = entry_of (filter (of_transaction t i) (flattened g)).
Proof.
  eexists. eexists. split; [reflexivity|]. split; [reflexivity|].
  destruct (general_ledger_groups_flattened_lines
              identity_context parent_and_child_report _ _ eq_refl)
    as (Hg & Hlookup & _).
  split; [exact Hg|exact Hlookup].
Defined.

(** C2, the claim as stated fails: Invoice 7 has a line in the parent
    account, met first by the walk, and one in the sub-account, met
    second; the entry lists them the other way round (and takes its date
    from the sub-account's line). *)
Lemma entry_lines_not_in_walk_order :
  match snd (Ledger.reconstruct identity_context parent_and_child_report) with
  | Ok gl =>
      option_map (fun e => (Ledger.entry_date e, map Ledger.date (Ledger.lines e)))
                 (Ledger.lookup_entry gl "Invoice" (Some "7"))
  | Raise _ => None
  end = Some ("2020-01-02", ["2020-01-02"; "2020-01-01"])
  /\ map Ledger.date
         (filter (of_transaction "Invoice" (Some "7"))
                 (report_walk_order identity_context parent_and_child_report))
     = ["2020-01-01"; "2020-01-02"].
Proof. split; reflexivity. Qed.

(** ** Fiscal years *)

Section FiscalYearFacts.
Import Dates FiscalYears.

Lemma ltb_spec (a b : date) :
  ltb a b = true <->
  (year a < year b
   \/ (year a = year b /\ (month a < month b \/ (month a = month b /\ day a < day b))))%Z.
Proof.
  unfold ltb.
  rewrite orb_true_iff, andb_true_iff, orb_true_iff, andb_true_iff,
    !Z.ltb_lt, !Z.eqb_eq.
  reflexivity.
Qed.

Lemma ltb_false_spec (a b : date) :
  ltb a b = false <->
  ~ (year a < year b
     \/ (year a = year b /\ (month a < month b \/ (month a = month b /\ day a < day b))))%Z.
Proof. rewrite <- ltb_spec. destruct (ltb a b); split; congruence. Qed.

Lemma leb_spec (a b : date) : leb a b = true <-> ltb b a = false.
Proof. unfold leb. apply negb_true_iff. Qed.

Lemma ltb_trans (a b c : date) : ltb a b = true -> ltb b c = true -> ltb a c = true.
Proof. rewrite !ltb_spec. lia. Qed.

(** No two years in a row are leap years. *)
Lemma leap_years_apart (y : Z) : is_leap y = true -> is_leap (y + 1) = false.
Proof.
  unfold is_leap.
  rewrite orb_true_iff, andb_true_iff, negb_true_iff, orb_false_iff,
    andb_false_iff, negb_false_iff, !Z.eqb_eq, !Z.eqb_neq.
  intros Hl.
  assert (H4 : (y mod 4 = 0)%Z).
  { destruct Hl as [[H4 _]|H400]; [exact H4|].
    pose proof (Z.div_mod y 400 ltac:(lia)) as Hd.
    rewrite H400 in Hd.
    replace y with (4 * (100 * (y / 400)))%Z at 1 by lia.
    rewrite Z.mul_comm. apply Z_mod_mult. }
  assert (H4' : ((y + 1) mod 4 = 1)%Z).
  { pose proof (Z.div_mod y 4 ltac:(lia)) as Hd. rewrite H4 in Hd.
    replace (y + 1)%Z with (1 + (y / 4) * 4)%Z by lia.
    rewrite Z_mod_plus_full. reflexivity. }
  split.
  - left. lia.
  - intro H400. pose proof (Z.div_mod (y + 1) 400 ltac:(lia)) as Hd.
    rewrite H400 in Hd.
    pose proof (Z.div_mod (y + 1) 4 ltac:(lia)) as Hd4. rewrite H4' in Hd4. lia.
Qed.

Lemma days_in_february (y : Z) :
  (days_in_month y 2 = 28 \/ days_in_month y 2 = 29)%Z.
Proof. unfold days_in_month. cbn. destruct (is_leap y); lia. Qed.

Lemma days_in_month_year (y y' m : Z) :
  m <> 2%Z -> days_in_month y m = days_in_month y' m.
Proof.
  intro Hm. unfold days_in_month.
  destruct (Z.eqb_spec m 2); [contradiction|reflexivity].
Qed.

(** Lengths of one month in three years in a row. *)
Lemma days_in_month_three_years (y m d : Z) :
  (d < days_in_month (y + 1) m -> d < days_in_month y m ->
   d < days_in_month (y - 1) m)%Z.
Proof.
  destruct (Z.eq_dec m 2) as [->|Hm].
  - unfold days_in_month. cbn.
    destruct (is_leap (y - 1)) eqn:H1; [destruct (is_leap (y + 1)), (is_leap y); lia|].
    destruct (is_leap y) eqn:H2.
    + apply leap_years_apart in H2. rewrite H2. lia.
    + lia.
  - rewrite (days_in_month_year (y - 1) y m Hm). lia.
Qed.

(** The year before a well-formed fiscal year is well formed and ends
    before that year starts. *)
Lemma step_well_formed (f : fiscal_year) :
  well_formed f ->
  let f' := new_year (shift_years (year_start_date f) (-1))
                     (shift_years (year_end_date f) (-1)) in
  well_formed f' /\ ltb (year_end_date f') (year_start_date f) = true.
Proof.
  destruct f as [[ys ms ds] [ye me de] n].
  unfold well_formed, new_year, shift_years, MAXYEAR. cbn.
  rewrite !ltb_spec. cbn.
  intros (Hday & Hmax & Hyears & Hend).
  replace (ys + -1 + 1)%Z with ys by lia.
  pose proof (days_in_month_three_years ys ms de) as H3.
  repeat split; try lia.
  destruct Hend as [Hlt|(-> & [Hm|(-> & Hd)])].
  - left. lia.
  - right. split; [lia|]. left. exact Hm.
  - right. split; [lia|]. right. split; [reflexivity|].
    replace (ys + 1 + -1)%Z with ys by lia.
    replace (ys + -1)%Z with (ys - 1)%Z by lia.
    lia.
Qed.

Lemma last_cons {A} (l : list A) (x d : A) : List.last (x :: l) d = List.last l x.
Proof.
  revert x d. induction l as [|y l IH]; intros x d; [reflexivity|].
  change (List.last (x :: y :: l) d) with (List.last (y :: l) d).
  rewrite IH. symmetry. apply IH.
Qed.

Section Loop.
Variable accepts : fiscal_year -> list fiscal_year -> result unit.
Hypothesis accepted : forall f t, accepts f t = Ok tt.
Variable D : date.
Hypothesis D_year : (2 <= year D)%Z.

Lemma extend_spec :
  forall (fuel : nat) (f : fiscal_year) (table : list fiscal_year),
    well_formed f ->
    Z.to_nat (year (year_start_date f)) < fuel ->
    exists created last,
      extend accepts fuel D f table = (Done last, table ++ created)
      /\ one_year_steps f created
      /\ last = List.last created f
      /\ leb (year_start_date last) D = true
      /\ Forall (fun c => ltb (year_end_date c) (year_start_date f) = true
                          /\ ltb (year_start_date c) (year_start_date f) = true)
                created
      /\ ForallOrdPairs (fun a b => overlap a b = false) created
      /\ (ltb D (year_start_date f) = true -> created <> []).
Proof.
  induction fuel as [|fuel IH]; intros f table Hwf Hfuel; [lia|].
  cbn [extend].
  destruct (ltb D (year_start_date f)) eqn:Hlt.
  - (* one more year *)
    assert (Hy : (2 <= year (year_start_date f))%Z)
      by (apply ltb_spec in Hlt; lia).
    destruct Hwf as (Hday & Hmax & Hyears & Hend).
    unfold add_years, MINYEAR, MAXYEAR in *.
    destruct ((year (year_start_date f) + -1 <? 1)
              || (9999 <? year (year_start_date f) + -1))%Z eqn:Hs;
      [apply orb_true_iff in Hs; rewrite !Z.ltb_lt in Hs; lia|].
    assert (He1 : (year (year_end_date f) <= year (year_start_date f) + 1)%Z).
    { apply ltb_spec in Hend. cbn in Hend. lia. }
    destruct ((year (year_end_date f) + -1 <? 1)
              || (9999 <? year (year_end_date f) + -1))%Z eqn:He;
      [apply orb_true_iff in He; rewrite !Z.ltb_lt in He; lia|].
    rewrite accepted.
    set (f' := new_year (shift_years (year_start_date f) (-1))
                        (shift_years (year_end_date f) (-1))).
    destruct (step_well_formed f) as [Hwf' Hbefore];
      [repeat split; assumption|]. fold f' in Hwf', Hbefore.
    assert (Hstart : ltb (year_start_date f') (year_start_date f) = true).
    { apply ltb_spec. cbn. lia. }
    destruct (IH f' (table ++ [f']) Hwf') as
        (created & last & Hrun & Hsteps & Hlast & Hle & Hall & Hpairs & _).
    { cbn. lia. }
    exists (f' :: created), last. rewrite Hrun, <- app_assoc. cbn [app].
    split; [reflexivity|]. split; [cbn; auto|]. split.
    { rewrite Hlast. symmetry. apply last_cons. }
    split; [exact Hle|]. split.
    { constructor; [split; assumption|].
      eapply Forall_impl; [|exact Hall]. cbn beta.
      intros c [Hc1 Hc2]. split; eapply ltb_trans; eassumption. }
    split.
    { constructor; [|exact Hpairs].
      eapply Forall_impl; [|exact Hall]. cbn beta.
      intros c [Hc _]. unfold overlap.
      apply andb_false_iff. left. unfold leb. now rewrite Hc. }
    discriminate.
  - exists [], f. rewrite app_nil_r. repeat split.
    + apply leb_spec. exact Hlt.
    + constructor.
    + constructor.
    + discriminate.
Qed.

End Loop.

Lemma well_formed_intro (f : fiscal_year) :
  valid (year_start_date f) = true ->
  leb (year_start_date f) (year_end_date f) = true ->
  ltb (year_end_date f) (shift_years (year_start_date f) 1) = true ->
  well_formed f.
Proof.
  unfold valid, well_formed. intros Hv Hle Hend.
  rewrite !andb_true_iff, !Z.leb_le in Hv.
  apply leb_spec, ltb_false_spec in Hle.
  repeat split; try lia. exact Hend.
Qed.

(** The loop never stops for want of fuel. *)
Lemma extend_fuel (accepts : fiscal_year -> list fiscal_year -> result unit) (D : date) :
  forall (fuel : nat) (f : fiscal_year) (table : list fiscal_year),
    Z.to_nat (year (year_start_date f)) < fuel ->
    fst (extend accepts fuel D f table) <> OutOfFuel.
Proof.
  induction fuel as [|fuel IH]; intros f table Hfuel; [lia|].
  cbn [extend].
  destruct (ltb D (year_start_date f)); [|discriminate].
  unfold add_years, MINYEAR.
  destruct ((year (year_start_date f) + -1 <? 1)
            || (MAXYEAR <? year (year_start_date f) + -1))%Z eqn:Hs; [discriminate|].
  apply orb_false_iff in Hs. destruct Hs as [Hs _]. apply Z.ltb_ge in Hs.
  destruct ((year (year_end_date f) + -1 <? 1)
            || (MAXYEAR <? year (year_end_date f) + -1))%Z; [discriminate|].
  destruct (accepts _ table); [|discriminate].
  apply IH. cbn. lia.
Qed.

(** The table only grows. *)
Lemma extend_appends (accepts : fiscal_year -> list fiscal_year -> result unit) (D : date) :
  forall (fuel : nat) (f : fiscal_year) (table : list fiscal_year),
    exists created, snd (extend accepts fuel D f table) = table ++ created.
Proof.
  induction fuel as [|fuel IH]; intros f table; cbn [extend].
  - exists []. rewrite app_nil_r. now destruct (ltb D (year_start_date f)).
  - destruct (ltb D (year_start_date f)); [|exists []; now rewrite app_nil_r].
    destruct (add_years (year_start_date f) (-1)) as [s|e];
      [|exists []; now rewrite app_nil_r].
    destruct (add_years (year_end_date f) (-1)) as [e'|e];
      [|exists []; now rewrite app_nil_r].
    destruct (accepts (new_year s e') table); [|exists []; now rewrite app_nil_r].
    destruct (IH (new_year s e') (table ++ [new_year s e'])) as [created Hc].
    exists (new_year s e' :: created). rewrite Hc, <- app_assoc. reflexivity.
Qed.

(** The years that the loop creates go back year by year, whatever the
    dates and the framework. *)
Lemma extend_steps (accepts : fiscal_year -> list fiscal_year -> result unit) (D : date) :
  forall (fuel : nat) (f : fiscal_year) (table : list fiscal_year),
    exists created, snd (extend accepts fuel D f table) = table ++ created
                    /\ one_year_steps f created.
Proof.
  induction fuel as [|fuel IH]; intros f table; cbn [extend].
  - exists []. rewrite app_nil_r. split; [now destruct (ltb D (year_start_date f))|exact I].
  - destruct (ltb D (year_start_date f)); [|exists []; now rewrite app_nil_r].
    unfold add_years.
    destruct ((year (year_start_date f) + -1 <? MINYEAR)
              || (MAXYEAR <? year (year_start_date f) + -1))%Z;
      [exists []; now rewrite app_nil_r|].
    destruct ((year (year_end_date f) + -1 <? MINYEAR)
              || (MAXYEAR <? year (year_end_date f) + -1))%Z;
      [exists []; now rewrite app_nil_r|].
    set (f' := new_year (shift_years (year_start_date f) (-1))
                        (shift_years (year_end_date f) (-1))).
    destruct (accepts f' table); [|exists []; now rewrite app_nil_r].
    destruct (IH f' (table ++ [f'])) as (created & Hc & Hsteps).
    exists (f' :: created). rewrite Hc, <- app_assoc.
    split; [reflexivity|]. cbn. auto.
Qed.

Lemma february_after_leap (y : Z) :
  days_in_month y 2 = 29%Z -> days_in_month (y + 1) 2 = 28%Z /\ days_in_month (y - 1) 2 = 28%Z.
Proof.
  unfold days_in_month. cbn.
  destruct (is_leap y) eqn:Hy; [|lia]. intros _.
  rewrite (leap_years_apart y Hy). split; [reflexivity|].
  destruct (is_leap (y - 1)) eqn:Hp; [|reflexivity].
  apply leap_years_apart in Hp. replace (y - 1 + 1)%Z with y in Hp by lia. congruence.
Qed.

Lemma overlap_true (a b : fiscal_year) :
  overlap a b = true
  <-> ltb (year_end_date b) (year_start_date a) = false
      /\ ltb (year_end_date a) (year_start_date b) = false.
Proof. unfold overlap, leb. rewrite andb_true_iff, !negb_true_iff. reflexivity. Qed.

(** A fiscal year that does not end before the anniversary of its
    start: the year before it overlaps it, unless it runs from a 29
    February to the 28 February of the next year; then the year before
    that one overlaps the year before it. *)
Lemma long_year_overlaps (f first : fiscal_year) (rest : list fiscal_year) :
  valid (year_start_date f) = true ->
  ltb (year_end_date f) (shift_years (year_start_date f) 1) = false ->
  one_year_steps f (first :: rest) ->
  overlap f first = true
  \/ (month (year_start_date f) = 2%Z /\ day (year_start_date f) = 29%Z
      /\ year_end_date f = date_of (year (year_start_date f) + 1) 2 28
      /\ overlap f first = false
      /\ match rest with
         | [] => True
         | second :: _ => overlap first second = true
         end).
Proof.
  destruct f as [[y m d] [ye me de] n].
  destruct first as [s1 e1 n1]. cbn [year_start_date year_end_date one_year_steps].
  intros Hvalid Hlong (-> & -> & Hrest).
  unfold valid, MINYEAR, MAXYEAR in Hvalid. cbn in Hvalid.
  rewrite !andb_true_iff, !Z.leb_le in Hvalid.
  apply ltb_false_spec in Hlong. unfold shift_years in Hlong. cbn in Hlong.
  assert (Hshape : (y + 1 < ye \/ (ye = y + 1 /\ m < me) \/ (ye = y + 1 /\ me = m))%Z)
    by lia.
  destruct Hshape as [Hye|[(-> & Hme)|(-> & ->)]].
  - left. apply overlap_true. rewrite !ltb_false_spec. unfold shift_years. cbn [year month day year_start_date year_end_date]. lia.
  - left. apply overlap_true. rewrite !ltb_false_spec. unfold shift_years. cbn [year month day year_start_date year_end_date]. lia.
  - replace (y + 1 + -1)%Z with y in * by lia.
    destruct (Z.eq_dec m 2) as [->|Hm].
    + destruct (days_in_february y) as [H28|H29].
      * left. apply overlap_true. rewrite !ltb_false_spec. unfold shift_years. cbn [year month day year_start_date year_end_date].
        replace (y + 1 + -1)%Z with y by lia.
        pose proof (days_in_february (y + 1)). lia.
      * destruct (february_after_leap y H29) as [Hnext Hprev].
        rewrite Hnext in Hlong.
        destruct (Z_lt_le_dec de d) as [Hlt|Hge].
        -- (* 29 February to 28 February *)
           right. assert (d = 29%Z) by lia. assert (de = 28%Z) by lia. subst d de.
           split; [reflexivity|]. split; [reflexivity|]. split; [reflexivity|].
           split.
           { unfold overlap, leb, shift_years. cbn [year month day year_start_date year_end_date].
             replace (y + 1 + -1)%Z with y by lia. rewrite H29.
             apply andb_false_iff. left. apply negb_false_iff, ltb_spec. cbn [year month day]. lia. }
           destruct rest as [|[s2 e2 n2] rest]; [exact I|].
           cbn [one_year_steps year_start_date year_end_date] in Hrest.
           destruct Hrest as (-> & -> & _).
           apply overlap_true. rewrite !ltb_false_spec. unfold shift_years. cbn [year month day year_start_date year_end_date].
           replace (y + 1 + -1)%Z with y by lia. rewrite H29.
           replace (y + -1)%Z with (y - 1)%Z by lia. rewrite Hprev.
           pose proof (days_in_february (y - 1 + -1)). lia.
        -- left. apply overlap_true. rewrite !ltb_false_spec. unfold shift_years. cbn [year month day year_start_date year_end_date].
           replace (y + 1 + -1)%Z with y by lia. rewrite H29. lia.
    + left. apply overlap_true. rewrite !ltb_false_spec. unfold shift_years. cbn [year month day year_start_date year_end_date].
      replace (y + 1 + -1)%Z with y by lia.
      rewrite (days_in_month_year (y + 1) y m Hm) in Hlong. lia.
Qed.

(** One year is enough when it starts on or before the date. *)
Lemma extend_once (accepts : fiscal_year -> list fiscal_year -> result unit)
      (D : date) (f : fiscal_year) (table : list fiscal_year) :
  (forall y t, accepts y t = Ok tt) ->
  valid (year_start_date f) = true ->
  (2 <= year D)%Z ->
  ltb D (year_start_date f) = true ->
  ltb (shift_years (year_end_date f) (-1)) (year_start_date f) = true ->
  leb (shift_years (year_start_date f) (-1)) D = true ->
  leb (year_start_date f) (year_end_date f) = true ->
  let first := new_year (shift_years (year_start_date f) (-1))
                        (shift_years (year_end_date f) (-1)) in
  extend accepts (enough_fuel f) D f table = (Done first, table ++ [first])
  /\ overlap f first = false.
Proof.
  intros Hacc Hvalid HD Hlt Hend Hcover Hle first.
  unfold valid, MINYEAR, MAXYEAR in Hvalid.
  rewrite !andb_true_iff, !Z.leb_le in Hvalid.
  assert (Hy : (2 <= year (year_start_date f))%Z) by (apply ltb_spec in Hlt; lia).
  assert (Hye : (year (year_start_date f) <= year (year_end_date f)
                 <= year (year_start_date f) + 1)%Z).
  { apply leb_spec, ltb_false_spec in Hle. apply ltb_spec in Hend.
    unfold shift_years in Hend. cbn [year month day] in Hend. lia. }
  unfold enough_fuel.
  destruct (Z.to_nat (year (year_start_date f))) as [|fuel] eqn:Hfuel; [lia|].
  cbn [extend]. rewrite Hlt. unfold add_years, MINYEAR, MAXYEAR.
  destruct ((year (year_start_date f) + -1 <? 1)
            || (9999 <? year (year_start_date f) + -1))%Z eqn:Hs;
    [apply orb_true_iff in Hs; rewrite !Z.ltb_lt in Hs; lia|].
  destruct ((year (year_end_date f) + -1 <? 1)
            || (9999 <? year (year_end_date f) + -1))%Z eqn:He;
    [apply orb_true_iff in He; rewrite !Z.ltb_lt in He; lia|].
  fold first. rewrite Hacc.
  assert (Hstop : ltb D (year_start_date first) = false) by (apply leb_spec; exact Hcover).
  split.
  - destruct fuel; cbn [extend]; rewrite Hstop; reflexivity.
  - unfold overlap. apply andb_false_iff. left. unfold leb.
    apply negb_false_iff. exact Hend.
Qed.

End FiscalYearFacts.

(** C6 (as amended).  Let the earliest ledger date [D] lie in year 2 or
    later and before the start [S] of the oldest fiscal year, a valid
    date with [S <= E], and let the framework accept the new years.
    Let [E] be before the anniversary of [S]; or let the year before
    the oldest one end before [S] and start on or before [D], so that
    it is the only one to create.  Then the loop ends by its condition;
    the years it created are appended to the table, whose rows stay as
    they were; each starts and ends one calendar year before the one
    before it (the day clipped to the month's length); no two of them,
    nor one of them and the initial year, overlap; and the last one
    starts on or before [D].  Whatever the dates and the framework, the
    loop stops (by its condition or by an exception) within the fuel
    given, and the table only grows.  And when [E] is on or after the
    anniversary of [S], the first year that a run creates overlaps the
    initial one, unless [S] is a 29 February and [E] the 28 February of
    the next year: then the first created year ends the day before [S]
    and the second, when the run creates one, overlaps the first. *)
Theorem fiscal_years_extended_back_to_earliest_date :
  forall (accepts : FiscalYears.fiscal_year -> list FiscalYears.fiscal_year -> result unit)
         (D : Dates.date) (f : FiscalYears.fiscal_year)
         (table : list FiscalYears.fiscal_year),
    (forall y t, accepts y t = Ok tt) ->
    Dates.valid (FiscalYears.year_start_date f) = true ->
    Dates.leb (FiscalYears.year_start_date f) (FiscalYears.year_end_date f) = true ->
    (2 <= Dates.year D)%Z ->
    Dates.ltb D (FiscalYears.year_start_date f) = true ->
    Dates.ltb (FiscalYears.year_end_date f)
              (Dates.shift_years (FiscalYears.year_start_date f) 1) = true
    \/ (Dates.ltb (Dates.shift_years (FiscalYears.year_end_date f) (-1))
                  (FiscalYears.year_start_date f) = true
        /\ Dates.leb (Dates.shift_years (FiscalYears.year_start_date f) (-1)) D = true) ->
    (exists created last,
        FiscalYears.extend accepts (FiscalYears.enough_fuel f) D f table
        = (FiscalYears.Done last, table ++ created)
        /\ created <> []
        /\ one_year_steps f created
        /\ last = List.last created f
        /\ Dates.leb (FiscalYears.year_start_date last) D = true
        /\ ForallOrdPairs (fun a b => overlap a b = false) (f :: created))
    /\ (forall accepts' D' f' table',
           fst (FiscalYears.extend accepts' (FiscalYears.enough_fuel f') D' f' table')
           <> FiscalYears.OutOfFuel
           /\ exists created,
               snd (FiscalYears.extend accepts' (FiscalYears.enough_fuel f') D' f' table')
               = table' ++ created)
    /\ (forall accepts' fuel D' f' table' first rest,
           Dates.valid (FiscalYears.year_start_date f') = true ->
           Dates.ltb (FiscalYears.year_end_date f')
                     (Dates.shift_years (FiscalYears.year_start_date f') 1) = false ->
           snd (FiscalYears.extend accepts' fuel D' f' table') = table' ++ first :: rest ->
           overlap f' first = true
           \/ (Dates.month (FiscalYears.year_start_date f') = 2%Z
               /\ Dates.day (FiscalYears.year_start_date f') = 29%Z
               /\ FiscalYears.year_end_date f'
                  = date_of (Dates.year (FiscalYears.year_start_date f') + 1) 2 28
               /\ overlap f' first = false
               /\ match rest with
                  | [] => True
                  | second :: _ => overlap first second = true
                  end)).
Proof.
  intros accepts D f table Hacc Hvalid Hle HD Hlt Hend. split; [|split].
  - destruct Hend as [Hend|[Hend Hcover]].
    + destruct (extend_spec accepts Hacc D HD (FiscalYears.enough_fuel f) f table)
        as (created & last & Hrun & Hsteps & Hlast & Hcover & Hall & Hpairs & Hne).
      * now apply well_formed_intro.
      * unfold FiscalYears.enough_fuel. lia.
      * exists created, last. repeat split; auto.
        constructor; [|exact Hpairs].
        eapply Forall_impl; [|exact Hall]. cbn beta.
        intros c [Hc _]. unfold overlap.
        apply andb_false_iff. left. unfold Dates.leb. now rewrite Hc.
    + destruct (extend_once accepts D f table Hacc Hvalid HD Hlt Hend Hcover Hle)
        as [Hrun Hapart].
      eexists. eexists. split; [exact Hrun|].
      split; [discriminate|]. split; [cbn; auto|]. split; [reflexivity|].
      split; [exact Hcover|].
      constructor; [constructor; [exact Hapart|constructor]|].
      constructor; [constructor|constructor].
  - intros accepts' D' f' table'. split.
    + apply extend_fuel. unfold FiscalYears.enough_fuel. lia.
    + apply extend_appends.
  - intros accepts' fuel D' f' table' first rest Hvalid' Hlong Hrun.
    destruct (extend_steps accepts' D' fuel f' table') as (created & Hc & Hsteps).
    rewrite Hc in Hrun. apply app_inv_head in Hrun. subst created.
    now apply long_year_overlaps.
Qed.

(** C6, two runs: ledger lines from June 2018 and the fiscal year 2020;
    ledger lines from June 2019 and a fiscal year from 29 February. *)
Lemma fiscal_years_extended_back_witness :
  (exists created last,
      FiscalYears.extend accepts_all (FiscalYears.enough_fuel fy_2020)
                         (date_of 2018 6 1) fy_2020 [fy_2020]
      = (FiscalYears.Done last, [fy_2020] ++ created)
      /\ List.length created = 2)
  /\ (exists created last,
         FiscalYears.extend accepts_all (FiscalYears.enough_fuel fy_leap)
                            (date_of 2019 6 1) fy_leap [fy_leap]
         = (FiscalYears.Done last, [fy_leap] ++ created)
         /\ List.length created = 1
         /\ ForallOrdPairs (fun a b => overlap a b = false) (fy_leap :: created)).
Proof.
  split.
  - destruct (fiscal_years_extended_back_to_earliest_date
                accepts_all (date_of 2018 6 1) fy_2020 [fy_2020])
      as [(created & last & Hrun & _) _];
      try reflexivity; [cbn; lia|left; reflexivity|].
    exists created, last. split; [exact Hrun|].
    vm_compute in Hrun. injection Hrun as _ Hc.
    rewrite <- Hc. reflexivity.
  - destruct (fiscal_years_extended_back_to_earliest_date
                accepts_all (date_of 2019 6 1) fy_leap [fy_leap])
      as [(created & last & Hrun & _ & _ & _ & _ & Hapart) _];
      try reflexivity; [cbn; lia|right; split; reflexivity|].
    exists created, last. split; [exact Hrun|]. split; [|exact Hapart].
    vm_compute in Hrun. injection Hrun as _ Hc.
    rewrite <- Hc. reflexivity.
Defined.

(** C6, the claim as stated fails: for a fiscal year that ends on the
    anniversary of its start (2020-01-01 to 2021-01-01) the year the
    loop creates, 2019-01-01 to 2020-01-01, shares 2020-01-01 with it. *)
Lemma created_year_overlaps_long_year :
  exists new_fiscal_year,
    FiscalYears.extend accepts_all (FiscalYears.enough_fuel fy_long)
                       (date_of 2019 6 1) fy_long [fy_long]
    = (FiscalYears.Done new_fiscal_year, [fy_long; new_fiscal_year])
    /\ Dates.ltb (date_of 2019 6 1) (FiscalYears.year_start_date fy_long) = true
    /\ overlap fy_long new_fiscal_year = true.
Proof.
  eexists. split; [vm_compute; reflexivity|]. split; reflexivity.
Qed.

(** ** The migrator: reading and writing *)

Section MonadFacts.
Import Site Migrator.
Context {World num : Type} `{Number num}.
Local Abbreviation M := (@Migrator.M World num).

Lemma readonly_ret {A} (a : A) : readonly (ret a : M A).
Proof. intro st. reflexivity. Qed.

Lemma readonly_raise {A} (e : exn) : readonly (raise e : M A).
Proof. intro st. reflexivity. Qed.

Lemma readonly_lift {A} (r : result A) : readonly (lift r : M A).
Proof. intro st. reflexivity. Qed.

Lemma readonly_read {A} (f : state -> A) : readonly (read f : M A).
Proof. intro st. reflexivity. Qed.

Lemma readonly_bind {A B} (m : M A) (k : A -> M B) :
  readonly m -> (forall a, readonly (k a)) -> readonly (bindM m k).
Proof.
  intros Hm Hk st. unfold bindM. specialize (Hm st).
  destruct (m st) as [[a|e] st']; cbn in Hm; subst st'; [apply Hk|reflexivity].
Qed.

Lemma readonly_try {A} (m : M A) (h : exn -> M A) :
  readonly m -> (forall e, readonly (h e)) -> readonly (try_except m h).
Proof.
  intros Hm Hh st. unfold try_except. specialize (Hm st).
  destruct (m st) as [[a|e] st']; cbn in Hm; subst st'; [reflexivity|apply Hh].
Qed.

Lemma readonly_map_M {A B} (f : A -> M B) (l : list A) :
  (forall x, readonly (f x)) -> readonly (map_M f l).
Proof.
  intro Hf. induction l as [|x l IH]; cbn [map_M].
  - apply readonly_ret.
  - apply readonly_bind; [apply Hf|intro y].
    apply readonly_bind; [exact IH|intro ys]. apply readonly_ret.
Qed.

Lemma readonly_flat_map_M {A B} (f : A -> M (list B)) (l : list A) :
  (forall x, readonly (f x)) -> readonly (flat_map_M f l).
Proof.
  intro Hf. induction l as [|x l IH]; cbn [flat_map_M].
  - apply readonly_ret.
  - apply readonly_bind; [apply Hf|intro y].
    apply readonly_bind; [exact IH|intro ys]. apply readonly_ret.
Qed.

Lemma readonly_fold_lines {A B} (step : B -> A -> M B) (l : list A) :
  (forall acc x, readonly (step acc x)) -> forall acc, readonly (fold_lines step l acc).
Proof.
  intro Hs. induction l as [|x l IH]; intro acc; cbn [fold_lines].
  - apply readonly_ret.
  - apply readonly_bind; [apply Hs|intro acc']. apply IH.
Qed.

Lemma readonly_fun {A} (f : state -> result A) :
  readonly ((fun st => (f st, st)) : M A).
Proof. intro st. reflexivity. Qed.

(** The value and the state of a read-only computation. *)
Lemma readonly_run {A} (m : M A) (st : state) :
  readonly m -> m st = (fst (m st), st).
Proof. intro Hm. specialize (Hm st). destruct (m st); cbn in *; now subst. Qed.

Lemma dict_get_set (d : dict num) (k k' : string) (v : value num) :
  dict_get (dict_set d k v) k' = if String.eqb k k' then Some v else dict_get d k'.
Proof.
  induction d as [|[k0 v0] rest IH]; cbn.
  - destruct (String.eqb k k'); reflexivity.
  - destruct (String.eqb k0 k) eqn:Hk0; cbn.
    + apply String.eqb_eq in Hk0. subst k0.
      destruct (String.eqb k k'); reflexivity.
    + destruct (String.eqb k0 k') eqn:Hk0'.
      * apply String.eqb_eq in Hk0'. subst k0.
        rewrite String.eqb_sym, Hk0. reflexivity.
      * exact IH.
Qed.

Lemma dict_get_set_other (d : dict num) (k k' : string) (v : value num) :
  k <> k' -> dict_get (dict_set d k v) k' = dict_get d k'.
Proof.
  intro Hk. rewrite dict_get_set. apply String.eqb_neq in Hk. now rewrite Hk.
Qed.

End MonadFacts.

Ltac readonly_step :=
  first
    [ apply readonly_ret
    | apply readonly_raise
    | apply readonly_lift
    | apply readonly_read
    | apply readonly_fun
    | apply readonly_bind; [|intro]
    | apply readonly_try; [|intro]
    | apply readonly_map_M; intro
    | apply readonly_flat_map_M; intro
    | apply readonly_fold_lines; intros
    | match goal with
      | |- readonly (if ?b then _ else _) => destruct b
      | |- readonly (match ?x with _ => _ end) => destruct x
      | |- readonly (let (_, _) := ?x in _) => destruct x
      end ].

Ltac readonly_auto := repeat readonly_step.

(** ** Fiscal-year step, payments, ledger entries *)

Section SaverFacts.
Import Site Migrator QuickBooks.
Context {World num : Type} `{Number num}.
Variable F : framework num.
Local Abbreviation state := (@Migrator.state World num).

Lemma filter_all_false {A} (p : A -> bool) (l : list A) :
  Forall (fun x => p x = false) l -> filter p l = [].
Proof.
  induction 1 as [|x l Hx _ IH]; cbn; [reflexivity|]. now rewrite Hx.
Qed.

(** C9.  If no line of [gl_entries] has a non-empty date (also when
    [gl_entries] was never set), [_create_fiscal_years] creates no
    fiscal year and leaves the existing ones, and every other document,
    as they were: the minimum of no dates raises, and the handler logs
    that one exception. *)
Theorem no_dated_line_no_fiscal_year
        (L : @library num)
        (accepts : FiscalYears.fiscal_year -> list FiscalYears.fiscal_year -> result unit)
        (st : state) :
  match gl_entries (self st) with
  | Some g => Forall (fun l => Py.str_truthy (Ledger.date l) = false) (flattened g)
  | None => True
  end ->
  let st' := snd (_create_fiscal_years L accepts st) in
  fiscal_years (db st') = fiscal_years (db st)
  /\ docs (db st') = docs (db st)
  /\ self st' = self st
  /\ exists e, error_log (db st') = error_log (db st) ++ [e].
Proof.
  intro Hdates.
  unfold _create_fiscal_years, try_except, bindM, read, lift.
  destruct (gl_entries (self st)) as [g|]; cbn.
  - unfold FiscalYears.min_date.
    rewrite filter_all_false.
    + cbn. repeat split. now exists ValueError.
    + unfold flattened in Hdates. now apply Forall_map.
  - repeat split. now exists AttributeError.
Qed.

(** C10.  A Payment without ["DepositToAccountRef"] is passed over:
    [_save_payment] returns with the state as it was (no document,
    no attribute of the migrator, nothing in the error log). *)
Theorem payment_without_deposit_account_is_skipped (payment : txn num) (st : state) :
  DepositToAccountRef payment = None ->
  _save_payment F payment st = (Ok tt, st).
Proof.
  intro Hnone. unfold _save_payment, try_except. rewrite Hnone. reflexivity.
Qed.

(** *** What [insert()] and [submit()] leave in the database *)

Lemma insert_submit_effect (d : dict num) (st : state) :
  let run := try_except (bindM (insert_ F d) (fun doc => submit_ F doc))
                        (fun e => _log_error e) st in
  fst run = Ok tt
  /\ self (snd run) = self st
  /\ fiscal_years (db (snd run)) = fiscal_years (db st)
  /\ exists new, docs (db (snd run)) = docs (db st) ++ new
                 /\ List.length new <= 1
                 /\ Forall (stored_form d) new
                 /\ (validate F d (docs (db st)) = Ok tt ->
                     List.length new = 1).
Proof.
  unfold try_except, bindM, insert_, submit_, insert, submit, _log_error.
  destruct (validate F d (docs (db st))) as [[]|e] eqn:Hv; cbn.
  - set (stored := dict_set (dict_set d "name" _) "docstatus" (VInt 0)).
    assert (Hs : stored_form d stored).
    { intros k Hn Hd. unfold stored.
      rewrite !dict_get_set_other by congruence. reflexivity. }
    destruct (on_submit F stored (docs (db st) ++ [stored])) as [[]|e]; cbn.
    + repeat split. exists [dict_set stored "docstatus" (VInt 1)].
      rewrite removelast_last. repeat split; auto.
      constructor; [|constructor].
      intros k Hn Hd. rewrite dict_get_set_other by congruence. now apply Hs.
    + repeat split. exists [stored]. repeat split; auto.
  - repeat split. exists []. rewrite app_nil_r. repeat split; auto.
    intro Habs. discriminate.
Qed.

Lemma save_journal_entry_effect (quickbooks_id : string) (accounts : list (dict num))
      (posting_date : value num) (st : state) :
  let run := __save_journal_entry F quickbooks_id accounts posting_date st in
  let je := journal_entry_dict (company (self st)) quickbooks_id accounts posting_date in
  fst run = Ok tt
  /\ self (snd run) = self st
  /\ fiscal_years (db (snd run)) = fiscal_years (db st)
  /\ exists new, docs (db (snd run)) = docs (db st) ++ new
                 /\ List.length new <= 1
                 /\ Forall (stored_form je) new
                 /\ (db_exists (docs (db st))
                               [("doctype", "Journal Entry");
                                ("quickbooks_id", quickbooks_id);
                                ("company", company (self st))] = true -> new = [])
                 /\ (db_exists (docs (db st))
                               [("doctype", "Journal Entry");
                                ("quickbooks_id", quickbooks_id);
                                ("company", company (self st))] = false ->
                     validate F je (docs (db st)) = Ok tt -> List.length new = 1).
Proof.
  cbn zeta. unfold __save_journal_entry.
  set (je := journal_entry_dict (company (self st)) quickbooks_id accounts posting_date).
  destruct (db_exists (docs (db st))
                      [("doctype", "Journal Entry"); ("quickbooks_id", quickbooks_id);
                       ("company", company (self st))]) eqn:Hex.
  - unfold try_except, bindM, the_company, db_exists_, read. cbn. rewrite Hex. cbn.
    repeat split. exists []. rewrite app_nil_r. repeat split; auto. discriminate.
  - pose proof (insert_submit_effect je st) as Heff. cbn zeta in Heff.
    assert (Hrun : try_except
                     (bindM the_company
                        (fun c =>
                           bindM (db_exists_ [("doctype", "Journal Entry");
                                              ("quickbooks_id", quickbooks_id);
                                              ("company", c)])
                                 (fun ex =>
                                    if ex then ret tt
                                    else bindM (insert_ F (journal_entry_dict
                                                             c quickbooks_id accounts
                                                             posting_date))
                                               (fun je => submit_ F je))))
                     (fun e => _log_error e) st
                   = try_except (bindM (insert_ F je) (fun doc => submit_ F doc))
                                (fun e => _log_error e) st).
    { unfold try_except, bindM, the_company, db_exists_, read. cbn. rewrite Hex.
      reflexivity. }
    rewrite Hrun.
    destruct Heff as (Hok & Hself & Hfy & new & Hdocs & Hlen & Hform & Hone).
    repeat split; auto. exists new. repeat split; auto. discriminate.
Qed.

(** *** Ledger entries *)

Lemma ledger_line_carried (cost_center : value num) (l : Ledger.line num) :
  one_sided l -> carries_nonzero_side l (ledger_account_line cost_center l).
Proof.
  unfold one_sided, carries_nonzero_side, ledger_account_line.
  destruct (truthy (Ledger.credit l)), (truthy (Ledger.debit l));
    cbn; intro Hx; try discriminate; split; intro; try discriminate; split; reflexivity.
Qed.

Lemma ledger_line_amounts (cost_center : value num) (l : Ledger.line num) :
  one_sided l ->
  amount_of "debit_in_account_currency" (ledger_account_line cost_center l)
  = Ledger.debit l
  /\ amount_of "credit_in_account_currency" (ledger_account_line cost_center l)
     = Ledger.credit l.
Proof.
  unfold one_sided, amount_of, ledger_account_line.
  destruct (truthy (Ledger.credit l)) eqn:Hc, (truthy (Ledger.debit l)) eqn:Hd;
    cbn; intro Hx; try discriminate; split; try reflexivity;
    symmetry; now apply truthy_false_iff.
Qed.

(** C1.  For a ledger entry whose lines are one-sided and balance,
    [__save_ledger_entry_as_je] (the body of [_save_advance_payment],
    [_save_tax_payment] and [_save_inventory_qty_adjust]) returns
    without an exception and adds at most one document to the
    database.  The document it adds is a Journal Entry of the given
    quickbooks id and of the entry's date; its ["accounts"] table has
    one posting line for each ledger line, in order, and no line
    more; each posting is on the account of its line, with the
    non-zero side of the line and no other amount; and the debits of
    the table sum to its credits.  No document is added when a
    Journal Entry of that id exists; one is added when none exists and
    the framework accepts it. *)
Theorem ledger_entry_saved_as_balanced_journal_entry
        (ledger_entry : Ledger.entry num) (quickbooks_id : string) (st : state) :
  Forall one_sided (Ledger.lines ledger_entry) ->
  total (map Ledger.debit (Ledger.lines ledger_entry))
  = total (map Ledger.credit (Ledger.lines ledger_entry)) ->
  let run := __save_ledger_entry_as_je F ledger_entry quickbooks_id st in
  let found := db_exists (docs (db st))
                         [("doctype", "Journal Entry");
                          ("quickbooks_id", quickbooks_id);
                          ("company", company (self st))] in
  fst run = Ok tt
  /\ exists new,
      docs (db (snd run)) = docs (db st) ++ new
      /\ List.length new <= 1
      /\ Forall (fun stored =>
                   dict_get stored "doctype" = Some (VStr "Journal Entry")
                   /\ dict_get stored "quickbooks_id" = Some (VStr quickbooks_id)
                   /\ dict_get stored "posting_date"
                      = Some (VStr (Ledger.entry_date ledger_entry))
                   /\ exists postings,
                       dict_get stored "accounts" = Some (VTable postings)
                       /\ Forall2 carries_nonzero_side (Ledger.lines ledger_entry) postings
                       /\ Forall2 (fun l posting =>
                                     dict_get posting "account"
                                     = Some (vstr (Ledger.account l)))
                                  (Ledger.lines ledger_entry) postings
                       /\ total_debit postings = total_credit postings) new
      /\ (found = true -> new = [])
      /\ (found = false ->
          (forall stored, dict_get stored "quickbooks_id" = Some (VStr quickbooks_id) ->
                          validate F stored (docs (db st)) = Ok tt) ->
          List.length new = 1).
Proof.
  intros Hsided Hbalance run found.
  set (accounts := map (ledger_account_line (vstr (default_cost_center (self st))))
                       (Ledger.lines ledger_entry)).
  pose proof (save_journal_entry_effect quickbooks_id accounts
                (VStr (Ledger.entry_date ledger_entry)) st) as Heff.
  cbn zeta in Heff.
  assert (Hcall : run = __save_journal_entry F quickbooks_id accounts
                                             (VStr (Ledger.entry_date ledger_entry)) st).
  { destruct Heff as (Hok & _). subst run.
    unfold __save_ledger_entry_as_je, try_except at 1, bindM at 1, the_cost_center, read.
    fold accounts.
    destruct (__save_journal_entry F quickbooks_id accounts
                                   (VStr (Ledger.entry_date ledger_entry)) st)
      as [[[]|e] st1]; [reflexivity|discriminate]. }
  rewrite Hcall.
  destruct Heff as (Hok & _ & _ & new & Hdocs & Hlen & Hform & Hfound & Hone).
  split; [exact Hok|]. exists new.
  split; [exact Hdocs|]. split; [exact Hlen|].
  split; [|split; [exact Hfound|]].
  - eapply Forall_impl; [|exact Hform]. intros stored Hstored.
    split; [rewrite Hstored by discriminate; reflexivity|].
    split; [rewrite Hstored by discriminate; reflexivity|].
    split; [rewrite Hstored by discriminate; reflexivity|].
    exists accounts.
    split; [rewrite Hstored by discriminate; reflexivity|].
    split; [|split].
    + subst accounts. clear -Hsided.
      induction Hsided as [|l ls Hl _ IH]; cbn; constructor.
      * now apply ledger_line_carried.
      * exact IH.
    + subst accounts. clear.
      induction (Ledger.lines ledger_entry) as [|l ls IH]; cbn [map]; constructor.
      * unfold ledger_account_line.
        destruct (truthy (Ledger.credit l)); reflexivity.
      * exact IH.
    + unfold total_debit, total_credit. subst accounts. rewrite !map_map.
      rewrite Forall_forall in Hsided.
      assert (Hd : map (fun l => amount_of "debit_in_account_currency"
                                   (ledger_account_line
                                      (vstr (default_cost_center (self st))) l))
                       (Ledger.lines ledger_entry)
                   = map Ledger.debit (Ledger.lines ledger_entry)).
      { apply map_ext_in. intros l Hin. now apply ledger_line_amounts, Hsided. }
      assert (Hc : map (fun l => amount_of "credit_in_account_currency"
                                   (ledger_account_line
                                      (vstr (default_cost_center (self st))) l))
                       (Ledger.lines ledger_entry)
                   = map Ledger.credit (Ledger.lines ledger_entry)).
      { apply map_ext_in. intros l Hin. now apply ledger_line_amounts, Hsided. }
      rewrite Hd, Hc. exact Hbalance.
  - intros Hnone Haccepts. apply Hone; [exact Hnone|].
    apply Haccepts. reflexivity.
Qed.

End SaverFacts.

Lemma no_dated_line_no_fiscal_year_witness :
  let st := with_gl_entries
              [(Some "Bank - QB", [ledger_line "Bank - QB" "" "Deposit" "4" 0 100])]
              new_state in
  Migrator.fiscal_years
    (Migrator.db (snd (Migrator._create_fiscal_years plain_library accepts_all st)))
  = [fy_2020]
  /\ Migrator.error_log
       (Migrator.db (snd (Migrator._create_fiscal_years plain_library accepts_all st)))
     = [ValueError].
Proof.
  intro st.
  destruct (no_dated_line_no_fiscal_year plain_library accepts_all st) as (Hfy & _ & _ & Hlog).
  - cbn. repeat constructor.
  - split; [exact Hfy|]. reflexivity.
Defined.

Lemma payment_without_deposit_account_is_skipped_witness :
  Migrator._save_payment plain_framework (bare_txn "7") new_state = (Ok tt, new_state).
Proof.
  apply (payment_without_deposit_account_is_skipped plain_framework (bare_txn "7") new_state).
  reflexivity.
Defined.

Lemma ledger_entry_saved_as_balanced_journal_entry_witness :
  exists stored postings,
    Migrator.docs
      (Migrator.db
         (snd (Migrator.__save_ledger_entry_as_je plain_framework advance_of_100
                                                  "Advance Payment - 31" new_state)))
    = [stored]
    /\ Site.dict_get stored "accounts" = Some (Site.VTable postings)
    /\ map (amount_of "debit_in_account_currency") postings = [0; 100]%Z
    /\ map (amount_of "credit_in_account_currency") postings = [100; 0]%Z
    /\ total_debit postings = total_credit postings.
Proof.
  destruct (ledger_entry_saved_as_balanced_journal_entry
              plain_framework advance_of_100 "Advance Payment - 31" new_state)
    as (_ & new & Hdocs & _ & Hnew & _ & _).
  - repeat constructor.
  - reflexivity.
  - cbn [Migrator.docs Migrator.db new_state empty_site app] in Hdocs.
    destruct new as [|stored new]; [discriminate Hdocs|].
    destruct new as [|other new]; [|discriminate Hdocs].
    apply Forall_inv in Hnew.
    destruct Hnew as (_ & _ & _ & postings & Haccounts & _ & _ & Hbalance).
    exists stored, postings.
    split; [exact Hdocs|]. split; [exact Haccounts|].
    injection Hdocs as Hstored. rewrite <- Hstored in Haccounts.
    injection Haccounts as <-.
    split; [reflexivity|]. split; [reflexivity|exact Hbalance].
Defined.

(** ** Invoices *)

Section InvoiceFacts.
Import Site Migrator QuickBooks.
Context {World num : Type} `{Number num}.
Variable F : framework num.
Variable L : @library num.
Variable T : @tax_methods World num.
Local Abbreviation state := (@Migrator.state World num).
Local Abbreviation M := (@Migrator.M World num).

Lemma bind_readonly_run {A B} (m : M A) (k : A -> M B) (st : state) :
  readonly m ->
  bindM m k st = match fst (m st) with
                 | Ok a => k a st
                 | Raise e => (Raise e, st)
                 end.
Proof.
  intro Hm. unfold bindM. rewrite (readonly_run m st Hm). cbn.
  destruct (fst (m st)); reflexivity.
Qed.

Lemma readonly_get_account_name_by_id (i : string) :
  readonly (_get_account_name_by_id i : M string).
Proof. unfold _get_account_name_by_id, the_company, get_all_. readonly_auto. Qed.

Lemma readonly_sales_item (invoice : txn num) (line : txn_line num) :
  readonly (sales_item T invoice line).
Proof.
  unfold sales_item, the_company, get_all_, the_cost_center, the_warehouse, item_taxes.
  readonly_auto; apply readonly_get_account_name_by_id.
Qed.

Lemma readonly_si_items_step (invoice : txn num) (is_return : bool)
      (items : list (dict num)) (line : txn_line num) :
  readonly (si_items_step L T invoice is_return items line).
Proof.
  unfold si_items_step.
  destruct (String.eqb (DetailType line) "SalesItemLineDetail").
  - apply readonly_bind; [apply readonly_sales_item|intro]. readonly_auto.
  - readonly_auto.
Qed.

Lemma readonly_get_si_items (invoice : txn num) (is_return : bool) :
  readonly (_get_si_items L T invoice is_return).
Proof.
  unfold _get_si_items. apply readonly_bind; [apply readonly_lift|intro lines].
  apply readonly_fold_lines. intros. apply readonly_si_items_step.
Qed.

Lemma readonly_sales_invoice_dict (invoice : txn num) (quickbooks_id : string)
      (is_return is_pos : bool) :
  readonly (sales_invoice_dict L T invoice quickbooks_id is_return is_pos).
Proof.
  unfold sales_invoice_dict, the_company, get_all_, taxes_of, _get_invoice_payments.
  repeat first [ apply readonly_get_si_items
               | apply readonly_get_account_name_by_id
               | readonly_step ].
Qed.

(** *** Quantities of a return *)

Lemma sales_item_qty (invoice : txn num) (line : txn_line num) (st : state)
      (d : dict num) :
  fst (sales_item T invoice line st) = Ok d ->
  exists q q', dict_get d "qty" = Some q /\ times_minus_one q = Ok q'.
Proof.
  unfold sales_item.
  repeat (rewrite bind_readonly_run;
          [|first [ apply readonly_lift | apply readonly_read
                  | apply readonly_get_account_name_by_id
                  | unfold the_company, get_all_, the_cost_center, the_warehouse,
                    item_taxes; readonly_auto ]];
          match goal with
          | |- fst (match fst ?r with _ => _ end) = _ -> _ =>
              destruct (fst r); [|discriminate]
          end;
          try match goal with
            | |- fst ((if ?b then _ else _) _) = _ -> _ => destruct b
            end).
  all: cbn; intros [= <-]; cbn; eexists; eexists; split; reflexivity.
Qed.

Lemma negate_last_qty_app (items : list (dict num)) (d : dict num) :
  negate_last_qty (items ++ [d])
  = Py.bind (Py.getitem (dict_get d "qty"))
            (fun q => Py.bind (times_minus_one q)
                              (fun q' => Ok (items ++ [dict_set d "qty" q']))).
Proof.
  unfold negate_last_qty.
  rewrite last_last, removelast_last.
  destruct items; reflexivity.
Qed.

Lemma qty_negated_update (a0 a1 : dict num) (k1 k2 : string) (v1 v2 : value num) :
  k1 <> "qty" -> k2 <> "qty" ->
  qty_negated a0 a1 ->
  qty_negated (dict_update a0 [(k1, v1); (k2, v2)])
              (dict_update a1 [(k1, v1); (k2, v2)]).
Proof.
  intros Hk1 Hk2 (Hother & q & q' & Hq & Hneg & Hq').
  unfold dict_update. cbn. split.
  - intros k Hk. rewrite !dict_get_set. now rewrite (Hother k Hk).
  - exists q, q'. rewrite !dict_get_set_other by assumption. auto.
Qed.

Lemma Forall2_snoc_inv {A B} (R : A -> B -> Prop) (l0 : list A) (l1 : list B) :
  Forall2 R l0 l1 -> l0 <> [] ->
  Forall2 R (removelast l0) (removelast l1)
  /\ forall d0 d1, R (List.last l0 d0) (List.last l1 d1).
Proof.
  induction 1 as [|x y l0 l1 Hxy Hrest IH]; intro Hne; [contradiction|].
  destruct Hrest as [|x' y' l0' l1' Hxy' Hrest'].
  - cbn. split; [constructor|]. intros. exact Hxy.
  - destruct IH as [IH1 IH2]; [discriminate|].
    split.
    + change (removelast (x :: x' :: l0')) with (x :: removelast (x' :: l0')).
      change (removelast (y :: y' :: l1')) with (y :: removelast (y' :: l1')).
      constructor; assumption.
    + intros d0 d1. apply IH2.
Qed.

Lemma si_items_step_negated (invoice : txn num) (line : txn_line num)
      (items negated : list (dict num)) (st : state) :
  Forall2 qty_negated items negated ->
  same_but_negated (fst (si_items_step L T invoice false items line st))
                   (fst (si_items_step L T invoice true negated line st)).
Proof.
  intro Hrel. unfold si_items_step.
  destruct (String.eqb (DetailType line) "SalesItemLineDetail").
  - rewrite !bind_readonly_run by apply readonly_sales_item.
    destruct (fst (sales_item T invoice line st)) as [d|e] eqn:Hitem; [|exact I].
    destruct (sales_item_qty _ _ _ _ Hitem) as (q & q' & Hq & Hneg).
    cbn. rewrite negate_last_qty_app, Hq. cbn. rewrite Hneg. cbn.
    apply Forall2_app; [exact Hrel|]. constructor; [|constructor].
    split.
    + intros k Hk. now apply dict_get_set_other.
    + exists q, q'. rewrite dict_get_set, String.eqb_refl. auto.
  - destruct (String.eqb (DetailType line) "DescriptionOnly"); [|exact Hrel].
    destruct Hrel as [|a0 a1 l0 l1 Ha Hl]; [exact I|].
    assert (Hrel : Forall2 qty_negated (a0 :: l0) (a1 :: l1)) by (constructor; assumption).
    unfold bindM, lift.
    destruct (Py.getitem (Description line)) as [description|e]; [|exact I].
    destruct (int L (Py.before "%" description)) as [rate|e]; [|exact I].
    cbn [fst ret same_but_negated].
    destruct (Forall2_snoc_inv _ _ _ Hrel) as [Hinit Hlast]; [discriminate|].
    apply Forall2_app; [exact Hinit|]. constructor; [|constructor].
    apply qty_negated_update; [discriminate|discriminate|apply Hlast].
Qed.

Lemma fold_lines_negated (invoice : txn num) (st : state) :
  forall (lines : list (txn_line num)) (items negated : list (dict num)),
    Forall2 qty_negated items negated ->
    same_but_negated
      (fst (fold_lines (si_items_step L T invoice false) lines items st))
      (fst (fold_lines (si_items_step L T invoice true) lines negated st)).
Proof.
  induction lines as [|line lines IH]; intros items negated Hrel; cbn [fold_lines].
  - exact Hrel.
  - rewrite !bind_readonly_run by apply readonly_si_items_step.
    pose proof (si_items_step_negated invoice line items negated st Hrel) as Hstep.
    destruct (fst (si_items_step L T invoice false items line st)) as [i0|e0],
             (fst (si_items_step L T invoice true negated line st)) as [i1|e1];
      cbn in Hstep; try contradiction.
    + now apply IH.
    + exact I.
Qed.

Lemma get_si_items_negated (invoice : txn num) (st : state) :
  same_but_negated (fst (_get_si_items L T invoice false st))
                   (fst (_get_si_items L T invoice true st)).
Proof.
  unfold _get_si_items. rewrite !bind_readonly_run by apply readonly_lift.
  cbn. destruct (Py.getitem (Line invoice)) as [lines|e]; [|exact I].
  apply fold_lines_negated. constructor.
Qed.

(** *** The Sales Invoice document *)

Lemma readonly_get_invoice_payments (invoice : txn num) (is_return is_pos : bool) :
  readonly (_get_invoice_payments invoice is_return is_pos : M (value num)).
Proof.
  unfold _get_invoice_payments.
  repeat first [apply readonly_get_account_name_by_id | readonly_step].
Qed.

Lemma sales_invoice_dict_fields (invoice : txn num) (quickbooks_id : string)
      (is_return is_pos : bool) (st : state) (d : dict num) :
  fst (sales_invoice_dict L T invoice quickbooks_id is_return is_pos st) = Ok d ->
  made_from L T invoice quickbooks_id is_return st d.
Proof.
  unfold sales_invoice_dict.
  repeat (rewrite bind_readonly_run;
          [|first [ apply readonly_lift | apply readonly_read
                  | apply readonly_get_si_items
                  | apply readonly_get_invoice_payments
                  | unfold the_company, get_all_, taxes_of; readonly_auto ]];
          match goal with
          | |- fst (match fst ?r with _ => _ end) = _ -> _ =>
              destruct (fst r) eqn:?; [|discriminate]
          end).
  unfold made_from, is_a.
  match goal with
  | |- fst (match ?o with _ => _ end _) = _ -> _ => destruct o
  end.
  - repeat (rewrite bind_readonly_run by apply readonly_lift;
            match goal with
            | |- fst (match fst ?r with _ => _ end) = _ -> _ =>
                destruct (fst r) eqn:?; [|discriminate]
            end).
    cbn [fst ret]. intros [= <-].
    repeat split;
      try (rewrite ?dict_get_set_other by discriminate; reflexivity).
    eexists. split; [eassumption|].
    rewrite ?dict_get_set_other by discriminate. reflexivity.
  - cbn [fst ret]. intros [= <-].
    repeat split; try reflexivity. eexists. split; [eassumption|reflexivity].
Qed.

Lemma stored_form_made_from (invoice : txn num) (quickbooks_id : string)
      (is_return : bool) (st : state) (d stored : dict num) :
  made_from L T invoice quickbooks_id is_return st d ->
  stored_form d stored ->
  made_from L T invoice quickbooks_id is_return st stored.
Proof.
  unfold made_from, is_a. intros (Hd & Hq & Hr & items & Hitems & Hi) Hs.
  rewrite !Hs by discriminate. repeat split; auto. now exists items.
Qed.

Lemma save_sales_invoice_effect (invoice : txn num) (quickbooks_id : string)
      (is_return is_pos : bool) (st : state) :
  let run := _save_sales_invoice F L T invoice quickbooks_id is_return is_pos st in
  let gate := [("doctype", "Sales Invoice"); ("quickbooks_id", quickbooks_id);
               ("company", company (self st))] in
  exists new,
    docs (db (snd run)) = docs (db st) ++ new
    /\ List.length new <= 1
    /\ Forall (made_from L T invoice quickbooks_id is_return st) new
    /\ (db_exists (docs (db st)) gate = true -> new = [])
    /\ (db_exists (docs (db st)) gate = false ->
        forall d,
          fst (sales_invoice_dict L T invoice quickbooks_id is_return is_pos st) = Ok d ->
          validate F d (docs (db st)) = Ok tt ->
          List.length new = 1).
Proof.
  cbn zeta. unfold _save_sales_invoice.
  unfold bindM at 1, the_company, read. cbn [fst snd].
  unfold bindM at 1, db_exists_, read. cbn [fst snd].
  destruct (db_exists (docs (db st))
                      [("doctype", "Sales Invoice"); ("quickbooks_id", quickbooks_id);
                       ("company", company (self st))]) eqn:Hex.
  - exists []. cbn. rewrite app_nil_r. repeat split; auto. discriminate.
  - unfold insert_invoice.
    rewrite (readonly_run _ st (readonly_sales_invoice_dict invoice quickbooks_id
                                                            is_return is_pos)).
    destruct (fst (sales_invoice_dict L T invoice quickbooks_id is_return is_pos st))
      as [d|e] eqn:Hd.
    + pose proof (insert_submit_effect F d st) as Heff. cbn zeta in Heff.
      destruct Heff as (_ & _ & _ & new & Hdocs & Hlen & Hform & Hone).
      exists new. repeat split; auto.
      * eapply Forall_impl; [|exact Hform].
        intros stored Hs. eapply stored_form_made_from; [|exact Hs].
        now apply sales_invoice_dict_fields in Hd.
      * discriminate.
      * intros _ d' [= <-] Hv. now apply Hone.
    + exists []. cbn. rewrite app_nil_r. repeat split; auto; discriminate.
Qed.

(** *** The Journal Entry of an invoice with a linked charge *)

Lemma adds_readonly (Q : dict num -> Prop) {A} (m : M A) : readonly m -> adds Q m.
Proof.
  intros Hm st. rewrite (Hm st). split.
  - exists []. rewrite app_nil_r. split; [reflexivity|constructor].
  - exists []. now rewrite app_nil_r.
Qed.

Lemma adds_bind (Q : dict num -> Prop) {A B} (m : M A) (k : A -> M B) :
  adds Q m -> (forall a, adds Q (k a)) -> adds Q (bindM m k).
Proof.
  intros Hm Hk st. unfold bindM.
  destruct (Hm st) as ((new1 & Hd1 & Hq1) & (fy1 & Hf1)).
  destruct (m st) as [[a|e] st1]; cbn [snd] in Hd1, Hf1.
  - destruct (Hk a st1) as ((new2 & Hd2 & Hq2) & (fy2 & Hf2)). split.
    + exists (new1 ++ new2). rewrite Hd2, Hd1, app_assoc. split; [reflexivity|].
      apply Forall_app. now split.
    + exists (fy1 ++ fy2). now rewrite Hf2, Hf1, app_assoc.
  - split; [exists new1; now split|exists fy1; exact Hf1].
Qed.

Lemma adds_try (Q : dict num -> Prop) {A} (m : M A) (h : exn -> M A) :
  adds Q m -> (forall e, adds Q (h e)) -> adds Q (try_except m h).
Proof.
  intros Hm Hh st. unfold try_except.
  destruct (Hm st) as ((new1 & Hd1 & Hq1) & (fy1 & Hf1)).
  destruct (m st) as [[a|e] st1]; cbn [snd] in Hd1, Hf1.
  - split; [exists new1; now split|exists fy1; exact Hf1].
  - destruct (Hh e st1) as ((new2 & Hd2 & Hq2) & (fy2 & Hf2)). split.
    + exists (new1 ++ new2). rewrite Hd2, Hd1, app_assoc. split; [reflexivity|].
      apply Forall_app. now split.
    + exists (fy1 ++ fy2). now rewrite Hf2, Hf1, app_assoc.
Qed.

Lemma adds_log_error (Q : dict num -> Prop) (e : exn) : adds Q (_log_error e : M unit).
Proof.
  intro st. split.
  - exists []. cbn. rewrite app_nil_r. split; [reflexivity|constructor].
  - exists []. cbn. now rewrite app_nil_r.
Qed.

Lemma adds_save_journal_entry (quickbooks_id : string) (accounts : list (dict num))
      (posting_date : value num) :
  adds (is_a "Journal Entry")
       (__save_journal_entry F quickbooks_id accounts posting_date : M unit).
Proof.
  intro st.
  pose proof (save_journal_entry_effect F quickbooks_id accounts posting_date st) as Heff.
  cbn zeta in Heff. destruct Heff as (_ & _ & Hfy & new & Hdocs & _ & Hform & _).
  split.
  - exists new. split; [exact Hdocs|].
    eapply Forall_impl; [|exact Hform].
    intros stored Hs. unfold is_a. rewrite Hs by discriminate. reflexivity.
  - exists []. now rewrite Hfy, app_nil_r.
Qed.

Lemma readonly_invoice_je_line (invoice : txn num) (line : Ledger.line num) :
  readonly (invoice_je_line invoice line : M (dict num)).
Proof.
  unfold invoice_je_line, the_cost_center, account_type_of, the_company, get_all_.
  readonly_auto.
Qed.

Lemma adds_save_invoice_as_journal_entry (invoice : txn num) (quickbooks_id : string) :
  adds (is_a "Journal Entry")
       (_save_invoice_as_journal_entry F invoice quickbooks_id : M unit).
Proof.
  unfold _save_invoice_as_journal_entry.
  apply adds_try; [|intro; apply adds_log_error].
  repeat first
         [ apply adds_save_journal_entry
         | apply adds_bind;
           [first [ apply adds_readonly;
                    first [ apply readonly_read | apply readonly_lift
                          | apply readonly_map_M; intro; apply readonly_invoice_je_line ]
                  | fail ]
           | intro ] ].
Qed.

End InvoiceFacts.

(** ** What the stored documents hold *)

Section InvoiceDocuments.
Import Site Migrator QuickBooks.
Context {World num : Type} `{Number num}.
Variable F : framework num.
Variable L : @library num.
Variable T : @tax_methods World num.
Local Abbreviation state := (@Migrator.state World num).
Local Abbreviation M := (@Migrator.M World num).

Ltac run_readonly :=
  rewrite bind_readonly_run;
  [|first [ apply readonly_lift | apply readonly_read
          | apply readonly_get_account_name_by_id
          | unfold the_company, get_all_, the_cost_center, the_warehouse,
            item_taxes; readonly_auto ]];
  match goal with
  | |- fst (match fst ?r with _ => _ end) = _ -> _ =>
      destruct (fst r) eqn:?; [|discriminate]
  end.

Lemma lift_getitem_ok {A} (o : option A) (st : state) (x : A) :
  fst (lift (Py.getitem o) st : result A * state) = Ok x -> o = Some x.
Proof. destruct o; cbn; [intros [= <-]; reflexivity|discriminate]. Qed.

Lemma sales_item_spec (invoice : txn num) (line : txn_line num) (st : state)
      (d : dict num) :
  fst (sales_item T invoice line st) = Ok d -> item_of_line false line d.
Proof.
  unfold sales_item.
  do 6 run_readonly.
  match goal with
  | |- fst ((if negb (?r =? _) then _ else _) _) = _ -> _ =>
      destruct (r =? "SHIPPING_ITEM_ID") eqn:Hship; cbn [negb]
  end.
  - do 4 run_readonly. cbn [fst ret]. intros [= <-].
    repeat match goal with
           | Hx : fst (lift (Py.getitem _) _) = Ok _ |- _ => apply lift_getitem_ok in Hx
           end.
    eexists. eexists. split; [eassumption|]. split; [eassumption|].
    rewrite Hship. eexists. split; [eassumption|]. split; reflexivity.
  - do 7 run_readonly. cbn [fst ret]. intros [= <-].
    repeat match goal with
           | Hx : fst (lift (Py.getitem _) _) = Ok _ |- _ => apply lift_getitem_ok in Hx
           end.
    eexists. eexists. split; [eassumption|]. split; [eassumption|].
    rewrite Hship. eexists. eexists.
    split; [eassumption|]. split; [eassumption|]. split; reflexivity.
Qed.

(** A turn of the loop that goes on from [items] adds the item of the
    line, or leaves as many items as there were. *)
Lemma item_of_line_update (is_return : bool) (line : txn_line num) (item : dict num)
      (k1 k2 : string) (v1 v2 : value num) :
  k1 <> "qty" -> k1 <> "price_list_rate" -> k2 <> "qty" -> k2 <> "price_list_rate" ->
  item_of_line is_return line item ->
  item_of_line is_return line (dict_update item [(k1, v1); (k2, v2)]).
Proof.
  intros H1 H1' H2 H2' (detail & ref & Hd & Hr & Hrest).
  exists detail, ref. split; [exact Hd|]. split; [exact Hr|].
  unfold dict_update. cbn [fold_left fst snd].
  destruct (ref =? "SHIPPING_ITEM_ID").
  - destruct Hrest as (amount & Ha & Hq & Hp). exists amount.
    rewrite !dict_get_set_other by assumption. auto.
  - destruct Hrest as (qty & price & Hqty & Hprice & Hq & Hp). exists qty, price.
    rewrite !dict_get_set_other by assumption. auto.
Qed.

Lemma item_of_line_negated (line : txn_line num) (item : dict num) (q' : value num) :
  item_of_line false line item ->
  (exists q, dict_get item "qty" = Some q /\ times_minus_one q = Ok q') ->
  item_of_line true line (dict_set item "qty" q').
Proof.
  intros (detail & ref & Hd & Hr & Hrest) (q & Hq & Hneg).
  exists detail, ref. split; [exact Hd|]. split; [exact Hr|].
  destruct (ref =? "SHIPPING_ITEM_ID").
  - destruct Hrest as (amount & Ha & Hqty & Hp). exists amount.
    rewrite Hqty in Hq. injection Hq as <-. cbn in Hneg. injection Hneg as <-.
    rewrite dict_get_set, String.eqb_refl.
    rewrite dict_get_set_other by discriminate. auto.
  - destruct Hrest as (qty & price & Hqty' & Hprice & Hqty & Hp). exists qty, price.
    rewrite Hqty in Hq. injection Hq as <-. cbn in Hneg. injection Hneg as <-.
    rewrite dict_get_set, String.eqb_refl.
    rewrite dict_get_set_other by discriminate. auto.
Qed.

Lemma Forall2_snoc {A B} (R : A -> B -> Prop) (l0 : list A) (l1 : list B) (a : A) (b : B) :
  Forall2 R l0 l1 -> R a b -> Forall2 R (l0 ++ [a]) (l1 ++ [b]).
Proof. intros Hl Hab. apply Forall2_app; [exact Hl|]. constructor; [exact Hab|constructor]. Qed.

Lemma si_items_step_spec (invoice : txn num) (is_return : bool) (line : txn_line num)
      (done : list (txn_line num)) (items items' : list (dict num)) (st : state) :
  Forall2 (item_of_line is_return) (item_lines done) items ->
  fst (si_items_step L T invoice is_return items line st) = Ok items' ->
  Forall2 (item_of_line is_return) (item_lines (done ++ [line])) items'.
Proof.
  intros Hdone. unfold item_lines in *. rewrite filter_app. cbn [filter].
  unfold si_items_step.
  destruct (String.eqb (DetailType line) "SalesItemLineDetail") eqn:Hsales.
  - rewrite bind_readonly_run by apply readonly_sales_item.
    destruct (fst (sales_item T invoice line st)) as [d|e] eqn:Hitem; [|discriminate].
    pose proof (sales_item_spec _ _ _ _ Hitem) as Hd.
    destruct is_return.
    + cbn. rewrite negate_last_qty_app.
      destruct (sales_item_qty _ _ _ _ _ Hitem) as (q & q' & Hq & Hneg).
      rewrite Hq. cbn. rewrite Hneg. cbn. intros [= <-].
      apply Forall2_snoc; [exact Hdone|].
      apply item_of_line_negated; [exact Hd|]. now exists q.
    + cbn. intros [= <-]. now apply Forall2_snoc.
  - rewrite app_nil_r.
    destruct (String.eqb (DetailType line) "DescriptionOnly"); [|cbn; now intros [= <-]].
    destruct items as [|i0 rest]; [discriminate|].
    unfold bindM, lift.
    destruct (Py.getitem (Description line)) as [description|e]; [|discriminate].
    destruct (int L (Py.before "%" description)) as [rate|e]; [|discriminate].
    cbn [fst ret]. intros [= <-].
    set (lines := filter _ done) in *.
    assert (Hne : lines <> []).
    { intro Hnil. rewrite Hnil in Hdone. inversion Hdone. }
    destruct (Forall2_snoc_inv _ _ _ Hdone Hne) as [Hinit Hlast].
    rewrite (app_removelast_last line Hne).
    apply Forall2_snoc; [exact Hinit|].
    apply item_of_line_update; try discriminate. apply Hlast.
Qed.

Lemma fold_lines_spec (invoice : txn num) (is_return : bool) (st : state) :
  forall (lines done : list (txn_line num)) (items items' : list (dict num)),
    Forall2 (item_of_line is_return) (item_lines done) items ->
    fst (fold_lines (si_items_step L T invoice is_return) lines items st) = Ok items' ->
    Forall2 (item_of_line is_return) (item_lines (done ++ lines)) items'.
Proof.
  induction lines as [|line lines IH]; intros done items items' Hdone; cbn [fold_lines].
  - cbn. intros [= <-]. now rewrite app_nil_r.
  - rewrite bind_readonly_run by apply readonly_si_items_step.
    destruct (fst (si_items_step L T invoice is_return items line st)) as [items1|e] eqn:Hstep;
      [|discriminate].
    intro Hrest.
    replace (done ++ line :: lines) with ((done ++ [line]) ++ lines)
      by (rewrite <- app_assoc; reflexivity).
    eapply IH; [|exact Hrest].
    eapply si_items_step_spec; eassumption.
Qed.

Lemma get_si_items_spec (invoice : txn num) (is_return : bool) (st : state)
      (items : list (dict num)) :
  fst (_get_si_items L T invoice is_return st) = Ok items ->
  exists lines, Line invoice = Some lines
                /\ Forall2 (item_of_line is_return) (item_lines lines) items.
Proof.
  unfold _get_si_items. rewrite bind_readonly_run by apply readonly_lift.
  destruct (fst (lift (Py.getitem (Line invoice)) st : result _ * state)) as [lines|e] eqn:Hl;
    [|discriminate].
  apply lift_getitem_ok in Hl. intro Hfold.
  exists lines. split; [exact Hl|].
  apply (fold_lines_spec invoice is_return st lines [] [] items); [constructor|exact Hfold].
Qed.

Lemma made_from_sales_invoice_of (invoice : txn num) (quickbooks_id : string)
      (is_return : bool) (st : state) (d : dict num) :
  made_from L T invoice quickbooks_id is_return st d ->
  sales_invoice_of invoice quickbooks_id is_return d.
Proof.
  intros (Hd & Hq & Hr & items & Hitems & Hi).
  split; [exact Hd|]. split; [exact Hq|]. split; [exact Hr|].
  destruct (get_si_items_spec _ _ _ _ Hitems) as (lines & Hlines & Hall).
  exists lines, items. auto.
Qed.

(** *** The postings of an invoice with a linked charge *)

Lemma invoice_je_line_spec (invoice : txn num) (line : Ledger.line num) (st : state)
      (posting : dict num) :
  fst (invoice_je_line invoice line st) = Ok posting -> posting_of_line line posting.
Proof.
  unfold invoice_je_line.
  run_readonly.
  rewrite bind_readonly_run by (unfold account_type_of, get_all_; readonly_auto).
  destruct (fst (account_type_of (Ledger.account line) st)) as [account_type|e];
    [|discriminate].
  assert (Hbase : posting_of_line line
            (if truthy (Ledger.debit line)
             then dict_set [("account", vstr (Ledger.account line)); ("cost_center", a)]
                           "debit_in_account_currency" (VNum (Ledger.debit line))
             else if truthy (Ledger.credit line)
                  then dict_set [("account", vstr (Ledger.account line));
                                 ("cost_center", a)]
                                "credit_in_account_currency" (VNum (Ledger.credit line))
                  else [("account", vstr (Ledger.account line)); ("cost_center", a)])).
  { unfold posting_of_line.
    destruct (truthy (Ledger.debit line)); [repeat split; reflexivity|].
    destruct (truthy (Ledger.credit line)); repeat split; reflexivity. }
  destruct (is_str account_type "Receivable").
  - do 4 run_readonly. cbn [fst ret]. intros [= <-].
    destruct Hbase as (Ha & Hd & Hc). unfold posting_of_line.
    rewrite !dict_get_set_other by discriminate. auto.
  - cbn [fst ret]. intros [= <-]. exact Hbase.
Qed.

Lemma map_M_spec {A B} (R : A -> B -> Prop) (f : A -> M B) (st : state) :
  (forall x, readonly (f x)) ->
  (forall x y, fst (f x st) = Ok y -> R x y) ->
  forall l ys, fst (map_M f l st) = Ok ys -> Forall2 R l ys.
Proof.
  intros Hro Hf. induction l as [|x l IH]; intros ys; cbn [map_M].
  - cbn. intros [= <-]. constructor.
  - rewrite bind_readonly_run by apply Hro.
    destruct (fst (f x st)) as [y|e] eqn:Hy; [|discriminate].
    rewrite bind_readonly_run by (apply readonly_map_M; exact Hro).
    destruct (fst (map_M f l st)) as [ys'|e] eqn:Hys; [|discriminate].
    cbn. intros [= <-]. constructor; [now apply Hf|now apply IH].
Qed.

Lemma save_invoice_as_journal_entry_effect (invoice : txn num) (quickbooks_id : string)
      (st : state) :
  let run := _save_invoice_as_journal_entry F invoice quickbooks_id st in
  exists new,
    docs (db (snd run)) = docs (db st) ++ new
    /\ List.length new <= 1
    /\ Forall (journal_entry_of_invoice invoice quickbooks_id st) new.
Proof.
  cbn zeta. unfold _save_invoice_as_journal_entry, try_except.
  assert (Hnone : forall e, exists new,
             docs (db (snd (_log_error e st : result unit * state))) = docs (db st) ++ new
             /\ List.length new <= 1
             /\ Forall (journal_entry_of_invoice invoice quickbooks_id st) new).
  { intro e. exists []. cbn. rewrite app_nil_r. repeat split; auto. }
  rewrite bind_readonly_run by apply readonly_read. cbn [fst read].
  rewrite bind_readonly_run by apply readonly_lift.
  destruct (general_ledger (self st)) as [g|] eqn:Hg; cbn [fst lift]; [|apply Hnone].
  rewrite bind_readonly_run by apply readonly_lift.
  destruct (Ledger.lookup_entry g "Invoice" (Some (Id invoice))) as [entry|] eqn:Hentry;
    cbn [fst lift Py.getitem]; [|apply Hnone].
  rewrite bind_readonly_run
    by (apply readonly_map_M; intro; apply readonly_invoice_je_line).
  destruct (fst (map_M (invoice_je_line invoice) (Ledger.lines entry) st))
    as [accounts|e] eqn:Haccounts; [|apply Hnone].
  rewrite bind_readonly_run by apply readonly_lift.
  destruct (Py.getitem (TxnDate invoice)) as [posting_date|e];
    cbn [fst lift]; [|apply Hnone].
  pose proof (save_journal_entry_effect F quickbooks_id accounts (VStr posting_date) st)
    as Heff.
  cbn zeta in Heff. destruct Heff as (Hok & _ & _ & new & Hdocs & Hlen & Hform & _).
  destruct (__save_journal_entry F quickbooks_id accounts (VStr posting_date) st)
    as [[[]|e] st1]; [|discriminate].
  cbn [snd] in *. exists new. split; [exact Hdocs|]. split; [exact Hlen|].
  eapply Forall_impl; [|exact Hform]. intros stored Hstored.
  split; [unfold is_a; rewrite Hstored by discriminate; reflexivity|].
  split; [rewrite Hstored by discriminate; reflexivity|].
  exists g, entry, accounts. split; [exact Hg|]. split; [exact Hentry|].
  split; [rewrite Hstored by discriminate; reflexivity|].
  eapply map_M_spec; [| |exact Haccounts].
  - intro. apply readonly_invoice_je_line.
  - intros x y. apply invoice_je_line_spec.
Qed.

Lemma invoice_je_line_runs (invoice : txn num) (line : Ledger.line num) (st : state) :
  has_customer invoice st ->
  exists posting, fst (invoice_je_line invoice line st) = Ok posting.
Proof.
  intros (ref & Href & Hcustomer). unfold invoice_je_line.
  rewrite bind_readonly_run by (unfold the_cost_center; readonly_auto).
  cbn [fst the_cost_center read].
  rewrite bind_readonly_run by (unfold account_type_of, get_all_; readonly_auto).
  assert (Htype : exists t, fst (account_type_of (Ledger.account line) st) = Ok t).
  { unfold account_type_of. destruct (Ledger.account line) as [n|]; [|now eexists].
    unfold bindM, get_all_, read. cbn [fst snd].
    destruct (get_all (docs (db st)) [("doctype", "Account"); ("name", n)]);
      now eexists. }
  destruct Htype as (t & ->).
  destruct (is_str t "Receivable"); [|now eexists].
  unfold bindM, the_company, get_all_, read, lift. cbn [fst snd].
  rewrite Href. cbn [Py.getitem].
  unfold db_exists in Hcustomer. unfold get_all.
  destruct (filter _ (docs (db st))) as [|row rows] eqn:Hrows.
  - apply existsb_exists in Hcustomer. destruct Hcustomer as (d & Hin & Hd).
    assert (Hd' : In d []) by (rewrite <- Hrows; apply filter_In; now split).
    destruct Hd'.
  - cbn. now eexists.
Qed.

Lemma map_M_runs {A B} (f : A -> M B) (st : state) :
  (forall x, readonly (f x)) ->
  (forall x, exists y, fst (f x st) = Ok y) ->
  forall l, exists ys, fst (map_M f l st) = Ok ys.
Proof.
  intros Hro Hf. induction l as [|x l IH]; cbn [map_M].
  - now eexists.
  - rewrite bind_readonly_run by apply Hro.
    destruct (Hf x) as (y & ->).
    rewrite bind_readonly_run by (apply readonly_map_M; exact Hro).
    destruct IH as (ys & ->). now eexists.
Qed.

Lemma save_invoice_as_journal_entry_adds (invoice : txn num) (quickbooks_id : string)
      (st : state) (g : Ledger.general_ledger_t num) (entry : Ledger.entry num)
      (date : string) :
  general_ledger (self st) = Some g ->
  Ledger.lookup_entry g "Invoice" (Some (Id invoice)) = Some entry ->
  TxnDate invoice = Some date ->
  has_customer invoice st ->
  db_exists (docs (db st))
            [("doctype", "Journal Entry"); ("quickbooks_id", quickbooks_id);
             ("company", company (self st))] = false ->
  (forall d, is_a "Journal Entry" d -> validate F d (docs (db st)) = Ok tt) ->
  List.length (docs (db (snd (_save_invoice_as_journal_entry F invoice quickbooks_id st))))
  = S (List.length (docs (db st))).
Proof.
  intros Hg Hentry Hdate Hcustomer Hgate Haccepts.
  unfold _save_invoice_as_journal_entry, try_except.
  rewrite bind_readonly_run by apply readonly_read. cbn [fst read].
  rewrite bind_readonly_run by apply readonly_lift.
  rewrite Hg. cbn [fst lift].
  rewrite bind_readonly_run by apply readonly_lift.
  rewrite Hentry. cbn [fst lift Py.getitem].
  rewrite bind_readonly_run
    by (apply readonly_map_M; intro; apply readonly_invoice_je_line).
  destruct (map_M_runs (invoice_je_line invoice) st
              (fun x => readonly_invoice_je_line invoice x)
              (fun x => invoice_je_line_runs invoice x st Hcustomer)
              (Ledger.lines entry)) as (accounts & ->).
  rewrite bind_readonly_run by apply readonly_lift.
  rewrite Hdate. cbn [fst lift Py.getitem].
  pose proof (save_journal_entry_effect F quickbooks_id accounts (VStr date) st) as Heff.
  cbn zeta in Heff. destruct Heff as (Hok & _ & _ & new & Hdocs & _ & _ & _ & Hone).
  destruct (__save_journal_entry F quickbooks_id accounts (VStr date) st)
    as [[[]|e] st1]; [|discriminate].
  cbn [snd] in *. rewrite Hdocs, length_app, Hone; [lia|exact Hgate|].
  apply Haccepts. reflexivity.
Qed.

Lemma save_invoice_route (invoice : txn num) (linked : list linked_txn) (st : state) :
  LinkedTxn invoice = Some linked ->
  _save_invoice F L T invoice st
  = if existsb is_charge linked
    then _save_invoice_as_journal_entry F invoice ("Invoice - " ++ Id invoice)%string st
    else _save_sales_invoice F L T invoice ("Invoice - " ++ Id invoice)%string
                             false false st.
Proof.
  intro Hlinked. unfold _save_invoice, bindM at 1, lift. rewrite Hlinked.
  cbn [Py.getitem]. destruct (existsb is_charge linked); reflexivity.
Qed.

Lemma sales_invoice_effect (record : txn num) (id : string) (is_return is_pos : bool)
      (st : state) :
  exists new,
    docs (db (snd (_save_sales_invoice F L T record id is_return is_pos st)))
    = docs (db st) ++ new
    /\ List.length new <= 1
    /\ Forall (sales_invoice_of record id is_return) new
    /\ (db_exists (docs (db st))
                  [("doctype", "Sales Invoice"); ("quickbooks_id", id);
                   ("company", company (self st))] = true -> new = [])
    /\ (db_exists (docs (db st))
                  [("doctype", "Sales Invoice"); ("quickbooks_id", id);
                   ("company", company (self st))] = false ->
        forall d,
          fst (sales_invoice_dict L T record id is_return is_pos st) = Ok d ->
          validate F d (docs (db st)) = Ok tt ->
          List.length new = 1).
Proof.
  destruct (save_sales_invoice_effect F L T record id is_return is_pos st)
    as (new & Hdocs & Hlen & Hmade & Hfound & Hone).
  exists new. split; [exact Hdocs|]. split; [exact Hlen|].
  split; [|split; [exact Hfound|exact Hone]].
  eapply Forall_impl; [|exact Hmade].
  intros d. apply made_from_sales_invoice_of.
Qed.


End InvoiceDocuments.


(** ** A second run of the migration *)

(** *** Where the lines of the ledger come from *)

Section Provenance.
Import Ledger Site Migrator.
Context {World num : Type} `{Number num} (ctx : context num).

Lemma sourced_app_l (rows rows' : list (list col)) (l : line num) :
  sourced rows l -> sourced (rows ++ rows') l.
Proof.
  intros (c & a & data & Hin & Hl). exists c, a, data. split; [|exact Hl].
  apply in_or_app. now left.
Qed.

Lemma sourced_app_r (rows rows' : list (list col)) (l : line num) :
  sourced rows' l -> sourced (rows ++ rows') l.
Proof.
  intros (c & a & data & Hin & Hl). exists c, a, data. split; [|exact Hl].
  apply in_or_app. now right.
Qed.

Lemma rows_loop_sourced (account : option string) :
  forall rows, Forall (walk_is_sourced ctx) rows ->
  forall entries g,
    (forall l, In l (flattened (snd (rows_loop ctx account rows entries g))) ->
               In l (flattened g) \/ sourced (rows_data rows) l)
    /\ (forall es, fst (rows_loop ctx account rows entries g) = Ok es ->
                   forall l, In l es -> In l entries \/ sourced (rows_data rows) l).
Proof.
  induction 1 as [|r rows Hr _ IH]; intros entries g.
  - cbn. split; [now left|]. intros es [= <-]. now left.
  - cbn [rows_loop]. change (rows_data (r :: rows)) with (data_rows r ++ rows_data rows).
    destruct r as [data|Header Rows|t].
    + destruct (data_line ctx account data) as [l0|e] eqn:Hl0.
      * destruct (IH (entries ++ [l0]) g) as [Hg Hes]. split.
        -- intros l Hl. destruct (Hg l Hl) as [Hin|Hs]; [now left|right].
           now apply sourced_app_r.
        -- intros es Hrun l Hl. destruct (Hes es Hrun l Hl) as [Hin|Hs].
           ++ apply in_app_or in Hin. destruct Hin as [Hin|[<-|[]]]; [now left|right].
              apply sourced_app_l. exists ctx, account, data. split; [now left|exact Hl0].
           ++ right. now apply sourced_app_r.
      * cbn. split; [now left|discriminate].
    + pose proof (Hr account g) as Hsec.
      destruct (_get_gl_entries_from_section ctx (Section Header Rows) account g)
        as [[[]|e] g1]; cbn [snd] in Hsec.
      * destruct (IH entries g1) as [Hg Hes]. split.
        -- intros l Hl. destruct (Hg l Hl) as [Hin|Hs].
           ++ destruct (Hsec l Hin) as [Hin0|Hs]; [now left|right].
              now apply sourced_app_l.
           ++ right. now apply sourced_app_r.
        -- intros es Hrun l Hl. destruct (Hes es Hrun l Hl) as [Hin|Hs]; [now left|right].
           now apply sourced_app_r.
      * cbn. split; [|discriminate].
        intros l Hl. destruct (Hsec l Hl) as [Hin0|Hs]; [now left|right].
        now apply sourced_app_l.
    + destruct (IH entries g) as [Hg Hes]. split.
      * intros l Hl. destruct (Hg l Hl) as [Hin|Hs]; [now left|right]. exact Hs.
      * intros es Hrun l Hl. destruct (Hes es Hrun l Hl) as [Hin|Hs]; [now left|right].
        exact Hs.
Qed.

Lemma section_sourced : forall r, walk_is_sourced ctx r.
Proof.
  induction r as [data|Header|Header rows IH|t] using row_rect_rows;
    intros account g l Hl.
  - now left.
  - cbn in Hl. destruct (resolve_header ctx Header account) as [|[a|e]]; now left.
  - destruct (not_specified (Section Header (Some rows))) eqn:Hns.
    + rewrite (not_specified_skipped ctx _ account g Hns) in Hl. now left.
    + rewrite section_unfold in Hl.
      destruct (resolve_header ctx Header account) as [|[a|e]]; try (now left).
      destruct (rows_loop_sourced a rows IH [] g) as [Hg Hes].
      assert (Hdata : data_rows (Section Header (Some rows)) = rows_data rows).
      { cbn [data_rows]. rewrite Hns. reflexivity. }
      rewrite Hdata.
      destruct (rows_loop ctx a rows [] g) as [[es|e] g1]; cbn [fst snd] in *.
      * apply (Permutation_in _ (flattened_setdefault_extend a es g1)) in Hl.
        apply in_app_or in Hl. destruct Hl as [Hl|Hl]; [now apply Hg|].
        destruct (Hes es eq_refl l Hl) as [[]|Hs]. now right.
      * now apply Hg.
  - now left.
Qed.

Lemma walk_report_sourced :
  forall report g l,
    In l (flattened (snd (walk_report ctx report g))) ->
    In l (flattened g) \/ sourced (report_data report) l.
Proof.
  induction report as [|r report IH]; intros g l Hl.
  - now left.
  - cbn [walk_report] in Hl.
    change (report_data (r :: report))
      with (match r with Section _ _ => data_rows r | _ => [] end ++ report_data report).
    destruct r as [data|Header Rows|t].
    + destruct (IH g l Hl) as [Hin|Hs]; [now left|now right].
    + pose proof (section_sourced (Section Header Rows) None g) as Hsec.
      destruct (_get_gl_entries_from_section ctx (Section Header Rows) None g)
        as [[[]|e] g1]; cbn [snd] in *.
      * destruct (IH g1 l Hl) as [Hin|Hs].
        -- destruct (Hsec l Hin) as [Hin0|Hs]; [now left|right]. now apply sourced_app_l.
        -- right. now apply sourced_app_r.
      * destruct (Hsec l Hl) as [Hin0|Hs]; [now left|right]. now apply sourced_app_l.
    + destruct (IH g l Hl) as [Hin|Hs]; [now left|now right].
Qed.

(** *** The entries of the grouped ledger *)

Lemma add_to_type_dict_ids (Q : option string -> Prop) (l : line num) :
  Q (id_ l) ->
  forall type_dict,
    (forall i e, In (i, e) type_dict -> Q (entry_id e)) ->
    forall i e, In (i, e) (add_to_type_dict l type_dict) -> Q (entry_id e).
Proof.
  intros Hl. induction type_dict as [|[k e0] rest IH]; intros Hall i e; cbn.
  - intros [[= <- <-]|[]]. exact Hl.
  - destruct (key_eqb k (id_ l)); cbn.
    + intros [[= <- <-]|Hin]; cbn.
      * apply (Hall k e0). now left.
      * apply (Hall i e). now right.
    + intros [[= <- <-]|Hin].
      * apply (Hall k e0). now left.
      * apply (IH (fun i e H0 => Hall i e (or_intror H0)) i e Hin).
Qed.

Lemma add_line_every (Q : string -> option string -> Prop) (l : line num) :
  Q (type_ l) (id_ l) ->
  forall gl,
    every_entry Q gl -> every_entry Q (add_line l gl).
Proof.
  intros Hl. induction gl as [|[t0 td0] rest IH]; intros Hall t td; cbn.
  - intros [[= <- <-]|[]] i e Hin.
    apply (add_to_type_dict_ids (Q (type_ l)) l Hl [] (fun _ _ (H0 : False) => match H0 with end)
                                i e Hin).
  - destruct (String.eqb t0 (type_ l)) eqn:Ht; cbn.
    + apply String.eqb_eq in Ht. subst t0.
      intros [[= <- <-]|Hin] i e Hie.
      * apply (add_to_type_dict_ids (Q (type_ l)) l Hl td0) with (i := i); [|exact Hie].
        intros i0 e1 H0. apply (Hall (type_ l) td0) with (i := i0); [now left|exact H0].
      * apply (Hall t td) with (i := i); [now right|exact Hie].
    + intros [[= <- <-]|Hin] i e Hie.
      * apply (Hall t0 td0) with (i := i); [now left|exact Hie].
      * apply (IH (fun t1 td1 H1 => Hall t1 td1 (or_intror H1)) t td Hin i e Hie).
Qed.

Lemma group_lines_every (Q : string -> option string -> Prop) (g : gl_entries_t num) :
  (forall l, In l (flattened g) -> Q (type_ l) (id_ l)) ->
  every_entry Q (group_lines g).
Proof.
  unfold group_lines, flattened.
  assert (Hinner : forall (ls : list (line num)) (gl : general_ledger_t num),
             (forall l, In l ls -> Q (type_ l) (id_ l)) ->
             every_entry Q gl ->
             every_entry Q (fold_left (fun g0 l => add_line l g0) ls gl)).
  { induction ls as [|l ls IH]; intros gl Hls Hall; cbn; [exact Hall|].
    apply IH; [intros; apply Hls; now right|].
    apply add_line_every; [apply Hls; now left|exact Hall]. }
  assert (Hgen : forall (lists : list (list (line num))) (gl : general_ledger_t num),
             (forall l, In l (List.concat lists) -> Q (type_ l) (id_ l)) ->
             every_entry Q gl ->
             every_entry Q
               (fold_left (fun gl account_lines =>
                             fold_left (fun g0 l => add_line l g0) account_lines
                                       gl)
                          lists gl)).
  { induction lists as [|ls lists IH]; intros gl Hls Hall; cbn; [exact Hall|].
    apply IH.
    - intros l Hl. apply Hls. cbn. apply in_or_app. now right.
    - apply Hinner; [|exact Hall].
      intros l Hl. apply Hls. cbn. apply in_or_app. now left. }
  intro Hls. apply Hgen; [exact Hls|]. intros t td [].
Qed.

(** *** Dates and units *)

Lemma min_date_in (dates : list string) (d : string) :
  FiscalYears.min_date dates = Ok d -> In d dates.
Proof.
  unfold FiscalYears.min_date.
  destruct (filter Py.str_truthy dates) as [|d0 rest] eqn:Hf; [discriminate|].
  intros [= <-].
  assert (Hin : forall rest m,
             In (fold_left (fun m x => if String.ltb x m then x else m) rest m) (m :: rest)).
  { clear. induction rest as [|x rest IH]; intros m; cbn; [now left|].
    destruct (IH (if String.ltb x m then x else m)) as [Heq|Hin].
    - destruct (String.ltb x m); [right; now left|now left].
    - right. now right. }
  specialize (Hin rest d0). rewrite <- Hf in Hin.
  apply filter_In in Hin. tauto.
Qed.

Lemma db_exists_allow_fraction (docs : list (dict num))
      (doctype quickbooks_id company : string) :
  db_exists (map allow_fraction docs) (gate doctype quickbooks_id company)
  = db_exists docs (gate doctype quickbooks_id company).
Proof.
  unfold db_exists.
  induction docs as [|doc docs IH]; cbn [map existsb]; [reflexivity|].
  rewrite IH. f_equal.
  unfold allow_fraction.
  destruct (matches [("doctype", "UOM"); ("name", "Unit")] doc); [|reflexivity].
  unfold matches, gate. cbn [forallb]. unfold field_is. cbn [fst snd].
  rewrite !dict_get_set_other by discriminate. reflexivity.
Qed.

Lemma settled_allow_fraction (docs : list (dict num)) (c entity : string)
      (r : QuickBooks.entity_record num) :
  settled docs c entity r -> settled (map allow_fraction docs) c entity r.
Proof.
  unfold settled. apply Forall_impl. intros p Hp.
  now rewrite db_exists_allow_fraction.
Qed.

Lemma same_documents_refl (docs : list (dict num)) : same_documents docs docs.
Proof. induction docs; constructor; [now left|assumption]. Qed.

Lemma same_documents_allow_fraction (docs : list (dict num)) :
  same_documents docs (map allow_fraction docs).
Proof. induction docs; constructor; [now right|assumption]. Qed.

End Provenance.

Section SecondRun.
Import Http Site Migrator QuickBooks.
Context {World num : Type} `{Number num}.
Variable F : framework num.
Variable L : @library num.
Variable T : @tax_methods World num.
Variable d : nat.
(** The recursion depth of the run: at least one call. *)
Local Abbreviation depth := (S d).
Local Abbreviation state := (@Migrator.state World num).
Local Abbreviation M := (@Migrator.M World num).

(** *** Rules *)

Lemma hoare_bind {A B} (P Q S : state -> Prop) (m : M A) (k : A -> M B) :
  hoare P m Q -> (forall st, Q st -> S st) -> (forall a, hoare Q (k a) S) ->
  hoare P (bindM m k) S.
Proof.
  intros Hm Hq Hk st HP. unfold bindM. specialize (Hm st HP).
  destruct (m st) as [[a|e] st']; cbn in Hm; [now apply Hk|now apply Hq].
Qed.

Lemma hoare_try {A} (P Q S : state -> Prop) (m : M A) (h : exn -> M A) :
  hoare P m Q -> (forall st, Q st -> S st) -> (forall e, hoare Q (h e) S) ->
  hoare P (try_except m h) S.
Proof.
  intros Hm Hq Hh st HP. unfold try_except. specialize (Hm st HP).
  destruct (m st) as [[a|e] st']; cbn in Hm; [now apply Hq|now apply Hh].
Qed.

Lemma keeps_bind {A B} (I : state -> Prop) (m : M A) (k : A -> M B) :
  keeps I m -> (forall a, keeps I (k a)) -> keeps I (bindM m k).
Proof. intros Hm Hk. apply (hoare_bind I I I); auto. Qed.

Lemma keeps_try {A} (I : state -> Prop) (m : M A) (h : exn -> M A) :
  keeps I m -> (forall e, keeps I (h e)) -> keeps I (try_except m h).
Proof. intros Hm Hh. apply (hoare_try I I I); auto. Qed.

Lemma keeps_readonly {A} (I : state -> Prop) (m : M A) : readonly m -> keeps I m.
Proof. intros Hm st HI. now rewrite Hm. Qed.

Lemma keeps_lift_bind {A B} (I : state -> Prop) (r : result A) (k : A -> M B) :
  (forall a, r = Ok a -> keeps I (k a)) -> keeps I (bindM (lift r) k).
Proof.
  intros Hk st HI. unfold bindM, lift.
  destruct r as [a|e]; [now apply (Hk a eq_refl)|exact HI].
Qed.

Lemma getitem_ok {A} (o : option A) (a : A) : Py.getitem o = Ok a -> o = Some a.
Proof. destruct o; cbn; congruence. Qed.

Lemma frame_refl (st : state) : frame st st.
Proof. repeat split. Qed.

Lemma keeps_log_error (I : state -> Prop) (e : exn) : framed I -> keeps I (_log_error e).
Proof. intros Hf st HI. apply (Hf st); [repeat split|exact HI]. Qed.

Lemma keeps_publish (I : state -> Prop) (entity : string) (count total : nat) :
  framed I -> keeps I (_publish entity count total).
Proof. intros Hf st HI. apply (Hf st); [repeat split|exact HI]. Qed.

Lemma keeps_update_self (I : state -> Prop) (f : migrator -> migrator) :
  framed I ->
  (forall m, company (f m) = company m /\ general_ledger (f m) = general_ledger m) ->
  keeps I (update_self f).
Proof.
  intros Hf Hm st HI. apply (Hf st); [|exact HI].
  destruct (Hm (self st)) as [Hc Hg]. repeat split; assumption.
Qed.

Lemma keeps_for_each {A} (I : state -> Prop) (f : A -> M unit) (l : list A) :
  (forall x, In x l -> keeps I (f x)) -> keeps I (for_each f l).
Proof.
  induction l as [|x l IH]; intro Hf; cbn [for_each].
  - apply keeps_readonly, readonly_ret.
  - apply keeps_bind; [apply Hf; now left|intros _].
    apply IH. intros y Hy. apply Hf. now right.
Qed.

(** An existence check that succeeds is all that runs. *)
Lemma keeps_gate (I : state -> Prop) (f : string -> filters) (body : string -> M unit) :
  (forall st, I st -> db_exists (docs (db st)) (f (company (self st))) = true) ->
  keeps I (bindM the_company
                 (fun c => bindM (db_exists_ (f c))
                                 (fun ex => if ex then ret tt else body c))).
Proof.
  intros Hg st HI. unfold bindM, the_company, db_exists_, read. cbn.
  rewrite (Hg st HI). exact HI.
Qed.

Lemma settled_gate (docs : list (dict num)) (c entity : string)
      (r : entity_record num) (doctype quickbooks_id : string) :
  settled docs c entity r ->
  In (doctype, quickbooks_id) (gate_of entity r) ->
  db_exists docs (gate doctype quickbooks_id c) = true.
Proof.
  unfold settled. rewrite Forall_forall. intros Hs Hin. exact (Hs _ Hin).
Qed.

(** *** What the methods read before their existence check *)

Lemma readonly_account_type_of (name : option string) :
  readonly (account_type_of name : M (value num)).
Proof. unfold account_type_of, get_all_. readonly_auto. Qed.

Lemma readonly_je_account (line : txn_line num) : readonly (je_account line : M _).
Proof.
  unfold je_account, the_cost_center.
  repeat first [apply readonly_get_account_name_by_id | readonly_step].
Qed.

Lemma readonly_payment_line (line : txn_line num) : readonly (payment_line line : M _).
Proof.
  unfold payment_line, the_company, the_cost_center, db_exists_, get_all_.
  readonly_auto.
Qed.

Lemma readonly_bill_payment_line (line : txn_line num) :
  readonly (bill_payment_line line : M _).
Proof.
  unfold bill_payment_line, the_company, the_cost_center, db_exists_, get_all_.
  readonly_auto.
Qed.

Lemma readonly_purchase_lines (lines : list (txn_line num)) :
  forall account accounts, readonly (purchase_lines lines account accounts : M _).
Proof.
  induction lines as [|line rest IH]; intros account accounts; cbn [purchase_lines].
  - apply readonly_ret.
  - unfold the_company, the_cost_center, get_all_.
    repeat first [apply IH | apply readonly_get_account_name_by_id | readonly_step].
Qed.

Lemma readonly_tax_line_account (line : tax_line num) :
  readonly (tax_line_account line : M _).
Proof.
  unfold tax_line_account, the_cost_center.
  repeat first [apply readonly_get_account_name_by_id | readonly_step].
Qed.

Lemma readonly_deposit_line (line : txn_line num) : readonly (deposit_line line : M _).
Proof.
  unfold deposit_line, the_cost_center.
  repeat first [apply readonly_get_account_name_by_id | readonly_step].
Qed.

(** *** Preprocessing keeps the ids *)

Lemma map_result_as_account (entries : list (entity_record num)) :
  forall accounts, map_result as_account entries = Ok accounts ->
                   entries = map AccountRecord accounts.
Proof.
  induction entries as [|r rest IH]; intros accounts; cbn.
  - now intros [= <-].
  - destruct r; cbn; try discriminate.
    destruct (map_result as_account rest) as [l|e]; cbn; [|discriminate].
    intros [= <-]. cbn. now rewrite (IH l eq_refl).
Qed.

Lemma mark_groups_ids (all todo : list account) :
  forall a', In a' (fst (mark_groups all todo)) ->
             exists a, In a todo /\ account_Id a' = account_Id a.
Proof.
  induction todo as [|a rest IH]; intros a'; cbn.
  - intros [].
  - destruct (any_child (account_Id a) all) as [b|e]; cbn.
    + destruct (mark_groups all rest) as [marked e] eqn:Hm. cbn.
      intros [<-|Hin].
      * exists a. split; [now left|reflexivity].
      * destruct (IH a' Hin) as (a0 & Hin0 & Hid). exists a0. split; [now right|exact Hid].
    + intros [<-|Hin].
      * exists a. split; [now left|reflexivity].
      * exists a'. split; [now right|reflexivity].
Qed.

Lemma in_insert_by_key {A} (k : Z) (x : A) (l : list (Z * A)) (p : Z * A) :
  In p (insert_by_key k x l) -> p = (k, x) \/ In p l.
Proof.
  induction l as [|[k' y] rest IH]; cbn.
  - intros [<-|[]]. now left.
  - destruct (k <? k')%Z; cbn.
    + intros [<-|Hin]; [now left|now right].
    + intros [<-|Hin]; [right; now left|].
      destruct (IH Hin) as [->|Hr]; [now left|right; now right].
Qed.

Lemma in_sorted_by_key {A} (l : list (Z * A)) (x : A) :
  In x (sorted_by_key l) -> In x (map snd l).
Proof.
  unfold sorted_by_key.
  assert (Hgen : forall acc p,
             In p (fold_left (fun acc kx => insert_by_key (fst kx) (snd kx) acc) l acc) ->
             In p acc \/ In p l).
  { induction l as [|[k y] rest IH]; intros acc p; cbn.
    - now left.
    - intro Hin. destruct (IH _ _ Hin) as [Hacc|Hrest].
      + apply in_insert_by_key in Hacc. destruct Hacc as [->|Hacc].
        * right. now left.
        * now left.
      + right. now right. }
  intro Hin. apply in_map_iff in Hin. destruct Hin as (p & <- & Hp).
  destruct (Hgen [] p Hp) as [[]|Hl]. now apply in_map.
Qed.

(** *** The methods *)

Section Methods.
Variable I : state -> Prop.
Hypothesis I_framed : framed I.

Lemma keeps_save_account (a : account) :
  (forall st, I st ->
              settled (docs (db st)) (company (self st)) "Account" (AccountRecord a)) ->
  keeps I (_save_account F L depth a).
Proof.
  intro Hs. unfold _save_account.
  apply keeps_try; [|intro; now apply keeps_log_error].
  apply keeps_gate with (f := fun c => gate "Account" (account_Id a) c).
  intros st HI. apply (settled_gate _ _ _ _ _ _ (Hs st HI)). now left.
Qed.

Lemma keeps_save_tax_rate (t : tax_rate) :
  (forall st, I st ->
              settled (docs (db st)) (company (self st)) "TaxRate" (TaxRateRecord t)) ->
  keeps I (_save_tax_rate F L t).
Proof.
  intro Hs. unfold _save_tax_rate.
  apply keeps_try; [|intro; now apply keeps_log_error].
  apply keeps_gate with (f := fun c => gate "Account" ("TaxRate - " ++ tax_rate_Id t) c).
  intros st HI. apply (settled_gate _ _ _ _ _ _ (Hs st HI)). now left.
Qed.

Lemma keeps_save_customer (p : party) :
  (forall st, I st ->
              settled (docs (db st)) (company (self st)) "Customer" (PartyRecord p)) ->
  keeps I (_save_customer F L p).
Proof.
  intro Hs. unfold _save_customer.
  apply keeps_try; [|intro; now apply keeps_log_error].
  apply keeps_gate with (f := fun c => gate "Customer" (party_Id p) c).
  intros st HI. apply (settled_gate _ _ _ _ _ _ (Hs st HI)). now left.
Qed.

Lemma keeps_save_vendor (p : party) :
  (forall st, I st ->
              settled (docs (db st)) (company (self st)) "Vendor" (PartyRecord p)) ->
  keeps I (_save_vendor F L p).
Proof.
  intro Hs. unfold _save_vendor.
  apply keeps_try; [|intro; now apply keeps_log_error].
  apply keeps_gate with (f := fun c => gate "Supplier" (party_Id p) c).
  intros st HI. apply (settled_gate _ _ _ _ _ _ (Hs st HI)). now left.
Qed.

Lemma keeps_save_item (i : item) :
  (forall st, I st ->
              settled (docs (db st)) (company (self st)) "Item" (ItemRecord i)) ->
  keeps I (_save_item F L i).
Proof.
  intros Hs st HI. specialize (Hs st HI).
  unfold _save_item, try_except, bindM, the_company, db_exists_, read, lift. cbn.
  destruct (db_exists (docs (db st))
                      [("doctype", "Item"); ("quickbooks_id", item_Id i);
                       ("company", company (self st))]) eqn:Hex; cbn; [exact HI|].
  destruct (item_Type i) as [ty|] eqn:Hty; cbn.
  - destruct (String.eqb ty "Service" || String.eqb ty "Inventory") eqn:Hc.
    + exfalso.
      assert (Hg : db_exists (docs (db st))
                             (gate "Item" (item_Id i) (company (self st))) = true).
      { apply (settled_gate _ _ _ _ _ _ Hs).
        unfold gate_of, creatable. rewrite Hty, Hc. now left. }
      unfold gate in Hg. congruence.
    + cbn. exact HI.
  - apply (I_framed st); [repeat split|exact HI].
Qed.

Lemma keeps_save_preference (p : preferences) : keeps I (_save_preference p).
Proof.
  unfold _save_preference. apply keeps_try; [|intro; now apply keeps_log_error].
  apply keeps_readonly. readonly_auto.
Qed.

Lemma keeps_save_journal_entry_ (quickbooks_id : string) (accounts : list (dict num))
      (posting_date : value num) :
  gated I "Journal Entry" quickbooks_id ->
  keeps I (__save_journal_entry F quickbooks_id accounts posting_date).
Proof.
  intro Hg. unfold __save_journal_entry.
  apply keeps_try; [|intro; now apply keeps_log_error].
  apply keeps_gate with (f := fun c => gate "Journal Entry" quickbooks_id c).
  exact Hg.
Qed.

Lemma keeps_save_sales_invoice (invoice : txn num) (quickbooks_id : string)
      (is_return is_pos : bool) :
  gated I "Sales Invoice" quickbooks_id ->
  keeps I (_save_sales_invoice F L T invoice quickbooks_id is_return is_pos).
Proof.
  intro Hg. unfold _save_sales_invoice.
  apply keeps_gate with (f := fun c => gate "Sales Invoice" quickbooks_id c).
  exact Hg.
Qed.

Lemma keeps_save_purchase_invoice (invoice : txn num) (quickbooks_id : string)
      (is_return : bool) :
  gated I "Purchase Invoice" quickbooks_id ->
  keeps I (__save_purchase_invoice F T invoice quickbooks_id is_return).
Proof.
  intro Hg. unfold __save_purchase_invoice.
  apply keeps_gate with (f := fun c => gate "Purchase Invoice" quickbooks_id c).
  exact Hg.
Qed.

(** From [settled] to the check of one document. *)
Lemma settled_gated (entity : string) (r : entity_record num)
      (doctype quickbooks_id : string) :
  (forall st, I st -> settled (docs (db st)) (company (self st)) entity r) ->
  In (doctype, quickbooks_id) (gate_of entity r) ->
  gated I doctype quickbooks_id.
Proof.
  intros Hs Hin st HI. exact (settled_gate _ _ _ _ _ _ (Hs st HI) Hin).
Qed.

Lemma keeps_save_invoice (invoice : txn num) :
  (forall st, I st ->
              settled (docs (db st)) (company (self st)) "Invoice" (TxnRecord invoice)) ->
  keeps I (_save_invoice F L T invoice).
Proof.
  intro Hs. unfold _save_invoice. cbn zeta.
  apply keeps_lift_bind. intros linked Hl. apply getitem_ok in Hl.
  destruct (existsb is_charge linked) eqn:Hc.
  - unfold _save_invoice_as_journal_entry.
    apply keeps_try; [|intro; now apply keeps_log_error].
    repeat (apply keeps_bind;
            [apply keeps_readonly;
             repeat first [apply readonly_invoice_je_line | readonly_step]|intro]).
    apply keeps_save_journal_entry_.
    apply (settled_gated _ _ _ _ Hs). unfold gate_of. cbn. rewrite Hl, Hc. now left.
  - apply keeps_save_sales_invoice.
    apply (settled_gated _ _ _ _ Hs). unfold gate_of. cbn. rewrite Hl, Hc. now left.
Qed.

Lemma keeps_save_credit_memo (t : txn num) :
  (forall st, I st ->
              settled (docs (db st)) (company (self st)) "CreditMemo" (TxnRecord t)) ->
  keeps I (_save_credit_memo F L T t).
Proof.
  intro Hs. apply keeps_save_sales_invoice.
  apply (settled_gated _ _ _ _ Hs). now left.
Qed.

Lemma keeps_save_sales_receipt (t : txn num) :
  (forall st, I st ->
              settled (docs (db st)) (company (self st)) "SalesReceipt" (TxnRecord t)) ->
  keeps I (_save_sales_receipt F L T t).
Proof.
  intro Hs. apply keeps_save_sales_invoice.
  apply (settled_gated _ _ _ _ Hs). now left.
Qed.

Lemma keeps_save_refund_receipt (t : txn num) :
  (forall st, I st ->
              settled (docs (db st)) (company (self st)) "RefundReceipt" (TxnRecord t)) ->
  keeps I (_save_refund_receipt F L T t).
Proof.
  intro Hs. apply keeps_save_sales_invoice.
  apply (settled_gated _ _ _ _ Hs). now left.
Qed.

Lemma keeps_save_bill (t : txn num) :
  (forall st, I st ->
              settled (docs (db st)) (company (self st)) "Bill" (TxnRecord t)) ->
  keeps I (_save_bill F T t).
Proof.
  intro Hs. apply keeps_save_purchase_invoice.
  apply (settled_gated _ _ _ _ Hs). now left.
Qed.

Lemma keeps_save_vendor_credit (t : txn num) :
  (forall st, I st ->
              settled (docs (db st)) (company (self st)) "VendorCredit" (TxnRecord t)) ->
  keeps I (_save_vendor_credit F T t).
Proof.
  intro Hs. apply keeps_save_purchase_invoice.
  apply (settled_gated _ _ _ _ Hs). now left.
Qed.

Lemma keeps_save_journal_entry (t : txn num) :
  (forall st, I st ->
              settled (docs (db st)) (company (self st)) "JournalEntry" (TxnRecord t)) ->
  keeps I (_save_journal_entry F t).
Proof.
  intro Hs. unfold _save_journal_entry. cbn zeta.
  repeat (apply keeps_bind;
          [apply keeps_readonly;
           repeat first [apply readonly_je_account | readonly_step]|intro]).
  apply keeps_save_journal_entry_.
  apply (settled_gated _ _ _ _ Hs). now left.
Qed.

Lemma keeps_save_payment (t : txn num) :
  (forall st, I st ->
              settled (docs (db st)) (company (self st)) "Payment" (TxnRecord t)) ->
  keeps I (_save_payment F t).
Proof.
  intro Hs. unfold _save_payment. cbn zeta.
  apply keeps_try; [|intro; now apply keeps_log_error].
  destruct (DepositToAccountRef t) as [deposit_to|] eqn:Hd.
  - repeat (apply keeps_bind;
            [apply keeps_readonly;
             repeat first [apply readonly_payment_line
                          | apply readonly_get_account_name_by_id
                          | progress unfold the_cost_center
                          | readonly_step]|intro]).
    apply keeps_save_journal_entry_.
    apply (settled_gated _ _ _ _ Hs). unfold gate_of. cbn. rewrite Hd. now left.
  - apply keeps_readonly, readonly_ret.
Qed.

Lemma keeps_save_bill_payment (t : txn num) :
  (forall st, I st ->
              settled (docs (db st)) (company (self st)) "BillPayment" (TxnRecord t)) ->
  keeps I (_save_bill_payment F t).
Proof.
  intro Hs. unfold _save_bill_payment. cbn zeta.
  apply keeps_try; [|intro; now apply keeps_log_error].
  repeat (apply keeps_bind;
          [apply keeps_readonly;
           repeat first [apply readonly_bill_payment_line
                        | apply readonly_get_account_name_by_id
                        | progress unfold the_cost_center
                        | readonly_step]|intro]).
  apply keeps_save_journal_entry_.
  apply (settled_gated _ _ _ _ Hs). now left.
Qed.

Lemma keeps_with_first_posting (first_posting : M (dict num))
      (rest : dict num -> M unit) :
  readonly first_posting -> (forall p, keeps I (rest p)) ->
  keeps I (with_first_posting first_posting rest).
Proof.
  intros Hro Hrest st HI. unfold with_first_posting.
  rewrite (readonly_run first_posting st Hro).
  destruct (fst (first_posting st)) as [p|e]; [|exact HI].
  apply (keeps_try I (rest p) (fun e => _log_error e)); [apply Hrest| |exact HI].
  intro. now apply keeps_log_error.
Qed.

Lemma keeps_save_purchase (t : txn num) :
  (forall st, I st ->
              settled (docs (db st)) (company (self st)) "Purchase" (TxnRecord t)) ->
  keeps I (_save_purchase F t).
Proof.
  intro Hs. unfold _save_purchase. cbn zeta.
  apply keeps_with_first_posting.
  - unfold the_cost_center.
    repeat first [apply readonly_get_account_name_by_id | readonly_step].
  - intro credit_bank.
    repeat (apply keeps_bind;
            [apply keeps_readonly;
             repeat first [apply readonly_purchase_lines
                          | apply readonly_tax_line_account
                          | readonly_step]|intro]).
    apply keeps_save_journal_entry_.
    apply (settled_gated _ _ _ _ Hs). now left.
Qed.

Lemma keeps_save_deposit (t : txn num) :
  (forall st, I st ->
              settled (docs (db st)) (company (self st)) "Deposit" (TxnRecord t)) ->
  keeps I (_save_deposit F t).
Proof.
  intro Hs. unfold _save_deposit. cbn zeta.
  apply keeps_with_first_posting.
  - unfold the_cost_center.
    repeat first [apply readonly_get_account_name_by_id | readonly_step].
  - intro debit_bank.
    repeat (apply keeps_bind;
            [apply keeps_readonly;
             repeat first [apply readonly_deposit_line
                          | apply readonly_get_account_name_by_id
                          | progress unfold the_cost_center
                          | readonly_step]|intro]).
    apply keeps_save_journal_entry_.
    apply (settled_gated _ _ _ _ Hs). now left.
Qed.

Lemma keeps_save_ledger_entry_as_je (e : Ledger.entry num) (quickbooks_id : string) :
  gated I "Journal Entry" quickbooks_id ->
  keeps I (__save_ledger_entry_as_je F e quickbooks_id).
Proof.
  intro Hg. unfold __save_ledger_entry_as_je.
  apply keeps_try; [|intro; now apply keeps_log_error].
  apply keeps_bind; [apply keeps_readonly; unfold the_cost_center; readonly_auto|intro].
  cbn zeta. now apply keeps_save_journal_entry_.
Qed.

(** Whatever the entity, its method inserts nothing for a record
    whose documents exist. *)
Lemma keeps_method (entity : string) (save : entity_record num -> M unit)
      (r : entity_record num) :
  method_of entity (entity_method_map F L T depth) = Ok save ->
  (forall st, I st -> settled (docs (db st)) (company (self st)) entity r) ->
  keeps I (save r).
Proof.
  intros Hm Hs. unfold entity_method_map in Hm. cbn [method_of] in Hm.
  repeat match type of Hm with
         | (if String.eqb ?k entity then _ else _) = _ =>
             destruct (String.eqb_spec k entity) as [<-|_];
             [injection Hm as <-;
              destruct r; unfold on_txn, on_party, on_ledger;
              lazymatch goal with
              | |- keeps _ (_save_account _ _ _ _) => now apply keeps_save_account
              | |- keeps _ (_save_tax_rate _ _ _) => now apply keeps_save_tax_rate
              | |- keeps _ (_save_tax_code _) => apply keeps_readonly, readonly_ret
              | |- keeps _ (_save_preference _) => apply keeps_save_preference
              | |- keeps _ (_save_customer _ _ _) => now apply keeps_save_customer
              | |- keeps _ (_save_item _ _ _) => now apply keeps_save_item
              | |- keeps _ (_save_vendor _ _ _) => now apply keeps_save_vendor
              | |- keeps _ (_save_invoice _ _ _ _) => now apply keeps_save_invoice
              | |- keeps _ (_save_credit_memo _ _ _ _) => now apply keeps_save_credit_memo
              | |- keeps _ (_save_sales_receipt _ _ _ _) =>
                  now apply keeps_save_sales_receipt
              | |- keeps _ (_save_refund_receipt _ _ _ _) =>
                  now apply keeps_save_refund_receipt
              | |- keeps _ (_save_journal_entry _ _) =>
                  now apply keeps_save_journal_entry
              | |- keeps _ (_save_bill _ _ _) => now apply keeps_save_bill
              | |- keeps _ (_save_vendor_credit _ _ _) =>
                  now apply keeps_save_vendor_credit
              | |- keeps _ (_save_payment _ _) => now apply keeps_save_payment
              | |- keeps _ (_save_bill_payment _ _) => now apply keeps_save_bill_payment
              | |- keeps _ (_save_purchase _ _) => now apply keeps_save_purchase
              | |- keeps _ (_save_deposit _ _) => now apply keeps_save_deposit
              | |- keeps _ (raise _) => apply keeps_readonly, readonly_raise
              | |- _ => apply keeps_save_ledger_entry_as_je;
                        apply (settled_gated _ _ _ _ Hs); now left
              end
             |]
         end.
  discriminate.
Qed.

Lemma keeps_save_loop (entity : string) (total : nat)
      (entries : list (entity_record num)) :
  (forall r, In r entries ->
             forall st, I st -> settled (docs (db st)) (company (self st)) entity r) ->
  forall index, keeps I (save_loop F L T depth entity total index entries).
Proof.
  induction entries as [|entry rest IH]; intros Hs index; cbn [save_loop].
  - apply keeps_readonly, readonly_ret.
  - apply keeps_bind; [now apply keeps_publish|intros _].
    apply keeps_lift_bind. intros save Hm.
    apply keeps_bind; [|intros _].
    + apply (keeps_method entity save entry Hm). apply Hs. now left.
    + apply IH. intros r Hr. apply Hs. now right.
Qed.

Lemma preprocess_entries_spec (entity : string) (entries : list (entity_record num))
      (st : state) :
  I st ->
  I (snd (_preprocess_entries L entity entries st))
  /\ forall entries',
      fst (_preprocess_entries L entity entries st) = Ok entries' ->
      forall r', In r' entries' ->
                 exists r, In r entries /\ gate_of entity r' = gate_of entity r.
Proof.
  intro HI. unfold _preprocess_entries.
  assert (Hsame : forall st', frame st st' -> I st')
    by (intros st' Hfr; now apply (I_framed st)).
  destruct (String.eqb entity "Account").
  - unfold bindM at 1, lift.
    destruct (map_result as_account entries) as [accounts|e] eqn:Hacc;
      [|split; [exact HI|discriminate]].
    apply map_result_as_account in Hacc.
    unfold _preprocess_accounts, bindM, lift, update_self, ret, raise.
    destruct (map_result (fun a => Py.getitem (Name a)) accounts) as [names|e];
      [|split; [exact HI|discriminate]].
    pose proof (mark_groups_ids accounts accounts) as Hids.
    destruct (mark_groups accounts accounts) as [marked [e|]]; cbn in Hids |- *.
    + split; [apply Hsame; repeat split|discriminate].
    + destruct (map_result (fun a => int L (account_Id a)) marked) as [keys|e]; cbn.
      * split; [apply Hsame; repeat split|].
        intros entries' [= <-] r' Hr'. apply in_map_iff in Hr'.
        destruct Hr' as (a' & <- & Ha'). apply in_sorted_by_key in Ha'.
        apply in_map_iff in Ha'. destruct Ha' as ([k a0] & Hsnd & Hin).
        cbn in Hsnd. subst a0. apply in_combine_r in Hin.
        destruct (Hids a' Hin) as (a & Ha & Hid).
        exists (AccountRecord a). split; [subst entries; now apply in_map|].
        unfold gate_of. now rewrite Hid.
      * split; [apply Hsame; repeat split|discriminate].
  - destruct (String.eqb entity "TaxRate").
    + unfold bindM, lift, update_self, ret.
      destruct (map_result as_tax_rate entries) as [rates|e];
        [|split; [exact HI|discriminate]].
      cbn. split; [apply Hsame; repeat split|].
      intros entries' [= <-] r' Hr'. now exists r'.
    + destruct (String.eqb entity "TaxCode").
      * unfold bindM, lift, update_self, ret.
        destruct (map_result as_tax_code entries) as [codes|e];
          [|split; [exact HI|discriminate]].
        cbn. split; [apply Hsame; repeat split|].
        intros entries' [= <-] r' Hr'. now exists r'.
      * cbn. split; [exact HI|]. intros entries' [= <-] r' Hr'. now exists r'.
Qed.

End Methods.

(** *** Fetching from the same source *)

Section Source.
Variable R : remote World (Fetcher.body (entity_record num)).
Variable table : string -> list (entity_record num).
Variable report : list Ledger.row.
Hypothesis served : serves table (Some report) R.

Lemma keeps_migrate_entries (I : state -> Prop) (entity : string) :
  framed I ->
  (forall r, In r (table entity) ->
             forall st, I st -> settled (docs (db st)) (company (self st)) entity r) ->
  keeps I (_migrate_entries R F L T depth entity).
Proof.
  intros Hf Hs st HI. unfold _migrate_entries, with_response, get_.
  destruct (get_served R table (Some report) served d (CountQuery entity) (conn st))
    as (c1 & Hget & _).
  rewrite Hget.
  assert (Hconn : forall st0 c, I st0 -> I (set_conn st0 c)).
  { intros st0 c H0. apply (Hf st0); [repeat split|exact H0]. }
  apply (keeps_try I); [|intro; now apply keeps_log_error|now apply Hconn].
  cbn [answer json Fetcher.QueryResponse Py.getitem].
  apply keeps_lift_bind. intros qr [= <-]. cbn [Fetcher.totalCount].
  apply keeps_lift_bind. intros entry_count [= <-].
  intros st1 HI1. unfold bindM at 1, pages_.
  destruct (fetch_pages_all R table (Some report) served d entity (conn st1))
    as (c2 & Hpages).
  rewrite Hpages.
  pose proof (preprocess_entries_spec I Hf entity (table entity) (set_conn st1 c2)
                                      (Hconn _ _ HI1)) as [HI2 Hin].
  unfold bindM.
  destruct (_preprocess_entries L entity (table entity) (set_conn st1 c2))
    as [[entries'|e] st2]; cbn [fst snd] in *; [|exact HI2].
  apply (keeps_save_loop I Hf); [|exact HI2].
  intros r' Hr' st3 HI3.
  destruct (Hin entries' eq_refl r' Hr') as (r & Hr & Hgate).
  unfold settled. rewrite Hgate. now apply Hs.
Qed.

Lemma keeps_migrate_entries_from_gl (I : state -> Prop) (entity : string) :
  framed I ->
  (forall st gl,
      I st -> general_ledger (self st) = Some gl ->
      every_entry (fun t i =>
                     forall e st', Ledger.entry_id e = i -> I st' ->
                                   settled (docs (db st')) (company (self st')) t
                                           (LedgerRecord e)) gl) ->
  keeps I (_migrate_entries_from_gl F L T depth entity).
Proof.
  intros Hf Hgl st HI. unfold _migrate_entries_from_gl, bindM, read, lift.
  destruct (general_ledger (self st)) as [gl|] eqn:Hg; cbn; [|exact HI].
  destruct (find (fun p => String.eqb (fst p) entity) gl) as [[t type_dict]|] eqn:Hfind;
    [|exact HI].
  apply find_some in Hfind. destruct Hfind as [Hin Ht]. cbn in Ht.
  apply String.eqb_eq in Ht. subst t.
  apply (keeps_save_loop I Hf); [|exact HI].
  intros r Hr st' HI'. apply in_map_iff in Hr. destruct Hr as ([i e] & <- & Hie).
  cbn [snd]. exact (Hgl st gl HI Hg entity type_dict Hin i e Hie e st' eq_refl HI').
Qed.

Lemma keeps_make_custom_fields (I : state -> Prop) :
  (forall st doctype,
      I st ->
      In doctype ["Account"; "Customer"; "Address"; "Item"; "Supplier";
                  "Sales Invoice"; "Journal Entry"; "Purchase Invoice"] ->
      standard_field F doctype "quickbooks_id"
      || db_exists (docs (db st)) (custom_field doctype "quickbooks_id") = true) ->
  (forall st doctype,
      I st -> In doctype ["Customer"; "Item"; "Supplier"] ->
      standard_field F doctype "company"
      || db_exists (docs (db st)) (custom_field doctype "company") = true) ->
  keeps I (_make_custom_fields F).
Proof.
  intros Hid Hco. unfold _make_custom_fields.
  apply keeps_bind; [|intros _]; apply keeps_for_each; intros doctype Hin st HI.
  - unfold _make_custom_quickbooks_id_field, has_field, bindM, read.
    cbn [fst snd]. unfold custom_field in Hid. rewrite (Hid st doctype HI Hin).
    exact HI.
  - unfold _make_custom_company_field, has_field, bindM, read.
    cbn [fst snd]. unfold custom_field in Hco. rewrite (Hco st doctype HI Hin).
    exact HI.
Qed.

Lemma keeps_make_root_accounts (I : state -> Prop) :
  framed I ->
  (forall st root,
      I st -> In root ["Asset"; "Equity"; "Expense"; "Liability"; "Income"] ->
      db_exists (docs (db st))
                [("doctype", "Account");
                 ("name", encode_company_abbr L (root ++ " - QB") (company (self st)));
                 ("company", company (self st))] = true) ->
  keeps I (_make_root_accounts F L).
Proof.
  intros Hf Hroots. unfold _make_root_accounts.
  apply keeps_for_each. intros root Hin. unfold _make_root_account.
  apply keeps_try; [|intro; now apply keeps_log_error].
  apply keeps_gate
    with (f := fun c => [("doctype", "Account");
                         ("name", encode_company_abbr L (root ++ " - QB") c);
                         ("company", c)]).
  intros st HI. now apply Hroots.
Qed.

(** *** The ledger and the fiscal years *)

Lemma fetch_general_ledger_spec (st : state) :
  let st' := snd (_fetch_general_ledger R L depth st) in
  docs (db st') = docs (db st)
  /\ fiscal_years (db st') = fiscal_years (db st)
  /\ company (self st') = company (self st)
  /\ (forall g, gl_entries (self st') = Some g ->
                forall l, In l (flattened g) -> sourced (report_data report) l)
  /\ (general_ledger (self st') = general_ledger (self st)
      \/ exists g, gl_entries (self st') = Some g
                   /\ general_ledger (self st') = Some (Ledger.group_lines g)).
Proof.
  cbn zeta. unfold _fetch_general_ledger, with_response, get_.
  destruct (get_served R table (Some report) served d (ReportQuery "GeneralLedger")
                       (conn st)) as (c1 & Hget & _).
  rewrite Hget.
  unfold try_except, bindM, update_self, lift, read.
  cbn [answer json Fetcher.Rows Py.getitem fst snd].
  match goal with
  | |- context [Ledger.walk_report ?ctx report []] =>
      pose proof (walk_report_sourced ctx report []) as Hsrc;
      destruct (Ledger.walk_report ctx report []) as [[[]|e] g]
  end; cbn [fst snd] in *.
  - repeat split; cbn.
    + intros g0 [= <-] l Hl. destruct (Hsrc l Hl) as [[]|Hs]. exact Hs.
    + right. exists g. split; reflexivity.
  - repeat split; cbn.
    + intros g0 [= <-] l Hl. destruct (Hsrc l Hl) as [[]|Hs]. exact Hs.
    + now left.
Qed.

Lemma create_fiscal_years_spec
      (accepts : FiscalYears.fiscal_year -> list FiscalYears.fiscal_year -> result unit)
      (st : state) :
  (forall g, gl_entries (self st) = Some g ->
             forall l, In l (flattened g) -> sourced (report_data report) l) ->
  (forall (l : Ledger.line num) D f,
      sourced (report_data report) l ->
      getdate L (Ledger.date l) = Ok D ->
      FiscalYears.oldest (fiscal_years (db st)) = Ok f ->
      Dates.ltb D (FiscalYears.year_start_date f) = false) ->
  let st' := snd (_create_fiscal_years L accepts st) in
  docs (db st') = docs (db st)
  /\ fiscal_years (db st') = fiscal_years (db st)
  /\ self st' = self st.
Proof.
  intros Hsrc Hfy. cbn zeta.
  unfold _create_fiscal_years, try_except, bindM, read, lift.
  destruct (gl_entries (self st)) as [g|] eqn:Hg; cbn; [|repeat split].
  destruct (FiscalYears.min_date (map Ledger.date (List.concat (map snd g))))
    as [smallest|e] eqn:Hmin; cbn; [|repeat split].
  apply min_date_in in Hmin. apply in_map_iff in Hmin.
  destruct Hmin as (l & Hdate & Hl).
  destruct (getdate L smallest) as [D|e] eqn:HD; cbn; [|repeat split].
  destruct (FiscalYears.oldest (fiscal_years (db st))) as [f|e] eqn:Hf; cbn;
    [|repeat split].
  assert (Hlt : Dates.ltb D (FiscalYears.year_start_date f) = false).
  { apply (Hfy l D f); [now apply (Hsrc g)|now rewrite Hdate|reflexivity]. }
  unfold FiscalYears.enough_fuel. cbn [FiscalYears.extend]. rewrite Hlt. cbn.
  repeat split.
Qed.

(** *** The run *)


End Source.

End SecondRun.



(** ** Single methods *)

(** *** Requests that are never authorized *)

Section PersistentRefusal.
Import Http.
Context {World Body : Type} (R : remote World Body).

(** X3.  Against a service that answers 401 to every request while the
    refresh of the tokens succeeds, [_get] returns no response,
    however deep the interpreter lets it recurse: the call ends with
    [RecursionError], and by then it has refreshed the tokens once
    for every frame of the recursion.  (The statement counts the
    refreshes; it does not say in which call of the last frame the
    interpreter raises.) *)
Theorem get_recurses_until_the_depth_is_used :
  always_unauthorized R -> refresh_succeeds R ->
  forall (depth : nat) (args : request) (c : conn World),
    (forall resp, fst (_get R depth args c) <> Ok resp)
    /\ fst (_get R depth args c) = Raise RecursionError
    /\ refreshes (trace (snd (_get R depth args c))) = refreshes (trace c) + depth.
Proof.
  intros H401 Hrefresh.
  assert (Hcount : forall k, refreshes (rounds k) = k).
  { induction k as [|k IH]; [reflexivity|]. cbn [rounds]. unfold refreshes in *.
    cbn. now rewrite IH. }
  assert (Hmain : forall depth args c,
             fst (_get R depth args c) = Raise RecursionError
             /\ trace (snd (_get R depth args c)) = trace c ++ rounds depth).
  { induction depth as [|d IH]; intros args c.
    - cbn. now rewrite app_nil_r.
    - cbn [_get]. unfold send.
      destruct (H401 args (access_token c) (world c)) as (resp & w' & Hget & Hst).
      rewrite Hget, Hst. cbn [Z.eqb Pos.eqb]. unfold _refresh_tokens. cbn [refresh_token world].
      destruct (Hrefresh (refresh_token c) w') as (a & r' & w2 & Hre).
      rewrite Hre.
      match goal with
      | |- context [_get R d args ?c2] => destruct (IH args c2) as [Hr Ht]
      end.
      split; [exact Hr|]. rewrite Ht. cbn [trace rounds].
      rewrite <- !app_assoc. reflexivity. }
  intros depth args c. destruct (Hmain depth args c) as [Hr Ht].
  split; [intros resp Hresp; congruence|]. split; [exact Hr|].
  rewrite Ht. unfold refreshes. rewrite filter_app, length_app.
  f_equal. apply Hcount.
Qed.

End PersistentRefusal.

Lemma get_recurses_until_the_depth_is_used_witness :
  fst (Http._get never_authorized 4 (Http.CountQuery "Customer") fresh_conn)
  = Raise RecursionError
  /\ refreshes (Http.trace (snd (Http._get never_authorized 4 (Http.CountQuery "Customer")
                                           fresh_conn))) = 4.
Proof.
  destruct (get_recurses_until_the_depth_is_used never_authorized) with
    (depth := 4) (args := Http.CountQuery "Customer") (c := fresh_conn)
    as (_ & Hr & Hn).
  - intros args token w. eexists. eexists. split; reflexivity.
  - intros r w. eexists. eexists. eexists. reflexivity.
  - split; [exact Hr|exact Hn].
Defined.

(** *** Account names *)

Section AccountNames.
Import Site Migrator QuickBooks.
Context {World num : Type}.
Variable L : @library num.
Local Abbreviation state := (@Migrator.state World num).

(** X4.  [_get_unique_account_name] reads the database and writes
    nothing.  The name it returns is the first of
    "name - QB", "name - 1 - QB", "name - 2 - QB", ... (from [number]
    on) that no Account of the company has; it raises only when the
    recursion depth is used up, every name tried being taken. *)
Theorem unique_account_name_is_the_first_free_one :
  forall (depth : nat) (quickbooks_name : string) (number : nat) (st : state),
    snd (_get_unique_account_name L depth quickbooks_name number st) = st
    /\ match fst (_get_unique_account_name L depth quickbooks_name number st) with
       | Ok name =>
           exists k, number <= k < number + depth
                     /\ name = candidate quickbooks_name k
                     /\ taken L st name = false
                     /\ forall j, number <= j < k ->
                                  taken L st (candidate quickbooks_name j) = true
       | Raise e =>
           e = RecursionError
           /\ forall j, number <= j < number + depth ->
                        taken L st (candidate quickbooks_name j) = true
       end.
Proof.
  induction depth as [|d IH]; intros quickbooks_name number st.
  - cbn. split; [reflexivity|]. split; [reflexivity|]. intros j Hj. lia.
  - assert (Hstep : _get_unique_account_name L (S d) quickbooks_name number st
                    = if taken L st (candidate quickbooks_name number)
                      then _get_unique_account_name L d quickbooks_name (S number) st
                      else (Ok (candidate quickbooks_name number), st)).
    { cbn [_get_unique_account_name]. unfold bindM, the_company, db_exists_, read, taken.
      fold (candidate quickbooks_name number).
      destruct (db_exists (docs (db st))
                          [("doctype", "Account");
                           ("name", encode_company_abbr L
                                      (candidate quickbooks_name number)
                                      (company (self st)));
                           ("company", company (self st))]); reflexivity. }
    rewrite Hstep. clear Hstep.
    destruct (taken L st (candidate quickbooks_name number)) eqn:Htaken.
    + destruct (IH quickbooks_name (S number) st) as [Hst Hres].
      split; [exact Hst|].
      destruct (fst (_get_unique_account_name L d quickbooks_name (S number) st))
        as [name|e].
      * destruct Hres as (k & Hk & Hname & Hfree & Hbelow).
        exists k. split; [lia|]. split; [exact Hname|]. split; [exact Hfree|].
        intros j Hj. destruct (Nat.eq_dec j number) as [->|Hne]; [exact Htaken|].
        apply Hbelow. lia.
      * destruct Hres as [He Hall]. split; [exact He|].
        intros j Hj. destruct (Nat.eq_dec j number) as [->|Hne]; [exact Htaken|].
        apply Hall. lia.
    + cbn. split; [reflexivity|].
      exists number. split; [lia|]. split; [reflexivity|]. split; [exact Htaken|].
      intros j Hj. lia.
Qed.

End AccountNames.

(** *** Addresses *)

Section Addresses.
Import Site Migrator QuickBooks.
Context {World num : Type}.
Variable F : framework num.
Local Abbreviation state := (@Migrator.state World num).

(** X5.  The existence check of [_create_address] filters on the
    field [quickbooks_id], and the document it inserts carries the id
    in [quickbooks_address_id]: the check does not find the address
    that an earlier call stored.  Called twice for the same address,
    in a database where the check found nothing, it stores the
    address twice. *)
Theorem address_check_misses_stored_address
        (entity : dict num) (doctype address_type line1 city : string)
        (a : address) (st : state) :
  accepts_every_document F ->
  Line1 a = Some line1 -> City a = Some city ->
  db_exists (docs (db st)) [("doctype", "Address"); ("quickbooks_id", addr_Id a)] = false ->
  let st1 := snd (_create_address F entity doctype a address_type st) in
  let st2 := snd (_create_address F entity doctype a address_type st1) in
  exists d1 d2,
    docs (db st1) = docs (db st) ++ [d1]
    /\ docs (db st2) = docs (db st) ++ [d1; d2]
    /\ Forall (fun d => is_a "Address" d
                        /\ dict_get d "quickbooks_address_id" = Some (VStr (addr_Id a))
                        /\ dict_get d "quickbooks_id" = None) [d1; d2]
    /\ error_log (db st2) = error_log (db st).
Proof.
  intros Hacc Hline Hcity Hex. cbn zeta.
  assert (Hrun : forall s : state,
             db_exists (docs (db s))
                       [("doctype", "Address"); ("quickbooks_id", addr_Id a)] = false ->
             exists d,
               docs (db (snd (_create_address F entity doctype a address_type s)))
               = docs (db s) ++ [d]
               /\ error_log (db (snd (_create_address F entity doctype a address_type s)))
                  = error_log (db s)
               /\ is_a "Address" d
               /\ dict_get d "quickbooks_address_id" = Some (VStr (addr_Id a))
               /\ dict_get d "quickbooks_id" = None).
  { intros s Hs.
    unfold _create_address, try_except, bindM, db_exists_, read, lift, insert_, insert.
    cbn [fst snd]. rewrite Hs, Hline, Hcity. cbn [Py.getitem]. rewrite Hacc.
    cbn [fst snd ret]. eexists. split; [reflexivity|]. repeat split. }
  destruct (Hrun st Hex) as (d1 & Hd1 & Hlog1 & Ha1 & Hid1 & Hno1).
  exists d1.
  assert (Hex1 : db_exists (docs (db (snd (_create_address F entity doctype a
                                                            address_type st))))
                           [("doctype", "Address"); ("quickbooks_id", addr_Id a)]
                 = false).
  { rewrite Hd1. unfold db_exists. rewrite existsb_app. unfold db_exists in Hex.
    rewrite Hex. cbn [existsb orb]. unfold matches. cbn [forallb].
    unfold field_is at 2. cbn [fst snd]. rewrite Hno1.
    now rewrite andb_false_r. }
  destruct (Hrun _ Hex1) as (d2 & Hd2 & Hlog2 & Ha2 & Hid2 & Hno2).
  exists d2. split; [exact Hd1|]. split.
  - rewrite Hd2, Hd1, <- app_assoc. reflexivity.
  - split; [repeat constructor; assumption|]. now rewrite Hlog2, Hlog1.
Qed.

End Addresses.

Lemma address_check_misses_stored_address_witness :
  List.length
    (Migrator.docs
       (Migrator.db
          (snd (Migrator._create_address
                  plain_framework [("name", Site.VStr "Ann")] "Customer" main_street "Billing"
                  (snd (Migrator._create_address
                          plain_framework [("name", Site.VStr "Ann")] "Customer" main_street
                          "Billing" new_state)))))) = 2.
Proof.
  destruct (address_check_misses_stored_address
              plain_framework [("name", Site.VStr "Ann")] "Customer" "Billing"
              "1 Main Street" "Springfield" main_street new_state)
    as (d1 & d2 & _ & Hdocs & _).
  - intros d docs. reflexivity.
  - reflexivity.
  - reflexivity.
  - reflexivity.
  - rewrite Hdocs. reflexivity.
Defined.

(** *** Items and preferences *)

Section ItemsAndPreferences.
Import Site Migrator QuickBooks.
Context {World num : Type}.
Variable F : framework num.
Variable L : @library num.
Local Abbreviation state := (@Migrator.state World num).
Local Abbreviation M := (@Migrator.M World num).

Lemma insert_effect (d : dict num) (st : state) :
  self (snd (insert_ F d st)) = self st
  /\ fiscal_years (db (snd (insert_ F d st))) = fiscal_years (db st)
  /\ error_log (db (snd (insert_ F d st))) = error_log (db st)
  /\ exists new, docs (db (snd (insert_ F d st))) = docs (db st) ++ new
                 /\ List.length new <= 1
                 /\ Forall (stored_form d) new
                 /\ (validate F d (docs (db st)) = Ok tt -> List.length new = 1).
Proof.
  unfold insert_, insert.
  destruct (validate F d (docs (db st))) as [[]|e]; cbn.
  - repeat split. eexists. split; [reflexivity|]. repeat split; auto.
    constructor; [|constructor].
    intros k Hn Hd. rewrite !dict_get_set_other by congruence. reflexivity.
  - repeat split. exists []. rewrite app_nil_r. repeat split; auto. discriminate.
Qed.

(** X6.  What [_save_item] may do: it adds at most one document, an
    Item with the record's id, the company and the unit "Unit"; it
    adds none when an Item with that id exists or when the record's
    type is neither "Service" nor "Inventory" (an item of another
    type is passed over without an error); and it changes neither the
    migrator nor the fiscal years. *)
Theorem save_item_adds_at_most_one_item (i : item) (st : state) :
  let st' := snd (_save_item F L i st) in
  self st' = self st
  /\ fiscal_years (db st') = fiscal_years (db st)
  /\ exists new,
      docs (db st') = docs (db st) ++ new
      /\ List.length new <= 1
      /\ Forall (fun d => is_a "Item" d
                          /\ dict_get d "quickbooks_id" = Some (VStr (item_Id i))
                          /\ dict_get d "company" = Some (VStr (company (self st)))
                          /\ dict_get d "stock_uom" = Some (VStr "Unit")) new
      /\ (db_exists (docs (db st))
                    [("doctype", "Item"); ("quickbooks_id", item_Id i);
                     ("company", company (self st))] = true -> new = [])
      /\ (creatable i = false -> new = [])
      /\ (forall ty, item_Type i = Some ty -> creatable i = false ->
                     error_log (db st') = error_log (db st)).
Proof.
  cbn zeta. pattern (snd (_save_item F L i st)).
  match goal with |- ?P _ => set (Post := P) end.
  assert (Hnone : forall s : state,
             self s = self st -> fiscal_years (db s) = fiscal_years (db st) ->
             docs (db s) = docs (db st) ->
             (forall ty, item_Type i = Some ty -> creatable i = false ->
                         error_log (db s) = error_log (db st)) ->
             Post s).
  { intros s Hself Hfy Hdocs Hlog. split; [exact Hself|]. split; [exact Hfy|].
    exists []. rewrite app_nil_r. repeat split; auto. }
  unfold _save_item, try_except.
  unfold bindM at 1, the_company, read. cbn [fst snd].
  unfold bindM at 1, db_exists_, read. cbn [fst snd].
  destruct (db_exists (docs (db st))
                      [("doctype", "Item"); ("quickbooks_id", item_Id i);
                       ("company", company (self st))]) eqn:Hex.
  { cbn. now apply Hnone. }
  unfold bindM at 1, lift.
  destruct (item_Type i) as [ty|] eqn:Hty; cbn [Py.getitem].
  2:{ cbn. apply Hnone; auto. discriminate. }
  destruct (String.eqb ty "Service" || String.eqb ty "Inventory") eqn:Hc.
  2:{ cbn. apply Hnone; auto. }
  assert (Hcre : creatable i = true) by (unfold creatable; now rewrite Hty, Hc).
  assert (Hfail : forall e, Post (snd (_log_error e st))).
  { intro e. apply Hnone; try reflexivity. intros. congruence. }
  repeat (rewrite bind_readonly_run;
          [|repeat first [apply readonly_get_account_name_by_id | readonly_step]];
          match goal with
          | |- context [fst (?m st)] => destruct (fst (m st)); [|apply Hfail]
          end).
  match goal with
  | |- context [insert_ F ?d] =>
      pose proof (insert_effect d st) as (Hself & Hfy & Hlog & new & Hdocs & Hlen & Hform & _);
      unfold bindM; destruct (insert_ F d st) as [[stored|e] s1]
  end; cbn [fst snd ret _log_error] in *.
  - split; [exact Hself|]. split; [exact Hfy|]. exists new.
    split; [exact Hdocs|]. split; [exact Hlen|]. split.
    + revert Hform. apply Forall_impl. intros d0 Hd0. unfold is_a. rewrite !Hd0 by discriminate. repeat split.
    + split; [intro; discriminate|]. split; intros; congruence.
  - split; [exact Hself|]. split; [exact Hfy|]. exists new.
    split; [exact Hdocs|]. split; [exact Hlen|]. split.
    + revert Hform. apply Forall_impl. intros d0 Hd0. unfold is_a. rewrite !Hd0 by discriminate. repeat split.
    + split; [intro; discriminate|]. split; intros; congruence.
Qed.

(** X7.  [_save_preference] never sets the default shipping account:
    when shipping is allowed, the lookup of the account's name is
    called with one argument too many and the [TypeError] is logged;
    the migrator and the documents are left as they were.  (Without
    ["AllowShipping"], or with shipping allowed and no
    ["DefaultShippingAccount"], the [KeyError] is logged.) *)
Theorem save_preference_never_sets_the_shipping_account
        (p : preferences) (st : state) :
  let st' := snd (_save_preference p st : result unit * state) in
  fst (_save_preference p st) = Ok tt
  /\ self st' = self st
  /\ docs (db st') = docs (db st)
  /\ error_log (db st')
     = error_log (db st)
       ++ match AllowShipping p with
          | Some true => [match DefaultShippingAccount p with
                          | Some _ => TypeError
                          | None => KeyError
                          end]
          | Some false => []
          | None => [KeyError]
          end.
Proof.
  unfold _save_preference, try_except, bindM, lift, raise, ret, _log_error.
  destruct (AllowShipping p) as [[|]|], (DefaultShippingAccount p);
    cbn; rewrite ?app_nil_r; repeat split.
Qed.

End ItemsAndPreferences.

(** *** Items of a purchase invoice *)

Section PurchaseItems.
Import Site Migrator QuickBooks.
Context {World num : Type} `{Number num}.
Variable T : @tax_methods World num.
Local Abbreviation state := (@Migrator.state World num).
Local Abbreviation M := (@Migrator.M World num).

Lemma readonly_pi_items_step (invoice : txn num) (is_return : bool)
      (items : list (dict num)) (line : txn_line num) :
  readonly (pi_items_step T invoice is_return items line).
Proof.
  unfold pi_items_step, the_company, get_all_, the_warehouse, the_cost_center, item_taxes.
  repeat first [apply readonly_get_account_name_by_id | readonly_step].
Qed.

Lemma pi_items_step_negated (invoice : txn num) (line : txn_line num)
      (items negated : list (dict num)) (st : state) :
  makes_item line = true ->
  Forall2 qty_negated items negated ->
  same_but_negated (fst (pi_items_step T invoice false items line st))
                   (fst (pi_items_step T invoice true negated line st)).
Proof.
  intros Hmakes Hrel. unfold pi_items_step. unfold makes_item in Hmakes.
  destruct (String.eqb (DetailType line) "ItemBasedExpenseLineDetail");
    [|cbn in Hmakes; rewrite Hmakes];
    repeat (rewrite !bind_readonly_run
             by (unfold the_company, get_all_, the_warehouse, the_cost_center, item_taxes;
                 repeat first [apply readonly_get_account_name_by_id | readonly_step]);
            cbv beta iota;
            match goal with
            | |- context [match fst (?m st) with _ => _ end] =>
                destruct (fst (m st)); cbv beta iota
            end);
    cbn [fst snd ret lift]; try exact I;
    match goal with
    | |- same_but_negated _ (negate_last_qty (?n ++ [?d])) =>
        let E := fresh "E" in
        pose proof (negate_last_qty_app n d) as E;
        unfold dict in E |- *; rewrite E; clear E
    end;
    cbn; (apply Forall2_app; [exact Hrel|]); (constructor; [|constructor]);
    (split;
     [intros k Hk; apply String.eqb_neq in Hk; rewrite String.eqb_sym in Hk;
      cbn [dict_get]; rewrite Hk; reflexivity
     |eexists; eexists; split; [reflexivity|split; reflexivity]]).
Qed.

Lemma fold_pi_items_negated (invoice : txn num) (st : state) :
  forall (lines : list (txn_line num)) (items negated : list (dict num)),
    forallb makes_item lines = true ->
    Forall2 qty_negated items negated ->
    same_but_negated
      (fst (fold_lines (pi_items_step T invoice false) lines items st))
      (fst (fold_lines (pi_items_step T invoice true) lines negated st)).
Proof.
  induction lines as [|line lines IH]; intros items negated Hall Hrel; cbn [fold_lines].
  - exact Hrel.
  - cbn [forallb] in Hall. apply andb_prop in Hall. destruct Hall as [Hline Hall].
    rewrite !bind_readonly_run by apply readonly_pi_items_step.
    pose proof (pi_items_step_negated invoice line items negated st Hline Hrel) as Hstep.
    destruct (fst (pi_items_step T invoice false items line st)) as [i0|e0],
             (fst (pi_items_step T invoice true negated line st)) as [i1|e1];
      cbn in Hstep; try contradiction.
    + now apply IH.
    + exact I.
Qed.

(** X8.  When every line of a purchase invoice is an item line or an
    account line, [_get_pi_items] makes for a return (Vendor Credit)
    the items it makes for a purchase, each with its quantity
    negated; the two runs fail together. *)
Theorem purchase_return_negates_every_quantity
        (invoice : txn num) (lines : list (txn_line num)) (st : state) :
  Line invoice = Some lines ->
  forallb makes_item lines = true ->
  same_but_negated (fst (_get_pi_items T invoice false st))
                   (fst (_get_pi_items T invoice true st)).
Proof.
  intros Hlines Hall. unfold _get_pi_items.
  rewrite !bind_readonly_run by apply readonly_lift.
  cbn [fst lift]. rewrite Hlines. cbn [Py.getitem].
  apply fold_pi_items_negated; [exact Hall|constructor].
Qed.

Lemma fold_lines_app {A B} (step : B -> A -> M B) (st : state) :
  (forall acc x, readonly (step acc x)) ->
  forall (l1 l2 : list A) (acc : B),
    fst (fold_lines step (l1 ++ l2) acc st)
    = Py.bind (fst (fold_lines step l1 acc st))
              (fun acc' => fst (fold_lines step l2 acc' st)).
Proof.
  intros Hro. induction l1 as [|x l1 IH]; intros l2 acc; cbn [app fold_lines].
  - reflexivity.
  - rewrite !bind_readonly_run by apply Hro.
    destruct (fst (step acc x st)) as [acc'|e]; [apply IH|reflexivity].
Qed.

Lemma pi_items_step_tax_detail (invoice invoice' : txn num) (is_return : bool) :
  TxnTaxDetail invoice = TxnTaxDetail invoice' ->
  pi_items_step T invoice is_return = pi_items_step T invoice' is_return.
Proof.
  intro Htax. unfold pi_items_step, line_tax_code. now rewrite Htax.
Qed.

(** X9.  The negation of a return stands after the test of the line's
    kind, so it runs for every line.  One more line of another kind
    (a description, a discount) at the end of a Vendor Credit negates
    the quantity of the last item once more: the items are those of
    the invoice without that line, with the last quantity negated
    again, and [IndexError] when there is no item.  For a purchase the
    line changes nothing. *)
Theorem purchase_return_negates_again_at_other_lines
        (invoice shorter : txn num) (lines : list (txn_line num))
        (other : txn_line num) (st : state) :
  Line invoice = Some (lines ++ [other]) ->
  Line shorter = Some lines ->
  TxnTaxDetail shorter = TxnTaxDetail invoice ->
  makes_item other = false ->
  fst (_get_pi_items T invoice true st)
  = Py.bind (fst (_get_pi_items T shorter true st)) negate_last_qty
  /\ fst (_get_pi_items T invoice false st) = fst (_get_pi_items T shorter false st).
Proof.
  intros Hlines Hshorter Htax Hother. unfold _get_pi_items.
  rewrite !bind_readonly_run by apply readonly_lift.
  cbn [fst lift]. rewrite Hlines, Hshorter. cbn [Py.getitem].
  rewrite !(pi_items_step_tax_detail shorter invoice) by exact Htax.
  rewrite !fold_lines_app by (intros; apply readonly_pi_items_step).
  unfold makes_item in Hother. apply orb_false_elim in Hother.
  destruct Hother as [Hitem Haccount].
  assert (Hstep : forall is_return items,
             fst (fold_lines (pi_items_step T invoice is_return) [other] items st)
             = if is_return then negate_last_qty items else Ok items).
  { intros is_return items. cbn [fold_lines]. unfold pi_items_step.
    rewrite Hitem, Haccount. unfold bindM, ret, lift.
    destruct is_return; cbn; [destruct (negate_last_qty items)|]; reflexivity. }
  split.
  - destruct (fst (fold_lines (pi_items_step T invoice true) lines [] st)); cbn;
      [apply Hstep|reflexivity].
  - destruct (fst (fold_lines (pi_items_step T invoice false) lines [] st)); cbn;
      [apply Hstep|reflexivity].
Qed.

End PurchaseItems.

(** *** Refunds *)

Section Refunds.
Import Site Migrator QuickBooks.
Context {num : Type} `{Number num}.

Lemma dict_get_del_other (d : dict num) (k k' : string) :
  k <> k' -> dict_get (dict_del d k) k' = dict_get d k'.
Proof.
  intro Hk. induction d as [|[k0 v0] rest IH]; cbn; [reflexivity|].
  destruct (String.eqb k0 k) eqn:Hk0; cbn.
  - apply String.eqb_eq in Hk0. subst k0.
    apply String.eqb_neq in Hk. now rewrite Hk.
  - now rewrite IH.
Qed.

Lemma dict_get_absent (d : dict num) (k : string) :
  ~ In k (map fst d) -> dict_get d k = None.
Proof.
  induction d as [|[k0 v0] rest IH]; cbn; [reflexivity|].
  intro Hnot. destruct (String.eqb k0 k) eqn:Hk0.
  - apply String.eqb_eq in Hk0. tauto.
  - apply IH. tauto.
Qed.

Lemma dict_get_del_same (d : dict num) (k : string) :
  is_dict d -> dict_get (dict_del d k) k = None.
Proof.
  unfold is_dict. induction d as [|[k0 v0] rest IH]; cbn; [reflexivity|].
  intro Hnd. inversion Hnd as [|? ? Hnot Hrest]; subst.
  destruct (String.eqb k0 k) eqn:Hk0; cbn.
  - apply String.eqb_eq in Hk0. subst k0. now apply dict_get_absent.
  - rewrite Hk0. now apply IH.
Qed.

Lemma dict_set_keys (d : dict num) (k : string) (v : value num) :
  is_dict d -> is_dict (dict_set d k v).
Proof.
  unfold is_dict.
  assert (Hin : forall d k0, In k0 (map fst (dict_set d k v)) ->
                             k0 = k \/ In k0 (map fst d)).
  { clear. induction d as [|[k1 v1] rest IH]; intros k0; cbn.
    - intros [<-|[]]. now left.
    - destruct (String.eqb k1 k); cbn.
      + intros [<-|Hin]; right; [now left|now right].
      + intros [<-|Hin]; [right; now left|].
        destruct (IH k0 Hin) as [->|Hr]; [now left|right; now right]. }
  induction d as [|[k1 v1] rest IH]; cbn; intro Hnd.
  - constructor; [intros []|constructor].
  - inversion Hnd as [|? ? Hnot Hrest]; subst.
    destruct (String.eqb k1 k) eqn:Hk1; cbn.
    + constructor; assumption.
    + constructor; [|now apply IH].
      intro Hin0. destruct (Hin _ _ Hin0) as [->|Hr]; [|contradiction].
      now rewrite String.eqb_refl in Hk1.
Qed.

Lemma flip_swaps (posting : dict num) :
  one_side posting ->
  exists flipped, flip posting = Ok flipped /\ sides_swapped posting flipped.
Proof.
  intros [Hd [(v & Hdebit & Hcredit)|(v & Hcredit & Hdebit)]]; unfold flip.
  - rewrite Hdebit. eexists. split; [reflexivity|]. split; [|split].
    + rewrite Hcredit. apply dict_get_del_same. now apply dict_set_keys.
    + rewrite dict_get_del_other by discriminate.
      rewrite dict_get_set, String.eqb_refl. now rewrite Hdebit.
    + intros k Hk1 Hk2. rewrite dict_get_del_other by congruence.
      apply dict_get_set_other. congruence.
  - rewrite Hdebit, Hcredit. cbn. eexists. split; [reflexivity|]. split; [|split].
    + rewrite dict_get_del_other by discriminate.
      now rewrite dict_get_set, String.eqb_refl.
    + rewrite Hdebit. apply dict_get_del_same. now apply dict_set_keys.
    + intros k Hk1 Hk2. rewrite dict_get_del_other by congruence.
      apply dict_get_set_other. congruence.
Qed.

(** X10.  The refund of [_save_purchase] ([purchase["Credit"]]): every
    posting that has one side gets the other side with the same
    amount, its other fields kept, so that the debits of the journal
    entry become its credits and the credits its debits. *)
Theorem refund_swaps_debits_and_credits (accounts : list (dict num)) :
  Forall one_side accounts ->
  exists flipped,
    map_result flip accounts = Ok flipped
    /\ Forall2 sides_swapped accounts flipped
    /\ total_debit flipped = total_credit accounts
    /\ total_credit flipped = total_debit accounts.
Proof.
  intro Hall.
  assert (Hmap : exists flipped,
             map_result flip accounts = Ok flipped
             /\ Forall2 sides_swapped accounts flipped).
  { induction Hall as [|a rest Ha _ IH]; cbn.
    - exists []. split; [reflexivity|constructor].
    - destruct (flip_swaps a Ha) as (b & -> & Hb).
      destruct IH as (flipped & -> & Hrest). cbn.
      exists (b :: flipped). split; [reflexivity|now constructor]. }
  destruct Hmap as (flipped & Hrun & Hswapped).
  exists flipped. split; [exact Hrun|]. split; [exact Hswapped|].
  unfold total_debit, total_credit.
  assert (Hd : map (amount_of "debit_in_account_currency") flipped
               = map (amount_of "credit_in_account_currency") accounts).
  { clear Hrun Hall. induction Hswapped as [|a b l l' (Hdb & _) _ IH]; cbn;
      [reflexivity|].
    unfold amount_of at 1 3. now rewrite Hdb, IH. }
  assert (Hc : map (amount_of "credit_in_account_currency") flipped
               = map (amount_of "debit_in_account_currency") accounts).
  { clear Hrun Hall Hd. induction Hswapped as [|a b l l' (_ & Hcr & _) _ IH]; cbn;
      [reflexivity|].
    unfold amount_of at 1 3. now rewrite Hcr, IH. }
  now rewrite Hd, Hc.
Qed.

End Refunds.

(** *** Accounts before they are saved *)

Section AccountOrder.
Import Site Migrator QuickBooks.
Context {World num : Type}.
Variable L : @library num.
Local Abbreviation state := (@Migrator.state World num).

Lemma mark_groups_ok (all : list account) :
  forall todo marked,
    mark_groups all todo = (marked, None) ->
    Forall2 (marked_as_group all) todo marked.
Proof.
  induction todo as [|a rest IH]; intros marked; cbn.
  - intros [= <-]. constructor.
  - destruct (any_child (account_Id a) all) as [b|e] eqn:Hb; [|discriminate].
    destruct (mark_groups all rest) as [marked' e'] eqn:Hrest.
    intros [= <- ->]. constructor; [|now apply IH]. now exists b.
Qed.

Lemma map_result_spec {A B} (f : A -> result B) (l : list A) :
  forall ys, map_result f l = Ok ys -> Forall2 (fun x y => f x = Ok y) l ys.
Proof.
  induction l as [|x l IH]; intros ys; cbn.
  - intros [= <-]. constructor.
  - destruct (f x) as [y|e] eqn:Hy; cbn; [|discriminate].
    destruct (map_result f l) as [ys'|e]; cbn; [|discriminate].
    intros [= <-]. constructor; [exact Hy|now apply IH].
Qed.

Lemma insert_by_key_perm {A} (k : Z) (x : A) (l : list (Z * A)) :
  Permutation (insert_by_key k x l) ((k, x) :: l).
Proof.
  induction l as [|[k' y] rest IH]; cbn; [reflexivity|].
  destruct (k <? k')%Z; [reflexivity|].
  rewrite IH. apply perm_swap.
Qed.

Lemma insert_by_key_sorted {A} (k : Z) (x : A) (l : list (Z * A)) :
  Sorted (fun p q => (fst p <= fst q)%Z) l ->
  Sorted (fun p q => (fst p <= fst q)%Z) (insert_by_key k x l).
Proof.
  induction 1 as [|[k' y] rest Hrest IH Hhd]; cbn.
  - repeat constructor.
  - destruct (k <? k')%Z eqn:Hlt.
    + constructor; [now constructor|]. constructor. cbn. lia.
    + constructor; [exact IH|].
      destruct rest as [|[k2 z] rest']; cbn.
      * constructor. cbn. lia.
      * inversion Hhd; subst. destruct (k <? k2)%Z; constructor; cbn in *; lia.
Qed.

Lemma sorted_by_key_spec {A} (l : list (Z * A)) :
  exists pairs,
    sorted_by_key l = map snd pairs
    /\ Permutation pairs l
    /\ Sorted (fun p q => (fst p <= fst q)%Z) pairs.
Proof.
  unfold sorted_by_key.
  assert (Hgen : forall acc,
             Sorted (fun p q : Z * A => (fst p <= fst q)%Z) acc ->
             Permutation
               (fold_left (fun acc kx => insert_by_key (fst kx) (snd kx) acc) l acc)
               (acc ++ l)
             /\ Sorted (fun p q => (fst p <= fst q)%Z)
                       (fold_left (fun acc kx => insert_by_key (fst kx) (snd kx) acc)
                                  l acc)).
  { induction l as [|[k x] rest IH]; intros acc Hacc; cbn.
    - rewrite app_nil_r. split; [reflexivity|exact Hacc].
    - destruct (IH (insert_by_key k x acc)) as [Hperm Hsorted];
        [now apply insert_by_key_sorted|].
      split; [|exact Hsorted].
      rewrite Hperm, insert_by_key_perm. cbn. apply Permutation_middle. }
  destruct (Hgen []) as [Hperm Hsorted]; [constructor|].
  eexists. split; [reflexivity|]. split; assumption.
Qed.

(** X11.  When [_preprocess_accounts] returns, [self.accounts] holds
    the accounts with [is_group] set, an account being a group
    exactly when some account is its sub-account, and the list
    returned holds the same marked accounts in the order of their
    numeric ids: of what [int] makes of each ["Id"], whatever
    numerals [int] reads. *)
Theorem preprocess_accounts_marks_groups_and_sorts
        (all sorted : list account) (st : state) :
  fst (_preprocess_accounts L all st) = Ok sorted ->
  exists marked,
    Forall2 (marked_as_group all) all marked
    /\ accounts (self (snd (_preprocess_accounts L all st))) = Some marked
    /\ Permutation sorted marked
    /\ Sorted (by_numeric_id L) sorted.
Proof.
  unfold _preprocess_accounts, bindM, lift, update_self, ret, raise.
  destruct (map_result (fun a => Py.getitem (Name a)) all) as [names|e];
    [|discriminate].
  destruct (mark_groups all all) as [marked [e|]] eqn:Hmark; cbn; [discriminate|].
  destruct (map_result (fun a => int L (account_Id a)) marked) as [keys|e] eqn:Hkeys;
    cbn; [|discriminate].
  intros [= <-]. exists marked.
  split; [now apply mark_groups_ok|]. split; [reflexivity|].
  apply map_result_spec in Hkeys.
  destruct (sorted_by_key_spec (combine keys marked)) as (pairs & -> & Hperm & Hsorted).
  assert (Hsnd : map snd (combine keys marked) = marked).
  { clear -Hkeys. induction Hkeys; cbn; [reflexivity|]. now f_equal. }
  assert (Hpairs : forall p, In p pairs -> int L (account_Id (snd p)) = Ok (fst p)).
  { intros [k a] Hp. apply (Permutation_in _ Hperm) in Hp. cbn.
    clear -Hkeys Hp. induction Hkeys as [|a0 k0 l l' Hk _ IH]; cbn in Hp; [contradiction|].
    destruct Hp as [[= <- <-]|Hp]; [exact Hk|now apply IH]. }
  split.
  - rewrite <- Hsnd. now apply Permutation_map.
  - clear -Hsorted Hpairs.
    induction Hsorted as [|p rest Hrest IH Hhd]; cbn; constructor.
    + apply IH. intros q Hq. apply Hpairs. now right.
    + destruct Hhd as [|q rest' Hle]; cbn; constructor.
      exists (fst p), (fst q). split; [apply Hpairs; now left|].
      split; [apply Hpairs; right; now left|exact Hle].
Qed.

End AccountOrder.

(** *** The ledger: nothing invented, nothing lost *)

Section LedgerLines.
Import Ledger.
Context {num : Type} `{Number num} (ctx : context num).

Lemma built_from_app_l (read read' : list (option string * list col)) (l : line num) :
  built_from ctx read l -> built_from ctx (read ++ read') l.
Proof.
  intros (a & data & Hin & Hl). exists a, data. split; [|exact Hl].
  apply in_or_app. now left.
Qed.

Lemma built_from_app_r (read read' : list (option string * list col)) (l : line num) :
  built_from ctx read' l -> built_from ctx (read ++ read') l.
Proof.
  intros (a & data & Hin & Hl). exists a, data. split; [|exact Hl].
  apply in_or_app. now right.
Qed.

Lemma read_rows_unfold (Header : option (list col)) (rows : list row)
      (account : option string) :
  read_rows ctx (Section Header (Some rows)) account
  = match resolve_header ctx Header account with
    | Go (Ok account) => rows_read ctx account rows
    | _ => []
    end.
Proof. reflexivity. Qed.

Lemma rows_loop_builds (account : option string) :
  forall rows, Forall (walk_builds ctx) rows ->
  forall entries g,
    (forall l, In l (flattened (snd (rows_loop ctx account rows entries g))) ->
               In l (flattened g) \/ built_from ctx (rows_read ctx account rows) l)
    /\ (forall es, fst (rows_loop ctx account rows entries g) = Ok es ->
                   forall l, In l es ->
                             In l entries \/ built_from ctx (rows_read ctx account rows) l).
Proof.
  induction 1 as [|r rows Hr _ IH]; intros entries g.
  - cbn. split; [now left|]. intros es [= <-]. now left.
  - cbn [rows_loop rows_read].
    destruct r as [data|Header Rows|t].
    + destruct (data_line ctx account data) as [l0|e] eqn:Hl0.
      * destruct (IH (entries ++ [l0]) g) as [Hg Hes]. split.
        -- intros l Hl. destruct (Hg l Hl) as [Hin|Hs]; [now left|right].
           now apply built_from_app_r.
        -- intros es Hrun l Hl. destruct (Hes es Hrun l Hl) as [Hin|Hs].
           ++ apply in_app_or in Hin. destruct Hin as [Hin|[<-|[]]]; [now left|right].
              apply built_from_app_l. exists account, data. split; [now left|exact Hl0].
           ++ right. now apply built_from_app_r.
      * cbn. split; [now left|discriminate].
    + pose proof (Hr account g) as Hsec.
      destruct (_get_gl_entries_from_section ctx (Section Header Rows) account g)
        as [[[]|e] g1]; cbn [snd] in Hsec.
      * destruct (IH entries g1) as [Hg Hes]. split.
        -- intros l Hl. destruct (Hg l Hl) as [Hin|Hs].
           ++ destruct (Hsec l Hin) as [Hin0|Hs]; [now left|right].
              now apply built_from_app_l.
           ++ right. now apply built_from_app_r.
        -- intros es Hrun l Hl. destruct (Hes es Hrun l Hl) as [Hin|Hs]; [now left|right].
           now apply built_from_app_r.
      * cbn. split; [|discriminate].
        intros l Hl. destruct (Hsec l Hl) as [Hin0|Hs]; [now left|right].
        now apply built_from_app_l.
    + destruct (IH entries g) as [Hg Hes]. split.
      * intros l Hl. destruct (Hg l Hl) as [Hin|Hs]; [now left|right]. exact Hs.
      * intros es Hrun l Hl. destruct (Hes es Hrun l Hl) as [Hin|Hs]; [now left|right].
        exact Hs.
Qed.

Lemma section_builds : forall r, walk_builds ctx r.
Proof.
  induction r as [data|Header|Header rows IH|t] using row_rect_rows;
    intros account g l Hl.
  - now left.
  - cbn in Hl. destruct (resolve_header ctx Header account) as [|[a|e]]; now left.
  - rewrite section_unfold in Hl. rewrite read_rows_unfold.
    destruct (resolve_header ctx Header account) as [|[a|e]]; try (now left).
    destruct (rows_loop_builds a rows IH [] g) as [Hg Hes].
    destruct (rows_loop ctx a rows [] g) as [[es|e] g1]; cbn [fst snd] in *.
    + apply (Permutation_in _ (flattened_setdefault_extend a es g1)) in Hl.
      apply in_app_or in Hl. destruct Hl as [Hl|Hl]; [now apply Hg|].
      destruct (Hes es eq_refl l Hl) as [[]|Hs]. now right.
    + now apply Hg.
  - now left.
Qed.

Lemma walk_report_builds :
  forall report g l,
    In l (flattened (snd (walk_report ctx report g))) ->
    In l (flattened g) \/ built_from ctx (report_read_rows ctx report) l.
Proof.
  induction report as [|r report IH]; intros g l Hl.
  - now left.
  - cbn [walk_report] in Hl.
    change (report_read_rows ctx (r :: report))
      with (match r with Section _ _ => read_rows ctx r None | _ => [] end
            ++ report_read_rows ctx report).
    destruct r as [data|Header Rows|t].
    + destruct (IH g l Hl) as [Hin|Hs]; [now left|now right].
    + pose proof (section_builds (Section Header Rows) None g) as Hsec.
      destruct (_get_gl_entries_from_section ctx (Section Header Rows) None g)
        as [[[]|e] g1]; cbn [snd] in *.
      * destruct (IH g1 l Hl) as [Hin|Hs].
        -- destruct (Hsec l Hin) as [Hin0|Hs]; [now left|right].
           now apply built_from_app_l.
        -- right. now apply built_from_app_r.
      * destruct (Hsec l Hl) as [Hin0|Hs]; [now left|right]. now apply built_from_app_l.
    + destruct (IH g l Hl) as [Hin|Hs]; [now left|now right].
Qed.

(** X13.  Every line of [self.gl_entries], also when the walk stopped
    on an error, was built by this walk from a Data row of the report
    that stands in a section that the walk reads, with the account of
    that section: the account that the section's header names, or
    else the account of the section around it.  The row stands not at
    the top of the report, and not in a "Not Specified" section or
    below one. *)
Theorem every_ledger_line_comes_from_a_data_row (report : list row) :
  forall l, In l (flattened (fst (reconstruct ctx report))) ->
            built_from ctx (report_read_rows ctx report) l.
Proof.
  intros l Hl. unfold reconstruct in Hl.
  pose proof (walk_report_builds report [] l) as Hsrc.
  destruct (walk_report ctx report []) as [[[]|e] g]; cbn [fst snd] in *;
    destruct (Hsrc Hl) as [[]|Hs]; exact Hs.
Qed.

Lemma entry_lines_add_to_type_dict (l : line num) :
  forall type_dict,
    Permutation (List.concat (map (fun e => lines (snd e)) (add_to_type_dict l type_dict)))
                (l :: List.concat (map (fun e => lines (snd e)) type_dict)).
Proof.
  induction type_dict as [|[k e] rest IH]; cbn; [reflexivity|].
  destruct (key_eqb k (id_ l)); cbn.
  - rewrite <- app_assoc. cbn. symmetry. apply Permutation_middle.
  - rewrite IH. symmetry. apply Permutation_middle.
Qed.

Lemma entry_lines_add_line (l : line num) :
  forall gl, Permutation (entry_lines (add_line l gl)) (l :: entry_lines gl).
Proof.
  unfold entry_lines.
  induction gl as [|[t type_dict] rest IH]; cbn; [reflexivity|].
  destruct (String.eqb t (type_ l)); cbn.
  - rewrite entry_lines_add_to_type_dict. reflexivity.
  - rewrite IH. symmetry. apply Permutation_middle.
Qed.

(** X15.  The grouping of [_fetch_general_ledger] loses no line and
    repeats none: the lines of all the entries of
    [self.general_ledger] are the lines of [self.gl_entries], each
    once. *)
Theorem grouping_keeps_every_line_once (g : gl_entries_t num) :
  Permutation (entry_lines (group_lines g)) (flattened g).
Proof.
  unfold group_lines, flattened.
  assert (Hinner : forall (ls : list (line num)) gl,
             Permutation (entry_lines (fold_left (fun g0 l => add_line l g0) ls gl))
                         (entry_lines gl ++ ls)).
  { induction ls as [|l ls IH]; intros gl; cbn [fold_left]; [now rewrite app_nil_r|].
    rewrite IH, entry_lines_add_line. cbn [app]. apply Permutation_middle. }
  assert (Hgen : forall (lists : list (list (line num))) gl,
             Permutation
               (entry_lines
                  (fold_left (fun gl0 account_lines =>
                                fold_left (fun g0 l => add_line l g0) account_lines gl0)
                             lists gl))
               (entry_lines gl ++ List.concat lists)).
  { induction lists as [|ls lists IH]; intros gl; cbn [fold_left List.concat];
      [now rewrite app_nil_r|].
    rewrite IH, Hinner, <- app_assoc. reflexivity. }
  rewrite Hgen. reflexivity.
Qed.

End LedgerLines.

(** *** Saving stops at the first method that raises *)

Section SavingStops.
Import Site Migrator QuickBooks.
Context {World num : Type} `{Number num}.
Variable F : framework num.
Variable L : @library num.
Variable T : @tax_methods World num.
Variable depth : nat.
Local Abbreviation state := (@Migrator.state World num).

(** X12.  [_save_purchase] binds [accounts] in the statement that
    looks up the bank account, and its handler reads [accounts]: for
    a Purchase without ["AccountRef"], or whose account is not in the
    database, the handler itself raises [UnboundLocalError].  The
    exception leaves [_save_entries]: the Purchase and all the
    Purchases after it are not saved, and nothing is logged there. *)
Theorem purchase_without_bank_account_stops_the_saving
        (purchase : txn num) (rest : list (entity_record num)) (st : state) :
  (forall a, AccountRef purchase = Some a ->
             get_all (docs (db st))
                     [("doctype", "Account"); ("quickbooks_id", a);
                      ("company", company (self st))] = []) ->
  let run := _save_entries F L T depth "Purchase" (TxnRecord purchase :: rest) st in
  fst run = Raise UnboundLocalError
  /\ docs (db (snd run)) = docs (db st)
  /\ error_log (db (snd run)) = error_log (db st)
  /\ published (db (snd run))
     = published (db st) ++ [("Purchase", 1, S (List.length rest))]
  /\ self (snd run) = self st.
Proof.
  intro Haccount. cbn zeta.
  assert (Hfirst : forall st' : state,
             company (self st') = company (self st) ->
             docs (db st') = docs (db st) ->
             _save_purchase F purchase st' = (Raise UnboundLocalError, st')).
  { intros st' Hc Hd. unfold _save_purchase, with_first_posting.
    rewrite bind_readonly_run by apply readonly_lift.
    destruct (AccountRef purchase) as [a|] eqn:Ha; cbn [Py.getitem lift fst].
    - rewrite bind_readonly_run by apply readonly_get_account_name_by_id.
      unfold _get_account_name_by_id at 1.
      unfold bindM at 1 2 3, the_company, get_all_, read. cbn [fst snd].
      rewrite Hc, Hd, (Haccount a eq_refl). reflexivity.
    - reflexivity. }
  assert (Hrun : _save_entries F L T depth "Purchase" (TxnRecord purchase :: rest) st
                 = (Raise UnboundLocalError, snd (_publish "Purchase" 1 (S (List.length rest)) st))).
  { unfold _save_entries. cbn [save_loop List.length].
    unfold bindM at 1, _publish. cbn [fst snd].
    unfold bindM at 1, lift.
    cbn [method_of entity_method_map String.eqb Ascii.eqb Bool.eqb fst snd].
    unfold bindM at 1, on_txn. rewrite Hfirst by reflexivity. reflexivity. }
  rewrite Hrun. cbn. repeat split.
Qed.

End SavingStops.

(** *** Fiscal years that cover the ledger *)

Section CoveredLedger.
Import Site Migrator QuickBooks.
Context {World num : Type} `{Number num}.
Variable L : @library num.
Local Abbreviation state := (@Migrator.state World num).

(** X14.  When the earliest date of the ledger is not before the start
    of the oldest fiscal year, [_create_fiscal_years] creates
    nothing, logs nothing, and leaves the site and the migrator as
    they were. *)
Theorem fiscal_years_untouched_when_the_ledger_is_covered
        (accepts : FiscalYears.fiscal_year -> list FiscalYears.fiscal_year -> result unit)
        (st : state) (g : Ledger.gl_entries_t num) (smallest : string)
        (D : Dates.date) (f : FiscalYears.fiscal_year) :
  gl_entries (self st) = Some g ->
  FiscalYears.min_date (map Ledger.date (flattened g)) = Ok smallest ->
  getdate L smallest = Ok D ->
  FiscalYears.oldest (fiscal_years (db st)) = Ok f ->
  Dates.ltb D (FiscalYears.year_start_date f) = false ->
  let run := _create_fiscal_years L accepts st in
  fst run = Ok tt
  /\ db (snd run) = db st
  /\ self (snd run) = self st.
Proof.
  intros Hg Hmin HD Hf Hlt. cbn zeta.
  unfold _create_fiscal_years, try_except, bindM, read, lift.
  rewrite Hg. cbn [fst snd]. unfold flattened in Hmin. rewrite Hmin. cbn [fst snd].
  rewrite HD. cbn [fst snd]. rewrite Hf. cbn [fst snd].
  unfold FiscalYears.enough_fuel. cbn [FiscalYears.extend]. rewrite Hlt.
  cbn. repeat split. destruct (db st); reflexivity.
Qed.

End CoveredLedger.

(** *** Runs *)

(** X8, a run: a Vendor Credit with one account line. *)
Lemma purchase_return_negates_every_quantity_witness :
  same_but_negated
    (fst (Migrator._get_pi_items no_taxes (paid_from None [expense_line]) false
                                 with_supplies_account))
    (fst (Migrator._get_pi_items no_taxes (paid_from None [expense_line]) true
                                 with_supplies_account))
  /\ exists item,
      fst (Migrator._get_pi_items no_taxes (paid_from None [expense_line]) true
                                  with_supplies_account) = Py.Ok [item]
      /\ Site.dict_get item "qty" = Some (Site.VInt (-1)).
Proof.
  split.
  - apply (purchase_return_negates_every_quantity
             no_taxes (paid_from None [expense_line]) [expense_line] with_supplies_account);
      reflexivity.
  - eexists. split; vm_compute; reflexivity.
Defined.

(** X9, a run: the same Vendor Credit with a note after the account
    line has its quantity back at 1. *)
Lemma purchase_return_negates_again_at_other_lines_witness :
  (fst (Migrator._get_pi_items no_taxes (paid_from None ([expense_line] ++ [note_line])) true
                               with_supplies_account)
   = Py.bind (fst (Migrator._get_pi_items no_taxes (paid_from None [expense_line]) true
                                          with_supplies_account))
             Migrator.negate_last_qty
   /\ fst (Migrator._get_pi_items no_taxes (paid_from None ([expense_line] ++ [note_line]))
                                  false with_supplies_account)
      = fst (Migrator._get_pi_items no_taxes (paid_from None [expense_line]) false
                                    with_supplies_account))
  /\ exists item,
      fst (Migrator._get_pi_items no_taxes (paid_from None ([expense_line] ++ [note_line]))
                                  true with_supplies_account) = Py.Ok [item]
      /\ Site.dict_get item "qty" = Some (Site.VInt 1).
Proof.
  split.
  - apply (purchase_return_negates_again_at_other_lines
             no_taxes (paid_from None ([expense_line] ++ [note_line]))
             (paid_from None [expense_line]) [expense_line] note_line with_supplies_account);
      reflexivity.
  - eexists. split; vm_compute; reflexivity.
Defined.

(** X10, a run: the two postings of a purchase of 100. *)
Lemma refund_swaps_debits_and_credits_witness :
  exists flipped,
    Migrator.map_result Migrator.flip purchase_postings = Py.Ok flipped
    /\ Forall2 sides_swapped purchase_postings flipped
    /\ total_debit flipped = total_credit purchase_postings
    /\ total_credit flipped = total_debit purchase_postings.
Proof.
  apply (refund_swaps_debits_and_credits purchase_postings).
  assert (Hkeys : forall a b : string, a <> b -> NoDup [a; b]).
  { intros a b Hab. constructor; [intros [E|[]]; now apply Hab|].
    constructor; [intros []|constructor]. }
  constructor; [|constructor; [|constructor]].
  - split; [apply Hkeys; discriminate|].
    right. exists (Site.VNum 100%Z). split; reflexivity.
  - split; [apply Hkeys; discriminate|].
    left. exists (Site.VNum 100%Z). split; reflexivity.
Defined.

(** X11, a run: the bank account and its sub-account. *)
Lemma preprocess_accounts_marks_groups_and_sorts_witness :
  exists marked,
    Forall2 (marked_as_group [bank_account; savings_account])
            [bank_account; savings_account] marked
    /\ Migrator.accounts
         (Migrator.self
            (snd (Migrator._preprocess_accounts plain_library
                                                [bank_account; savings_account] new_state)))
       = Some marked
    /\ Permutation [Migrator.with_is_group savings_account false;
                    Migrator.with_is_group bank_account true] marked
    /\ Sorted (by_numeric_id plain_library)
              [Migrator.with_is_group savings_account false;
               Migrator.with_is_group bank_account true].
Proof.
  apply (preprocess_accounts_marks_groups_and_sorts
           plain_library [bank_account; savings_account]
           [Migrator.with_is_group savings_account false;
            Migrator.with_is_group bank_account true] new_state).
  vm_compute. reflexivity.
Defined.

(** X13, a run: the line of the sub-section of the parent-and-child
    report. *)
Lemma every_ledger_line_comes_from_a_data_row_witness :
  map fst (report_read_rows identity_context parent_and_child_report)
  = [Some "84"; Some "85"]
  /\ built_from identity_context
                (report_read_rows identity_context parent_and_child_report)
                (ledger_line "85" "2020-01-02" "Invoice" "7" 100 0).
Proof.
  split; [reflexivity|].
  apply (every_ledger_line_comes_from_a_data_row identity_context parent_and_child_report).
  vm_compute. left. reflexivity.
Defined.

(** X12, a run: two Purchases paid from an account that the site has
    not. *)
Lemma purchase_without_bank_account_stops_the_saving_witness :
  let run := Migrator._save_entries
               plain_framework plain_library no_taxes 1 "Purchase"
               [QuickBooks.TxnRecord (paid_from (Some "35") [expense_line]);
                QuickBooks.TxnRecord (paid_from (Some "35") [expense_line])]
               with_supplies_account in
  fst run = Py.Raise Py.UnboundLocalError
  /\ Migrator.docs (Migrator.db (snd run)) = Migrator.docs (Migrator.db with_supplies_account)
  /\ Migrator.error_log (Migrator.db (snd run))
     = Migrator.error_log (Migrator.db with_supplies_account)
  /\ Migrator.published (Migrator.db (snd run))
     = Migrator.published (Migrator.db with_supplies_account) ++ [("Purchase", 1%nat, 2%nat)]
  /\ Migrator.self (snd run) = Migrator.self with_supplies_account.
Proof.
  apply (purchase_without_bank_account_stops_the_saving
           plain_framework plain_library no_taxes 1
           (paid_from (Some "35") [expense_line])
           [QuickBooks.TxnRecord (paid_from (Some "35") [expense_line])]
           with_supplies_account).
  intros a Ha. injection Ha as <-. reflexivity.
Defined.

(** X14, a run: a ledger of March 2020 on a site whose fiscal year is
    2020. *)
Lemma fiscal_years_untouched_when_the_ledger_is_covered_witness :
  let st := with_gl_entries [(Some "Advance Payment", Ledger.lines advance_of_100)] new_state in
  let run := Migrator._create_fiscal_years plain_library accepts_all st in
  fst run = Py.Ok tt
  /\ Migrator.db (snd run) = Migrator.db st
  /\ Migrator.self (snd run) = Migrator.self st.
Proof.
  apply (fiscal_years_untouched_when_the_ledger_is_covered
           plain_library accepts_all
           (with_gl_entries [(Some "Advance Payment", Ledger.lines advance_of_100)] new_state)
           [(Some "Advance Payment", Ledger.lines advance_of_100)]
           "2020-03-01" (date_of 2020 3 1) fy_2020); reflexivity.
Defined.

(** ** The taxes table *)

Section TaxesTable.
Import Site QuickBooks Taxes.
Context {num : Type} (self : Taxes.context num).

Lemma is_str_true (v : value num) (s : string) :
  is_str v s = true -> v = VStr s.
Proof.
  destruct v; cbn; try discriminate.
  intro E. apply String.eqb_eq in E. now subst.
Qed.

Lemma is_str_false (v : value num) (s : string) :
  is_str v s = false -> v <> VStr s.
Proof.
  intros E ->. cbn in E. now rewrite String.eqb_refl in E.
Qed.

(** The search of [_get_parent_row_id]: the first row of the account,
    counted from [index0 + 1]. *)
Lemma row_of_account_spec (tax_account : string) (taxes : list (dict num)) :
  forall index0 k,
    row_of_account tax_account taxes index0 = Ok (Some k) ->
    exists j earlier,
      k = (index0 + j + 1)%nat
      /\ nth_error taxes j = Some earlier
      /\ dict_get earlier "account_head" = Some (VStr tax_account)
      /\ forall i before, (i < j)%nat -> nth_error taxes i = Some before ->
                          dict_get before "account_head" <> Some (VStr tax_account).
Proof.
  induction taxes as [|tax rest IH]; intros index0 k Hrow; cbn in Hrow.
  - discriminate.
  - destruct (dict_get tax "account_head") as [head|] eqn:Hhead; cbn in Hrow;
      [|discriminate].
    destruct (is_str head tax_account) eqn:His.
    + injection Hrow as <-. exists 0%nat, tax. repeat split.
      * lia.
      * rewrite Hhead. f_equal. now apply is_str_true.
      * intros i before Hi. lia.
    + destruct (IH _ _ Hrow) as (j & earlier & -> & Hnth & Hacc & Hfirst).
      exists (S j), earlier. repeat split; [lia|exact Hnth|exact Hacc|].
      intros [|i] before Hi Hbefore; cbn in Hbefore.
      * injection Hbefore as <-. rewrite Hhead. intro E. injection E as E.
        now apply (is_str_false _ _ His).
      * apply (Hfirst i before); [lia|exact Hbefore].
Qed.

(** One turn of the loop appends the row of the line. *)
Lemma taxes_step_spec (taxes taxes' : list (dict num)) (line : tax_line num) :
  taxes_step self taxes line = Ok taxes' ->
  exists row,
    taxes' = taxes ++ [row]
    /\ row_of_line self line row
    /\ forall k, dict_get row "row_id" = Some (VInt k) ->
                 parent_row self taxes (List.length taxes) line k.
Proof.
  unfold taxes_step. intro Hstep.
  destruct (TaxRateRef line) as [tax_rate|] eqn:Hrate; cbn [Py.bind Py.getitem] in Hstep; [|discriminate].
  destruct (_get_account_name_by_id self ("TaxRate - " ++ tax_rate)) as [head|e] eqn:Hhead;
    cbn [Py.bind Py.getitem] in Hstep; [|discriminate].
  destruct (_get_tax_type self tax_rate) as [tax_type|e] eqn:Htype;
    cbn [Py.bind Py.getitem] in Hstep; [|discriminate].
  destruct (is_some_str tax_type "TaxOnAmount") eqn:Hon.
  - injection Hstep as <-. eexists. split; [reflexivity|]. split.
    + exists tax_rate, head, tax_type. unfold tax_account. cbn [format].
      rewrite Hon. repeat split; try assumption; reflexivity.
    + cbn. discriminate.
  - destruct (_get_parent_tax_rate self tax_rate) as [parent|e] eqn:Hparent;
      cbn [Py.bind Py.getitem] in Hstep; [|discriminate].
    unfold _get_parent_row_id in Hstep.
    destruct (_get_account_name_by_id self ("TaxRate - " ++ format parent))
      as [phead|e] eqn:Hphead; cbn [Py.bind Py.getitem] in Hstep; [|discriminate].
    destruct (row_of_account phead taxes 0) as [parent_row_id|e] eqn:Hrow;
      cbn [Py.bind Py.getitem] in Hstep; [|discriminate].
    destruct (TaxPercent line) as [percent|] eqn:Hpercent; cbn [Py.bind Py.getitem] in Hstep; [|discriminate].
    injection Hstep as <-. eexists. split; [reflexivity|]. split.
    + exists tax_rate, head, tax_type. unfold tax_account. cbn [format].
      rewrite Hon. repeat split; try assumption; try reflexivity.
      exists percent. split; [exact Hpercent|reflexivity].
    + cbn. intros k Hk. destruct parent_row_id as [i|]; cbn in Hk; [|discriminate].
      injection Hk as <-.
      destruct (row_of_account_spec _ _ _ _ Hrow) as (j & earlier & -> & Hnth & Hacc & Hfirst).
      assert (Hj : (j < List.length taxes)%nat).
      { apply nth_error_Some. congruence. }
      exists tax_rate, parent, phead, earlier. unfold tax_account.
      replace (Z.to_nat (Z.of_nat (0 + j + 1) - 1)) with j by lia.
      split; [exact Hrate|]. split; [exact Hparent|]. split; [exact Hphead|].
      split; [lia|]. split; [exact Hnth|]. split; [exact Hacc|exact Hfirst].
Qed.

(** The loop: one row for each line, after the rows that were there. *)
Lemma taxes_loop_spec (lines : list (tax_line num)) :
  forall taxes taxes',
    taxes_loop self lines taxes = Ok taxes' ->
    exists rows,
      taxes' = taxes ++ rows
      /\ Forall2 (row_of_line self) lines rows
      /\ forall i line row k,
           nth_error lines i = Some line ->
           nth_error rows i = Some row ->
           dict_get row "row_id" = Some (VInt k) ->
           parent_row self taxes' (List.length taxes + i) line k.
Proof.
  induction lines as [|line rest IH]; intros taxes taxes' Hloop; cbn in Hloop.
  - injection Hloop as <-. exists []. rewrite app_nil_r.
    split; [reflexivity|]. split; [constructor|].
    intros [|i] ? ? ? Hline; discriminate Hline.
  - destruct (taxes_step self taxes line) as [taxes1|e] eqn:Hstep; cbn in Hloop;
      [|discriminate].
    destruct (taxes_step_spec _ _ _ Hstep) as (row & -> & Hrow & Hid).
    destruct (IH _ _ Hloop) as (rows & -> & Hrows & Hids).
    exists (row :: rows). rewrite <- app_assoc. split; [reflexivity|].
    split; [now constructor|].
    intros [|i] line' row' k Hline' Hrow' Hk; cbn in Hline', Hrow'.
    + injection Hline' as <-. injection Hrow' as <-.
      destruct (Hid k Hk)
        as (tax_rate & parent & head & earlier & H1 & H2 & H3 & H4 & H5 & H6 & H7).
      assert (Hlt : (Z.to_nat (k - 1) < List.length taxes)%nat) by lia.
      exists tax_rate, parent, head, earlier.
      repeat split; try assumption; try lia.
      * rewrite nth_error_app1 by exact Hlt. exact H5.
      * intros j before Hj Hbefore. apply (H7 j before Hj).
        rewrite nth_error_app1 in Hbefore by lia. exact Hbefore.
    + specialize (Hids i line' row' k Hline' Hrow' Hk).
      rewrite length_app in Hids. cbn [List.length] in Hids.
      replace (List.length taxes + 1 + i)%nat with (List.length taxes + S i)%nat in Hids
        by lia.
      rewrite <- app_assoc in Hids. exact Hids.
Qed.

(** X16.  When [_get_taxes] returns for an entry that has tax lines,
    the table has one row for each tax line, in the order of the
    lines: the row of a line stands on the account of the line's tax
    rate; for a rate on the amount it is "On Net Total" at the rate
    0, for every other rate "On Previous Row Amount" at the line's
    percentage. *)
Theorem taxes_table_has_one_row_for_each_tax_line
        (entry : txn num) (detail : tax_detail num) (lines : list (tax_line num))
        (taxes : list (dict num)) :
  TxnTaxDetail entry = Some detail ->
  TaxLine detail = Some lines ->
  _get_taxes self entry = Ok taxes ->
  Forall2 (row_of_line self) lines taxes.
Proof.
  intros Hdetail Hlines Htaxes. unfold _get_taxes in Htaxes.
  rewrite Hdetail, Hlines in Htaxes.
  destruct (taxes_loop_spec _ _ _ Htaxes) as (rows & -> & Hrows & _).
  exact Hrows.
Qed.

(** X17.  A [row_id] that [_get_taxes] writes is the number of a row
    that stands before the row that carries it: the first row of the
    table on the account of the parent of the line's rate. *)
Theorem tax_on_tax_points_to_an_earlier_row
        (entry : txn num) (detail : tax_detail num) (lines : list (tax_line num))
        (taxes : list (dict num)) (i : nat) (line : tax_line num) (row : dict num)
        (k : Z) :
  TxnTaxDetail entry = Some detail ->
  TaxLine detail = Some lines ->
  _get_taxes self entry = Ok taxes ->
  nth_error lines i = Some line ->
  nth_error taxes i = Some row ->
  dict_get row "row_id" = Some (VInt k) ->
  parent_row self taxes i line k.
Proof.
  intros Hdetail Hlines Htaxes Hline Hrow Hk. unfold _get_taxes in Htaxes.
  rewrite Hdetail, Hlines in Htaxes.
  destruct (taxes_loop_spec _ _ _ Htaxes) as (rows & -> & _ & Hids).
  cbn [app] in *. exact (Hids i line row k Hline Hrow Hk).
Qed.

(** *** Item taxes *)

Section ItemTaxes.
Variable rates : list (string * Taxes.rate num).

(** The keys that the loop over the details adds. *)
Lemma item_taxes_of_details_spec (details : list rate_detail) :
  forall item_taxes item_taxes',
    item_taxes_of_details self rates details item_taxes = Ok item_taxes' ->
    (forall head v, dict_get item_taxes' head = Some v ->
                    dict_get item_taxes head = Some v
                    \/ exists detail, In detail details
                                      /\ rate_on_amount self rates detail head v)
    /\ (forall head, dict_get item_taxes head <> None ->
                     dict_get item_taxes' head <> None)
    /\ (forall detail,
           In detail details ->
           TaxTypeApplicable detail = Some "TaxOnAmount" ->
           exists head v, rate_on_amount self rates detail head v
                          /\ dict_get item_taxes' head <> None).
Proof.
  induction details as [|d rest IH]; intros item_taxes item_taxes' Hloop;
    cbn [item_taxes_of_details] in Hloop.
  - injection Hloop as <-. repeat split.
    + intros head v Hv. now left.
    + intros head Hhead. exact Hhead.
    + intros detail [].
  - destruct (TaxTypeApplicable d) as [t|] eqn:Ht; cbn [Py.bind Py.getitem] in Hloop;
      [|discriminate].
    destruct (String.eqb t "TaxOnAmount") eqn:Hon.
    + apply String.eqb_eq in Hon. subst t.
      destruct (rd_TaxRateRef d) as [ref|] eqn:Href; cbn [Py.bind Py.getitem] in Hloop;
        [|discriminate].
      destruct (_get_account_name_by_id self ("TaxRate - " ++ ref)) as [tax_head|e]
        eqn:Hhead; cbn [Py.bind Py.getitem] in Hloop; [|discriminate].
      destruct (lookup ref rates) as [r|] eqn:Hr; cbn [Py.bind Py.getitem] in Hloop;
        [|discriminate].
      destruct (RateValue r) as [x|] eqn:Hx; cbn [Py.bind Py.getitem] in Hloop;
        [|discriminate].
      assert (Hd : rate_on_amount self rates d tax_head (VNum x)).
      { exists ref, r, x. unfold tax_account. cbn [format]. repeat split; assumption. }
      destruct (IH _ _ Hloop) as (Hsound & Hkept & Hall).
      repeat split.
      * intros head v Hv. destruct (Hsound head v Hv) as [Hin|(detail & Hin & Hrate)].
        -- rewrite dict_get_set in Hin.
           destruct (String.eqb tax_head head) eqn:Heq.
           ++ apply String.eqb_eq in Heq. subst head. injection Hin as <-.
              right. exists d. split; [now left|exact Hd].
           ++ now left.
        -- right. exists detail. split; [now right|exact Hrate].
      * intros head Hhead0. apply Hkept. rewrite dict_get_set.
        destruct (String.eqb tax_head head); [discriminate|exact Hhead0].
      * intros detail [<-|Hin] Htype.
        -- exists tax_head, (VNum x). split; [exact Hd|].
           apply Hkept. rewrite dict_get_set, String.eqb_refl. discriminate.
        -- now apply Hall.
    + destruct (IH _ _ Hloop) as (Hsound & Hkept & Hall).
      repeat split.
      * intros head v Hv. destruct (Hsound head v Hv) as [Hin|(detail & Hin & Hrate)].
        -- now left.
        -- right. exists detail. split; [now right|exact Hrate].
      * exact Hkept.
      * intros detail [<-|Hin] Htype.
        -- rewrite Ht in Htype. injection Htype as ->.
           rewrite String.eqb_refl in Hon. discriminate.
        -- now apply Hall.
Qed.

Lemma item_taxes_of_lists_spec (lists : list rate_list) :
  forall item_taxes item_taxes',
    item_taxes_of_lists self rates lists item_taxes = Ok item_taxes' ->
    let details := flat_map (fun l => match TaxRateDetail l with
                                      | Some details => details
                                      | None => []
                                      end) lists in
    (forall head v, dict_get item_taxes' head = Some v ->
                    dict_get item_taxes head = Some v
                    \/ exists detail, In detail details
                                      /\ rate_on_amount self rates detail head v)
    /\ (forall head, dict_get item_taxes head <> None ->
                     dict_get item_taxes' head <> None)
    /\ (forall detail,
           In detail details ->
           TaxTypeApplicable detail = Some "TaxOnAmount" ->
           exists head v, rate_on_amount self rates detail head v
                          /\ dict_get item_taxes' head <> None).
Proof.
  induction lists as [|l rest IH]; intros item_taxes item_taxes' Hloop;
    cbn [item_taxes_of_lists] in Hloop; cbn zeta; cbn [flat_map].
  - injection Hloop as <-. repeat split.
    + intros head v Hv. now left.
    + intros head Hhead. exact Hhead.
    + intros detail [].
  - destruct (TaxRateDetail l) as [details|]; cbn [Py.bind Py.getitem] in Hloop;
      [|discriminate].
    destruct (item_taxes_of_details self rates details item_taxes) as [mid|e] eqn:Hmid;
      cbn [Py.bind] in Hloop; [|discriminate].
    destruct (item_taxes_of_details_spec _ _ _ Hmid) as (Hs1 & Hk1 & Ha1).
    destruct (IH _ _ Hloop) as (Hs2 & Hk2 & Ha2). cbn zeta in Hs2, Ha2.
    repeat split.
    + intros head v Hv. destruct (Hs2 head v Hv) as [Hin|(detail & Hin & Hrate)].
      * destruct (Hs1 head v Hin) as [Hin0|(detail & Hin1 & Hrate)].
        -- now left.
        -- right. exists detail. split; [apply in_or_app; now left|exact Hrate].
      * right. exists detail. split; [apply in_or_app; now right|exact Hrate].
    + intros head Hhead. apply Hk2, Hk1, Hhead.
    + intros detail Hin Htype. apply in_app_or in Hin. destruct Hin as [Hin|Hin].
      * destruct (Ha1 detail Hin Htype) as (head & v & Hrate & Hkey).
        exists head, v. split; [exact Hrate|now apply Hk2].
      * now apply Ha2.
Qed.

End ItemTaxes.

(** X18.  The item taxes of a tax code are the rates on the amount of
    its two rate lists: every key of the dictionary is the account of
    such a rate and its value the value of the rate, every such rate
    has its account among the keys, and the rates of another kind
    (a tax on a tax) are left out.  For ["NON"] the dictionary is
    empty. *)
Theorem item_taxes_are_the_rates_on_the_amount
        (tax_code : string) (item_taxes : dict num) :
  _get_item_taxes self tax_code = Ok item_taxes ->
  if String.eqb tax_code "NON" then item_taxes = []
  else
    exists codes rates c,
      tax_codes self = Some codes
      /\ tax_rates self = Some rates
      /\ lookup tax_code codes = Some c
      /\ (forall head v,
             dict_get item_taxes head = Some v ->
             exists detail, In detail (code_details c)
                            /\ rate_on_amount self rates detail head v)
      /\ (forall detail,
             In detail (code_details c) ->
             TaxTypeApplicable detail = Some "TaxOnAmount" ->
             exists head v, rate_on_amount self rates detail head v
                            /\ dict_get item_taxes head <> None).
Proof.
  unfold _get_item_taxes. intro Hrun.
  destruct (tax_rates self) as [rates|] eqn:Hrates; cbn [Py.bind attribute] in Hrun;
    [|discriminate].
  destruct (String.eqb tax_code "NON"); cbn [negb] in Hrun.
  - now injection Hrun as <-.
  - destruct (tax_codes self) as [codes|] eqn:Hcodes; cbn [Py.bind attribute] in Hrun;
      [|discriminate].
    destruct (lookup tax_code codes) as [c|] eqn:Hc; cbn [Py.bind Py.getitem] in Hrun;
      [|discriminate].
    destruct (item_taxes_of_lists_spec rates _ _ _ Hrun) as (Hsound & _ & Hall).
    cbn zeta in Hsound, Hall.
    exists codes, rates, c.
    split; [reflexivity|]. split; [reflexivity|]. split; [exact Hc|]. split.
    + intros head v Hv. destruct (Hsound head v Hv) as [Hin|Hfound].
      * discriminate Hin.
      * exact Hfound.
    + exact Hall.
Qed.

End TaxesTable.

(** X16, a run: a tax on the amount and a tax on that tax. *)
Lemma taxes_table_has_one_row_for_each_tax_line_witness :
  Forall2 (row_of_line two_taxes) [state_tax_line; city_tax_line]
          [state_tax_row; city_tax_row].
Proof.
  apply (taxes_table_has_one_row_for_each_tax_line
           two_taxes (taxed [state_tax_line; city_tax_line])
           {| QuickBooks.TxnTaxCodeRef := Some "5";
              QuickBooks.TaxLine := Some [state_tax_line; city_tax_line] |}
           [state_tax_line; city_tax_line] [state_tax_row; city_tax_row]);
    reflexivity.
Defined.

(** X17, a run: the row of the tax on the tax names the row 1. *)
Lemma tax_on_tax_points_to_an_earlier_row_witness :
  parent_row two_taxes [state_tax_row; city_tax_row] 1 city_tax_line 1.
Proof.
  apply (tax_on_tax_points_to_an_earlier_row
           two_taxes (taxed [state_tax_line; city_tax_line])
           {| QuickBooks.TxnTaxCodeRef := Some "5";
              QuickBooks.TaxLine := Some [state_tax_line; city_tax_line] |}
           [state_tax_line; city_tax_line] [state_tax_row; city_tax_row]
           1 city_tax_line city_tax_row 1);
    reflexivity.
Defined.

(** X18, a run: of the two rates of the tax code, the tax on the amount
    is the only key. *)
Lemma item_taxes_are_the_rates_on_the_amount_witness :
  Taxes._get_item_taxes two_taxes "5" = Py.Ok [("TaxRate - 1 - QB", Site.VNum 5%Z)]
  /\ exists codes rates c,
      Taxes.tax_codes two_taxes = Some codes
      /\ Taxes.tax_rates two_taxes = Some rates
      /\ Taxes.lookup "5" codes = Some c
      /\ (forall head v,
             Site.dict_get [("TaxRate - 1 - QB", Site.VNum 5%Z)] head = Some v ->
             exists detail, In detail (code_details c)
                            /\ rate_on_amount two_taxes rates detail head v)
      /\ (forall detail,
             In detail (code_details c) ->
             Taxes.TaxTypeApplicable detail = Some "TaxOnAmount" ->
             exists head v,
               rate_on_amount two_taxes rates detail head v
               /\ Site.dict_get [("TaxRate - 1 - QB", Site.VNum 5%Z)] head <> None).
Proof.
  split; [reflexivity|].
  exact (item_taxes_are_the_rates_on_the_amount
           two_taxes "5" [("TaxRate - 1 - QB", Site.VNum 5%Z)] eq_refl).
Defined.

(** ** A run without the service *)

Section UnreachableService.
Import Http Site Migrator QuickBooks.
Context {World num : Type} `{Number num}.
Variable R : remote World (Fetcher.body (entity_record num)).
Variable F : framework num.
Variable L : @library num.
Variable T : @tax_methods World num.
Variable accepts : FiscalYears.fiscal_year -> list FiscalYears.fiscal_year -> result unit.
Variable depth : nat.
Local Abbreviation state := (@Migrator.state World num).
Local Abbreviation M := (@Migrator.M World num).

Lemma quiet_bind (m k : M unit) : quiet m -> quiet k -> quiet (bindM m (fun _ => k)).
Proof.
  intros Hm Hk st. unfold bindM. destruct (Hm st) as [Hr Hlog].
  destruct (m st) as [[[]|e] st1]; cbn [fst snd] in *; [|discriminate].
  destruct (Hk st1) as [Hr1 Hlog1]. split; [exact Hr1|congruence].
Qed.

Lemma quiet_then_raises {A} (e : exn) (m : M unit) (k : M A) :
  quiet m -> raises e k -> raises e (bindM m (fun _ => k)).
Proof.
  intros Hm Hk st. unfold bindM. destruct (Hm st) as [Hr Hlog].
  destruct (m st) as [[[]|e'] st1]; cbn [fst snd] in *; [|discriminate].
  destruct (Hk st1) as [Hr1 Hlog1]. split; [exact Hr1|congruence].
Qed.

Lemma raises_bind {A B} (e : exn) (m : M A) (k : A -> M B) :
  raises e m -> raises e (bindM m k).
Proof.
  intros Hm st. unfold bindM. destruct (Hm st) as [Hr Hlog].
  destruct (m st) as [[a|e'] st1]; cbn [fst snd] in *; [discriminate|].
  injection Hr as ->. split; [reflexivity|exact Hlog].
Qed.

Lemma quiet_for_each {A} (f : A -> M unit) (l : list A) :
  (forall x, quiet (f x)) -> quiet (for_each f l).
Proof.
  intro Hf. induction l as [|x rest IH]; cbn [for_each].
  - intro st. split; reflexivity.
  - now apply quiet_bind.
Qed.

Lemma quiet_read_bind {A} (f : state -> A) (k : A -> M unit) :
  (forall a, quiet (k a)) -> quiet (bindM (read f) k).
Proof. intros Hk st. unfold bindM, read. apply Hk. Qed.

Lemma quiet_ret : quiet (ret tt : M unit).
Proof. intro st. split; reflexivity. Qed.

Lemma quiet_try (m : M unit) (h : exn -> M unit) : quiet m -> quiet (try_except m h).
Proof.
  intros Hm st. unfold try_except. destruct (Hm st) as [Hr Hlog].
  destruct (m st) as [[[]|e] st1]; cbn [fst snd] in *; [|discriminate].
  split; [reflexivity|exact Hlog].
Qed.

Lemma quiet_set_indicator (s : string) : quiet (set_indicator s : M unit).
Proof. intro st. split; reflexivity. Qed.

Section Accepting.
Hypothesis Haccepts : accepts_every_document F.

Lemma insert_accepted (d : dict num) (st : state) :
  (exists stored, fst (insert_ F d st) = Ok stored)
  /\ error_log (db (snd (insert_ F d st))) = error_log (db st).
Proof.
  pose proof (Haccepts d (docs (db st))) as Hvalid. unfold insert_, insert.
  destruct (validate F d (docs (db st))) as [[]|e]; [|discriminate].
  cbn. split; [eexists|]; reflexivity.
Qed.

Lemma quiet_insert (d : dict num) :
  quiet (bindM (insert_ F d) (fun _ => ret tt) : M unit).
Proof.
  intro st. unfold bindM. destruct (insert_accepted d st) as [[stored Hr] Hlog].
  destruct (insert_ F d st) as [[a|e] st1]; cbn [fst snd] in *; [|discriminate].
  split; [reflexivity|exact Hlog].
Qed.

Lemma quiet_make_custom_fields : quiet (_make_custom_fields F : M unit).
Proof.
  unfold _make_custom_fields. apply quiet_bind; apply quiet_for_each; intro doctype.
  - unfold _make_custom_quickbooks_id_field, has_field.
    apply quiet_read_bind. intros []; [apply quiet_ret|apply quiet_insert].
  - unfold _make_custom_company_field, has_field.
    apply quiet_read_bind. intros []; [apply quiet_ret|apply quiet_insert].
Qed.

Lemma quiet_make_root_accounts : quiet (_make_root_accounts F L : M unit).
Proof.
  unfold _make_root_accounts. apply quiet_for_each. intros root.
  unfold _make_root_account. apply quiet_try.
  unfold the_company, db_exists_. apply quiet_read_bind. intro c.
  apply quiet_read_bind. intros []; [apply quiet_ret|apply quiet_insert].
Qed.

End Accepting.

Section Unreachable.
Hypothesis Hdown : unreachable R.

Lemma get_raises (args : request) (c : Http.conn World) :
  exists e, fst (_get R depth args c) = Raise e.
Proof.
  destruct depth as [|d]; cbn [_get].
  - now exists RecursionError.
  - unfold send.
    destruct (Hdown args (access_token c) (world c)) as (e & w' & Hget).
    rewrite Hget. now exists e.
Qed.

(** The handler reads [response], which the request did not bind. *)
Lemma with_response_raises (args : request)
      (rest : response (Fetcher.body (entity_record num)) -> M unit) :
  raises UnboundLocalError (with_response R depth args rest).
Proof.
  intro st. unfold with_response, get_.
  destruct (get_raises args (conn st)) as [e He].
  destruct (_get R depth args (conn st)) as [[resp|e'] c]; cbn [fst] in He;
    [discriminate|].
  split; reflexivity.
Qed.

End Unreachable.

(** X1.  When no request reaches the service, on a site that refuses
    no document, [_migrate] returns normally with the status
    ["Failed"].  The one exception it logs is the [UnboundLocalError]
    that the handler of [_migrate_entries] raises when it reads
    [response]; [_migrate_entries] itself logs nothing. *)
Theorem unreachable_service_fails_the_run (st : state) :
  unreachable R ->
  accepts_every_document F ->
  let run := _migrate R F L T accepts depth st in
  fst run = Ok tt
  /\ status (self (snd run)) = "Failed"
  /\ error_log (db (snd run)) = error_log (db st) ++ [UnboundLocalError].
Proof.
  intros Hdown Haccepts. cbn zeta.
  assert (Hbody : forall rest : M unit,
             raises UnboundLocalError
                    (bindM (set_indicator "In Progress")
                           (fun _ => bindM (_make_custom_fields F)
                              (fun _ => bindM (_migrate_accounts R F L T depth)
                                 (fun _ => rest))))).
  { intro rest.
    apply quiet_then_raises; [apply quiet_set_indicator|].
    apply quiet_then_raises; [now apply quiet_make_custom_fields|].
    apply raises_bind. unfold _migrate_accounts.
    apply quiet_then_raises; [now apply quiet_make_root_accounts|].
    cbn [for_each]. apply raises_bind. unfold _migrate_entries.
    now apply with_response_raises. }
  unfold _migrate, try_except.
  match goal with
  | |- context [bindM (set_indicator "In Progress") ?k st] =>
      match k with
      | (fun _ => bindM _ (fun _ => bindM _ (fun _ => ?rest))) =>
          destruct (Hbody rest st) as [Hr Hlog]
      end
  end.
  match goal with
  | |- context [match ?run with _ => _ end] =>
      destruct run as [[[]|e] st1]
  end; cbn [fst snd] in *; [discriminate|].
  injection Hr as ->. cbn. split; [reflexivity|]. split; [reflexivity|].
  now rewrite Hlog.
Qed.

End UnreachableService.

(** X1, a run: a service that refuses every connection. *)
Lemma unreachable_service_fails_the_run_witness :
  let run := Migrator._migrate out_of_reach plain_framework plain_library no_taxes
                               accepts_all 1 new_state in
  fst run = Py.Ok tt
  /\ Migrator.status (Migrator.self (snd run)) = "Failed"
  /\ Migrator.error_log (Migrator.db (snd run))
     = Migrator.error_log (Migrator.db new_state) ++ [Py.UnboundLocalError].
Proof.
  apply (unreachable_service_fails_the_run
           out_of_reach plain_framework plain_library no_taxes accepts_all 1 new_state).
  - intros args token w. eexists. eexists. reflexivity.
  - intros d docs. reflexivity.
Defined.

(** ** A run only appends documents *)

Section AppendOnly.
Import Http Site Migrator QuickBooks.
Context {World num : Type} `{Number num}.
Variable R : remote World (Fetcher.body (entity_record num)).
Variable F : framework num.
Variable L : @library num.
Variable T : @tax_methods World num.
Variable accepts : FiscalYears.fiscal_year -> list FiscalYears.fiscal_year -> result unit.
Variable depth : nat.
Local Abbreviation state := (@Migrator.state World num).
Local Abbreviation M := (@Migrator.M World num).
Local Abbreviation appends := (adds (World := World) (@migrated num)).

(** *** Rules *)

Lemma appends_same_docs {A} (m : M A) :
  (forall st, docs (db (snd (m st))) = docs (db st)
              /\ fiscal_years (db (snd (m st))) = fiscal_years (db st)) ->
  appends m.
Proof.
  intros Hm st. destruct (Hm st) as [Hd Hf]. split.
  - exists []. rewrite Hd, app_nil_r. split; [reflexivity|constructor].
  - exists []. now rewrite Hf, app_nil_r.
Qed.

Lemma appends_update_self (f : migrator -> migrator) : appends (update_self f : M unit).
Proof. apply appends_same_docs. intro. split; reflexivity. Qed.

Lemma appends_publish (entity : string) (count total : nat) :
  appends (_publish entity count total : M unit).
Proof. apply appends_same_docs. intro. split; reflexivity. Qed.

Lemma migrated_stored (d stored : dict num) :
  migrated d -> stored_form d stored -> migrated stored.
Proof.
  intros (t & Hd & Hin) Hs. exists t. split; [|exact Hin].
  rewrite Hs by discriminate. exact Hd.
Qed.

Lemma appends_insert (d : dict num) : migrated d -> appends (insert_ F d : M _).
Proof.
  intros Hd st.
  destruct (insert_effect F d st) as (_ & Hfy & _ & new & Hdocs & _ & Hform & _).
  split.
  - exists new. split; [exact Hdocs|].
    revert Hform. apply Forall_impl. intros stored. now apply migrated_stored.
  - exists []. now rewrite Hfy, app_nil_r.
Qed.

Lemma appends_insert_submit (d : dict num) :
  migrated d ->
  appends (try_except (bindM (insert_ F d) (fun doc => submit_ F doc))
                      (fun e => _log_error e) : M unit).
Proof.
  intros Hd st. pose proof (insert_submit_effect F d st) as Heff. cbn zeta in Heff.
  destruct Heff as (_ & _ & Hfy & new & Hdocs & _ & Hform & _).
  split.
  - exists new. split; [exact Hdocs|].
    revert Hform. apply Forall_impl. intros stored. now apply migrated_stored.
  - exists []. now rewrite Hfy, app_nil_r.
Qed.

Lemma appends_for_each {A} (f : A -> M unit) (l : list A) :
  (forall x, appends (f x)) -> appends (for_each f l).
Proof.
  intro Hf. induction l as [|x rest IH]; cbn [for_each].
  - apply adds_readonly, readonly_ret.
  - apply adds_bind; [apply Hf|intro; exact IH].
Qed.

Lemma returns_bind {A B} (P : B -> Prop) (m : M A) (k : A -> M B) :
  (forall a, returns P (k a)) -> returns P (bindM m k).
Proof.
  intros Hk st b. unfold bindM. destruct (m st) as [[a|e] st1]; [apply Hk|discriminate].
Qed.

Lemma returns_ret {A} (P : A -> Prop) (a : A) : P a -> returns P (ret a : M A).
Proof. intros Ha st b [= <-]. exact Ha. Qed.

Lemma migrated_set (d : dict num) (k : string) (v : value num) :
  k <> "doctype" -> migrated d -> migrated (dict_set d k v).
Proof.
  intros Hk (t & Hd & Hin). exists t. split; [|exact Hin].
  rewrite dict_get_set_other by exact Hk. exact Hd.
Qed.

Lemma appends_insert_invoice (build : M (dict num)) :
  appends build -> returns migrated build -> appends (insert_invoice F build).
Proof.
  intros Hb Hr st. unfold insert_invoice.
  destruct (Hb st) as ((new1 & Hd1 & Hq1) & (fy1 & Hf1)). specialize (Hr st).
  destruct (build st) as [[d|e] st1]; cbn [fst snd] in *.
  - destruct (appends_insert_submit d (Hr d eq_refl) st1)
      as ((new2 & Hd2 & Hq2) & (fy2 & Hf2)).
    split.
    + exists (new1 ++ new2). rewrite Hd2, Hd1, app_assoc. split; [reflexivity|].
      apply Forall_app. now split.
    + exists (fy1 ++ fy2). now rewrite Hf2, Hf1, app_assoc.
  - split; [exists new1; now split|exists fy1; exact Hf1].
Qed.

Lemma appends_with_first_posting (first_posting : M (dict num))
      (rest : dict num -> M unit) :
  appends first_posting -> (forall p, appends (rest p)) ->
  appends (with_first_posting first_posting rest).
Proof.
  intros Hf Hrest st. unfold with_first_posting.
  destruct (Hf st) as ((new1 & Hd1 & Hq1) & (fy1 & Hf1)).
  destruct (first_posting st) as [[p|e] st1]; cbn [fst snd] in *.
  - assert (Hk : appends (try_except (rest p) (fun e => _log_error e))).
    { apply adds_try; [apply Hrest|intro; apply adds_log_error]. }
    destruct (Hk st1) as ((new2 & Hd2 & Hq2) & (fy2 & Hf2)).
    split.
    + exists (new1 ++ new2). rewrite Hd2, Hd1, app_assoc. split; [reflexivity|].
      apply Forall_app. now split.
    + exists (fy1 ++ fy2). now rewrite Hf2, Hf1, app_assoc.
  - split; [exists new1; now split|exists fy1; exact Hf1].
Qed.

Lemma appends_with_response (args : request)
      (rest : response (Fetcher.body (entity_record num)) -> M unit) :
  (forall r, appends (rest r)) -> appends (with_response R depth args rest).
Proof.
  intros Hrest st. unfold with_response, get_.
  destruct (_get R depth args (conn st)) as [[resp|e] c].
  - assert (Hk : appends (try_except (rest resp) (fun e => _log_error e))).
    { apply adds_try; [apply Hrest|intro; apply adds_log_error]. }
    exact (Hk (set_conn st c)).
  - split.
    + exists []. cbn. rewrite app_nil_r. split; [reflexivity|constructor].
    + exists []. cbn. now rewrite app_nil_r.
Qed.

Lemma migrated_doc (doctype : string) (fields : dict num) :
  In doctype migrated_doctypes -> migrated (("doctype", VStr doctype) :: fields).
Proof. intro Hin. exists doctype. split; [reflexivity|exact Hin]. Qed.

Lemma readonly_get_unique_account_name (quickbooks_name : string) :
  forall d number,
    readonly (_get_unique_account_name L d quickbooks_name number : M string).
Proof.
  induction d as [|d IH]; intro number; cbn [_get_unique_account_name].
  - apply readonly_raise.
  - unfold the_company, db_exists_.
    repeat first [apply IH | readonly_step].
Qed.

(** *** The methods *)

Ltac readonly_all :=
  solve [repeat first
           [ apply readonly_get_account_name_by_id
           | apply readonly_get_unique_account_name
           | apply readonly_je_account
           | apply readonly_payment_line
           | apply readonly_bill_payment_line
           | apply readonly_purchase_lines
           | apply readonly_tax_line_account
           | apply readonly_deposit_line
           | apply readonly_account_type_of
           | apply readonly_invoice_je_line
           | apply readonly_sales_invoice_dict
           | apply readonly_get_si_items
           | apply readonly_get_invoice_payments
           | readonly_step ]].

Ltac appends_step :=
  first
    [ apply adds_log_error
    | apply appends_update_self
    | apply appends_publish
    | apply appends_insert; apply migrated_doc; cbn; tauto
    | apply adds_readonly; readonly_all
    | apply adds_try; [|intro]
    | apply adds_bind; [|intro]
    | match goal with
      | |- adds _ (if ?b then _ else _) => destruct b
      | |- adds _ (match ?x with _ => _ end) => destruct x
      end ].

Ltac appends_auto :=
  unfold the_company, db_exists_, get_all_, the_cost_center, the_warehouse, item_taxes,
    taxes_of;
  repeat appends_step.

Lemma appends_save_account (a : account) : appends (_save_account F L depth a).
Proof. unfold _save_account. appends_auto. Qed.

Lemma appends_save_tax_rate (t : tax_rate) : appends (_save_tax_rate F L t).
Proof. unfold _save_tax_rate. appends_auto. Qed.

Lemma appends_create_address (entity : dict num) (doctype : string) (a : address)
      (address_type : string) :
  appends (_create_address F entity doctype a address_type).
Proof. unfold _create_address. appends_auto. Qed.

Lemma appends_create_addresses (entity : dict num) (doctype : string) (p : party) :
  appends (create_addresses F entity doctype p).
Proof.
  unfold create_addresses.
  repeat first [apply appends_create_address | appends_step].
Qed.

Lemma appends_save_customer (p : party) : appends (_save_customer F L p).
Proof.
  unfold _save_customer.
  unfold the_company, db_exists_, get_all_.
  repeat first [apply appends_create_addresses | appends_step].
Qed.

Lemma appends_save_vendor (p : party) : appends (_save_vendor F L p).
Proof.
  unfold _save_vendor.
  unfold the_company, db_exists_, get_all_.
  repeat first [apply appends_create_addresses | appends_step].
Qed.

Lemma appends_save_item (i : item) : appends (_save_item F L i).
Proof. unfold _save_item. appends_auto. Qed.

Lemma appends_save_preference (p : preferences) : appends (_save_preference p : M unit).
Proof. unfold _save_preference. appends_auto. Qed.

Lemma appends_save_journal_entry_ (quickbooks_id : string) (accounts : list (dict num))
      (posting_date : value num) :
  appends (__save_journal_entry F quickbooks_id accounts posting_date).
Proof.
  unfold __save_journal_entry.
  intro st.
  destruct (adds_save_journal_entry F quickbooks_id accounts posting_date st)
    as ((new & Hdocs & Hje) & Hfy).
  split; [|exact Hfy].
  exists new. split; [exact Hdocs|].
  revert Hje. apply Forall_impl. intros d Hd. exists "Journal Entry".
  split; [exact Hd|cbn; tauto].
Qed.

Lemma returns_sales_invoice_dict (invoice : txn num) (quickbooks_id : string)
      (is_return is_pos : bool) :
  returns migrated (sales_invoice_dict L T invoice quickbooks_id is_return is_pos).
Proof.
  unfold sales_invoice_dict.
  repeat first
         [ apply returns_ret;
           repeat (apply migrated_set; [discriminate|]);
           apply migrated_doc; cbn; tauto
         | apply returns_bind; intro
         | match goal with
           | |- returns _ (match ?x with _ => _ end) => destruct x
           end ].
Qed.

Lemma returns_purchase_invoice_dict (invoice : txn num) (quickbooks_id : string)
      (is_return : bool) :
  returns migrated (purchase_invoice_dict T invoice quickbooks_id is_return).
Proof.
  unfold purchase_invoice_dict.
  repeat first
         [ apply returns_ret; apply migrated_doc; cbn; tauto
         | apply returns_bind; intro ].
Qed.

Lemma readonly_purchase_invoice_dict (invoice : txn num) (quickbooks_id : string)
      (is_return : bool) :
  readonly (purchase_invoice_dict T invoice quickbooks_id is_return : M _).
Proof.
  unfold purchase_invoice_dict, _get_pi_items, the_company, get_all_, taxes_of.
  repeat first [ apply readonly_get_account_name_by_id
               | apply readonly_pi_items_step
               | readonly_step ].
Qed.

Lemma appends_save_sales_invoice (invoice : txn num) (quickbooks_id : string)
      (is_return is_pos : bool) :
  appends (_save_sales_invoice F L T invoice quickbooks_id is_return is_pos).
Proof.
  unfold _save_sales_invoice, the_company, db_exists_.
  repeat first
         [ apply appends_insert_invoice;
           [apply adds_readonly, readonly_sales_invoice_dict
           |apply returns_sales_invoice_dict]
         | appends_step ].
Qed.

Lemma appends_save_purchase_invoice (invoice : txn num) (quickbooks_id : string)
      (is_return : bool) :
  appends (__save_purchase_invoice F T invoice quickbooks_id is_return).
Proof.
  unfold __save_purchase_invoice, the_company, db_exists_.
  repeat first
         [ apply appends_insert_invoice;
           [apply adds_readonly, readonly_purchase_invoice_dict
           |apply returns_purchase_invoice_dict]
         | appends_step ].
Qed.

Ltac appends_je :=
  unfold the_company, db_exists_, get_all_, the_cost_center, the_warehouse;
  repeat first [ apply appends_save_journal_entry_
               | apply appends_save_sales_invoice
               | apply appends_with_first_posting; [|intro]
               | appends_step
               | progress cbn zeta ].

Lemma appends_save_invoice (invoice : txn num) : appends (_save_invoice F L T invoice).
Proof. unfold _save_invoice, _save_invoice_as_journal_entry. cbn zeta. appends_je. Qed.

Lemma appends_save_journal_entry (t : txn num) : appends (_save_journal_entry F t).
Proof. unfold _save_journal_entry. cbn zeta. appends_je. Qed.

Lemma appends_save_payment (t : txn num) : appends (_save_payment F t).
Proof. unfold _save_payment. cbn zeta. appends_je. Qed.

Lemma appends_save_bill_payment (t : txn num) : appends (_save_bill_payment F t).
Proof. unfold _save_bill_payment. cbn zeta. appends_je. Qed.

Lemma appends_save_purchase (t : txn num) : appends (_save_purchase F t).
Proof. unfold _save_purchase. cbn zeta. appends_je. Qed.

Lemma appends_save_deposit (t : txn num) : appends (_save_deposit F t).
Proof. unfold _save_deposit. cbn zeta. appends_je. Qed.

Lemma appends_save_ledger_entry_as_je (e : Ledger.entry num) (quickbooks_id : string) :
  appends (__save_ledger_entry_as_je F e quickbooks_id).
Proof.
  unfold __save_ledger_entry_as_je, the_cost_center.
  apply adds_try; [|intro; apply adds_log_error].
  apply adds_bind; [apply adds_readonly, readonly_read|intro cost_center].
  apply appends_save_journal_entry_.
Qed.

(** *** The run *)

Lemma appends_method (entity : string) (save : entity_record num -> M unit)
      (r : entity_record num) :
  method_of entity (entity_method_map F L T depth) = Ok save -> appends (save r).
Proof.
  intros Hm. unfold entity_method_map in Hm. cbn [method_of] in Hm.
  repeat match type of Hm with
         | (if String.eqb ?k entity then _ else _) = _ =>
             destruct (String.eqb k entity);
             [injection Hm as <-;
              destruct r; unfold on_txn, on_party, on_ledger;
              lazymatch goal with
              | |- adds _ (raise _) => apply adds_readonly, readonly_raise
              | |- adds _ (_save_tax_code _) => apply adds_readonly, readonly_ret
              | |- adds _ (_save_account _ _ _ _) => apply appends_save_account
              | |- adds _ (_save_tax_rate _ _ _) => apply appends_save_tax_rate
              | |- adds _ (_save_preference _) => apply appends_save_preference
              | |- adds _ (_save_customer _ _ _) => apply appends_save_customer
              | |- adds _ (_save_item _ _ _) => apply appends_save_item
              | |- adds _ (_save_vendor _ _ _) => apply appends_save_vendor
              | |- adds _ (_save_invoice _ _ _ _) => apply appends_save_invoice
              | |- adds _ (_save_credit_memo _ _ _ _) => apply appends_save_sales_invoice
              | |- adds _ (_save_sales_receipt _ _ _ _) => apply appends_save_sales_invoice
              | |- adds _ (_save_refund_receipt _ _ _ _) => apply appends_save_sales_invoice
              | |- adds _ (_save_journal_entry _ _) => apply appends_save_journal_entry
              | |- adds _ (_save_bill _ _ _) => apply appends_save_purchase_invoice
              | |- adds _ (_save_vendor_credit _ _ _) => apply appends_save_purchase_invoice
              | |- adds _ (_save_payment _ _) => apply appends_save_payment
              | |- adds _ (_save_bill_payment _ _) => apply appends_save_bill_payment
              | |- adds _ (_save_purchase _ _) => apply appends_save_purchase
              | |- adds _ (_save_deposit _ _) => apply appends_save_deposit
              | |- _ => apply appends_save_ledger_entry_as_je
              end
             |]
         end.
  discriminate.
Qed.

Lemma appends_save_loop (entity : string) (total : nat)
      (entries : list (entity_record num)) :
  forall index, appends (save_loop F L T depth entity total index entries).
Proof.
  induction entries as [|entry rest IH]; intro index; cbn [save_loop].
  - apply adds_readonly, readonly_ret.
  - apply adds_bind; [apply appends_publish|intros _].
    unfold bindM at 1, lift.
    destruct (method_of entity (entity_method_map F L T depth)) as [save|e] eqn:Hm.
    + apply adds_bind; [now apply (appends_method entity)|intros _; apply IH].
    + apply adds_readonly, readonly_raise.
Qed.

Lemma appends_preprocess_entries (entity : string) (entries : list (entity_record num)) :
  appends (_preprocess_entries L entity entries : M _).
Proof.
  unfold _preprocess_entries, _preprocess_accounts.
  repeat first [ appends_step
               | match goal with
                 | |- adds _ (let (_, _) := ?x in _) => destruct x
                 end ].
Qed.

Lemma appends_migrate_entries (entity : string) :
  appends (_migrate_entries R F L T depth entity).
Proof.
  unfold _migrate_entries. apply appends_with_response. intro response.
  apply adds_bind; [apply adds_readonly, readonly_lift|intro qr].
  apply adds_bind; [apply adds_readonly, readonly_lift|intro entry_count].
  apply adds_bind.
  { apply appends_same_docs. intro st. unfold pages_.
    destruct (Fetcher.fetch_pages _ _ _ _ _ _); split; reflexivity. }
  intro entries.
  apply adds_bind; [apply appends_preprocess_entries|intro entries'].
  apply appends_save_loop.
Qed.

Lemma appends_fetch_general_ledger : appends (_fetch_general_ledger R L depth).
Proof.
  unfold _fetch_general_ledger. apply appends_with_response. intro response.
  repeat first
         [ apply appends_same_docs; intro st;
           destruct (Ledger.walk_report _ _ _); split; reflexivity
         | appends_step ].
Qed.

(** The loop of [_create_fiscal_years] starts from the table that the
    method has just read. *)
Lemma appends_create_fiscal_years : appends (_create_fiscal_years L accepts : M unit).
Proof.
  intro st. unfold _create_fiscal_years, try_except.
  assert (Hlog : forall (e : exn) (s : state),
             docs (db s) = docs (db st) ->
             (exists created, fiscal_years (db s) = fiscal_years (db st) ++ created) ->
             (exists new,
                 docs (db (snd (_log_error e s : result unit * state)))
                 = docs (db st) ++ new /\ Forall migrated new)
             /\ exists created,
                 fiscal_years (db (snd (_log_error e s : result unit * state)))
                 = fiscal_years (db st) ++ created).
  { intros e s Hd Hf. cbn. split; [|exact Hf].
    exists []. rewrite Hd, app_nil_r. split; [reflexivity|constructor]. }
  assert (Hsame : exists created : list FiscalYears.fiscal_year,
             fiscal_years (db st) = fiscal_years (db st) ++ created)
    by (exists []; now rewrite app_nil_r).
  rewrite bind_readonly_run by apply readonly_read. cbn [fst read].
  rewrite bind_readonly_run by apply readonly_lift.
  destruct (gl_entries (self st)) as [g|]; cbn [fst lift]; [|now apply Hlog].
  rewrite bind_readonly_run by apply readonly_lift.
  destruct (FiscalYears.min_date _) as [smallest|e]; cbn [fst lift]; [|now apply Hlog].
  rewrite bind_readonly_run by apply readonly_lift.
  destruct (getdate L smallest) as [D|e]; cbn [fst lift]; [|now apply Hlog].
  rewrite bind_readonly_run by apply readonly_read. cbn [fst read].
  rewrite bind_readonly_run by apply readonly_lift.
  destruct (FiscalYears.oldest (fiscal_years (db st))) as [f|e]; cbn [fst lift];
    [|now apply Hlog].
  destruct (extend_appends accepts D (FiscalYears.enough_fuel f) f (fiscal_years (db st)))
    as (created & Hcreated).
  destruct (FiscalYears.extend accepts (FiscalYears.enough_fuel f) D f
                               (fiscal_years (db st))) as [[last|e|] t];
    cbn [snd] in Hcreated; subst t.
  - cbn. split; [|now exists created].
    exists []. rewrite app_nil_r. split; [reflexivity|constructor].
  - apply Hlog; [reflexivity|now exists created].
  - apply Hlog; [reflexivity|now exists created].
Qed.

Lemma appends_migrate_entries_from_gl (entity : string) :
  appends (_migrate_entries_from_gl F L T depth entity).
Proof.
  unfold _migrate_entries_from_gl.
  apply adds_bind; [apply adds_readonly, readonly_read|intro g].
  apply adds_bind; [apply adds_readonly, readonly_lift|intro gl].
  destruct (find _ gl) as [[t type_dict]|].
  - apply appends_save_loop.
  - apply adds_readonly, readonly_ret.
Qed.

Lemma appends_make_custom_fields : appends (_make_custom_fields F : M unit).
Proof.
  unfold _make_custom_fields.
  apply adds_bind; [|intros _]; apply appends_for_each; intro doctype.
  - unfold _make_custom_quickbooks_id_field, has_field. appends_auto.
  - unfold _make_custom_company_field, has_field. appends_auto.
Qed.

Lemma appends_migrate_accounts : appends (_migrate_accounts R F L T depth).
Proof.
  unfold _migrate_accounts, _make_root_accounts.
  apply adds_bind; [|intros _]; apply appends_for_each.
  - intro root. unfold _make_root_account. appends_auto.
  - apply appends_migrate_entries.
Qed.

Lemma allow_fraction_migrated (d : dict num) : migrated d -> allow_fraction d = d.
Proof.
  intros (t & Hd & Hin). unfold allow_fraction, matches. cbn [forallb].
  unfold field_is at 1. cbn [fst snd]. rewrite Hd.
  destruct Hin as [<-|[<-|[<-|[<-|[<-|[<-|[<-|[<-|[<-|[]]]]]]]]]]; reflexivity.
Qed.

Lemma dict_set_twice (d : dict num) (k : string) (v : value num) :
  dict_set (dict_set d k v) k v = dict_set d k v.
Proof.
  induction d as [|[k' v'] rest IH]; cbn.
  - now rewrite String.eqb_refl.
  - destruct (String.eqb k' k) eqn:Hk; cbn; rewrite Hk; [reflexivity|now rewrite IH].
Qed.

Lemma allow_fraction_idempotent (d : dict num) :
  allow_fraction (allow_fraction d) = allow_fraction d.
Proof.
  unfold allow_fraction.
  destruct (matches [("doctype", "UOM"); ("name", "Unit")] d) eqn:Hm.
  - assert (Hm' : matches [("doctype", "UOM"); ("name", "Unit")]
                          (dict_set d "must_be_whole_number" (VInt 0)) = true).
    { revert Hm. unfold matches. cbn [forallb]. unfold field_is. cbn [fst snd].
      now rewrite !dict_get_set_other by discriminate. }
    rewrite Hm'. apply dict_set_twice.
  - now rewrite Hm.
Qed.

Lemma extended_appends {A} (m : M A) (docs0 new : list (dict num)) (st : state) :
  appends m ->
  Forall migrated new ->
  extended_by docs0 new (docs (db st)) ->
  exists new', Forall migrated new'
               /\ extended_by docs0 new' (docs (db (snd (m st)))).
Proof.
  intros Hm Hnew Hext. destruct (Hm st) as ((more & Hdocs & Hmore) & _).
  exists (new ++ more). split; [apply Forall_app; now split|].
  rewrite Hdocs. destruct Hext as [->| ->]; [left|right]; now rewrite app_assoc.
Qed.


End AppendOnly.
